(** * PSP patient-journey lakehouse: synthetic data generators and bronze ingestion

    A shallow embedding of the Python generators under [scripts/generators],
    of [scripts/utils/helpers.py] and of [pipelines/bronze/ingest_to_bronze.py].

    - A pandas cell is a [value]; a record (the dict appended per row) is an
      association list from column names to cells; a DataFrame is its column
      list together with its records, in index order.
    - Python's [random], numpy's [np.random] and [datetime.now()] are the three
      components of the [World] that every generator threads; an exception is
      [None].
    - Floats are rationals ([Q]).  Where the code turns a product of floats
      into a count ([int(n * rate)], [round(frac * n)]) the product is
      rounded to binary64 as Python rounds it ([float_mul]); the random
      draws and the weights are exact, and no statement below depends on
      their rounding. *)

From Stdlib Require Import ZArith QArith Qround List String Ascii Bool Lia Sorted.
From Stdlib Require Import DecimalString.
Import ListNotations.

#[local] Open Scope string_scope.
#[local] Open Scope Z_scope.

(* ===================================================================== *)
(** ** Cells, records and frames *)
(* ===================================================================== *)

(** A pandas cell.  [VNone] stands for None, NaN and NaT alike.  [VTs] is a
    naive datetime in microseconds since the epoch, [VDate] a date in days
    since the epoch, [VDec] a float carrying at most two decimals, stored in
    hundredths (amounts after [round(2)], the literals [3.0] and [1.0]). *)
Inductive value : Type :=
| VNone
| VStr (s : string)
| VInt (z : Z)
| VDec (hundredths : Z)
| VTs (us : Z)
| VDate (days : Z).

Definition value_eqb (a b : value) : bool :=
  match a, b with
  | VNone, VNone => true
  | VStr s, VStr t => String.eqb s t
  | VInt x, VInt y => x =? y
  | VDec x, VDec y => x =? y
  | VTs x, VTs y => x =? y
  | VDate x, VDate y => x =? y
  | _, _ => false
  end.

Definition Row : Type := list (string * value).

Fixpoint lookup (c : string) (r : Row) : option value :=
  match r with
  | [] => None
  | (k, v) :: r' => if String.eqb k c then Some v else lookup c r'
  end.

(** [row[c]] read as pandas shows it in a frame: a missing key is NaN. *)
Definition cell (c : string) (r : Row) : value :=
  match lookup c r with Some v => v | None => VNone end.

(** [row[c] = v]: overwrite in place, or append a new key. *)
Fixpoint set_cell (c : string) (v : value) (r : Row) : Row :=
  match r with
  | [] => [(c, v)]
  | (k, x) :: r' => if String.eqb k c then (k, v) :: r' else (k, x) :: set_cell c v r'
  end.

Definition drop_cell (c : string) (r : Row) : Row :=
  filter (fun kv => negb (String.eqb (fst kv) c)) r.

Record DataFrame : Type := mkDF { columns : list string; rows : list Row }.

Definition len (df : DataFrame) : Z := Z.of_nat (List.length (rows df)).

Definition has_column (c : string) (df : DataFrame) : bool :=
  existsb (String.eqb c) (columns df).

(** [pd.DataFrame(records)] for records that all carry the same keys: the
    columns are the keys of the first record; no record, no column. *)
Definition df_of_records (rs : list Row) : DataFrame :=
  mkDF (match rs with [] => [] | r :: _ => map fst r end) rs.

(** [df[c]]: the cells of one column, [None] standing for KeyError. *)
Definition column (c : string) (df : DataFrame) : option (list value) :=
  if has_column c df then Some (map (cell c) (rows df)) else None.

(** [df[c] = ...] on the column list: a new name goes last. *)
Definition add_column (c : string) (cols : list string) : list string :=
  if existsb (String.eqb c) cols then cols else cols ++ [c].

(** [df[c] = scalar]. *)
Definition assign_scalar (c : string) (v : value) (df : DataFrame) : DataFrame :=
  mkDF (add_column c (columns df)) (map (set_cell c v) (rows df)).

(** [df.drop(c, axis=1)]. *)
Definition df_drop (c : string) (df : DataFrame) : DataFrame :=
  mkDF (filter (fun k => negb (String.eqb k c)) (columns df))
       (map (drop_cell c) (rows df)).

(** [df[[c1, ..., cn]]] on one record. *)
Definition select_cells (cs : list string) (r : Row) : Row :=
  map (fun c => (c, cell c r)) cs.

(** [df.loc[indices, c] = v] on a frame with a range index. *)
Fixpoint loc_set_from (i : Z) (idx : list Z) (c : string) (v : value)
         (rs : list Row) : list Row :=
  match rs with
  | [] => []
  | r :: rs' =>
      (if existsb (Z.eqb i) idx then set_cell c v r else r)
        :: loc_set_from (i + 1) idx c v rs'
  end.

Definition loc_set (idx : list Z) (c : string) (v : value) (df : DataFrame)
  : DataFrame :=
  mkDF (columns df) (loc_set_from 0 idx c v (rows df)).

(** [df.iloc[i]] for each drawn position. *)
Definition take_rows (idx : list Z) (rs : list Row) : list Row :=
  flat_map (fun i => match nth_error rs (Z.to_nat i) with
                     | Some r => [r] | None => [] end) idx.

(** [pd.concat([df, extra], ignore_index=True)] for frames of equal columns. *)
Definition df_concat (df : DataFrame) (extra : list Row) : DataFrame :=
  mkDF (columns df) (rows df ++ extra).

(* ===================================================================== *)
(** ** Strings, numbers and the calendar *)
(* ===================================================================== *)

Definition digits (n : Z) : string :=
  NilZero.string_of_uint (N.to_uint (Z.to_N n)).

Fixpoint zeros (n : nat) : string :=
  match n with O => "" | S k => String "0" (zeros k) end.

(** [f"{z:0{w}d}"]: zero padded to width [w], the sign counted in the width. *)
Definition fmt_d (w : nat) (z : Z) : string :=
  if z <? 0
  then "-" ++ zeros (w - 1 - String.length (digits (- z))) ++ digits (- z)
  else zeros (w - String.length (digits z)) ++ digits z.

(** [s.split("-")]. *)
Fixpoint split_dash (s : string) : list string :=
  match s with
  | EmptyString => [EmptyString]
  | String ch rest =>
      if Ascii.eqb ch "-"%char then EmptyString :: split_dash rest
      else match split_dash rest with
           | h :: t => String ch h :: t
           | [] => [String ch EmptyString]
           end
  end.

Definition day_us : Z := 86400 * 1000000.

(** [ts.date()] as a day number. *)
Definition date_of (us : Z) : Z := us / day_us.

(** Proleptic Gregorian (year, month, day) of a day number counted from
    1970-01-01, as [datetime] computes them. *)
Definition civil_of_days (d : Z) : Z * Z * Z :=
  let z := d + 719468 in
  let era := z / 146097 in
  let doe := z - era * 146097 in
  let yoe := (doe - doe / 1460 + doe / 36524 - doe / 146096) / 365 in
  let y := yoe + era * 400 in
  let doy := doe - (365 * yoe + yoe / 4 - yoe / 100) in
  let mp := (5 * doy + 2) / 153 in
  let dd := doy - (153 * mp + 2) / 5 + 1 in
  let m := if mp <? 10 then mp + 3 else mp - 9 in
  (if m <=? 2 then y + 1 else y, m, dd).

Definition year_of (us : Z) : Z := fst (fst (civil_of_days (date_of us))).

(** [format_month_partition]: [date.strftime('%Y-%m')]. *)
Definition format_month_partition (us : Z) : string :=
  let '(y, m, _) := civil_of_days (date_of us) in
  fmt_d 4 y ++ "-" ++ fmt_d 2 m.

(** [int(x)] on a float: truncation toward zero. *)
Definition py_int (q : Q) : Z := Z.quot (Qnum q) (Z.pos (Qden q)).

(** Rounding to the nearest integer, ties to even: Python's [round] and the
    microsecond rounding of [timedelta(seconds=x)]. *)
Definition round_half_even (q : Q) : Z :=
  let f := Qfloor q in
  match Qcompare (q - inject_Z f) (1 # 2) with
  | Lt => f
  | Gt => f + 1
  | Eq => if Z.even f then f else f + 1
  end.

Definition QofZ (z : Z) : Q := inject_Z z.

(** *** Floats *)

(** Python's floats are IEEE 754 binary64 numbers.  A float is the rational
    it denotes, and an operation on floats is the exact operation followed
    by [fl], the rounding to the nearest binary64 number with ties to even:
    53 significant bits, fewer below [2^-1022].  The exponent has no upper
    bound, so overflow to infinity is left out, as it is for the
    timestamps. *)
Definition pow2 (e : Z) : Q :=
  if 0 <=? e then inject_Z (2 ^ e) else 1 # Z.to_pos (2 ^ (- e)).

(** The exponent of the leading bit of a number other than zero:
    [2^(ilog2 q) <= |q| < 2^(ilog2 q + 1)]. *)
Definition ilog2 (q : Q) : Z :=
  let a := Z.abs (Qnum q) in
  let d := Z.log2 a - Z.log2 (Z.pos (Qden q)) in
  if Qle_bool (pow2 d) (a # Qden q) then d else d - 1.

Definition fl (q : Q) : Q :=
  if Qnum q =? 0 then 0%Q
  else
    let ulp := pow2 (Z.max (ilog2 q - 52) (-1074)) in
    (inject_Z (round_half_even (q / ulp)) * ulp)%Q.

(** [x * y] on two numbers that are integers or come from the YAML file:
    each becomes the nearest float ([float(n)], the parsed literal), and the
    product is rounded.  On integers below [2^53] this is the exact product
    that Python computes for two of its integers. *)
Definition float_mul (x y : Q) : Q := fl (fl x * fl y).


(* ===================================================================== *)
(** ** The world: two random generators and the wall clock *)
(* ===================================================================== *)

(** A generator state is the stream of raw values it will hand out.  Every
    library call below maps the raw values it consumes into the range the
    library documents, so quantifying over tapes covers every sequence of
    outcomes the Mersenne Twister can produce.  The wall clock is the stream
    of readings that successive [datetime.now()] calls return. *)
Definition Tape : Type := nat -> Z.

Definition tape_tl (t : Tape) : Tape := fun n => t (S n).

Record World : Type := mkWorld {
  py_rng : Tape;   (* module [random] *)
  np_rng : Tape;   (* [np.random] global state *)
  wall : Tape      (* [datetime.now()] *)
}.

(** State and exception monad of the generators. *)
Definition M (A : Type) : Type := World -> option (A * World).

Definition ret {A} (a : A) : M A := fun w => Some (a, w).

Definition fail {A} : M A := fun _ => None.

Definition bind {A B} (m : M A) (k : A -> M B) : M B :=
  fun w => match m w with
           | Some (a, w') => k a w'
           | None => None
           end.

Declare Scope gen_scope.
Delimit Scope gen_scope with gen.
Notation "x <- m ;; k" := (bind m (fun x => k))
  (at level 61, m at next level, right associativity) : gen_scope.
Notation "m ;;; k" := (bind m (fun _ => k))
  (at level 61, right associativity) : gen_scope.
#[local] Open Scope gen_scope.

Definition of_option {A} (o : option A) : M A :=
  match o with Some a => ret a | None => fail end.

Fixpoint mapM {A B} (f : A -> M B) (l : list A) : M (list B) :=
  match l with
  | [] => ret []
  | a :: l' => b <- f a ;; bs <- mapM f l' ;; ret (b :: bs)
  end.

Fixpoint foldM {A B} (f : B -> A -> M B) (l : list A) (b : B) : M B :=
  match l with
  | [] => ret b
  | a :: l' => b' <- f b a ;; foldM f l' b'
  end.

Fixpoint repeatM {A} (n : nat) (m : M A) : M (list A) :=
  match n with
  | O => ret []
  | S k => a <- m ;; l <- repeatM k m ;; ret (a :: l)
  end.

Definition py_raw : M Z :=
  fun w => Some (py_rng w O, mkWorld (tape_tl (py_rng w)) (np_rng w) (wall w)).

Definition np_raw : M Z :=
  fun w => Some (np_rng w O, mkWorld (py_rng w) (tape_tl (np_rng w)) (wall w)).

(** [datetime.now()], in microseconds. *)
Definition now : M Z :=
  fun w => Some (wall w O, mkWorld (py_rng w) (np_rng w) (tape_tl (wall w))).

(** A float in [[0, 1)] with 53 random bits. *)
Definition unit_float (x : Z) : Q := Qmake (x mod 2 ^ 53) (2 ^ 53)%positive.

(** *** Module [random] *)

(** [random.randint(a, b)]: ValueError on an empty range. *)
Definition randint (a b : Z) : M Z :=
  if a <=? b then x <- py_raw ;; ret (a + x mod (b - a + 1)) else fail.

(** [random.random()]. *)
Definition random_random : M Q := x <- py_raw ;; ret (unit_float x).

(** [random.uniform(a, b)] is [a + (b - a) * random()]. *)
Definition uniform (a b : Q) : M Q :=
  u <- random_random ;; ret (a + (b - a) * u)%Q.

(** [random.choice(seq)]: IndexError on an empty sequence. *)
Definition choice {A} (l : list A) : M A :=
  match l with
  | [] => fail
  | _ => x <- py_raw ;;
         of_option (nth_error l (Z.to_nat (x mod Z.of_nat (List.length l))))
  end.

Fixpoint accumulate (acc : Q) (ws : list Q) : list Q :=
  match ws with
  | [] => []
  | w :: ws' => (acc + w)%Q :: accumulate (acc + w)%Q ws'
  end.

(** [bisect.bisect_right] on a non-decreasing list. *)
Fixpoint bisect (cum : list Q) (x : Q) : nat :=
  match cum with
  | [] => O
  | c :: cum' => if Qle_bool c x then S (bisect cum' x) else O
  end.

(** The index [random.choices] selects for the uniform draw [u]:
    [bisect(cum_weights, u * total, 0, n - 1)]. *)
Definition pick_index (weights : list Q) (u : Q) : nat :=
  let cum := accumulate 0 weights in
  let total := last cum 0%Q in
  bisect (firstn (List.length weights - 1) cum) (u * total)%Q.

(** [random.choices(population, weights=weights, k=1)[0]]: ValueError when
    the lengths differ or the weights do not add up to a positive total,
    IndexError on an empty population. *)
Definition choices {A} (population : list A) (weights : list Q) : M A :=
  if negb (Nat.eqb (List.length weights) (List.length population)) then fail
  else match population with
       | [] => fail
       | _ =>
           if Qle_bool (last (accumulate 0 weights) 0%Q) 0 then fail
           else u <- random_random ;;
                of_option (nth_error population (pick_index weights u))
       end.

(** [weighted_choice] of helpers.py. *)
Definition weighted_choice {A} (chs : list A) (weights : list Q) : M A :=
  choices chs weights.

(** *** Module [np.random] *)

(** One draw of [np.random.randint(low, high)]. *)
Definition np_randint1 (low high : Z) : M Z :=
  x <- np_raw ;; ret (low + x mod (high - low)).

(** [np.random.randint(low, high, size=n)]: ValueError when [low >= high]. *)
Definition np_randint (low high : Z) (n : nat) : M (list Z) :=
  if low <? high then repeatM n (np_randint1 low high) else fail.

(** [np.random.uniform(low, high, size=n)]. *)
Definition np_uniform (low high : Q) (n : nat) : M (list Q) :=
  repeatM n (x <- np_raw ;; ret (low + (high - low) * unit_float x)%Q).

(** [np.random.choice(a, size=n, p=p)]: the cumulative sums of [p] searched
    from the right for each uniform draw. *)
Definition np_choice_p {A} (a : list A) (p : list Q) (n : nat) : M (list A) :=
  if negb (Nat.eqb (List.length p) (List.length a)) then fail
  else repeatM n (x <- np_raw ;;
                  of_option (nth_error a (bisect (accumulate 0 p) (unit_float x)))).

(** [np.random.choice(a, size=n)]: uniform, with replacement. *)
Definition np_choice {A} (a : list A) (n : nat) : M (list A) :=
  match a, n with
  | [], S _ => fail
  | _, _ => repeatM n (x <- np_raw ;;
                       of_option (nth_error a (Z.to_nat (x mod Z.of_nat (List.length a)))))
  end.

Fixpoint remove_nth {A} (i : nat) (l : list A) : list A :=
  match l, i with
  | [], _ => []
  | _ :: l', O => l'
  | a :: l', S j => a :: remove_nth j l'
  end.

(** [np.random.choice(pool, size=k, replace=False)]: [k] distinct members
    of the pool; ValueError when the pool is too small. *)
Fixpoint np_choice_distinct (k : nat) (pool : list Z) : M (list Z) :=
  match k with
  | O => ret []
  | S k' =>
      match pool with
      | [] => fail
      | _ =>
          x <- np_raw ;;
          let i := Z.to_nat (x mod Z.of_nat (List.length pool)) in
          rest <- np_choice_distinct k' (remove_nth i pool) ;;
          ret (nth i pool 0 :: rest)
      end
  end.

(** [df.index] of a frame with [n] records. *)
Definition range_index (n : nat) : list Z := map Z.of_nat (seq 0 n).

(** [row[c]] inside a loop body: KeyError when the key is missing. *)
Definition getcol (c : string) (r : Row) : M value := of_option (lookup c r).

(** A cell that the code uses as a string ([.split], f-string of an id). *)
Definition as_str (v : value) : M string :=
  match v with VStr s => ret s | _ => fail end.

(** A cell that the code uses as a datetime; NaT makes the [strftime] that
    follows in the same iteration raise. *)
Definition as_ts (v : value) : M Z :=
  match v with VTs t => ret t | _ => fail end.

(** [s.split('-')[i]]. *)
Definition split_part (s : string) (i : nat) : M string :=
  of_option (nth_error (split_dash s) i).

Notation "' pat <- m ;; k" := (bind m (fun x => match x with pat => k end))
  (at level 61, pat pattern, m at next level, right associativity) : gen_scope.

(* ===================================================================== *)
(** ** Configuration (the loaded YAML) *)
(* ===================================================================== *)

(** An entry of a weighted dimension table that only carries a name. *)
Record Named : Type := mkNamed { name : string; weight : Q }.

Record Product : Type := mkProduct {
  product_id : string;
  product_name : string;
  indication : string;
  ndc : string;
  product_weight : Q
}.

Record Payer : Type := mkPayer {
  payer_id : string;
  payer_name : string;
  payer_weight : Q
}.

Record Refill : Type := mkRefill { days_supply : Z; refill_weight : Q }.

(** [start_date] and [end_date] are kept as [datetime.fromisoformat] returns
    them. *)
Record Scale : Type := mkScale {
  label : string;
  enrollments : Z;
  years_of_data : Q;
  start_date : Z;
  end_date : Z
}.

(** [config['data_quality']]; an absent key is read with [.get] and its
    default. *)
Record DataQuality : Type := mkDataQuality {
  inject_issues : option bool;
  duplicate_rate : option Q;
  null_rate_optional : option Q;
  future_date_rate : option Q;
  nullable_fields : list string
}.

Record Config : Type := mkConfig {
  random_seed : option Z;
  active_scale : string;
  scales : list (string * Scale);
  channels : list Named;
  hub_vendors : list Named;
  program_types : list Named;
  products : list Product;
  payers : list Payer;
  plan_types : list Named;
  prescriber_specialties : list Named;
  first_shipment : Q;
  shipments_per_shipped_patient : Q;
  claims_per_patient_year : Q;
  refill_cadence : list Refill;
  data_quality : DataQuality
}.

Definition get_default {A} (o : option A) (d : A) : A :=
  match o with Some a => a | None => d end.

Fixpoint assoc {A} (k : string) (l : list (string * A)) : option A :=
  match l with
  | [] => None
  | (k', a) :: l' => if String.eqb k' k then Some a else assoc k l'
  end.

(** [config['scales'][config['active_scale']]]. *)
Definition scale_config (config : Config) : M Scale :=
  of_option (assoc (active_scale config) (scales config)).

(** [config['project'].get('random_seed', 42)]. *)
Definition seed_of (config : Config) : Z := get_default (random_seed config) 42.

(* ===================================================================== *)
(** ** helpers.py *)
(* ===================================================================== *)

(** [generate_npi]. *)
Definition generate_npi : M string :=
  n <- randint 1000000000 9999999999 ;; ret (digits n).

(** [random_date_between]. *)
Definition random_date_between (start_date end_date : Z) : M Z :=
  let time_delta := end_date - start_date in
  random_days <- randint 0 (time_delta / day_us) ;;
  random_seconds <- randint 0 86400 ;;
  ret (start_date + random_days * day_us + random_seconds * 1000000).

Definition top_states : list string :=
  ["CA"; "TX"; "FL"; "NY"; "PA"; "IL"; "OH"; "GA"; "NC"; "MI"].

Definition top_weights : list Q :=
  [15 # 100; 12 # 100; 10 # 100; 8 # 100; 6 # 100;
   5 # 100; 5 # 100; 4 # 100; 4 # 100; 4 # 100]%Q.

Definition remaining_states : list string :=
  ["NJ"; "VA"; "WA"; "AZ"; "MA"; "TN"; "IN"; "MO"; "MD"; "WI";
   "CO"; "MN"; "SC"; "AL"; "LA"; "KY"; "OR"; "OK"; "CT"; "UT";
   "IA"; "NV"; "AR"; "MS"; "KS"; "NM"; "NE"; "WV"; "ID"; "HI";
   "NH"; "ME"; "MT"; "RI"; "DE"; "SD"; "ND"; "AK"; "VT"; "WY"].

(** [generate_us_states_weighted]. *)
Definition generate_us_states_weighted : M string :=
  let remaining_weight := (27 # 100)%Q in
  let remaining_weights :=
    repeat (remaining_weight / QofZ (Z.of_nat (List.length remaining_states)))%Q
           (List.length remaining_states) in
  weighted_choice (top_states ++ remaining_states)
                  (top_weights ++ remaining_weights).

(** Step 1 of [inject_data_quality_issues]: [n_dups] records drawn with
    replacement by [df.sample] are appended. *)
Definition inject_duplicates (n_rows : Z) (dup_rate : Q) (df : DataFrame)
  : M DataFrame :=
  let n_dups := py_int (float_mul (QofZ n_rows) dup_rate) in
  if 0 <? n_dups then
    picks <- np_randint 0 (len df) (Z.to_nat n_dups) ;;
    ret (df_concat df (take_rows picks (rows df)))
  else ret df.

(** Step 2: every listed column that the frame has loses [n_nulls] cells. *)
Definition inject_nulls (n_rows : Z) (null_rate : Q)
           (nullable_columns : list string) (df : DataFrame) : M DataFrame :=
  foldM (fun df col =>
           if has_column col df then
             let n_nulls := py_int (float_mul (QofZ n_rows) null_rate) in
             if (0 <? n_nulls) && (0 <? len df) then
               null_indices <-
                 np_choice_distinct (Z.to_nat (Z.min n_nulls (len df)))
                                    (range_index (List.length (rows df))) ;;
               ret (loc_set null_indices col VNone df)
             else ret df
           else ret df)
        nullable_columns df.

(** Step 3: every listed date column that the frame has gets [n_future]
    cells set to a datetime up to thirty days after the wall clock. *)
Definition inject_future_dates (n_rows : Z) (future_rate : Q)
           (date_columns : list string) (df : DataFrame) : M DataFrame :=
  let n_future := py_int (float_mul (QofZ n_rows) future_rate) in
  if 0 <? n_future then
    foldM (fun df col =>
             if has_column col df && (0 <? len df) then
               future_indices <-
                 np_choice_distinct (Z.to_nat (Z.min n_future (len df)))
                                    (range_index (List.length (rows df))) ;;
               t <- now ;;
               d <- randint 1 30 ;;
               ret (loc_set future_indices col (VTs (t + d * day_us)) df)
             else ret df)
          date_columns df
  else ret df.

(** [inject_data_quality_issues]. *)
Definition inject_data_quality_issues (df : DataFrame) (config : DataQuality)
           (date_columns nullable_columns : list string) : M DataFrame :=
  if negb (get_default (inject_issues config) false) then ret df
  else
    let n_rows := len df in
    df <- inject_duplicates n_rows
            (get_default (duplicate_rate config) (5 # 1000)) df ;;
    df <- match nullable_columns with
          | [] => ret df
          | _ => inject_nulls n_rows
                   (get_default (null_rate_optional config) (2 # 100))
                   nullable_columns df
          end ;;
    df <- match date_columns with
          | [] => ret df
          | _ => inject_future_dates n_rows
                   (get_default (future_date_rate config) (1 # 1000))
                   date_columns df
          end ;;
    ret df.

(* ===================================================================== *)
(** ** The generators *)
(* ===================================================================== *)

Section Generators.

(** The streams that [random.seed(s)] and [np.random.seed(s)] install, and
    the hexadecimal SHA-256 digest of a string: library functions whose
    bodies the generators never look into. *)
Variable py_seed : Z -> Tape.
Variable np_seed : Z -> Tape.
Variable sha256_hex : string -> string.

(** [random.seed(s)]. *)
Definition random_seed_set (s : Z) : M unit :=
  fun w => Some (tt, mkWorld (py_seed s) (np_rng w) (wall w)).

(** [np.random.seed(s)]. *)
Definition np_random_seed_set (s : Z) : M unit :=
  fun w => Some (tt, mkWorld (py_rng w) (np_seed s) (wall w)).

(** Runs [m] on a private [np.random.RandomState(s)]; the global numpy
    state is left as it was. *)
Definition with_random_state {A} (s : Z) (m : M A) : M A :=
  fun w => match m (mkWorld (py_rng w) (np_seed s) (wall w)) with
           | Some (a, w') => Some (a, mkWorld (py_rng w') (np_rng w) (wall w'))
           | None => None
           end.

(** [hash_patient_id]. *)
Definition hash_patient_id (patient_number : Z) : string :=
  substring 0 16 (sha256_hex ("patient_" ++ fmt_d 8 patient_number)).

(** *** enrollments.py *)

(** One pass of the loop of [generate_enrollments]: the record of
    enrollment [i]. *)
Definition enrollment_record (config : Config) (start_date end_date : Z)
           (i : Z) : M Row :=
  product <- weighted_choice (products config)
               (map product_weight (products config)) ;;
  program_type <- weighted_choice (program_types config)
                    (map weight (program_types config)) ;;
  enrolled_ts <- random_date_between start_date end_date ;;
  inquiry_days_before <- randint 0 14 ;;
  r <- random_random ;;
  let inquiry_ts :=
    if negb (Qle_bool r (1 # 10))
    then VTs (enrolled_ts - inquiry_days_before * day_us) else VNone in
  plan_type_obj <- weighted_choice (plan_types config)
                     (map weight (plan_types config)) ;;
  let plan_type := name plan_type_obj in
  '(payer_id_v, payer_name_v) <-
     (if String.eqb plan_type "CASH_PAY" then ret (VNone, VNone)
      else payer <- weighted_choice (payers config)
                      (map payer_weight (payers config)) ;;
           ret (VStr (payer_id payer), VStr (payer_name payer))) ;;
  channel <- weighted_choice (channels config) (map weight (channels config)) ;;
  h <- random_random ;;
  hub_vendor <-
    (if negb (Qle_bool (90 # 100) h)
     then hv <- weighted_choice (hub_vendors config)
                  (map weight (hub_vendors config)) ;;
          ret (VStr (name hv))
     else ret VNone) ;;
  specialty <- weighted_choice (prescriber_specialties config)
                 (map weight (prescriber_specialties config)) ;;
  npi <- generate_npi ;;
  state <- generate_us_states_weighted ;;
  zip3 <- randint 100 999 ;;
  created_at <- now ;;
  ret [("enrollment_id",
        VStr ("PSP-" ++ digits (year_of enrolled_ts) ++ "-" ++ fmt_d 6 (i + 1)));
       ("patient_id_hash", VStr (hash_patient_id i));
       ("program_id", VStr (product_id product));
       ("program_name", VStr (product_name product));
       ("program_type", VStr (name program_type));
       ("indication", VStr (indication product));
       ("ndc_code", VStr (ndc product));
       ("enrolled_ts", VTs enrolled_ts);
       ("enrolled_month", VStr (format_month_partition enrolled_ts));
       ("inquiry_ts", inquiry_ts);
       ("enrollment_channel", VStr (name channel));
       ("hub_vendor", hub_vendor);
       ("payer_id", payer_id_v);
       ("payer_name", payer_name_v);
       ("plan_type", VStr plan_type);
       ("prescriber_npi", VStr npi);
       ("prescriber_specialty", VStr (name specialty));
       ("patient_state", VStr state);
       ("patient_zip3", VStr (digits zip3));
       ("created_at", VTs created_at)].

(** [generate_enrollments] up to the frame handed to the injector. *)
Definition generate_enrollments_raw (config : Config) : M DataFrame :=
  scale <- scale_config config ;;
  let n_enrollments := enrollments scale in
  random_seed_set (seed_of config) ;;;
  np_random_seed_set (seed_of config) ;;;
  recs <- mapM (enrollment_record config (start_date scale) (end_date scale))
               (range_index (Z.to_nat n_enrollments)) ;;
  ret (df_of_records recs).

(** [generate_enrollments]. *)
Definition generate_enrollments (config : Config) : M DataFrame :=
  df <- generate_enrollments_raw config ;;
  inject_data_quality_issues df (data_quality config)
    ["enrolled_ts"; "inquiry_ts"] (nullable_fields (data_quality config)).

(** *** cases.py *)

Definition case_statuses : list string := ["ACTIVE"; "CLOSED"; "ON_HOLD"].
Definition case_weights : list Q := [60 # 100; 35 # 100; 5 # 100]%Q.

Definition closure_reasons : list string :=
  ["COMPLETED_THERAPY"; "ABANDONED"; "LOST_TO_FOLLOWUP"; "PATIENT_DECLINED";
   "TRANSFERRED"].
Definition closure_weights : list Q :=
  [50 # 100; 25 # 100; 15 # 100; 7 # 100; 3 # 100]%Q.

(** One pass of the loop of [generate_cases]: the case of one enrollment
    record. *)
Definition case_record (enrollment : Row) : M Row :=
  v <- getcol "enrolled_ts" enrollment ;;
  enrolled_ts <- as_ts v ;;
  h <- randint (-12) 12 ;;
  let case_opened_ts := enrolled_ts + h * 3600 * 1000000 in
  current_status <- choices case_statuses case_weights ;;
  '(closed_ts, closure_reason) <-
     (if String.eqb current_status "CLOSED" then
        days_to_close <- randint 30 180 ;;
        closure_reason <- choices closure_reasons closure_weights ;;
        ret (VTs (case_opened_ts + days_to_close * day_us), VStr closure_reason)
      else ret (VNone, VNone)) ;;
  cm <- randint 1 20 ;;
  v <- getcol "enrollment_id" enrollment ;;
  enrollment_id <- as_str v ;;
  p1 <- split_part enrollment_id 1 ;;
  p2 <- split_part enrollment_id 2 ;;
  patient_id_hash <- getcol "patient_id_hash" enrollment ;;
  created_at <- now ;;
  ret [("case_id", VStr ("CASE-" ++ p1 ++ "-" ++ p2));
       ("enrollment_id", VStr enrollment_id);
       ("patient_id_hash", patient_id_hash);
       ("case_opened_ts", VTs case_opened_ts);
       ("opened_month", VStr (format_month_partition case_opened_ts));
       ("case_manager_id", VStr ("CM-" ++ fmt_d 3 cm));
       ("current_status", VStr current_status);
       ("closed_ts", closed_ts);
       ("closure_reason", closure_reason);
       ("created_at", VTs created_at)].

Definition generate_cases_raw (enrollments_df : DataFrame) (config : Config)
  : M DataFrame :=
  random_seed_set (seed_of config) ;;;
  np_random_seed_set (seed_of config) ;;;
  cases <- mapM case_record (rows enrollments_df) ;;
  ret (df_of_records cases).

(** [generate_cases]. *)
Definition generate_cases (enrollments_df : DataFrame) (config : Config)
  : M DataFrame :=
  df <- generate_cases_raw enrollments_df config ;;
  inject_data_quality_issues df (data_quality config)
    ["case_opened_ts"; "closed_ts"] ["closed_ts"; "closure_reason"].

(** *** status_history.py *)

Definition successful : list string :=
  ["INQUIRY"; "ENROLLED"; "BV_PENDING"; "BV_COMPLETE"; "PA_PENDING";
   "PA_APPROVED"; "SHIPPED"; "ACTIVE"].
Definition abandoned_at_bv : list string :=
  ["INQUIRY"; "ENROLLED"; "BV_PENDING"; "ABANDONED"].
Definition abandoned_at_pa : list string :=
  ["INQUIRY"; "ENROLLED"; "BV_PENDING"; "BV_COMPLETE"; "PA_PENDING";
   "PA_DENIED"; "ABANDONED"].
Definition abandoned_early : list string :=
  ["INQUIRY"; "ENROLLED"; "ABANDONED"].

(** The dict [status_paths]. *)
Definition status_paths : list (string * list string) :=
  [("successful", successful); ("abandoned_at_bv", abandoned_at_bv);
   ("abandoned_at_pa", abandoned_at_pa); ("abandoned_early", abandoned_early)].

(** The records of [cases_df.merge(enrollments_df[['enrollment_id',
    'enrolled_ts', 'inquiry_ts']], on='enrollment_id', how='left')]: every
    case record, in order, once per enrollment record of the same id, or
    once with NaT timestamps when there is none. *)
Definition merged_cases (cases_df enrollments_df : DataFrame) : list Row :=
  flat_map
    (fun c =>
       match filter (fun e => value_eqb (cell "enrollment_id" e)
                                        (cell "enrollment_id" c))
                    (rows enrollments_df) with
       | [] => [(c ++ [("enrolled_ts", VNone); ("inquiry_ts", VNone)])%list]
       | es => map (fun e => (c ++ [("enrolled_ts", cell "enrolled_ts" e);
                                    ("inquiry_ts", cell "inquiry_ts" e)])%list)
                   es
       end)
    (rows cases_df).

(** The merge itself: KeyError when a key column is missing, and the
    timing columns must be new to the cases frame, or the merge would
    rename them. *)
Definition merge_enrollment_timing (cases_df enrollments_df : DataFrame)
  : M (list Row) :=
  if negb (has_column "enrollment_id" enrollments_df
           && has_column "enrolled_ts" enrollments_df
           && has_column "inquiry_ts" enrollments_df
           && has_column "enrollment_id" cases_df)
     || has_column "enrolled_ts" cases_df
     || has_column "inquiry_ts" cases_df
  then fail
  else ret (merged_cases cases_df enrollments_df).

(** The path chosen for a case from its outcome. *)
Definition choose_path (case : Row) : M (list string) :=
  current_status <- getcol "current_status" case ;;
  if value_eqb current_status (VStr "ACTIVE") then
    of_option (assoc "successful" status_paths)
  else if value_eqb current_status (VStr "CLOSED") then
    closure_reason <- getcol "closure_reason" case ;;
    if value_eqb closure_reason (VStr "COMPLETED_THERAPY") then
      p <- of_option (assoc "successful" status_paths) ;;
      ret (p ++ ["CLOSED"])%list
    else
      path_choice <- choice ["abandoned_early"; "abandoned_at_bv";
                             "abandoned_at_pa"] ;;
      of_option (assoc path_choice status_paths)
  else
    p <- of_option (assoc "successful" status_paths) ;;
    k <- randint 3 6 ;;
    ret (firstn (Z.to_nat k) p).

Definition mem_string (s : string) (l : list string) : bool :=
  existsb (String.eqb s) l.

Definition pa_denial_reasons : list string :=
  ["NOT_MEDICALLY_NECESSARY"; "MISSING_DOCUMENTATION"; "COVERAGE_ISSUE"].

(** The loop [for i, status in enumerate(path)] from position [i] on, with
    [n = len(path)] and the running [current_ts]. *)
Fixpoint status_records (case : Row) (n : Z) (i : Z) (path : list string)
         (current_ts : Z) : M (list Row) :=
  match path with
  | [] => ret []
  | status :: path' =>
      status_start_ts <-
        (if i =? 0 then ret current_ts
         else
           days_delay <-
             (if mem_string status ["BV_COMPLETE"; "PA_APPROVED"]
              then randint 1 10
              else if mem_string status ["SHIPPED"] then randint 3 14
              else randint 1 5) ;;
           ret (current_ts + days_delay * day_us)) ;;
      status_end_ts <-
        (if i <? n - 1 then
           d <- randint 1 3 ;; ret (Some (status_start_ts + d * day_us))
         else ret None) ;;
      status_reason <-
        (if String.eqb status "PA_DENIED" then
           r <- choice pa_denial_reasons ;; ret (VStr r)
         else if String.eqb status "ABANDONED" then
           getcol "closure_reason" case
         else ret VNone) ;;
      v <- getcol "case_id" case ;;
      case_id <- as_str v ;;
      p1 <- split_part case_id 1 ;;
      p2 <- split_part case_id 2 ;;
      enrollment_id <- getcol "enrollment_id" case ;;
      created_at <- now ;;
      let status_record :=
        [("status_id",
          VStr ("STAT-" ++ p1 ++ "-" ++ p2 ++ "-" ++ fmt_d 2 (i + 1)));
         ("case_id", VStr case_id);
         ("enrollment_id", enrollment_id);
         ("status_start_ts", VTs status_start_ts);
         ("status_start_month", VStr (format_month_partition status_start_ts));
         ("status_end_ts",
          match status_end_ts with Some e => VTs e | None => VNone end);
         ("status", VStr status);
         ("status_reason", status_reason);
         ("created_at", VTs created_at)] in
      let current_ts :=
        match status_end_ts with Some e => e | None => current_ts end in
      rest <- status_records case n (i + 1) path' current_ts ;;
      ret (status_record :: rest)
  end.

(** One pass of the outer loop: the history of one merged case record. *)
Definition case_history (case : Row) : M (list Row) :=
  path <- choose_path case ;;
  inquiry_ts <- getcol "inquiry_ts" case ;;
  v <- (match inquiry_ts with
        | VNone => getcol "enrolled_ts" case
        | _ => ret inquiry_ts
        end) ;;
  current_ts <- as_ts v ;;
  status_records case (Z.of_nat (List.length path)) 0 path current_ts.

Definition generate_status_history_raw (cases_df enrollments_df : DataFrame)
           (config : Config) : M DataFrame :=
  random_seed_set (seed_of config) ;;;
  np_random_seed_set (seed_of config) ;;;
  cases_with_enrollments <- merge_enrollment_timing cases_df enrollments_df ;;
  histories <- mapM case_history cases_with_enrollments ;;
  ret (df_of_records (List.concat histories)).

(** [generate_status_history]. *)
Definition generate_status_history (cases_df enrollments_df : DataFrame)
           (config : Config) : M DataFrame :=
  df <- generate_status_history_raw cases_df enrollments_df config ;;
  inject_data_quality_issues df (data_quality config)
    ["status_start_ts"; "status_end_ts"] ["status_end_ts"; "status_reason"].

(** *** shipments.py *)

(** [enrollments_df.sample(frac=frac, random_state=seed)]: [round(frac * n)]
    distinct records drawn by a private generator; ValueError when [frac] is
    negative or above one. *)
Definition sample_frac (frac : Q) (seed : Z) (df : DataFrame) : M (list Row) :=
  if negb (Qle_bool 0 (fl frac)) || negb (Qle_bool (fl frac) 1) then fail
  else
    let n := round_half_even (float_mul frac (QofZ (len df))) in
    picks <- with_random_state seed
               (np_choice_distinct (Z.to_nat n)
                  (range_index (List.length (rows df)))) ;;
    ret (take_rows picks (rows df)).

(** The loop [for refill_num in range(n_shipments)] of one patient from
    [refill_num] on, [remaining] passes being left; it returns the records
    appended and the new value of [shipment_counter]. *)
Fixpoint refill_loop (config : Config) (enrollment : Row)
         (days_supply_options : list Z) (days_supply_weights : list Q)
         (product_ndc product_name : value)
         (remaining : nat) (refill_num : Z) (current_ship_date : Z)
         (shipment_counter : Z) : M (list Row * Z) :=
  match remaining with
  | O => ret ([], shipment_counter)
  | S remaining' =>
      days_supply <- weighted_choice days_supply_options days_supply_weights ;;
      d <- randint 0 2 ;;
      let fill_date := current_ship_date - d * day_us in
      let quantity := if days_supply =? 90 then VDec 300 else VDec 100 in
      claim_status <- weighted_choice ["PAID"; "DENIED"; "REVERSED"]
                        [90 # 100; 8 # 100; 2 # 100]%Q ;;
      copay <-
        (if String.eqb claim_status "PAID" then
           plan_type <- getcol "plan_type" enrollment ;;
           if value_eqb plan_type (VStr "COMMERCIAL")
           then choice [0; 10; 25; 50; 100; 150]
           else if value_eqb plan_type (VStr "MEDICARE")
                then choice [0; 5; 15; 30; 75]
                else ret 0
         else ret 0) ;;
      ph <- randint 1 50 ;;
      let shipment_counter := shipment_counter + 1 in
      enrollment_id_v <- getcol "enrollment_id" enrollment ;;
      patient_id_hash <- getcol "patient_id_hash" enrollment ;;
      enrollment_id <- as_str enrollment_id_v ;;
      p2 <- split_part enrollment_id 2 ;;
      created_at <- now ;;
      let shipment :=
        [("shipment_id", VStr ("SHIP-" ++ fmt_d 8 shipment_counter));
         ("enrollment_id", enrollment_id_v);
         ("patient_id_hash", patient_id_hash);
         ("prescription_id", VStr ("RX-" ++ p2 ++ "-" ++ fmt_d 3 refill_num));
         ("fill_date", VDate (date_of fill_date));
         ("ship_date", VDate (date_of current_ship_date));
         ("shipment_month", VStr (format_month_partition current_ship_date));
         ("ndc_code", product_ndc);
         ("product_name", product_name);
         ("days_supply", VInt days_supply);
         ("quantity", quantity);
         ("refill_number", VInt refill_num);
         ("pharmacy_id", VStr ("PHARM-" ++ fmt_d 3 ph));
         ("claim_status", VStr claim_status);
         ("copay_amount", VInt copay);
         ("created_at", VTs created_at)] in
      refill_variance <- randint (-3) 5 ;;
      let current_ship_date :=
        current_ship_date + (days_supply + refill_variance) * day_us in
      scale <- scale_config config ;;
      if end_date scale <? current_ship_date then
        ret ([shipment], shipment_counter)
      else
        '(rest, shipment_counter) <-
           refill_loop config enrollment days_supply_options
             days_supply_weights product_ndc product_name remaining'
             (refill_num + 1) current_ship_date shipment_counter ;;
        ret (shipment :: rest, shipment_counter)
  end.

(** One pass of the loop over the shipped enrollments. *)
Definition patient_shipments (config : Config)
           (days_supply_options : list Z) (days_supply_weights : list Q)
           (acc : list Row * Z) (enrollment : Row) : M (list Row * Z) :=
  let '(shipments, shipment_counter) := acc in
  let variance := (3 # 10)%Q in
  u <- uniform (1 - variance) (1 + variance) ;;
  let n_shipments :=
    Z.max 1 (py_int (shipments_per_shipped_patient config * u)) in
  v <- getcol "enrolled_ts" enrollment ;;
  enrolled_ts <- as_ts v ;;
  d <- randint 5 15 ;;
  let first_ship_date := enrolled_ts + d * day_us in
  product_ndc <- getcol "ndc_code" enrollment ;;
  product_name <- getcol "program_name" enrollment ;;
  '(new, shipment_counter) <-
     refill_loop config enrollment days_supply_options days_supply_weights
       product_ndc product_name (Z.to_nat n_shipments) 0 first_ship_date
       shipment_counter ;;
  ret ((shipments ++ new)%list, shipment_counter).

Definition generate_shipments_raw (enrollments_df : DataFrame)
           (config : Config) : M DataFrame :=
  random_seed_set (seed_of config) ;;;
  np_random_seed_set (seed_of config) ;;;
  let days_supply_options := map days_supply (refill_cadence config) in
  let days_supply_weights := map refill_weight (refill_cadence config) in
  shipped_enrollments <-
    sample_frac (first_shipment config) (seed_of config) enrollments_df ;;
  '(shipments, _) <-
     foldM (patient_shipments config days_supply_options days_supply_weights)
           shipped_enrollments ([], 0) ;;
  ret (df_of_records shipments).

(** [generate_shipments]. *)
Definition generate_shipments (enrollments_df : DataFrame) (config : Config)
  : M DataFrame :=
  df <- generate_shipments_raw enrollments_df config ;;
  inject_data_quality_issues df (data_quality config)
    ["fill_date"; "ship_date"] ["copay_amount"].

(** *** claims.py *)

(** [pd.to_datetime] on a cell of [ship_date]: a date becomes its midnight,
    a missing cell NaT ([Some None]); anything else is refused. *)
Definition to_datetime (v : value) : option (option Z) :=
  match v with
  | VTs t => Some (Some t)
  | VDate d => Some (Some (d * day_us))
  | VNone => Some None
  | _ => None
  end.

Fixpoint list_min (x : Z) (l : list Z) : Z :=
  match l with [] => x | y :: l' => list_min (Z.min x y) l' end.

Fixpoint list_max (x : Z) (l : list Z) : Z :=
  match l with [] => x | y :: l' => list_max (Z.max x y) l' end.

(** The converted [ship_date] cells of the shipments of one enrollment id,
    NaT left out as [min] and [max] skip it. *)
Definition ship_times (enrollment_id : value) (shipments : list Row)
  : option (list Z) :=
  fold_right
    (fun r acc =>
       if value_eqb (cell "enrollment_id" r) enrollment_id then
         match to_datetime (cell "ship_date" r), acc with
         | Some (Some t), Some l => Some (t :: l)
         | Some None, Some l => Some l
         | _, _ => None
         end
       else
         match to_datetime (cell "ship_date" r), acc with
         | Some _, Some l => Some l
         | _, _ => None
         end)
    (Some []) shipments.

(** What the left merge with [patient_date_ranges] attaches to one id:
    [(first_ship, last_ship)], or NaT for both when the group has no date or
    the id is missing ([groupby] drops such keys). *)
Definition patient_date_range (enrollment_id : value) (shipments : list Row)
  : option (option (Z * Z)) :=
  match ship_times enrollment_id shipments with
  | None => None
  | Some [] => Some None
  | Some (t :: l) =>
      match enrollment_id with
      | VNone => Some None
      | _ => Some (Some (list_min t l, list_max t l))
      end
  end.

(** The records of [shipped_patients] after the filter on the shipment ids
    and the left merge with the date ranges. *)
Definition shipped_patients (enrollments_df shipments_df : DataFrame)
  : M (list (Row * option (Z * Z))) :=
  if negb (has_column "enrollment_id" enrollments_df
           && has_column "enrollment_id" shipments_df
           && has_column "ship_date" shipments_df)
  then fail
  else
    let shipped :=
      filter (fun e => existsb (fun r => value_eqb (cell "enrollment_id" r)
                                                   (cell "enrollment_id" e))
                               (rows shipments_df))
             (rows enrollments_df) in
    mapM (fun e =>
            range <- of_option (patient_date_range (cell "enrollment_id" e)
                                                   (rows shipments_df)) ;;
            ret (e, range))
         shipped.

(** One pass of the loop over [shipped_patients]: the claim dates of one
    patient and the six arrays extended in lockstep, kept as one partial
    record per claim.  A NaT range makes [np.random.uniform] raise, and so
    does a negative size. *)
Definition patient_claims (patient : Row * option (Z * Z)) (n_claims : Z)
  : M (list Row) :=
  let '(enrollment, range) := patient in
  '(first_ship, last_ship) <- of_option range ;;
  if n_claims <? 0 then fail else
  let start_range := first_ship - 30 * day_us in
  let end_range := last_ship + 30 * day_us in
  let date_range_seconds := Qmake (end_range - start_range) 1000000 in
  random_offsets <- np_uniform 0 date_range_seconds (Z.to_nat n_claims) ;;
  let patient_claim_dates :=
    map (fun offset =>
           start_range + round_half_even (offset * QofZ 1000000))
        random_offsets in
  enrollment_id <- getcol "enrollment_id" enrollment ;;
  patient_id_hash <- getcol "patient_id_hash" enrollment ;;
  ndc_code <- getcol "ndc_code" enrollment ;;
  payer <- getcol "payer_id" enrollment ;;
  prescriber_npi <- getcol "prescriber_npi" enrollment ;;
  ret (map (fun d => [("enrollment_id", enrollment_id);
                      ("patient_id_hash", patient_id_hash);
                      ("claim_date_raw", VTs d);
                      ("ndc_code", ndc_code);
                      ("payer_id", payer);
                      ("provider_npi", prescriber_npi)])
           patient_claim_dates).

Fixpoint zip_with {A B C} (f : A -> B -> C) (l : list A) (l' : list B)
  : list C :=
  match l, l' with
  | a :: t, b :: t' => f a b :: zip_with f t t'
  | _, _ => []
  end.

(** [df.loc[mask, c] = values]: the k-th value goes to the k-th record that
    satisfies the mask. *)
Fixpoint assign_where (mask : Row -> bool) (c : string) (vals : list value)
         (rs : list Row) : list Row :=
  match rs with
  | [] => []
  | r :: rs' =>
      if mask r then
        match vals with
        | v :: vals' => set_cell c v r :: assign_where mask c vals' rs'
        | [] => r :: assign_where mask c [] rs'
        end
      else r :: assign_where mask c vals rs'
  end.

Definition count_where (mask : Row -> bool) (rs : list Row) : nat :=
  List.length (filter mask rs).

Definition is_cell (c : string) (s : string) (r : Row) : bool :=
  value_eqb (cell c r) (VStr s).

(** [np.random.uniform(low, high, size=k)] followed by [round(2)], in
    hundredths. *)
Definition np_amounts (low high : Q) (k : nat) : M (list value) :=
  xs <- np_uniform low high k ;;
  ret (map (fun x => VDec (round_half_even (x * QofZ 100))) xs).

Definition claims_columns : list string :=
  ["claim_id"; "enrollment_id"; "patient_id_hash"; "claim_date";
   "claim_month"; "claim_type"; "procedure_code"; "ndc_code"; "payer_id";
   "provider_npi"; "claim_status"; "paid_amount"; "patient_paid";
   "created_at"].

(** The loop over [shipped_patients], which leaves the six arrays. *)
Definition claim_arrays (patients : list (Row * option (Z * Z)))
           (claims_per_patient : list Z) : M (list Row) :=
  per_patient <-
    mapM (fun pn => patient_claims (fst pn) (snd pn))
         (combine patients claims_per_patient) ;;
  ret (List.concat per_patient).

(** [pd.DataFrame({'claim_id': claim_ids[:claim_counter], ...})]. *)
Definition claims_frame (arrays : list Row) : list Row :=
  let claim_counter := List.length arrays in
  let claim_ids :=
    map (fun i => VStr ("CLM-" ++ fmt_d 8 (i + 1))) (range_index claim_counter) in
  zip_with (fun id r => ("claim_id", id) :: r) claim_ids arrays.

(** [df['claim_type'] = np.random.choice(...)]. *)
Definition assign_claim_types (rs : list Row) : M (list Row) :=
  claim_types <- np_choice_p ["PHARMACY"; "MEDICAL"] [60 # 100; 40 # 100]%Q
                   (List.length rs) ;;
  ret (zip_with (fun r t => set_cell "claim_type" (VStr t) r) rs claim_types).

(** [df['procedure_code'] = np.where(...)], then the NDC code of the
    medical claims is cleared. *)
Definition assign_procedure_codes (rs : list Row) : M (list Row) :=
  codes <- np_choice ["99213"; "99214"; "96372"; "J1234"] (List.length rs) ;;
  let rs :=
    zip_with (fun r code =>
                set_cell "procedure_code"
                  (if is_cell "claim_type" "MEDICAL" r then VStr code else VNone)
                  r)
             rs codes in
  ret (map (fun r => if is_cell "claim_type" "MEDICAL" r
                     then set_cell "ndc_code" VNone r else r) rs).

(** [df['claim_status'] = np.random.choice(...)]. *)
Definition assign_claim_status (rs : list Row) : M (list Row) :=
  statuses <- np_choice_p ["PAID"; "DENIED"; "PENDING"]
                [85 # 100; 10 # 100; 5 # 100]%Q (List.length rs) ;;
  ret (zip_with (fun r s => set_cell "claim_status" (VStr s) r) rs statuses).

Definition paid_pharmacy (r : Row) : bool :=
  is_cell "claim_status" "PAID" r && is_cell "claim_type" "PHARMACY" r.

Definition paid_medical (r : Row) : bool :=
  is_cell "claim_status" "PAID" r && is_cell "claim_type" "MEDICAL" r.

(** [df.loc[mask, c] = np.random.uniform(low, high, size=mask.sum())]. *)
Definition assign_amounts (mask : Row -> bool) (c : string) (low high : Q)
           (rs : list Row) : M (list Row) :=
  a <- np_amounts low high (count_where mask rs) ;;
  ret (assign_where mask c a rs).

(** The amounts: zero, then drawn for the paid claims, rounded, and set to
    None where they are zero. *)
Definition assign_paid_amounts (rs : list Row) : M (list Row) :=
  let rs := map (fun r => set_cell "patient_paid" (VDec 0)
                            (set_cell "paid_amount" (VDec 0) r)) rs in
  rs <- assign_amounts paid_pharmacy "paid_amount" (QofZ 5000) (QofZ 15000) rs ;;
  rs <- assign_amounts paid_pharmacy "patient_paid" 0 (QofZ 500) rs ;;
  rs <- assign_amounts paid_medical "paid_amount" (QofZ 100) (QofZ 500) rs ;;
  rs <- assign_amounts paid_medical "patient_paid" 0 (QofZ 50) rs ;;
  let rs :=
    map (fun r => if value_eqb (cell "paid_amount" r) (VDec 0)
                  then set_cell "paid_amount" VNone r else r) rs in
  ret (map (fun r => if value_eqb (cell "patient_paid" r) (VDec 0)
                     then set_cell "patient_paid" VNone r else r) rs).

(** [claim_date] and [claim_month] from [claim_date_raw]. *)
Definition format_claim_dates (rs : list Row) : M (list Row) :=
  mapM (fun r =>
          raw <- as_ts (cell "claim_date_raw" r) ;;
          ret (set_cell "claim_month" (VStr (format_month_partition raw))
                 (set_cell "claim_date" (VDate (date_of raw)) r)))
       rs.

(** [df['created_at'] = datetime.now()], the temporary column dropped and
    the columns put in their final order. *)
Definition finish_claims (rs : list Row) : M DataFrame :=
  created_at <- now ;;
  let rs := map (set_cell "created_at" (VTs created_at)) rs in
  ret (mkDF claims_columns (map (select_cells claims_columns) rs)).

(** [generate_claims] up to the frame handed to the injector. *)
Definition generate_claims_raw (enrollments_df shipments_df : DataFrame)
           (config : Config) : M DataFrame :=
  np_random_seed_set (seed_of config) ;;;
  scale <- scale_config config ;;
  let years := years_of_data scale in
  patients <- shipped_patients enrollments_df shipments_df ;;
  let base_claims :=
    py_int (float_mul (claims_per_patient_year config) years) in
  let n_patients := List.length patients in
  claims_per_patient <-
    np_randint (py_int (float_mul (QofZ base_claims) (7 # 10)))
               (py_int (float_mul (QofZ base_claims) (13 # 10)) + 1)
               n_patients ;;
  arrays <- claim_arrays patients claims_per_patient ;;
  rs <- assign_claim_types (claims_frame arrays) ;;
  rs <- assign_procedure_codes rs ;;
  rs <- assign_claim_status rs ;;
  rs <- assign_paid_amounts rs ;;
  rs <- format_claim_dates rs ;;
  finish_claims rs.

(** [generate_claims]. *)
Definition generate_claims (enrollments_df shipments_df : DataFrame)
           (config : Config) : M DataFrame :=
  df <- generate_claims_raw enrollments_df shipments_df config ;;
  inject_data_quality_issues df (data_quality config)
    ["claim_date"] ["procedure_code"; "ndc_code"; "paid_amount"; "patient_paid"].

(** *** generate_data.py *)

Record Tables : Type := mkTables {
  t_enrollments : DataFrame;
  t_cases : DataFrame;
  t_status_history : DataFrame;
  t_shipments : DataFrame;
  t_claims : DataFrame
}.

(** The generation steps of [main], in order. *)
Definition generate_all (config : Config) : M Tables :=
  enrollments_df <- generate_enrollments config ;;
  cases_df <- generate_cases enrollments_df config ;;
  status_history_df <- generate_status_history cases_df enrollments_df config ;;
  shipments_df <- generate_shipments enrollments_df config ;;
  claims_df <- generate_claims enrollments_df shipments_df config ;;
  ret (mkTables enrollments_df cases_df status_history_df shipments_df claims_df).

End Generators.

(* ===================================================================== *)
(** ** ingest_to_bronze.py *)
(* ===================================================================== *)

(** The Parquet files on disk, by path; a file holds the columns and the
    records of the frame written to it (the index is not stored). *)
Definition FileSystem : Type := string -> option DataFrame.

Definition write_parquet (path : string) (df : DataFrame) (fs : FileSystem)
  : FileSystem :=
  fun p => if String.eqb p path then Some df else fs p.

(** What [ingest_source_to_bronze] prints about its progress. *)
Inductive Report : Type :=
| SourceNotFound (path : string)
| Reading (path : string)
| RowsRead (row_count : Z)
| WritingTo (path : string)
| VerificationPassed (verify_count : Z)
| RowCountMismatch (row_count verify_count : Z).

Definition bronze_loaded_at : string := "_bronze_loaded_at".
Definition bronze_source : string := "_bronze_source".

Definition raw_path (source_name : string) : string :=
  "data/raw_samples/" ++ source_name ++ ".parquet".

Definition bronze_path (source_name : string) : string :=
  "data/bronze/" ++ source_name ++ ".parquet".

(** [ingest_source_to_bronze]: the new file system and the report. *)
Definition ingest_source_to_bronze (source_name : string) (fs : FileSystem)
  : M (FileSystem * list Report) :=
  start_time <- now ;;
  match fs (raw_path source_name) with
  | None => ret (fs, [SourceNotFound (raw_path source_name)])
  | Some df =>
      let row_count := len df in
      loaded_at <- now ;;
      let df := assign_scalar bronze_loaded_at (VTs loaded_at) df in
      let df := assign_scalar bronze_source (VStr (source_name ++ ".parquet")) df in
      let fs := write_parquet (bronze_path source_name) df fs in
      finished <- now ;;
      match fs (bronze_path source_name) with
      | None => fail
      | Some verify_df =>
          let verify_count := len verify_df in
          ret (fs, [Reading (raw_path source_name); RowsRead row_count;
                    WritingTo (bronze_path source_name);
                    if verify_count =? row_count
                    then VerificationPassed verify_count
                    else RowCountMismatch row_count verify_count])
      end
  end.

Definition sources : list string :=
  ["psp_enrollments"; "psp_cases"; "psp_status_history";
   "specialty_pharmacy_shipments"; "claims"].

(** The ingestion loop of [main]. *)
Definition ingest_all (fs : FileSystem) : M (FileSystem * list Report) :=
  foldM (fun acc source_name =>
           '(fs', rep) <- ingest_source_to_bronze source_name (fst acc) ;;
           ret (fs', (snd acc ++ rep)%list))
        sources (fs, []).

(* ===================================================================== *)
(** ** Properties of the generated tables *)
(* ===================================================================== *)

(** Injection is switched off in [config['data_quality']]. *)
Definition injection_off (config : Config) : Prop :=
  get_default (inject_issues (data_quality config)) false = false.

(** An enrollment record that [generate_cases] can read: a datetime in
    [enrolled_ts], an id of at least three dash-separated parts and a
    [patient_id_hash] key. *)
Definition enrollment_wf (e : Row) : bool :=
  match lookup "enrolled_ts" e, lookup "enrollment_id" e,
        lookup "patient_id_hash" e with
  | Some (VTs _), Some (VStr s), Some _ =>
      (3 <=? List.length (split_dash s))%nat
  | _, _, _ => false
  end.

(** The case [c] is the one generated for the enrollment [e]. *)
Definition case_of_enrollment (e c : Row) : Prop :=
  lookup "enrollment_id" c = lookup "enrollment_id" e /\
  lookup "patient_id_hash" c = lookup "patient_id_hash" e /\
  exists s,
    lookup "current_status" c = Some (VStr s) /\
    In s ["ACTIVE"; "CLOSED"; "ON_HOLD"] /\
    (s = "CLOSED" <-> cell "closed_ts" c <> VNone) /\
    (s = "CLOSED" <-> cell "closure_reason" c <> VNone).

(** The statuses a case may walk through, by its outcome. *)
Definition path_allowed (case : Row) (statuses : list string) : Prop :=
  if value_eqb (cell "current_status" case) (VStr "ACTIVE") then
    statuses = successful
  else if value_eqb (cell "current_status" case) (VStr "CLOSED") then
    if value_eqb (cell "closure_reason" case) (VStr "COMPLETED_THERAPY")
    then statuses = (successful ++ ["CLOSED"])%list
    else In statuses [abandoned_early; abandoned_at_bv; abandoned_at_pa]
         /\ last statuses "" = "ABANDONED"
  else
    exists k, (3 <= k <= 6)%nat /\ statuses = firstn k successful.

(** The [status] cells of a history spell an allowed path. *)
Definition follows_allowed_path (case : Row) (h : list Row) : Prop :=
  exists path, map (cell "status") h = map VStr path /\ path_allowed case path.

(** Start timestamps are datetimes, each strictly before the next. *)
Definition starts_increase (rs : list Row) : Prop :=
  exists ts, map (cell "status_start_ts") rs = map VTs ts /\ Sorted Z.lt ts.

(** The end timestamp is missing on the last record and nowhere else. *)
Definition ends_only_at_last (rs : list Row) : Prop :=
  forall k r, nth_error rs k = Some r ->
              (cell "status_end_ts" r = VNone <-> S k = List.length rs).

(** A reason is recorded for no status but PA_DENIED and ABANDONED. *)
Definition reason_only_when_denied_or_abandoned (r : Row) : Prop :=
  cell "status_reason" r <> VNone ->
  cell "status" r = VStr "PA_DENIED" \/ cell "status" r = VStr "ABANDONED".

Definition history_timing_ok (h : list Row) : Prop :=
  starts_increase h /\ ends_only_at_last h /\
  Forall reason_only_when_denied_or_abandoned h.

(** The frame [df] is, case by case and in the order of the merged cases,
    one history per case, each history satisfying [P]. *)
Definition per_case (P : Row -> list Row -> Prop)
           (cases_df enrollments_df df : DataFrame) : Prop :=
  exists histories,
    rows df = List.concat histories /\
    Forall2 P (merged_cases cases_df enrollments_df) histories.

(** The case record [c] merges with exactly one enrollment record. *)
Definition matches_one_enrollment (enrollments_df : DataFrame) (c : Row)
  : Prop :=
  exists e,
    filter (fun e => value_eqb (cell "enrollment_id" e)
                               (cell "enrollment_id" c))
           (rows enrollments_df) = [e].

(** The frame [df] is, in the order of the case records, one history per
    case record, each history satisfying [P]. *)
Definition per_case_record (P : Row -> list Row -> Prop)
           (cases_df df : DataFrame) : Prop :=
  exists histories,
    rows df = List.concat histories /\
    Forall2 P (rows cases_df) histories.

(** The records of the history frame [df] that carry the case id of the
    case record [c]. *)
Definition records_of_case (c : Row) (df : DataFrame) : list Row :=
  filter (fun r => value_eqb (cell "case_id" r) (cell "case_id" c)) (rows df).

(** The record [r'] is [r] up to the cells of the columns [cols]. *)
Definition differs_only_in (cols : list string) (r r' : Row) : Prop :=
  forall c, ~ In c cols -> lookup c r' = lookup c r.

(** The frame [df'] has the columns and the number of records of [df], and
    its records are those of [df], in order, up to the cells of [cols]. *)
Definition same_shape (cols : list string) (df df' : DataFrame) : Prop :=
  columns df' = columns df /\
  Forall2 (differs_only_in cols) (rows df) (rows df').

(** [bronze] is the bronze copy of the source frame [df]: the columns of
    [df] and the two audit columns (appended in this order when the source
    has neither); as many records; the cells of every column other than the
    audit ones as in [df]; one load time in [_bronze_loaded_at] and the file
    name in [_bronze_source] on every record. *)
Definition bronze_of (source_name : string) (df bronze : DataFrame) : Prop :=
  (forall c, In c (columns bronze) <->
             In c (columns df) \/ c = bronze_loaded_at \/ c = bronze_source) /\
  (~ In bronze_loaded_at (columns df) -> ~ In bronze_source (columns df) ->
   columns bronze = (columns df ++ [bronze_loaded_at; bronze_source])%list) /\
  List.length (rows bronze) = List.length (rows df) /\
  (forall c, c <> bronze_loaded_at -> c <> bronze_source ->
             map (lookup c) (rows bronze) = map (lookup c) (rows df)) /\
  (exists t, Forall (fun r => lookup bronze_loaded_at r = Some (VTs t))
                    (rows bronze)) /\
  Forall (fun r => lookup bronze_source r
                   = Some (VStr (source_name ++ ".parquet")))
         (rows bronze).

(** [bronze] holds the columns of [df] followed by the two audit columns,
    and every column of [df] with its cells as they are in [df]. *)
Definition exact_bronze_copy (df bronze : DataFrame) : Prop :=
  columns bronze = (columns df ++ [bronze_loaded_at; bronze_source])%list /\
  List.length (rows bronze) = List.length (rows df) /\
  forall c, In c (columns df) ->
            map (lookup c) (rows bronze) = map (lookup c) (rows df).

(** A shipment of the enrollment [id] that ships at the datetime [t]. *)
Definition ships_at (id : value) (shipments : list Row) (t : Z) : Prop :=
  exists s, In s shipments /\ cell "enrollment_id" s = id /\
            to_datetime (cell "ship_date" s) = Some (Some t).

(** [first] and [last] are the earliest and the latest ship datetime of the
    enrollment [id]. *)
Definition ship_date_range (id : value) (shipments : list Row)
           (first last : Z) : Prop :=
  ships_at id shipments first /\ ships_at id shipments last /\
  forall t, ships_at id shipments t -> first <= t <= last.

(** What a claim record owes to the tables it was generated from. *)
Definition claim_source (enrollments_df shipments_df : DataFrame)
           (v : value) (raw : Z) : Prop :=
  exists e first last,
    In e (rows enrollments_df) /\ lookup "enrollment_id" e = Some v /\
    ship_date_range v (rows shipments_df) first last /\
    first - 30 * day_us <= raw <= last + 30 * day_us.

(** A record in the making carries the id [v] and the raw claim datetime
    [raw], which satisfy [P]. *)
Definition carries (P : value -> Z -> Prop) (r : Row) : Prop :=
  exists v raw, lookup "enrollment_id" r = Some v /\
                lookup "claim_date_raw" r = Some (VTs raw) /\ P v raw.

(** The finished record shows the id and the date of the raw datetime. *)
Definition dated (P : value -> Z -> Prop) (r : Row) : Prop :=
  exists v raw, lookup "enrollment_id" r = Some v /\
                lookup "claim_date" r = Some (VDate (date_of raw)) /\ P v raw.

(** The set of enrollment ids of [child] that are not missing is drawn from
    the ids of [parent]. *)
Definition ids_from (parent child : DataFrame) : Prop :=
  forall r, In r (rows child) -> cell "enrollment_id" r <> VNone ->
            exists e, In e (rows parent) /\
                      cell "enrollment_id" e = cell "enrollment_id" r.

(** The claim record [r] is dated within the shipment date range of its
    enrollment. *)
Definition claim_in_shipment_range (shipments_df : DataFrame) (r : Row)
  : Prop :=
  forall first last,
    ship_date_range (cell "enrollment_id" r) (rows shipments_df) first last ->
    exists d, cell "claim_date" r = VDate d /\
              date_of first <= d <= date_of last.

(** The claim record [r] belongs to an enrollment record that has
    shipments, and is dated no earlier than thirty days before the first
    ship date and no later than thirty days after the last. *)
Definition claim_in_buffered_range (enrollments_df shipments_df : DataFrame)
           (r : Row) : Prop :=
  exists e first last d,
    In e (rows enrollments_df) /\
    cell "enrollment_id" r = cell "enrollment_id" e /\
    ship_date_range (cell "enrollment_id" r) (rows shipments_df) first last /\
    cell "claim_date" r = VDate d /\
    date_of first - 30 <= d <= date_of last + 30.

(** The records of [child] take their id cell from records of [parent]. *)
Definition ids_copied (parent : list Row) (child : list Row) : Prop :=
  Forall (fun r => exists e, In e parent /\
                             lookup "enrollment_id" r = lookup "enrollment_id" e)
         child.

(* ===================================================================== *)
(** ** Two runs of a generator *)
(* ===================================================================== *)

(** Two worlds whose random generators are in the same state; their clocks
    are unrelated. *)
Definition rng_eq (w1 w2 : World) : Prop :=
  py_rng w1 = py_rng w2 /\ np_rng w1 = np_rng w2.

(** Two worlds whose numpy generators are in the same state. *)
Definition np_eq (w1 w2 : World) : Prop := np_rng w1 = np_rng w2.

(** Two runs from related worlds fail together or return related values
    in related worlds. *)
Definition sim {A} (W : World -> World -> Prop) (R : A -> A -> Prop)
           (m1 m2 : M A) : Prop :=
  forall w1 w2, W w1 w2 ->
    match m1 w1, m2 w2 with
    | Some (a1, w1'), Some (a2, w2') => R a1 a2 /\ W w1' w2'
    | None, None => True
    | _, _ => False
    end.

(** A relation on worlds that numpy draws and clock readings preserve. *)
Class Blind (W : World -> World -> Prop) : Prop := {
  blind_np : forall w1 w2, W w1 w2 ->
    np_rng w1 = np_rng w2 /\
    W (mkWorld (py_rng w1) (tape_tl (np_rng w1)) (wall w1))
      (mkWorld (py_rng w2) (tape_tl (np_rng w2)) (wall w2));
  blind_now : forall w1 w2, W w1 w2 ->
    W (mkWorld (py_rng w1) (np_rng w1) (tape_tl (wall w1)))
      (mkWorld (py_rng w2) (np_rng w2) (tape_tl (wall w2)))
}.

(** Two records that agree outside the column [c]. *)
Definition same_but (c : string) (r1 r2 : Row) : Prop :=
  drop_cell c r1 = drop_cell c r2.

(** Two frames that agree outside the column [c]. *)
Definition frames_same_but (c : string) (df1 df2 : DataFrame) : Prop :=
  df_drop c df1 = df_drop c df2.

(** Shipment records that agree outside [created_at], with the same
    counter. *)
Definition shipments_same (a b : list Row * Z) : Prop :=
  Forall2 (same_but "created_at") (fst a) (fst b) /\ snd a = snd b.

(** A generator with its inputs fixed, still to be run in a world. *)
Definition Run : Type := World -> option (DataFrame * World).

(** Two runs return the same table, or fail together. *)
Definition same_table (r1 r2 : option (DataFrame * World)) : Prop :=
  option_map fst r1 = option_map fst r2.

(** Two runs return tables that agree in every column but [created_at],
    or fail together. *)
Definition agree_but_created_at (r1 r2 : option (DataFrame * World)) : Prop :=
  match r1, r2 with
  | Some (d1, _), Some (d2, _) => frames_same_but "created_at" d1 d2
  | None, None => True
  | _, _ => False
  end.

(** The table does not depend on the state the random generators were in
    before the run, the clock readings being the same. *)
Definition seed_determined (gen : Run) : Prop :=
  forall py1 np1 py2 np2 clk,
    same_table (gen (mkWorld py1 np1 clk)) (gen (mkWorld py2 np2 clk)).

(** The same, for a run that may depend on the earlier state of Python's
    generator: only the earlier numpy state is immaterial. *)
Definition np_seed_determined (gen : Run) : Prop :=
  forall py np1 np2 clk,
    same_table (gen (mkWorld py np1 clk)) (gen (mkWorld py np2 clk)).

(** Whatever the worlds of two runs, clocks included, the tables agree
    outside [created_at]. *)
Definition clock_only_in_created_at (gen : Run) : Prop :=
  forall w1 w2, agree_but_created_at (gen w1) (gen w2).

(* ===================================================================== *)
(** ** Further properties of the generated tables *)
(* ===================================================================== *)

(** *** Enrollments *)

(** The timestamps of an enrollment record generated for the period from
    [start_date] to [end_date]: the enrollment falls in the period, up to
    one day past its end, the month names it, and the inquiry, when there
    is one, precedes the enrollment by zero to fourteen whole days. *)
Definition enrollment_timing (start_date end_date : Z) (r : Row) : Prop :=
  exists ts,
    lookup "enrolled_ts" r = Some (VTs ts) /\
    start_date <= ts <= end_date + day_us /\
    lookup "enrolled_month" r = Some (VStr (format_month_partition ts)) /\
    (lookup "inquiry_ts" r = Some VNone \/
     exists d, 0 <= d <= 14 /\
               lookup "inquiry_ts" r = Some (VTs (ts - d * day_us))).

(** The ids of the enrollment record built by pass [i] of the loop: the
    year of the enrollment and [i + 1] on six digits, and the hash of
    patient number [i]. *)
Definition enrollment_numbered (sha256_hex : string -> string) (i : Z)
           (r : Row) : Prop :=
  exists ts,
    lookup "enrolled_ts" r = Some (VTs ts) /\
    lookup "enrollment_id" r
    = Some (VStr ("PSP-" ++ digits (year_of ts) ++ "-" ++ fmt_d 6 (i + 1))) /\
    lookup "patient_id_hash" r = Some (VStr (hash_patient_id sha256_hex i)).

(** The plan type is one of the configured ones; a cash-pay enrollment has
    no payer, any other has the id and name of one configured payer. *)
Definition enrollment_payer (config : Config) (r : Row) : Prop :=
  exists plan,
    In plan (plan_types config) /\
    lookup "plan_type" r = Some (VStr (name plan)) /\
    if String.eqb (name plan) "CASH_PAY"
    then lookup "payer_id" r = Some VNone /\
         lookup "payer_name" r = Some VNone
    else exists p, In p (payers config) /\
                   lookup "payer_id" r = Some (VStr (payer_id p)) /\
                   lookup "payer_name" r = Some (VStr (payer_name p)).

(** The four product cells come from one and the same configured
    product. *)
Definition enrollment_product (config : Config) (r : Row) : Prop :=
  exists p,
    In p (products config) /\
    lookup "program_id" r = Some (VStr (product_id p)) /\
    lookup "program_name" r = Some (VStr (product_name p)) /\
    lookup "indication" r = Some (VStr (indication p)) /\
    lookup "ndc_code" r = Some (VStr (ndc p)).

(** *** Cases *)

(** One hour, in microseconds. *)
Definition hour_us : Z := 3600 * 1000000.

(** The case [c] of the enrollment [e]: opened within twelve hours of the
    enrollment, on a whole hour offset; closed, if at all, thirty to 180
    days after it was opened, for one of the five listed reasons. *)
Definition case_timing (e c : Row) : Prop :=
  exists enrolled opened,
    lookup "enrolled_ts" e = Some (VTs enrolled) /\
    lookup "case_opened_ts" c = Some (VTs opened) /\
    lookup "opened_month" c = Some (VStr (format_month_partition opened)) /\
    (exists h, -12 <= h <= 12 /\ opened = enrolled + h * hour_us) /\
    ((lookup "closed_ts" c = Some VNone /\
      lookup "closure_reason" c = Some VNone) \/
     (exists d reason,
        30 <= d <= 180 /\
        lookup "closed_ts" c = Some (VTs (opened + d * day_us)) /\
        lookup "closure_reason" c = Some (VStr reason) /\
        In reason ["COMPLETED_THERAPY"; "ABANDONED"; "LOST_TO_FOLLOWUP";
                   "PATIENT_DECLINED"; "TRANSFERRED"])).

(** The ids of the case [c] of the enrollment [e]: the case id repeats the
    second and third dash-separated parts of the enrollment id, and the
    case manager is one of CM-001 .. CM-020. *)
Definition case_ids (e c : Row) : Prop :=
  exists id p1 p2 cm,
    lookup "enrollment_id" e = Some (VStr id) /\
    nth_error (split_dash id) 1 = Some p1 /\
    nth_error (split_dash id) 2 = Some p2 /\
    lookup "case_id" c = Some (VStr ("CASE-" ++ p1 ++ "-" ++ p2)) /\
    1 <= cm <= 20 /\
    lookup "case_manager_id" c = Some (VStr ("CM-" ++ fmt_d 3 cm)).

(** *** Status history *)

(** The days that may pass between the end of a status and the start of
    the status [status] that follows it. *)
Definition delay_bounds (status : string) : Z * Z :=
  if mem_string status ["BV_COMPLETE"; "PA_APPROVED"] then (1, 10)
  else if mem_string status ["SHIPPED"] then (3, 14)
  else (1, 5).

(** Two consecutive records of a history: the first lasts one to three
    days, and the second starts after the delay its status allows. *)
Definition status_follows (r r' : Row) : Prop :=
  exists s d g status,
    lookup "status_start_ts" r = Some (VTs s) /\
    1 <= d <= 3 /\
    lookup "status_end_ts" r = Some (VTs (s + d * day_us)) /\
    lookup "status" r' = Some (VStr status) /\
    fst (delay_bounds status) <= g <= snd (delay_bounds status) /\
    lookup "status_start_ts" r' = Some (VTs (s + d * day_us + g * day_us)).

(** Each record of the history is followed as [status_follows] says. *)
Fixpoint chained (h : list Row) : Prop :=
  match h with
  | r :: ((r' :: _) as h') => status_follows r r' /\ chained h'
  | _ => True
  end.

(** The record [r] is the one numbered [k] (from 0) in the history of the
    case [case]. *)
Definition status_numbered (case : Row) (k : nat) (r : Row) : Prop :=
  exists id p1 p2,
    lookup "case_id" case = Some (VStr id) /\
    nth_error (split_dash id) 1 = Some p1 /\
    nth_error (split_dash id) 2 = Some p2 /\
    lookup "status_id" r
    = Some (VStr ("STAT-" ++ p1 ++ "-" ++ p2 ++ "-"
                  ++ fmt_d 2 (Z.of_nat k + 1))) /\
    lookup "case_id" r = Some (VStr id) /\
    lookup "enrollment_id" r = lookup "enrollment_id" case.

(** The history [h] of the merged case record [case] starts at the
    inquiry, or at the enrollment when there was no inquiry. *)
Definition starts_at_inquiry_or_enrollment (case : Row) (h : list Row) : Prop :=
  exists r rest t,
    h = r :: rest /\
    lookup "status_start_ts" r = Some (VTs t) /\
    (lookup "inquiry_ts" case = Some (VTs t) \/
     (lookup "inquiry_ts" case = Some VNone /\
      lookup "enrolled_ts" case = Some (VTs t))).

(** *** Shipments *)

(** The record [r] is the shipment of the enrollment [e] with refill number
    [k]: it carries the ids and the product of the enrollment. *)
Definition shipment_of (e : Row) (k : Z) (r : Row) : Prop :=
  lookup "enrollment_id" r = lookup "enrollment_id" e /\
  lookup "patient_id_hash" r = lookup "patient_id_hash" e /\
  lookup "ndc_code" r = lookup "ndc_code" e /\
  lookup "product_name" r = lookup "program_name" e /\
  lookup "refill_number" r = Some (VInt k) /\
  exists id p2,
    lookup "enrollment_id" e = Some (VStr id) /\
    nth_error (split_dash id) 2 = Some p2 /\
    lookup "prescription_id" r = Some (VStr ("RX-" ++ p2 ++ "-" ++ fmt_d 3 k)).

(** The cells of a shipment that are drawn for it, with [opts] the days of
    supply of the refill cadence. *)
Definition shipment_fields_ok (opts : list Z) (r : Row) : Prop :=
  exists fill ship ds status copay ph,
    lookup "fill_date" r = Some (VDate fill) /\
    lookup "ship_date" r = Some (VDate ship) /\
    ship - 2 <= fill <= ship /\
    lookup "days_supply" r = Some (VInt ds) /\ In ds opts /\
    lookup "quantity" r = Some (VDec (if ds =? 90 then 300 else 100)) /\
    lookup "claim_status" r = Some (VStr status) /\
    In status ["PAID"; "DENIED"; "REVERSED"] /\
    lookup "copay_amount" r = Some (VInt copay) /\
    0 <= copay <= 150 /\ (status <> "PAID" -> copay = 0) /\
    1 <= ph <= 50 /\
    lookup "pharmacy_id" r = Some (VStr ("PHARM-" ++ fmt_d 3 ph)).

(** The shipment [r'] is the refill that follows [r]: it ships the days of
    supply of [r] later, up to three days early or five days late, and not
    after the end date of the active scale. *)
Definition refill_follows (config : Config) (r r' : Row) : Prop :=
  exists ship ds v scale,
    lookup "ship_date" r = Some (VDate ship) /\
    lookup "days_supply" r = Some (VInt ds) /\
    -3 <= v <= 5 /\
    lookup "ship_date" r' = Some (VDate (ship + ds + v)) /\
    assoc (active_scale config) (scales config) = Some scale /\
    ship + ds + v <= date_of (end_date scale).

Fixpoint refill_chain (config : Config) (b : list Row) : Prop :=
  match b with
  | r :: ((r' :: _) as b') => refill_follows config r r' /\ refill_chain config b'
  | _ => True
  end.

(** The shipments [b] of the enrollment [e]: at least one, numbered from
    refill 0, the first shipped 5 to 15 days after the enrollment and each
    refill as [refill_follows] says. *)
Definition patient_block (config : Config) (e : Row) (b : list Row) : Prop :=
  b <> [] /\
  (forall k r, nth_error b k = Some r -> shipment_of e (Z.of_nat k) r) /\
  (exists enrolled d r,
      lookup "enrolled_ts" e = Some (VTs enrolled) /\ 5 <= d <= 15 /\
      nth_error b 0 = Some r /\
      lookup "ship_date" r = Some (VDate (date_of enrolled + d))) /\
  refill_chain config b.

(** The shipments frame [df] is made of one block of shipments for each of
    [round(frac * n)] enrollment records at distinct positions. *)
Definition shipments_by_patient (config : Config)
           (enrollments_df df : DataFrame) : Prop :=
  exists picks blocks,
    NoDup picks /\
    List.length picks
    = Z.to_nat (round_half_even (float_mul (first_shipment config)
                                           (QofZ (len enrollments_df)))) /\
    rows df = List.concat blocks /\
    Forall2 (fun i b => exists e,
                 nth_error (rows enrollments_df) (Z.to_nat i) = Some e /\
                 0 <= i /\ patient_block config e b)
            picks blocks.

(** The record at position [k] of the frame has the shipment id numbered
    [k + 1]. *)
Definition shipments_numbered (rs : list Row) : Prop :=
  forall k r, nth_error rs k = Some r ->
              lookup "shipment_id" r
              = Some (VStr ("SHIP-" ++ fmt_d 8 (Z.of_nat k + 1))).

(** *** Ingestion *)

(** What the ingestion of the source [s] leaves on the disk [fs'], the disk
    having been [fs] before: a bronze copy of the raw file, or, when there
    is no raw file, the bronze path as it was and a note in the report. *)
Definition ingested (fs fs' : FileSystem) (report : list Report) (s : string)
  : Prop :=
  match fs (raw_path s) with
  | Some df =>
      exists bronze, fs' (bronze_path s) = Some bronze /\ bronze_of s df bronze
  | None =>
      fs' (bronze_path s) = fs (bronze_path s) /\
      In (SourceNotFound (raw_path s)) report
  end.

Definition no_mismatch (report : list Report) : Prop :=
  forall a b, ~ In (RowCountMismatch a b) report.

(** *** test_enrollment_generator.py *)

(** [d[k] = v] on a dict kept as an association list: the value of a key
    that is there is replaced in place, a new key goes last. *)
Fixpoint dict_set {A} (k : string) (v : A) (l : list (string * A))
  : list (string * A) :=
  match l with
  | [] => [(k, v)]
  | (k', a) :: l' =>
      if String.eqb k' k then (k', v) :: l' else (k', a) :: dict_set k v l'
  end.

(** The scale that [main] of test_enrollment_generator.py installs: 100
    enrollments from 2024-01-01 to 2024-12-31. *)
Definition test_scale : Scale :=
  mkScale "Test Mode" 100 1 (19723 * day_us) (20088 * day_us).

(** The config after [config['active_scale'] = 'test'] and
    [config['scales']['test'] = {...}]. *)
Definition test_mode (config : Config) : Config :=
  mkConfig (random_seed config) "test"
    (dict_set "test" test_scale (scales config))
    (channels config) (hub_vendors config) (program_types config)
    (products config) (payers config) (plan_types config)
    (prescriber_specialties config) (first_shipment config)
    (shipments_per_shipped_patient config) (claims_per_patient_year config)
    (refill_cadence config) (data_quality config).

(** The rows that the injector appends to a table of [n] rows. *)
Definition injected_duplicates (dq : DataQuality) (n : Z) : nat :=
  if get_default (inject_issues dq) false
  then Z.to_nat (py_int (float_mul (QofZ n)
                                   (get_default (duplicate_rate dq)
                                                (5 # 1000))))
  else O.

(** *** Claims *)

(** The paid amount that a claim of type [t] and status [s] may show, in
    hundredths. *)
Definition paid_range (t s : string) : Z * Z :=
  if String.eqb s "PAID" then
    if String.eqb t "PHARMACY" then (500000, 1500000) else (10000, 50000)
  else (0, 0).

(** The same for the amount paid by the patient. *)
Definition patient_paid_range (t s : string) : Z * Z :=
  if String.eqb s "PAID" then
    if String.eqb t "PHARMACY" then (0, 50000) else (0, 5000)
  else (0, 0).

(** An amount cell: missing when the amount is zero, otherwise an amount
    within the range. *)
Definition amount_cell (range : Z * Z) (v : value) : Prop :=
  (v = VNone /\ fst range <= 0 <= snd range) \/
  (exists a, v = VDec a /\ a <> 0 /\ fst range <= a <= snd range).

(** The cells of a claim that are drawn for it. *)
Definition claim_fields_ok (r : Row) : Prop :=
  exists t s,
    lookup "claim_type" r = Some (VStr t) /\
    In t ["PHARMACY"; "MEDICAL"] /\
    lookup "claim_status" r = Some (VStr s) /\
    In s ["PAID"; "DENIED"; "PENDING"] /\
    (t = "MEDICAL" ->
     lookup "ndc_code" r = Some VNone /\
     exists code, In code ["99213"; "99214"; "96372"; "J1234"] /\
                  lookup "procedure_code" r = Some (VStr code)) /\
    (t = "PHARMACY" -> lookup "procedure_code" r = Some VNone) /\
    (exists v, lookup "paid_amount" r = Some v /\
               amount_cell (paid_range t s) v) /\
    (exists v, lookup "patient_paid" r = Some v /\
               amount_cell (patient_paid_range t s) v).

(** What the claim [r] copies from the enrollment [e]. *)
Definition claim_of_enrollment (e r : Row) : Prop :=
  lookup "enrollment_id" r = lookup "enrollment_id" e /\
  lookup "patient_id_hash" r = lookup "patient_id_hash" e /\
  lookup "payer_id" r = lookup "payer_id" e /\
  lookup "provider_npi" r = lookup "prescriber_npi" e /\
  (lookup "claim_type" r = Some (VStr "PHARMACY") ->
   lookup "ndc_code" r = lookup "ndc_code" e).

(** The record at position [k] has the claim id numbered [k + 1]. *)
Definition claims_numbered (rs : list Row) : Prop :=
  forall k r, nth_error rs k = Some r ->
              lookup "claim_id" r
              = Some (VStr ("CLM-" ++ fmt_d 8 (Z.of_nat k + 1))).

(** One record of [df.loc[mask, c] = values]. *)
Definition assigned (mask : Row -> bool) (c : string) (V : value -> Prop)
           (r r' : Row) : Prop :=
  if mask r then exists v, V v /\ r' = set_cell c v r else r' = r.

(** An amount drawn between [lo] and [hi] and rounded to the cent. *)
Definition amount_between (lo hi : Z) (v : value) : Prop :=
  exists a, v = VDec a /\ lo * 100 <= a <= hi * 100.

(** The cells that a pass leaves as the frame row [r0] had them. *)
Definition kept (r0 r : Row) : Prop :=
  cell "claim_id" r = cell "claim_id" r0 /\
  cell "enrollment_id" r = cell "enrollment_id" r0 /\
  cell "patient_id_hash" r = cell "patient_id_hash" r0 /\
  cell "payer_id" r = cell "payer_id" r0 /\
  cell "provider_npi" r = cell "provider_npi" r0.

(** The record after the claim type, the procedure code and the status
    have been assigned. *)
Definition coded (r0 r : Row) (t s : string) : Prop :=
  kept r0 r /\
  cell "claim_type" r = VStr t /\ In t ["PHARMACY"; "MEDICAL"] /\
  cell "claim_status" r = VStr s /\ In s ["PAID"; "DENIED"; "PENDING"] /\
  (t = "MEDICAL" ->
   cell "ndc_code" r = VNone /\
   exists code, In code ["99213"; "99214"; "96372"; "J1234"] /\
                cell "procedure_code" r = VStr code) /\
  (t = "PHARMACY" ->
   cell "procedure_code" r = VNone /\ cell "ndc_code" r = cell "ndc_code" r0).

(** The finished record. *)
Definition finished (r0 r : Row) : Prop :=
  exists t s,
    coded r0 r t s /\
    amount_cell (paid_range t s) (cell "paid_amount" r) /\
    amount_cell (patient_paid_range t s) (cell "patient_paid" r).

(** The returned record [rf] is the selection of a finished record. *)
Definition returned (r0 rf : Row) : Prop :=
  exists x, rf = select_cells claims_columns x /\ finished r0 x.

(** The partial record [r] of a claim of the enrollment [e]. *)
Definition array_of (e r : Row) : Prop :=
  exists eid hash ndc payer npi d,
    lookup "enrollment_id" e = Some eid /\
    lookup "patient_id_hash" e = Some hash /\
    lookup "ndc_code" e = Some ndc /\
    lookup "payer_id" e = Some payer /\
    lookup "prescriber_npi" e = Some npi /\
    r = [("enrollment_id", eid); ("patient_id_hash", hash);
         ("claim_date_raw", VTs d); ("ndc_code", ndc); ("payer_id", payer);
         ("provider_npi", npi)].

(** The enrollment records that have a shipment. *)
Definition with_shipments (enrollments_df shipments_df : DataFrame)
  : list Row :=
  filter (fun e => existsb (fun r => value_eqb (cell "enrollment_id" r)
                                               (cell "enrollment_id" e))
                           (rows shipments_df))
         (rows enrollments_df).

(** The claims table [df] is made of one block of claims for each
    enrollment record that has a shipment, in the order of the enrollments
    table; a block holds between [int(base * 0.7)] and [int(base * 1.3)]
    claims of that enrollment, [base] being
    [int(claims_per_patient_year * years_of_data)]. *)
Definition claims_by_patient (config : Config)
           (enrollments_df shipments_df df : DataFrame) : Prop :=
  exists scale blocks,
    assoc (active_scale config) (scales config) = Some scale /\
    rows df = List.concat blocks /\
    Forall2
      (fun e b =>
         let base := py_int (float_mul (claims_per_patient_year config)
                               (years_of_data scale)) in
         py_int (float_mul (QofZ base) (7 # 10)) <= Z.of_nat (List.length b)
         <= py_int (float_mul (QofZ base) (13 # 10)) /\
         Forall (fun r => lookup "enrollment_id" r = lookup "enrollment_id" e)
                b)
      (with_shipments enrollments_df shipments_df) blocks.

(** *** What the injector writes *)

(** What the injector may have done to the record [r] to make it [r']:
    every cell is as it was, or is missing in a nullable column, or is a
    datetime in a date column. *)
Definition injected_row (nullable_columns date_columns : list string)
           (r r' : Row) : Prop :=
  forall c,
    lookup c r' = lookup c r \/
    (In c nullable_columns /\ lookup c r' = Some VNone) \/
    (In c date_columns /\ exists t, lookup c r' = Some (VTs t)).

(** The table [df'] is [df] followed by copies of some of its records, up
    to what [injected_row] allows. *)
Definition injected (nullable_columns date_columns : list string)
           (df df' : DataFrame) : Prop :=
  columns df' = columns df /\
  exists dups,
    Forall (fun r => In r (rows df)) dups /\
    Forall2 (injected_row nullable_columns date_columns)
            (rows df ++ dups) (rows df').

(** The records of [df'] are those of [rs0], in order, up to
    [injected_row]. *)
Definition same_records (n d : list string) (cols : list string)
           (rs0 : list Row) (df' : DataFrame) : Prop :=
  columns df' = cols /\ Forall2 (injected_row n d) rs0 (rows df').

(** *** From one generator to the next *)

(** An enrollment record that the later generators can read: what
    [enrollment_wf] asks for, and an inquiry that is a datetime or
    missing. *)
Definition enrollment_ready (e : Row) : Prop :=
  enrollment_wf e = true /\
  (lookup "inquiry_ts" e = Some VNone \/
   exists t, lookup "inquiry_ts" e = Some (VTs t)).

(** A case record that [generate_status_history] can read, of an
    enrollment whose id is [eid]. *)
Definition case_ready (eid : option value) (c : Row) : Prop :=
  (exists v, lookup "current_status" c = Some v) /\
  (exists v, lookup "closure_reason" c = Some v) /\
  (exists id, lookup "case_id" c = Some (VStr id) /\
              (3 <= List.length (split_dash id))%nat) /\
  (exists v, eid = Some v /\ lookup "enrollment_id" c = Some v) /\
  lookup "enrolled_ts" c = None /\
  lookup "inquiry_ts" c = None.

(** A merged case record from which a history can be built. *)
Definition merged_ready (m : Row) : Prop :=
  (exists v, lookup "current_status" m = Some v) /\
  (exists v, lookup "closure_reason" m = Some v) /\
  (exists id, lookup "case_id" m = Some (VStr id) /\
              (3 <= List.length (split_dash id))%nat) /\
  (exists v, lookup "enrollment_id" m = Some v) /\
  (exists t, lookup "enrolled_ts" m = Some (VTs t)) /\
  (lookup "inquiry_ts" m = Some VNone \/
   exists t, lookup "inquiry_ts" m = Some (VTs t)).

(** The keys of an enrollment record and of a case record, in order. *)
Definition enrollment_keys : list string :=
  ["enrollment_id"; "patient_id_hash"; "program_id"; "program_name";
   "program_type"; "indication"; "ndc_code"; "enrolled_ts"; "enrolled_month";
   "inquiry_ts"; "enrollment_channel"; "hub_vendor"; "payer_id"; "payer_name";
   "plan_type"; "prescriber_npi"; "prescriber_specialty"; "patient_state";
   "patient_zip3"; "created_at"].

Definition case_keys : list string :=
  ["case_id"; "enrollment_id"; "patient_id_hash"; "case_opened_ts";
   "opened_month"; "case_manager_id"; "current_status"; "closed_ts";
   "closure_reason"; "created_at"].

(* ===================================================================== *)
(** ** Sample data *)
(* ===================================================================== *)

Module Sample.

(** 2024-01-01 and 2024-12-31 as day numbers. *)
Definition d_2024_01_01 : Z := 19723.
Definition d_2024_12_31 : Z := 20088.

Definition scale : Scale :=
  mkScale "Test Mode" 2 1 (d_2024_01_01 * day_us) (d_2024_12_31 * day_us).

Definition quality (inject : bool) : DataQuality :=
  mkDataQuality (Some inject) (Some (1 # 2)) (Some (1 # 2)) (Some (1 # 2))
                ["inquiry_ts"; "hub_vendor"].

Definition config (inject : bool) : Config :=
  mkConfig (Some 42) "test" [("test", scale)]
    [mkNamed "WEB" (1 # 2); mkNamed "PHONE" (1 # 2)]
    [mkNamed "HubA" 1]
    [mkNamed "COPAY" (7 # 10); mkNamed "PAP" (3 # 10)]
    [mkProduct "P1" "Drugex" "RA" "12345-678-90" 1]
    [mkPayer "PY1" "Aetna" 1]
    [mkNamed "COMMERCIAL" (6 # 10); mkNamed "MEDICARE" (3 # 10);
     mkNamed "CASH_PAY" (1 # 10)]
    [mkNamed "RHEUM" 1]
    1 2 1 [mkRefill 30 (8 # 10); mkRefill 90 (2 # 10)] (quality inject).

(** A seeding function: a fixed scrambling of the seed and the position. *)
Definition seed (s : Z) : Tape :=
  fun n => ((s * 7919 + Z.of_nat n * 104729 + 12345) * 2654435761) mod 2 ^ 53.

(** A digest stand-in: sixteen fixed characters followed by the input. *)
Definition digest (s : string) : string := "00112233445566ff" ++ s.

(** The tape that yields the listed values and then zeros. *)
Definition tape_of (l : list Z) : Tape := fun n => nth n l 0.

(** A clock that starts on 2025-01-12 and advances by [step] microseconds
    per reading. *)
Definition clock (step : Z) : Tape :=
  fun n => 20100 * day_us + Z.of_nat n * step.

Definition world : World := mkWorld (tape_of []) (tape_of []) (clock 1).

Definition enrollment_columns : list string :=
  ["enrollment_id"; "patient_id_hash"; "program_id"; "program_name";
   "program_type"; "indication"; "ndc_code"; "enrolled_ts"; "enrolled_month";
   "inquiry_ts"; "enrollment_channel"; "hub_vendor"; "payer_id"; "payer_name";
   "plan_type"; "prescriber_npi"; "prescriber_specialty"; "patient_state";
   "patient_zip3"; "created_at"].

Definition enrollment (id hash : string) (enrolled_day : Z) (inquiry : value)
           (payer payer_nm : value) (plan : string) : Row :=
  [("enrollment_id", VStr id); ("patient_id_hash", VStr hash);
   ("program_id", VStr "P1"); ("program_name", VStr "Drugex");
   ("program_type", VStr "COPAY"); ("indication", VStr "RA");
   ("ndc_code", VStr "12345-678-90");
   ("enrolled_ts", VTs (enrolled_day * day_us));
   ("enrolled_month", VStr (format_month_partition (enrolled_day * day_us)));
   ("inquiry_ts", inquiry); ("enrollment_channel", VStr "WEB");
   ("hub_vendor", VStr "HubA"); ("payer_id", payer); ("payer_name", payer_nm);
   ("plan_type", VStr plan); ("prescriber_npi", VStr "1234567893");
   ("prescriber_specialty", VStr "RHEUM"); ("patient_state", VStr "CA");
   ("patient_zip3", VStr "941"); ("created_at", VTs (20000 * day_us))].

(** Two enrollments: 2024-03-01 with an inquiry five days earlier, and
    2024-06-01, cash pay, without an inquiry. *)
Definition enrollments_df : DataFrame :=
  mkDF enrollment_columns
    [enrollment "PSP-2024-000001" "a3f1c2d4e5b60718" 19783
       (VTs (19778 * day_us)) (VStr "PY1") (VStr "Aetna") "COMMERCIAL";
     enrollment "PSP-2024-000002" "0b9e8d7c6f5a4132" 19875
       VNone VNone VNone "CASH_PAY"].

Definition case_columns : list string :=
  ["case_id"; "enrollment_id"; "patient_id_hash"; "case_opened_ts";
   "opened_month"; "case_manager_id"; "current_status"; "closed_ts";
   "closure_reason"; "created_at"].

Definition case (n : string) (hash : string) (opened_day : Z)
           (status : string) (closed reason : value) : Row :=
  [("case_id", VStr ("CASE-2024-" ++ n));
   ("enrollment_id", VStr ("PSP-2024-" ++ n));
   ("patient_id_hash", VStr hash);
   ("case_opened_ts", VTs (opened_day * day_us));
   ("opened_month", VStr (format_month_partition (opened_day * day_us)));
   ("case_manager_id", VStr "CM-007"); ("current_status", VStr status);
   ("closed_ts", closed); ("closure_reason", reason);
   ("created_at", VTs (20000 * day_us))].

(** The cases of the two enrollments: one active, one closed as
    abandoned. *)
Definition cases_df : DataFrame :=
  mkDF case_columns
    [case "000001" "a3f1c2d4e5b60718" 19783 "ACTIVE" VNone VNone;
     case "000002" "0b9e8d7c6f5a4132" 19875 "CLOSED"
          (VTs (19935 * day_us)) (VStr "ABANDONED")].

Definition shipment_columns : list string :=
  ["shipment_id"; "enrollment_id"; "patient_id_hash"; "prescription_id";
   "fill_date"; "ship_date"; "shipment_month"; "ndc_code"; "product_name";
   "days_supply"; "quantity"; "refill_number"; "pharmacy_id"; "claim_status";
   "copay_amount"; "created_at"].

(** One shipment, of the first enrollment, shipped on 2024-03-18 (day
    19800). *)
Definition shipments_df : DataFrame :=
  mkDF shipment_columns
    [[("shipment_id", VStr "SHIP-00000001");
      ("enrollment_id", VStr "PSP-2024-000001");
      ("patient_id_hash", VStr "a3f1c2d4e5b60718");
      ("prescription_id", VStr "RX-000001-000");
      ("fill_date", VDate 19799); ("ship_date", VDate 19800);
      ("shipment_month", VStr "2024-03"); ("ndc_code", VStr "12345-678-90");
      ("product_name", VStr "Drugex"); ("days_supply", VInt 30);
      ("quantity", VDec 100); ("refill_number", VInt 0);
      ("pharmacy_id", VStr "PHARM-012"); ("claim_status", VStr "PAID");
      ("copay_amount", VInt 25); ("created_at", VTs (20000 * day_us))]].

(** A numpy seeding under which the first draw is 1 and all later draws
    are 0: one claim for the only shipped patient, at offset zero. *)
Definition seed_one_claim (s : Z) : Tape := tape_of [1].

(** The sample world, a day later. *)
Definition later_world : World :=
  mkWorld (tape_of []) (tape_of []) (fun n => 20101 * day_us + Z.of_nat n).

(** A disk that holds the generated enrollments and nothing else. *)
Definition files : FileSystem :=
  fun p => if String.eqb p (raw_path "psp_enrollments")
           then Some enrollments_df else None.

(** A raw file that already has a column named [_bronze_source], as an
    export of an earlier bronze table has, and a disk that holds it. *)
Definition tagged_df : DataFrame :=
  mkDF ["enrollment_id"; "_bronze_source"]
    [[("enrollment_id", VStr "PSP-2024-000001");
      ("_bronze_source", VStr "legacy_export.parquet")]].

Definition tagged_files : FileSystem :=
  fun p => if String.eqb p (raw_path "psp_enrollments")
           then Some tagged_df else None.

(** The enrollments frame with its first record repeated at the end, as the
    injector of duplicates leaves it. *)
Definition repeated_enrollments_df : DataFrame :=
  mkDF enrollment_columns
    (rows enrollments_df ++ firstn 1 (rows enrollments_df)).

(** Injection switched on with a duplicate rate of 0.29. *)
Definition noisy_quality : DataQuality :=
  mkDataQuality (Some true) (Some (29 # 100)) (Some (2 # 100))
                (Some (1 # 100)) ["inquiry_ts"; "hub_vendor"].

Definition noisy_config : Config :=
  mkConfig (Some 42) "test" [("test", scale)]
    [mkNamed "WEB" (1 # 2); mkNamed "PHONE" (1 # 2)]
    [mkNamed "HubA" 1]
    [mkNamed "COPAY" (7 # 10); mkNamed "PAP" (3 # 10)]
    [mkProduct "P1" "Drugex" "RA" "12345-678-90" 1]
    [mkPayer "PY1" "Aetna" 1]
    [mkNamed "COMMERCIAL" (6 # 10); mkNamed "MEDICARE" (3 # 10);
     mkNamed "CASH_PAY" (1 # 10)]
    [mkNamed "RHEUM" 1]
    1 2 1 [mkRefill 30 (8 # 10); mkRefill 90 (2 # 10)] noisy_quality.

(** The enrollments frame without the first enrollment. *)
Definition unmatched_enrollments_df : DataFrame :=
  mkDF enrollment_columns
    [enrollment "PSP-2024-000002" "0b9e8d7c6f5a4132" 19875
       VNone VNone VNone "CASH_PAY"].

(** Injection switched on with the default rates. *)
Definition quiet_quality : DataQuality :=
  mkDataQuality (Some true) None None None ["inquiry_ts"; "hub_vendor"].

(** A scale that asks for no enrollment, and a config that selects it. *)
Definition empty_scale : Scale :=
  mkScale "Empty" 0 1 (d_2024_01_01 * day_us)
          (d_2024_12_31 * day_us).

Definition empty_config : Config :=
  mkConfig (Some 42) "empty" [("empty", empty_scale)]
    [mkNamed "WEB" 1] [mkNamed "HubA" 1] [mkNamed "COPAY" 1]
    [mkProduct "P1" "Drugex" "RA" "12345-678-90" 1]
    [mkPayer "PY1" "Aetna" 1] [mkNamed "COMMERCIAL" 1] [mkNamed "RHEUM" 1]
    1 2 1 [mkRefill 30 1] (quality true).

End Sample.

(* ===================================================================== *)
(** ** Reasoning about runs *)
(* ===================================================================== *)

Lemma bind_inv {A B} (m : M A) (k : A -> M B) w b w' :
  bind m k w = Some (b, w') ->
  exists a w1, m w = Some (a, w1) /\ k a w1 = Some (b, w').
Proof.
  unfold bind. destruct (m w) as [[a w1]|]; [|discriminate].
  intros H. exists a, w1. split; [reflexivity|exact H].
Qed.

Lemma ret_inv {A} (a b : A) w w' : ret a w = Some (b, w') -> b = a /\ w' = w.
Proof. unfold ret. intros H. inversion H. split; reflexivity. Qed.

Lemma of_option_inv {A} (o : option A) a w w' :
  of_option o w = Some (a, w') -> o = Some a /\ w' = w.
Proof.
  destruct o; simpl; unfold ret, fail; intros H; inversion H.
  split; reflexivity.
Qed.

Lemma bind_ok {A B} (m : M A) (k : A -> M B) w a w1 :
  m w = Some (a, w1) -> bind m k w = k a w1.
Proof. unfold bind. intros ->. reflexivity. Qed.

(** One step of inversion on a hypothesis that a run succeeded. *)
Ltac inv_run H :=
  lazymatch type of H with
  | bind _ _ _ = Some _ =>
      let a := fresh "a" in let w := fresh "w" in
      let H1 := fresh "Hrun" in
      apply bind_inv in H; destruct H as (a & w & H1 & H)
  | ret _ _ = Some _ =>
      apply ret_inv in H; destruct H; subst
  | of_option _ _ = Some _ =>
      apply of_option_inv in H; destruct H; subst
  | fail _ = Some _ => discriminate H
  | @None _ = Some _ => discriminate H
  end.

Lemma mapM_inv {A B} (f : A -> M B) (l : list A) :
  forall w bs w', mapM f l w = Some (bs, w') ->
  Forall2 (fun a b => exists w1 w2, f a w1 = Some (b, w2)) l bs.
Proof.
  induction l as [|a l IH]; intros w bs w' H; simpl in H.
  - inv_run H. constructor.
  - inv_run H. inv_run H. inv_run H. constructor; eauto.
Qed.

Lemma mapM_total {A B} (f : A -> M B) (l : list A) :
  Forall (fun a => forall w, exists b w', f a w = Some (b, w')) l ->
  forall w, exists bs w', mapM f l w = Some (bs, w').
Proof.
  induction 1 as [|a l Ha _ IH]; intros w; simpl.
  - eexists _, _. reflexivity.
  - destruct (Ha w) as (b & w1 & Hb). destruct (IH w1) as (bs & w2 & Hbs).
    exists (b :: bs), w2. rewrite (bind_ok _ _ _ _ _ Hb).
    rewrite (bind_ok _ _ _ _ _ Hbs). reflexivity.
Qed.

Lemma py_raw_total w : exists x w', py_raw w = Some (x, w').
Proof. eexists _, _. reflexivity. Qed.

Lemma randint_inv a b w x w' :
  randint a b w = Some (x, w') -> a <= x <= b.
Proof.
  unfold randint. destruct (a <=? b) eqn:E; [|discriminate].
  apply Z.leb_le in E. intros H. inv_run H. inv_run H.
  assert (0 <= a0 mod (b - a + 1) < b - a + 1) by (apply Z.mod_pos_bound; lia).
  lia.
Qed.

Lemma randint_total a b w :
  a <= b -> exists x w', randint a b w = Some (x, w').
Proof.
  intros H. unfold randint. apply Z.leb_le in H. rewrite H.
  eexists _, _. reflexivity.
Qed.

Lemma nth_error_mod_some {A} (l : list A) (x : Z) :
  l <> [] -> exists a, nth_error l (Z.to_nat (x mod Z.of_nat (List.length l))) = Some a.
Proof.
  intros Hl.
  assert (0 < Z.of_nat (List.length l)) by (destruct l; [congruence|simpl; lia]).
  assert (0 <= x mod Z.of_nat (List.length l) < Z.of_nat (List.length l))
    by (apply Z.mod_pos_bound; lia).
  destruct (nth_error l (Z.to_nat (x mod Z.of_nat (List.length l)))) eqn:E.
  - eauto.
  - apply nth_error_None in E. lia.
Qed.

Lemma choice_inv {A} (l : list A) w a w' :
  choice l w = Some (a, w') -> In a l.
Proof.
  unfold choice. destruct l as [|a0 l]; [discriminate|].
  intros H. inv_run H. inv_run H. eapply nth_error_In; eauto.
Qed.

Lemma choice_total {A} (l : list A) w :
  l <> [] -> exists a w', choice l w = Some (a, w').
Proof.
  intros Hl. unfold choice. destruct l as [|a0 l]; [congruence|].
  destruct (nth_error_mod_some (a0 :: l) (py_rng w O)) as (a & Ha);
    [congruence|].
  exists a. eexists. unfold bind, py_raw. cbn [py_rng].
  rewrite Ha. reflexivity.
Qed.

Lemma bisect_le cum x : (bisect cum x <= List.length cum)%nat.
Proof.
  induction cum as [|c cum IH]; simpl; [lia|].
  destruct (Qle_bool c x); simpl; lia.
Qed.

Lemma accumulate_length acc ws :
  List.length (accumulate acc ws) = List.length ws.
Proof.
  revert acc. induction ws as [|q ws IH]; intros acc; simpl; [reflexivity|].
  now rewrite IH.
Qed.

Lemma pick_index_lt weights u :
  weights <> [] -> (pick_index weights u < List.length weights)%nat.
Proof.
  intros Hw. unfold pick_index.
  pose proof (bisect_le
    (firstn (List.length weights - 1) (accumulate 0 weights))
    (u * last (accumulate 0 weights) 0)%Q) as Hb.
  rewrite length_firstn, accumulate_length in Hb.
  destruct weights; [congruence|]. simpl in *. lia.
Qed.

Lemma choices_inv {A} (population : list A) weights w a w' :
  choices population weights w = Some (a, w') -> In a population.
Proof.
  unfold choices.
  destruct (negb _); [discriminate|].
  destruct population as [|a0 l]; [discriminate|].
  destruct (Qle_bool _ _); [discriminate|].
  intros H. inv_run H. inv_run H. eapply nth_error_In; eauto.
Qed.

Lemma choices_total {A} (population : list A) weights w :
  population <> [] ->
  List.length weights = List.length population ->
  Qle_bool (last (accumulate 0 weights) 0%Q) 0 = false ->
  exists a w', choices population weights w = Some (a, w').
Proof.
  intros Hp Hl Ht. unfold choices.
  rewrite Hl, Nat.eqb_refl. simpl negb. cbv iota.
  destruct population as [|a0 l]; [congruence|]. rewrite Ht.
  assert (Hw : weights <> []) by (destruct weights; [discriminate|congruence]).
  pose proof (pick_index_lt weights (unit_float (py_rng w O)) Hw) as Hlt.
  rewrite Hl in Hlt.
  destruct (nth_error (a0 :: l) (pick_index weights (unit_float (py_rng w O))))
    as [a|] eqn:E.
  - exists a. eexists. unfold bind, random_random, bind, py_raw, ret.
    cbn [py_rng negb]. rewrite E. reflexivity.
  - apply nth_error_None in E. lia.
Qed.

Lemma getcol_inv c r w v w' :
  getcol c r w = Some (v, w') -> lookup c r = Some v /\ w' = w.
Proof. apply of_option_inv. Qed.

Lemma getcol_ok c r v w : lookup c r = Some v -> getcol c r w = Some (v, w).
Proof. unfold getcol. intros ->. reflexivity. Qed.

Lemma as_ts_inv v w t w' : as_ts v w = Some (t, w') -> v = VTs t /\ w' = w.
Proof.
  destruct v; simpl; intros H; try discriminate H.
  apply ret_inv in H. destruct H; subst. split; reflexivity.
Qed.

Lemma as_str_inv v w s w' : as_str v w = Some (s, w') -> v = VStr s /\ w' = w.
Proof.
  destruct v; simpl; intros H; try discriminate H.
  apply ret_inv in H. destruct H; subst. split; reflexivity.
Qed.

Lemma split_part_inv s i w p w' :
  split_part s i w = Some (p, w') ->
  nth_error (split_dash s) i = Some p /\ w' = w.
Proof. apply of_option_inv. Qed.

(** Inversion of every successful run among the hypotheses, as far as
    binds, returns, seeding and record reads go. *)
Ltac inv_runs :=
  repeat match goal with
    | H : bind _ _ _ = Some _ |- _ => inv_run H
    | H : ret _ _ = Some _ |- _ => inv_run H
    | H : fail _ = Some _ |- _ => discriminate H
    | H : of_option _ _ = Some _ |- _ => inv_run H
    | H : getcol _ _ _ = Some _ |- _ =>
        apply getcol_inv in H; destruct H; subst
    | H : as_ts _ _ = Some _ |- _ => apply as_ts_inv in H; destruct H; subst
    | H : as_str _ _ = Some _ |- _ => apply as_str_inv in H; destruct H; subst
    | H : split_part _ _ _ = Some _ |- _ =>
        apply split_part_inv in H; destruct H; subst
    | H : (let (_, _) := ?p in _) _ = Some _ |- _ => destruct p
    | H : random_seed_set _ _ _ = Some _ |- _ =>
        unfold random_seed_set in H; inversion H; subst; clear H
    | H : np_random_seed_set _ _ _ = Some _ |- _ =>
        unfold np_random_seed_set in H; inversion H; subst; clear H
    end.

Lemma inject_off df config date_columns nullable_columns :
  get_default (inject_issues config) false = false ->
  inject_data_quality_issues df config date_columns nullable_columns = ret df.
Proof. unfold inject_data_quality_issues. intros ->. reflexivity. Qed.

(* ===================================================================== *)
(** ** Cases: one per enrollment *)
(* ===================================================================== *)

Lemma case_record_inv e w c w' :
  case_record e w = Some (c, w') -> case_of_enrollment e c.
Proof.
  unfold case_record. intros H. inv_runs.
  match goal with H : choices case_statuses _ _ = Some _ |- _ =>
    apply choices_inv in H; rename H into Hs end.
  match goal with H : (if _ then _ else _) _ = Some _ |- _ => rename H into Hc end.
  unfold case_of_enrollment, cell. cbn [lookup String.eqb Ascii.eqb Bool.eqb].
  repeat split; try congruence.
  eexists. split; [reflexivity|]. split; [exact Hs|].
  destruct (String.eqb_spec a2 "CLOSED") as [E|E].
  - inv_runs. split; split; intros; congruence.
  - inv_runs. split; split; intros; congruence.
Qed.

Lemma case_record_total e :
  enrollment_wf e = true -> forall w, exists c w', case_record e w = Some (c, w').
Proof.
  unfold enrollment_wf. intros Hwf w.
  destruct (lookup "enrolled_ts" e) as [[| | | |t|]|] eqn:Ets; try discriminate.
  destruct (lookup "enrollment_id" e) as [[|s| | | |]|] eqn:Eid; try discriminate.
  destruct (lookup "patient_id_hash" e) as [h|] eqn:Eh; try discriminate.
  apply Nat.leb_le in Hwf.
  destruct (nth_error (split_dash s) 1) as [p1|] eqn:E1;
    [|apply nth_error_None in E1; lia].
  destruct (nth_error (split_dash s) 2) as [p2|] eqn:E2;
    [|apply nth_error_None in E2; lia].
  unfold case_record.
  rewrite (bind_ok _ _ _ _ _ (getcol_ok _ _ _ w Ets)).
  rewrite (bind_ok _ _ w t w eq_refl).
  destruct (randint_total (-12) 12 w) as (h12 & w1 & Hh); [lia|].
  rewrite (bind_ok _ _ _ _ _ Hh).
  destruct (choices_total case_statuses case_weights w1)
    as (st & w2 & Hst); [discriminate|reflexivity|reflexivity|].
  rewrite (bind_ok _ _ _ _ _ Hst).
  assert (Hclose : exists p w3,
    (if (st =? "CLOSED")%string
     then days_to_close <- randint 30 180;;
          closure_reason <- choices closure_reasons closure_weights;;
          ret (VTs (t + h12 * 3600 * 1000000 + days_to_close * day_us),
               VStr closure_reason)
     else ret (VNone, VNone)) w2 = Some (p, w3)).
  { destruct (st =? "CLOSED")%string.
    - destruct (randint_total 30 180 w2) as (d & w3 & Hd); [lia|].
      destruct (choices_total closure_reasons closure_weights w3)
        as (cr & w4 & Hcr); [discriminate|reflexivity|reflexivity|].
      eexists _, _. rewrite (bind_ok _ _ _ _ _ Hd).
      rewrite (bind_ok _ _ _ _ _ Hcr). reflexivity.
    - eexists _, _. reflexivity. }
  destruct Hclose as ([cts cr] & w3 & Hclose).
  rewrite (bind_ok _ _ _ _ _ Hclose).
  destruct (randint_total 1 20 w3) as (cm & w4 & Hcm); [lia|].
  rewrite (bind_ok _ _ _ _ _ Hcm).
  rewrite (bind_ok _ _ _ _ _ (getcol_ok _ _ _ w4 Eid)).
  rewrite (bind_ok _ _ w4 s w4 eq_refl).
  unfold split_part. rewrite E1, E2.
  rewrite (bind_ok _ _ w4 p1 w4 eq_refl).
  rewrite (bind_ok _ _ w4 p2 w4 eq_refl).
  rewrite (bind_ok _ _ _ _ _ (getcol_ok _ _ _ w4 Eh)).
  eexists _, _. reflexivity.
Qed.

(** C6: with data-quality injection disabled, [generate_cases] returns a
    frame for every table of readable enrollment records, and the frame it
    returns holds exactly one case per enrollment record, in the same order;
    each case carries the enrollment's [enrollment_id] and
    [patient_id_hash], a status among ACTIVE, CLOSED and ON_HOLD, and has
    [closed_ts] and [closure_reason] set exactly when the status is
    CLOSED. *)
Theorem generate_cases_one_case_per_enrollment
        py_seed np_seed enrollments_df config w
        (Hoff : injection_off config) :
  (forallb enrollment_wf (rows enrollments_df) = true ->
   exists df w',
     generate_cases py_seed np_seed enrollments_df config w = Some (df, w')) /\
  (forall df w',
     generate_cases py_seed np_seed enrollments_df config w = Some (df, w') ->
     Forall2 case_of_enrollment (rows enrollments_df) (rows df)).
Proof.
  unfold generate_cases.
  split.
  - intros Hwf.
    assert (Hall : Forall (fun e => forall w, exists c w',
                             case_record e w = Some (c, w'))
                          (rows enrollments_df)).
    { apply Forall_forall. intros e He. apply case_record_total.
      rewrite forallb_forall in Hwf. auto. }
    destruct (mapM_total _ _ Hall
                (mkWorld (py_seed (seed_of config)) (np_seed (seed_of config))
                         (wall w))) as (cs & w1 & Hcs).
    exists (df_of_records cs), w1.
    assert (Hraw : generate_cases_raw py_seed np_seed enrollments_df config w
                   = Some (df_of_records cs, w1)).
    { unfold generate_cases_raw, bind, random_seed_set, np_random_seed_set.
      cbn [py_rng np_rng wall]. unfold bind in Hcs. rewrite Hcs. reflexivity. }
    rewrite (bind_ok _ _ _ _ _ Hraw). rewrite (inject_off _ _ _ _ Hoff).
    reflexivity.
  - intros df w' H. inv_run H. rewrite (inject_off _ _ _ _ Hoff) in H.
    unfold generate_cases_raw in *. inv_runs.
    match goal with H : mapM _ _ _ = Some _ |- _ =>
      apply mapM_inv in H; rename H into HF end.
    cbn [rows df_of_records].
    eapply Forall2_impl; [|exact HF].
    intros e c (w1 & w2 & Hc). eapply case_record_inv; eauto.
Qed.

Lemma generate_cases_one_case_per_enrollment_witness :
  (forallb enrollment_wf (rows Sample.enrollments_df) = true ->
   exists df w',
     generate_cases Sample.seed Sample.seed Sample.enrollments_df
       (Sample.config false) Sample.world = Some (df, w')) /\
  (forall df w',
     generate_cases Sample.seed Sample.seed Sample.enrollments_df
       (Sample.config false) Sample.world = Some (df, w') ->
     Forall2 case_of_enrollment (rows Sample.enrollments_df) (rows df)).
Proof.
  apply (generate_cases_one_case_per_enrollment Sample.seed Sample.seed
           Sample.enrollments_df (Sample.config false) Sample.world).
  reflexivity.
Defined.

(* ===================================================================== *)
(** ** Status history: paths and timestamps *)
(* ===================================================================== *)

(** The statuses of the records are the path, in order. *)
Lemma status_records_statuses case n path :
  forall i cur w rs w',
    status_records case n i path cur w = Some (rs, w') ->
    map (cell "status") rs = map VStr path.
Proof.
  induction path as [|status path IH]; intros i cur w rs w' H; cbn [status_records] in H.
  - inv_runs. reflexivity.
  - inv_runs.
    match goal with H : status_records _ _ _ _ _ _ = Some _ |- _ =>
      apply IH in H; rename H into Hrest end.
    cbn [map]. rewrite Hrest. reflexivity.
Qed.

Lemma choose_path_inv case w path w' :
  choose_path case w = Some (path, w') -> path_allowed case path.
Proof.
  unfold choose_path, path_allowed, cell. intros H. inv_runs.
  match goal with H : lookup "current_status" _ = _ |- _ => rewrite H in * end.
  destruct (value_eqb a (VStr "ACTIVE")).
  - inv_runs. cbn in H. congruence.
  - destruct (value_eqb a (VStr "CLOSED")).
    + inv_runs.
      match goal with H : lookup "closure_reason" _ = _ |- _ => rewrite H in * end.
      destruct (value_eqb a0 (VStr "COMPLETED_THERAPY")).
      * inv_runs. cbn in H. inversion H. reflexivity.
      * inv_runs.
        match goal with H : choice _ _ = Some _ |- _ => apply choice_inv in H; rename H into Hc end.
        cbn in Hc. destruct Hc as [<-|[<-|[<-|[]]]]; cbn in H; inversion H; subst;
          (split; [cbn; tauto|reflexivity]).
    + inv_runs. cbn in H. inversion H; subst.
      match goal with H : randint 3 6 _ = Some _ |- _ => apply randint_inv in H; rename H into Hk end.
      exists (Z.to_nat a1). split; [lia|reflexivity].
Qed.

Lemma status_records_length case n path :
  forall i cur w rs w',
    status_records case n i path cur w = Some (rs, w') ->
    List.length rs = List.length path.
Proof.
  intros i cur w rs w' H. apply status_records_statuses in H.
  apply (f_equal (@List.length _)) in H. now rewrite !length_map in H.
Qed.

Lemma status_records_ends case n path :
  forall i cur w rs w',
    n = i + Z.of_nat (List.length path) ->
    status_records case n i path cur w = Some (rs, w') ->
    ends_only_at_last rs.
Proof.
  induction path as [|status path IH]; intros i cur w rs w' Hn H; cbn [status_records] in H.
  - inv_runs. intros [|k] r Hk; discriminate Hk.
  - inv_runs.
    match goal with H : status_records _ _ _ _ _ _ = Some _ |- _ =>
      pose proof (status_records_length _ _ _ _ _ _ _ _ H) as Hlen;
      apply IH in H; [rename H into Hrest|cbn [List.length] in *; lia] end.
    match goal with H : (if i <? _ then _ else _) _ = Some _ |- _ => rename H into Hend end.
    intros [|k] r Hk; cbn [nth_error] in Hk.
    + inversion Hk; subst r. cbn [List.length]. unfold cell.
      cbn [lookup String.eqb Ascii.eqb Bool.eqb].
      destruct (i <? i + Z.of_nat (List.length (status :: path)) - 1) eqn:E.
      * inv_runs. apply Z.ltb_lt in E. cbn [List.length] in E.
        split; [discriminate|]. intros. lia.
      * inv_runs. apply Z.ltb_ge in E. cbn [List.length] in E.
        split; [|reflexivity]. intros _. lia.
    + cbn [List.length]. rewrite (Hrest k r Hk). lia.
Qed.

Lemma status_records_reasons case n path :
  forall i cur w rs w',
    status_records case n i path cur w = Some (rs, w') ->
    Forall reason_only_when_denied_or_abandoned rs.
Proof.
  induction path as [|status path IH]; intros i cur w rs w' H; cbn [status_records] in H.
  - inv_runs. constructor.
  - inv_runs.
    match goal with H : status_records _ _ _ _ _ _ = Some _ |- _ =>
      apply IH in H; rename H into Hrest end.
    constructor; [|exact Hrest].
    unfold reason_only_when_denied_or_abandoned, cell.
    cbn [lookup String.eqb Ascii.eqb Bool.eqb].
    match goal with H : (if (status =? "PA_DENIED")%string then _ else _) _ = Some _ |- _ => rename H into Hr end.
    destruct (String.eqb_spec status "PA_DENIED") as [->|E1]; [tauto|].
    destruct (String.eqb_spec status "ABANDONED") as [->|E2]; [tauto|].
    inv_runs. congruence.
Qed.

Lemma status_records_starts case n path :
  forall i cur w rs w',
    0 <= i -> n = i + Z.of_nat (List.length path) ->
    status_records case n i path cur w = Some (rs, w') ->
    exists ts, map (cell "status_start_ts") rs = map VTs ts /\ Sorted Z.lt ts /\
               Forall (fun t => if i =? 0 then cur <= t else cur < t) ts.
Proof.
  induction path as [|status path IH]; intros i cur w rs w' Hi Hn H; cbn [status_records] in H.
  - inv_runs. exists []. repeat split; constructor.
  - inv_runs.
    match goal with H : status_records _ _ _ _ _ _ = Some _ |- _ =>
      pose proof (status_records_length _ _ _ _ _ _ _ _ H) as Hlen;
      apply IH in H; [destruct H as (ts & Hts & Hsorted & Hlow)|lia|cbn [List.length] in *; lia] end.
    match goal with H : (if i <? _ then _ else _) _ = Some _ |- _ => rename H into Hend end.
    match goal with H : (if i =? 0 then _ else _) _ = Some _ |- _ => rename H into Hstart end.
    match type of Hstart with _ = Some (?x, _) => set (start := x) in * end.
    exists (start :: ts). cbn [map]. rewrite Hts. split; [reflexivity|].
    assert (Hcur : if i =? 0 then cur <= start else cur < start).
    { destruct (i =? 0) eqn:E0.
      - inv_runs. subst start. lia.
      - apply bind_inv in Hstart. destruct Hstart as (d & wd & Hd & Hstart).
        apply ret_inv in Hstart. destruct Hstart as [Hs _].
        assert (1 <= d).
        { destruct (mem_string status ["BV_COMPLETE"; "PA_APPROVED"]);
            [|destruct (mem_string status ["SHIPPED"])];
            apply randint_inv in Hd; lia. }
        rewrite Hs. unfold day_us. lia. }
    assert (Hhd : Forall (fun t => start < t) ts).
    { destruct path as [|s2 path].
      - match type of Hlen with List.length ?r = _ =>
          destruct r; [|discriminate Hlen] end.
        destruct ts; [constructor|discriminate Hts].
      - assert (E : (i <? i + Z.of_nat (List.length (status :: s2 :: path)) - 1) = true)
          by (apply Z.ltb_lt; cbn [List.length]; lia).
        rewrite E in Hend.
        apply bind_inv in Hend. destruct Hend as (d & wd & Hd & Hend).
        apply ret_inv in Hend. destruct Hend as [He _]. rewrite He in Hlow.
        apply randint_inv in Hd.
        replace (i + 1 =? 0) with false in Hlow by (symmetry; apply Z.eqb_neq; lia).
        eapply Forall_impl; [|exact Hlow]. cbn beta. intros t Ht.
        unfold day_us in Ht. lia. }
    split.
    + constructor; [exact Hsorted|]. destruct ts; constructor.
      inversion Hhd; assumption.
    + constructor; [exact Hcur|].
      eapply Forall_impl; [|exact Hhd]. cbn beta. intros t Ht.
      destruct (i =? 0); lia.
Qed.

Lemma case_history_path case w h w' :
  case_history case w = Some (h, w') -> follows_allowed_path case h.
Proof.
  unfold case_history. intros H. inv_run H.
  apply choose_path_inv in Hrun. inv_run H. inv_run H. inv_run H.
  apply status_records_statuses in H. eexists; eauto.
Qed.

Lemma case_history_timing case w h w' :
  case_history case w = Some (h, w') -> history_timing_ok h.
Proof.
  unfold case_history. intros H. do 4 inv_run H.
  split; [|split].
  - destruct (status_records_starts _ _ _ _ _ _ _ _ (Z.le_refl 0) eq_refl H)
      as (ts & Hts & Hs & _).
    exists ts; split; assumption.
  - eapply status_records_ends; [|exact H]. reflexivity.
  - eapply status_records_reasons; eauto.
Qed.


Lemma status_history_raw_inv py_seed np_seed cases_df enrollments_df config w df w' :
  generate_status_history_raw py_seed np_seed cases_df enrollments_df config w
    = Some (df, w') ->
  exists histories,
    rows df = List.concat histories /\
    Forall2 (fun case h => exists w1 w2, case_history case w1 = Some (h, w2))
            (merged_cases cases_df enrollments_df) histories.
Proof.
  unfold generate_status_history_raw. intros H. inv_runs.
  unfold merge_enrollment_timing in *.
  match goal with H : (if _ then _ else _) _ = Some _ |- _ =>
    destruct (_ || _) in H; [discriminate H|]; inv_run H end.
  match goal with H : mapM _ _ _ = Some _ |- _ => apply mapM_inv in H; rename H into HF end.
  eexists. split; [reflexivity|exact HF].
Qed.

Lemma merged_cases_cover cases_df enrollments_df c :
  In c (rows cases_df) ->
  exists extra, In (c ++ extra)%list (merged_cases cases_df enrollments_df).
Proof.
  intros Hc. unfold merged_cases.
  destruct (filter (fun e => value_eqb (cell "enrollment_id" e)
                                       (cell "enrollment_id" c))
                   (rows enrollments_df)) as [|e es] eqn:E.
  - eexists. apply in_flat_map. exists c. split; [exact Hc|].
    rewrite E. left. reflexivity.
  - eexists. apply in_flat_map. exists c. split; [exact Hc|].
    rewrite E. left. reflexivity.
Qed.

Lemma per_case_of_histories (P : Row -> list Row -> Prop)
      py_seed np_seed cases_df enrollments_df config w df w' :
  (forall case w1 h w2, case_history case w1 = Some (h, w2) -> P case h) ->
  generate_status_history_raw py_seed np_seed cases_df enrollments_df config w
    = Some (df, w') ->
  per_case P cases_df enrollments_df df.
Proof.
  intros HP H. apply status_history_raw_inv in H.
  destruct H as (hs & Hrows & HF). exists hs. split; [exact Hrows|].
  eapply Forall2_impl; [|exact HF].
  intros case h (w1 & w2 & Hh). eapply HP; eauto.
Qed.

Lemma per_case_without_injection (P : Row -> list Row -> Prop)
      py_seed np_seed cases_df enrollments_df config w df w' :
  (forall case w1 h w2, case_history case w1 = Some (h, w2) -> P case h) ->
  injection_off config ->
  generate_status_history py_seed np_seed cases_df enrollments_df config w
    = Some (df, w') ->
  per_case P cases_df enrollments_df df.
Proof.
  intros HP Hoff H. unfold generate_status_history in H. inv_run H.
  rewrite (inject_off _ _ _ _ Hoff) in H. inv_run H.
  eapply per_case_of_histories; eauto.
Qed.

Lemma lookup_app_timing k (c : Row) x y :
  k <> "enrolled_ts" -> k <> "inquiry_ts" ->
  lookup k (c ++ [("enrolled_ts", x); ("inquiry_ts", y)])%list = lookup k c.
Proof.
  intros H1 H2. induction c as [|[k' v] c IH]; cbn [lookup app].
  - destruct (String.eqb_spec "enrolled_ts" k); [congruence|].
    destruct (String.eqb_spec "inquiry_ts" k); [congruence|reflexivity].
  - destruct (String.eqb k' k); [reflexivity|exact IH].
Qed.

Lemma follows_allowed_path_merged c x y h :
  follows_allowed_path (c ++ [("enrolled_ts", x); ("inquiry_ts", y)])%list h ->
  follows_allowed_path c h.
Proof.
  intros (path & Hmap & Hpath). exists path. split; [exact Hmap|].
  unfold path_allowed, cell in *.
  rewrite !lookup_app_timing in Hpath by discriminate. exact Hpath.
Qed.

Lemma merged_cases_one_to_one cases_df enrollments_df :
  Forall (matches_one_enrollment enrollments_df) (rows cases_df) ->
  Forall2 (fun c m => exists x y,
               m = (c ++ [("enrolled_ts", x); ("inquiry_ts", y)])%list)
          (rows cases_df) (merged_cases cases_df enrollments_df).
Proof.
  unfold merged_cases.
  induction (rows cases_df) as [|c cs IH]; intros HF; cbn [flat_map].
  - constructor.
  - inversion HF as [|c' cs' (e & He) HF']; subst.
    rewrite He. cbn [map app]. constructor; [eauto|apply IH; exact HF'].
Qed.

Lemma Forall2_through {A B C} (R : A -> B -> Prop) (P : B -> C -> Prop)
      (Q : A -> C -> Prop) la lb lc :
  (forall a b c, R a b -> P b c -> Q a c) ->
  Forall2 R la lb -> Forall2 P lb lc -> Forall2 Q la lc.
Proof.
  intros H HR. revert lc.
  induction HR as [|a b la lb Hab _ IH]; intros lc HP; inversion HP; subst;
    constructor; eauto.
Qed.

Lemma per_case_one_to_one (P : Row -> list Row -> Prop)
      cases_df enrollments_df df :
  (forall c x y h,
      P (c ++ [("enrolled_ts", x); ("inquiry_ts", y)])%list h -> P c h) ->
  Forall (matches_one_enrollment enrollments_df) (rows cases_df) ->
  per_case P cases_df enrollments_df df ->
  per_case_record P cases_df df.
Proof.
  intros HP Hone (hs & Hrows & HF). exists hs. split; [exact Hrows|].
  eapply Forall2_through;
    [|exact (merged_cases_one_to_one _ _ Hone)|exact HF].
  intros c m h (x & y & ->). apply HP.
Qed.

(** C4 as stated fails: with the first enrollment record repeated, as the
    injector of duplicates leaves the enrollments table, the ACTIVE case of
    that enrollment is walked twice, and the statuses emitted for the case
    are the successful path twice over, which is none of the enumerated
    paths. *)
Lemma repeated_enrollment_repeats_the_path :
  exists df w' c,
    generate_status_history Sample.seed Sample.seed Sample.cases_df
      Sample.repeated_enrollments_df (Sample.config false) Sample.world
      = Some (df, w') /\
    nth_error (rows Sample.cases_df) 0 = Some c /\
    map (cell "status") (records_of_case c df)
      = map VStr (successful ++ successful) /\
    ~ follows_allowed_path c (records_of_case c df).
Proof.
  destruct (generate_status_history Sample.seed Sample.seed Sample.cases_df
              Sample.repeated_enrollments_df (Sample.config false)
              Sample.world)
    as [[df w']|] eqn:E.
  - pose proof (f_equal (option_map fst) E) as Hdf.
    vm_compute in Hdf. inversion Hdf as [Hdf']. clear Hdf E.
    eexists _, w', _. split; [reflexivity|]. split; [reflexivity|].
    split; [reflexivity|].
    intros (path & Hmap & Hpath). vm_compute in Hpath. subst path.
    vm_compute in Hmap. discriminate Hmap.
  - apply (f_equal (option_map fst)) in E. vm_compute in E. discriminate E.
Qed.

(** C4: [generate_status_history] walks every case record once per
    enrollment record that carries its enrollment id, hence exactly once
    when the case merges with exactly one enrollment record.  The statuses
    of the records built in one walk are, in order, the eight-step
    successful path when the case is ACTIVE; that path followed by CLOSED
    when it is CLOSED with reason COMPLETED_THERAPY; one of the three
    abandoned paths, which end in ABANDONED, for any other CLOSED case; and
    the first three to six steps of the successful path otherwise
    (ON_HOLD).  The walks, one after the other, make up the frame built by
    the loop, before data-quality injection, and so the returned frame
    when injection is off. *)
Theorem status_history_follows_enumerated_paths
        py_seed np_seed cases_df enrollments_df config w :
  (forall c, In c (rows cases_df) ->
             exists extra,
               In (c ++ extra)%list (merged_cases cases_df enrollments_df)) /\
  (forall df w',
     generate_status_history_raw py_seed np_seed cases_df enrollments_df
       config w = Some (df, w') ->
     per_case follows_allowed_path cases_df enrollments_df df /\
     (Forall (matches_one_enrollment enrollments_df) (rows cases_df) ->
      per_case_record follows_allowed_path cases_df df)) /\
  (injection_off config ->
   forall df w',
     generate_status_history py_seed np_seed cases_df enrollments_df
       config w = Some (df, w') ->
     per_case follows_allowed_path cases_df enrollments_df df /\
     (Forall (matches_one_enrollment enrollments_df) (rows cases_df) ->
      per_case_record follows_allowed_path cases_df df)).
Proof.
  assert (Hone : forall df,
             per_case follows_allowed_path cases_df enrollments_df df ->
             per_case follows_allowed_path cases_df enrollments_df df /\
             (Forall (matches_one_enrollment enrollments_df) (rows cases_df) ->
              per_case_record follows_allowed_path cases_df df)).
  { intros df H. split; [exact H|]. intros HF.
    eapply per_case_one_to_one; [|exact HF|exact H].
    intros c x y h. apply follows_allowed_path_merged. }
  split; [|split].
  - intros c Hc. apply merged_cases_cover; exact Hc.
  - intros df w' H. apply Hone.
    eapply per_case_of_histories; [|exact H].
    intros case w1 h w2. apply case_history_path.
  - intros Hoff df w' H. apply Hone.
    eapply per_case_without_injection; [|exact Hoff|exact H].
    intros case w1 h w2. apply case_history_path.
Qed.

Lemma sample_cases_match_one_enrollment :
  Forall (matches_one_enrollment Sample.enrollments_df)
         (rows Sample.cases_df).
Proof. repeat constructor; eexists; reflexivity. Qed.

Lemma status_history_follows_enumerated_paths_witness :
  exists df w',
    generate_status_history Sample.seed Sample.seed Sample.cases_df
      Sample.enrollments_df (Sample.config false) Sample.world = Some (df, w')
    /\ per_case follows_allowed_path Sample.cases_df Sample.enrollments_df df
    /\ per_case_record follows_allowed_path Sample.cases_df df.
Proof.
  destruct (generate_status_history Sample.seed Sample.seed Sample.cases_df
              Sample.enrollments_df (Sample.config false) Sample.world)
    as [[df w']|] eqn:E.
  - exists df, w'. split; [reflexivity|].
    destruct (proj2 (proj2 (status_history_follows_enumerated_paths
                              Sample.seed Sample.seed Sample.cases_df
                              Sample.enrollments_df (Sample.config false)
                              Sample.world))
                eq_refl df w' E) as [H1 H2].
    split; [exact H1|]. apply H2. exact sample_cases_match_one_enrollment.
  - apply (f_equal (option_map fst)) in E. vm_compute in E. discriminate E.
Defined.

(** C5 as stated fails: with the first enrollment record repeated, the
    case of that enrollment is walked twice, so that within the records of
    the case, before any injection, the ninth starts again where the first
    started and the eighth has no [status_end_ts] although eight records
    follow it. *)
Lemma repeated_enrollment_restarts_the_history :
  exists df w' c,
    generate_status_history_raw Sample.seed Sample.seed Sample.cases_df
      Sample.repeated_enrollments_df (Sample.config false) Sample.world
      = Some (df, w') /\
    nth_error (rows Sample.cases_df) 0 = Some c /\
    List.length (records_of_case c df) = 16%nat /\
    option_map (cell "status_start_ts") (nth_error (records_of_case c df) 8)
      = option_map (cell "status_start_ts")
                   (nth_error (records_of_case c df) 0) /\
    option_map (cell "status_end_ts") (nth_error (records_of_case c df) 7)
      = Some VNone /\
    ~ starts_increase (records_of_case c df) /\
    ~ ends_only_at_last (records_of_case c df) /\
    ~ history_timing_ok (records_of_case c df).
Proof.
  destruct (generate_status_history_raw Sample.seed Sample.seed
              Sample.cases_df Sample.repeated_enrollments_df
              (Sample.config false) Sample.world)
    as [[df w']|] eqn:E.
  - pose proof (f_equal (option_map fst) E) as Hdf.
    vm_compute in Hdf. inversion Hdf as [Hdf']. clear Hdf E.
    eexists _, w', _. split; [reflexivity|]. split; [reflexivity|].
    split; [reflexivity|]. split; [reflexivity|]. split; [reflexivity|].
    match goal with |- _ /\ ?B /\ _ => assert (Hends : B) end.
    { intros Hends.
      destruct (Hends 7%nat _ eq_refl) as [Hlast _].
      specialize (Hlast eq_refl). vm_compute in Hlast. discriminate Hlast. }
    split; [|split; [exact Hends|intros (_ & H & _); exact (Hends H)]].
    intros (ts & Hmap & Hsorted). vm_compute in Hmap.
    do 16 (destruct ts as [|? ts]; [discriminate Hmap|]).
    destruct ts; [|discriminate Hmap].
    inversion Hmap; subst. clear Hmap.
    apply Sorted_StronglySorted in Hsorted; [|intros a b c; apply Z.lt_trans].
    inversion Hsorted as [|? ? _ Hall]; subst.
    rewrite Forall_forall in Hall.
    specialize (Hall _ (or_intror (or_intror (or_intror (or_intror
                       (or_intror (or_intror (or_intror
                       (or_introl eq_refl))))))))).
    lia.
  - apply (f_equal (option_map fst)) in E. vm_compute in E. discriminate E.
Qed.

(** C5: in the records that [generate_status_history] builds in one walk of
    a case record (one walk per enrollment record that carries the
    enrollment id of the case, hence one per case record when each merges
    with exactly one enrollment record), before data-quality injection,
    [status_start_ts] strictly increases from each record to the next,
    [status_end_ts] is missing on the last record of the walk and on no
    earlier one, and [status_reason] is set only on records whose status is
    PA_DENIED or ABANDONED. *)
Theorem status_history_timestamps_and_reasons
        py_seed np_seed cases_df enrollments_df config w df w' :
  generate_status_history_raw py_seed np_seed cases_df enrollments_df
    config w = Some (df, w') ->
  per_case (fun _ h => history_timing_ok h) cases_df enrollments_df df /\
  (Forall (matches_one_enrollment enrollments_df) (rows cases_df) ->
   per_case_record (fun _ h => history_timing_ok h) cases_df df).
Proof.
  intros H.
  assert (Hper : per_case (fun _ h => history_timing_ok h)
                          cases_df enrollments_df df).
  { eapply per_case_of_histories; [|exact H].
    intros case w1 h w2. apply case_history_timing. }
  split; [exact Hper|]. intros HF.
  eapply per_case_one_to_one; [|exact HF|exact Hper].
  intros c x y h Hh. exact Hh.
Qed.

Lemma status_history_timestamps_and_reasons_witness :
  exists df w',
    generate_status_history_raw Sample.seed Sample.seed Sample.cases_df
      Sample.enrollments_df (Sample.config true) Sample.world = Some (df, w')
    /\ per_case (fun _ h => history_timing_ok h)
                Sample.cases_df Sample.enrollments_df df
    /\ per_case_record (fun _ h => history_timing_ok h) Sample.cases_df df.
Proof.
  destruct (generate_status_history_raw Sample.seed Sample.seed Sample.cases_df
              Sample.enrollments_df (Sample.config true) Sample.world)
    as [[df w']|] eqn:E.
  - exists df, w'. split; [reflexivity|].
    destruct (status_history_timestamps_and_reasons _ _ _ _ _ _ _ _ E)
      as [H1 H2].
    split; [exact H1|]. apply H2. exact sample_cases_match_one_enrollment.
  - apply (f_equal (option_map fst)) in E. vm_compute in E. discriminate E.
Defined.

(* ===================================================================== *)
(** ** The data-quality injector *)
(* ===================================================================== *)

Lemma lookup_set_cell_other c c' v r :
  c' <> c -> lookup c' (set_cell c v r) = lookup c' r.
Proof.
  intros Hne. induction r as [|[k x] r IH]; simpl.
  - destruct (String.eqb_spec c c'); [congruence|reflexivity].
  - destruct (String.eqb_spec k c) as [->|Hk]; simpl.
    + destruct (String.eqb_spec c c'); [congruence|reflexivity].
    + destruct (String.eqb_spec k c'); [reflexivity|exact IH].
Qed.

Lemma lookup_set_cell_same c v r : lookup c (set_cell c v r) = Some v.
Proof.
  induction r as [|[k x] r IH]; simpl.
  - now rewrite String.eqb_refl.
  - destruct (String.eqb_spec k c) as [->|Hk]; simpl.
    + now rewrite String.eqb_refl.
    + destruct (String.eqb_spec k c); [congruence|exact IH].
Qed.

Lemma differs_refl cols r : differs_only_in cols r r.
Proof. intros c _. reflexivity. Qed.

Lemma differs_trans cols r1 r2 r3 :
  differs_only_in cols r1 r2 -> differs_only_in cols r2 r3 ->
  differs_only_in cols r1 r3.
Proof. intros H1 H2 c Hc. rewrite (H2 c Hc). apply H1; exact Hc. Qed.

Lemma differs_set_cell cols c v r :
  In c cols -> differs_only_in cols r (set_cell c v r).
Proof.
  intros Hin c' Hc'. apply lookup_set_cell_other. intros ->. contradiction.
Qed.

Lemma loc_set_from_differs cols c v idx rs :
  In c cols -> forall i,
  Forall2 (differs_only_in cols) rs (loc_set_from i idx c v rs).
Proof.
  intros Hin. induction rs as [|r rs IH]; intros i; simpl; constructor.
  - destruct (existsb (Z.eqb i) idx).
    + apply differs_set_cell; exact Hin.
    + apply differs_refl.
  - apply IH.
Qed.

Lemma Forall2_differs_refl cols rs : Forall2 (differs_only_in cols) rs rs.
Proof. induction rs; constructor; [apply differs_refl|assumption]. Qed.

Lemma Forall2_differs_trans cols rs1 rs2 rs3 :
  Forall2 (differs_only_in cols) rs1 rs2 ->
  Forall2 (differs_only_in cols) rs2 rs3 ->
  Forall2 (differs_only_in cols) rs1 rs3.
Proof.
  intros H. revert rs3. induction H; intros rs3 H3; inversion H3; subst;
    constructor; eauto using differs_trans.
Qed.

Lemma Forall2_differs_weaken cols cols' rs rs' :
  (forall c, In c cols -> In c cols') ->
  Forall2 (differs_only_in cols) rs rs' ->
  Forall2 (differs_only_in cols') rs rs'.
Proof.
  intros Hsub H. eapply Forall2_impl; [|exact H].
  intros r r' Hd c Hc. apply Hd. intros Hin. apply Hc, Hsub, Hin.
Qed.

(** *** Draws of numpy *)

Lemma repeatM_inv {A} (P : A -> Prop) (m : M A) :
  (forall w a w', m w = Some (a, w') -> P a) ->
  forall n w l w', repeatM n m w = Some (l, w') ->
                   Forall P l /\ List.length l = n.
Proof.
  intros Hm. induction n as [|n IH]; intros w l w' H; simpl in H.
  - inv_runs. split; [constructor|reflexivity].
  - inv_runs. apply Hm in Hrun. apply IH in Hrun0. destruct Hrun0.
    split; [constructor; assumption|simpl; congruence].
Qed.

Lemma repeatM_total {A} (m : M A) :
  (forall w, exists a w', m w = Some (a, w')) ->
  forall n w, exists l w', repeatM n m w = Some (l, w').
Proof.
  intros Hm. induction n as [|n IH]; intros w; simpl.
  - eexists _, _. reflexivity.
  - destruct (Hm w) as (a & w1 & Ha). destruct (IH w1) as (l & w2 & Hl).
    exists (a :: l), w2. rewrite (bind_ok _ _ _ _ _ Ha).
    rewrite (bind_ok _ _ _ _ _ Hl). reflexivity.
Qed.

Lemma np_randint_inv low high n w l w' :
  np_randint low high n w = Some (l, w') ->
  Forall (fun x => low <= x < high) l /\ List.length l = n.
Proof.
  unfold np_randint. destruct (low <? high) eqn:E; [|discriminate].
  apply Z.ltb_lt in E. apply repeatM_inv.
  intros w0 a w0' H. unfold np_randint1 in H. inv_runs.
  assert (0 <= a0 mod (high - low) < high - low) by (apply Z.mod_pos_bound; lia).
  lia.
Qed.

Lemma np_randint_total low high n w :
  low < high -> exists l w', np_randint low high n w = Some (l, w').
Proof.
  intros H. unfold np_randint. apply Z.ltb_lt in H. rewrite H.
  apply repeatM_total. intros w0. eexists _, _. reflexivity.
Qed.

Lemma take_rows_spec idx rs :
  Forall (fun x => 0 <= x < Z.of_nat (List.length rs)) idx ->
  List.length (take_rows idx rs) = List.length idx /\
  Forall (fun r => In r rs) (take_rows idx rs).
Proof.
  induction 1 as [|x idx Hx _ IH]; simpl.
  - split; [reflexivity|constructor].
  - destruct IH as [IHl IHf].
    destruct (nth_error rs (Z.to_nat x)) as [r|] eqn:E.
    + simpl. split; [congruence|]. constructor; [|exact IHf].
      eapply nth_error_In; eauto.
    + apply nth_error_None in E. lia.
Qed.

Lemma remove_nth_length {A} (l : list A) i :
  (i < List.length l)%nat -> List.length (remove_nth i l) = pred (List.length l).
Proof.
  revert i. induction l as [|a l IH]; intros i Hi; simpl in *; [lia|].
  destruct i; [reflexivity|]. simpl. rewrite IH by lia.
  destruct l; simpl in *; lia.
Qed.

Lemma np_choice_distinct_total k :
  forall pool w, (k <= List.length pool)%nat ->
  exists l w', np_choice_distinct k pool w = Some (l, w').
Proof.
  induction k as [|k IH]; intros pool w Hk; simpl.
  - eexists _, _. reflexivity.
  - destruct pool as [|p pool]; [simpl in Hk; lia|].
    set (i := Z.to_nat (np_rng w O mod Z.of_nat (List.length (p :: pool)))).
    assert (Hi : (i < List.length (p :: pool))%nat).
    { subst i.
      assert (0 <= np_rng w O mod Z.of_nat (List.length (p :: pool))
              < Z.of_nat (List.length (p :: pool)))
        by (apply Z.mod_pos_bound; simpl; lia).
      lia. }
    destruct (IH (remove_nth i (p :: pool))
                 (mkWorld (py_rng w) (tape_tl (np_rng w)) (wall w)))
      as (l & w' & Hl).
    { rewrite remove_nth_length by exact Hi. simpl in *. lia. }
    exists (nth i (p :: pool) 0 :: l), w'.
    unfold bind at 1. unfold np_raw. fold i.
    rewrite (bind_ok _ _ _ _ _ Hl). reflexivity.
Qed.

Lemma range_index_length n : List.length (range_index n) = n.
Proof. unfold range_index. now rewrite length_map, length_seq. Qed.

Lemma py_int_zero q : py_int (float_mul (QofZ 0) q) = 0.
Proof. reflexivity. Qed.

(** The literal [0.1] is the float [3602879701896397 / 2^55], and products
    of floats are rounded as Python rounds them: [100 * 0.29] is just below
    29, [3 * 0.3333333333333333] is 1.0, [0.35 * 90] is just below 31.5 and
    [90 * 0.7] just below 63. *)
Lemma float_mul_examples :
  Qred (fl (1 # 10)) = (3602879701896397 # 36028797018963968)%Q /\
  py_int (float_mul (QofZ 100) (29 # 100)) = 28 /\
  py_int (float_mul (QofZ 3) (3333333333333333 # 10000000000000000)) = 1 /\
  round_half_even (float_mul (35 # 100) (QofZ 90)) = 31 /\
  py_int (float_mul (QofZ 90) (7 # 10)) = 62 /\
  py_int (float_mul (QofZ 90) (13 # 10)) = 117.
Proof. vm_compute. repeat split; reflexivity. Qed.

Lemma foldM_total_inv {A B} (I : B -> Prop) (f : B -> A -> M B) (l : list A) :
  (forall a b w, In a l -> I b ->
                 exists b' w', f b a w = Some (b', w') /\ I b') ->
  forall b w, I b -> exists b' w', foldM f l b w = Some (b', w') /\ I b'.
Proof.
  induction l as [|a l IH]; intros Hf b w Hb; simpl.
  - exists b, w. split; [reflexivity|exact Hb].
  - destruct (Hf a b w (or_introl eq_refl) Hb) as (b1 & w1 & Hb1 & HI1).
    destruct (IH (fun a' b' w' Hin => Hf a' b' w' (or_intror Hin)) b1 w1 HI1)
      as (b2 & w2 & Hb2 & HI2).
    exists b2, w2. rewrite (bind_ok _ _ _ _ _ Hb1). split; assumption.
Qed.

Lemma inject_duplicates_spec dup_rate df w :
  exists dups df' w',
    inject_duplicates (len df) dup_rate df w = Some (df', w') /\
    rows df' = (rows df ++ dups)%list /\
    columns df' = columns df /\
    List.length dups = Z.to_nat (py_int (float_mul (QofZ (len df)) dup_rate)) /\
    Forall (fun r => In r (rows df)) dups.
Proof.
  unfold inject_duplicates.
  destruct (0 <? py_int (float_mul (QofZ (len df)) dup_rate)) eqn:E.
  - apply Z.ltb_lt in E.
    assert (Hlen : 0 < len df).
    { destruct (Z.eq_dec (len df) 0) as [H0|H0].
      - rewrite H0, py_int_zero in E. lia.
      - unfold len in *. lia. }
    destruct (np_randint_total 0 (len df)
                (Z.to_nat (py_int (float_mul (QofZ (len df)) dup_rate))) w Hlen)
      as (picks & w' & Hp).
    destruct (np_randint_inv _ _ _ _ _ _ Hp) as [Hrange Hn].
    destruct (take_rows_spec picks (rows df) Hrange) as [Hl Hin].
    exists (take_rows picks (rows df)), (df_concat df (take_rows picks (rows df))), w'.
    rewrite (bind_ok _ _ _ _ _ Hp).
    repeat split; try reflexivity; try assumption. congruence.
  - apply Z.ltb_ge in E. exists [], df, w.
    repeat split; try reflexivity.
    + now rewrite app_nil_r.
    + simpl. lia.
    + constructor.
Qed.

Lemma same_shape_refl cols df : same_shape cols df df.
Proof. split; [reflexivity|apply Forall2_differs_refl]. Qed.

Lemma same_shape_loc_set cols idx c v df0 df :
  In c cols -> same_shape cols df0 df ->
  same_shape cols df0 (loc_set idx c v df).
Proof.
  intros Hc [Hcols Hrows]. split; [exact Hcols|].
  eapply Forall2_differs_trans; [exact Hrows|].
  apply loc_set_from_differs; exact Hc.
Qed.

Lemma same_shape_length cols df df' :
  same_shape cols df df' -> List.length (rows df') = List.length (rows df).
Proof. intros [_ H]. symmetry. eapply Forall2_length; eauto. Qed.

Lemma distinct_draw_total n df w :
  exists l w',
    np_choice_distinct (Z.to_nat (Z.min n (len df)))
      (range_index (List.length (rows df))) w = Some (l, w').
Proof.
  apply np_choice_distinct_total. rewrite range_index_length.
  unfold len. lia.
Qed.

Lemma inject_nulls_spec n_rows null_rate nullable_columns df w :
  exists df' w',
    inject_nulls n_rows null_rate nullable_columns df w = Some (df', w') /\
    same_shape nullable_columns df df'.
Proof.
  unfold inject_nulls.
  apply (foldM_total_inv (same_shape nullable_columns df));
    [|apply same_shape_refl].
  intros col b w0 Hcol Hb.
  destruct (has_column col b); [|exists b, w0; split; [reflexivity|exact Hb]].
  destruct ((0 <? py_int (float_mul (QofZ n_rows) null_rate)) && (0 <? len b));
    [|exists b, w0; split; [reflexivity|exact Hb]].
  destruct (distinct_draw_total
              (py_int (float_mul (QofZ n_rows) null_rate)) b w0)
    as (l & w1 & Hl).
  eexists _, w1. rewrite (bind_ok _ _ _ _ _ Hl). split; [reflexivity|].
  apply same_shape_loc_set; assumption.
Qed.

Lemma inject_future_dates_spec n_rows future_rate date_columns df w :
  exists df' w',
    inject_future_dates n_rows future_rate date_columns df w = Some (df', w') /\
    same_shape date_columns df df'.
Proof.
  unfold inject_future_dates.
  destruct (0 <? py_int (float_mul (QofZ n_rows) future_rate));
    [|exists df, w; split; [reflexivity|apply same_shape_refl]].
  apply (foldM_total_inv (same_shape date_columns df));
    [|apply same_shape_refl].
  intros col b w0 Hcol Hb.
  destruct (has_column col b && (0 <? len b));
    [|exists b, w0; split; [reflexivity|exact Hb]].
  destruct (distinct_draw_total
              (py_int (float_mul (QofZ n_rows) future_rate)) b w0)
    as (l & w1 & Hl).
  rewrite (bind_ok _ _ _ _ _ Hl).
  destruct (randint_total 1 30
              (mkWorld (py_rng w1) (np_rng w1) (tape_tl (wall w1))))
    as (d & w2 & Hd); [lia|].
  eexists _, w2. unfold bind at 1. unfold now.
  rewrite (bind_ok _ _ _ _ _ Hd). split; [reflexivity|].
  apply same_shape_loc_set; assumption.
Qed.

Lemma same_shape_weaken cols cols' df df' :
  (forall c, In c cols -> In c cols') ->
  same_shape cols df df' -> same_shape cols' df df'.
Proof.
  intros Hsub [Hc Hr]. split; [exact Hc|].
  eapply Forall2_differs_weaken; eauto.
Qed.

Lemma same_shape_trans cols df1 df2 df3 :
  same_shape cols df1 df2 -> same_shape cols df2 df3 -> same_shape cols df1 df3.
Proof.
  intros [Hc1 Hr1] [Hc2 Hr2]. split; [congruence|].
  eapply Forall2_differs_trans; eauto.
Qed.

(** The injector, once switched on, always returns. *)
Lemma inject_on_spec df config date_columns nullable_columns w :
  get_default (inject_issues config) false = true ->
  exists dups df' w',
    inject_data_quality_issues df config date_columns nullable_columns w
      = Some (df', w') /\
    List.length dups =
      Z.to_nat (py_int (float_mul (QofZ (len df))
                          (get_default (duplicate_rate config) (5 # 1000)))) /\
    Forall (fun r => In r (rows df)) dups /\
    same_shape (nullable_columns ++ date_columns)
               (df_concat df dups) df'.
Proof.
  intros Hon. unfold inject_data_quality_issues. rewrite Hon. cbn [negb].
  destruct (inject_duplicates_spec
              (get_default (duplicate_rate config) (5 # 1000)) df w)
    as (dups & df1 & w1 & H1 & Hrows1 & Hcols1 & Hlen & Hin).
  rewrite (bind_ok _ _ _ _ _ H1).
  assert (Hsh1 : same_shape (nullable_columns ++ date_columns)
                            (df_concat df dups) df1).
  { split; [exact Hcols1|]. rewrite Hrows1. apply Forall2_differs_refl. }
  assert (H2 : exists df2 w2,
    match nullable_columns with
    | [] => ret df1
    | _ => inject_nulls (len df)
             (get_default (null_rate_optional config) (2 # 100))
             nullable_columns df1
    end w1 = Some (df2, w2) /\ same_shape nullable_columns df1 df2).
  { destruct nullable_columns as [|c cs].
    - exists df1, w1. split; [reflexivity|apply same_shape_refl].
    - apply inject_nulls_spec. }
  destruct H2 as (df2 & w2 & H2 & Hsh2).
  rewrite (bind_ok _ _ _ _ _ H2).
  assert (H3 : exists df3 w3,
    match date_columns with
    | [] => ret df2
    | _ => inject_future_dates (len df)
             (get_default (future_date_rate config) (1 # 1000))
             date_columns df2
    end w2 = Some (df3, w3) /\ same_shape date_columns df2 df3).
  { destruct date_columns as [|c cs].
    - exists df2, w2. split; [reflexivity|apply same_shape_refl].
    - apply inject_future_dates_spec. }
  destruct H3 as (df3 & w3 & H3 & Hsh3).
  rewrite (bind_ok _ _ _ _ _ H3).
  exists dups, df3, w3. split; [reflexivity|]. split; [exact Hlen|].
  split; [exact Hin|].
  eapply same_shape_trans; [exact Hsh1|].
  eapply same_shape_trans.
  - eapply same_shape_weaken; [|exact Hsh2]. intros c Hc. apply in_or_app; auto.
  - eapply same_shape_weaken; [|exact Hsh3]. intros c Hc. apply in_or_app; auto.
Qed.



(* ===================================================================== *)
(** ** Bronze ingestion *)
(* ===================================================================== *)

Lemma existsb_eqb_In c cols :
  existsb (String.eqb c) cols = true <-> In c cols.
Proof.
  rewrite existsb_exists. split.
  - intros (x & Hx & E). apply String.eqb_eq in E. now subst.
  - intros H. exists c. split; [exact H|apply String.eqb_refl].
Qed.

Lemma in_add_column c x cols :
  In c (add_column x cols) <-> In c cols \/ c = x.
Proof.
  unfold add_column. destruct (existsb (String.eqb x) cols) eqn:E.
  - apply existsb_eqb_In in E. split; [auto|]. intros [H| ->]; assumption.
  - rewrite in_app_iff. simpl. split; intros [H|H]; auto.
    + destruct H as [<-|[]]. auto.
Qed.

Lemma add_column_fresh x cols :
  ~ In x cols -> add_column x cols = (cols ++ [x])%list.
Proof.
  intros H. unfold add_column.
  destruct (existsb (String.eqb x) cols) eqn:E; [|reflexivity].
  apply existsb_eqb_In in E. contradiction.
Qed.

Lemma bronze_of_assign source_name t df :
  bronze_of source_name df
    (assign_scalar bronze_source (VStr (source_name ++ ".parquet"))
       (assign_scalar bronze_loaded_at (VTs t) df)).
Proof.
  unfold bronze_of, assign_scalar. cbn [columns rows].
  split; [|split; [|split; [|split; [|split]]]].
  - intros c. rewrite !in_add_column. tauto.
  - intros H1 H2. rewrite (add_column_fresh _ _ H1).
    rewrite add_column_fresh.
    + rewrite <- app_assoc. reflexivity.
    + rewrite in_app_iff. simpl. intros [H|[H|[]]]; [contradiction|discriminate H].
  - now rewrite !length_map.
  - intros c H1 H2. rewrite !map_map. apply map_ext. intros r.
    rewrite !lookup_set_cell_other by congruence. reflexivity.
  - exists t. apply Forall_forall. intros r Hr.
    apply in_map_iff in Hr. destruct Hr as (r1 & <- & Hr1).
    apply in_map_iff in Hr1. destruct Hr1 as (r0 & <- & _).
    rewrite lookup_set_cell_other by discriminate.
    apply lookup_set_cell_same.
  - apply Forall_forall. intros r Hr.
    apply in_map_iff in Hr. destruct Hr as (r1 & <- & _).
    apply lookup_set_cell_same.
Qed.

Lemma bronze_of_exact source_name df bronze :
  bronze_of source_name df bronze ->
  ~ In bronze_loaded_at (columns df) -> ~ In bronze_source (columns df) ->
  exact_bronze_copy df bronze.
Proof.
  intros (_ & Hcols & Hlen & Hcells & _) H1 H2.
  split; [exact (Hcols H1 H2)|]. split; [exact Hlen|].
  intros c Hc. apply Hcells; intros ->; contradiction.
Qed.

(** C3 as stated fails: a raw file that already has a column named
    [_bronze_source] is an existing source table, and the bronze file that
    [ingest_source_to_bronze] writes for it holds the name of the raw file
    in that column, not the cells the column had; nor are two columns
    added. *)
Lemma ingest_overwrites_audit_named_column :
  exists bronze fs' report w',
    ingest_source_to_bronze "psp_enrollments" Sample.tagged_files Sample.world
      = Some ((fs', report), w') /\
    fs' (bronze_path "psp_enrollments") = Some bronze /\
    In bronze_source (columns Sample.tagged_df) /\
    map (lookup bronze_source) (rows Sample.tagged_df)
      = [Some (VStr "legacy_export.parquet")] /\
    map (lookup bronze_source) (rows bronze)
      = [Some (VStr "psp_enrollments.parquet")] /\
    columns bronze = ["enrollment_id"; "_bronze_source"; "_bronze_loaded_at"] /\
    ~ exact_bronze_copy Sample.tagged_df bronze.
Proof.
  unfold ingest_source_to_bronze.
  unfold bind at 1. unfold now at 1.
  change (Sample.tagged_files (raw_path "psp_enrollments"))
    with (Some Sample.tagged_df). cbv beta iota.
  unfold bind at 1. unfold now at 1.
  unfold bind at 1. unfold now at 1.
  unfold write_parquet at 1. rewrite String.eqb_refl.
  rewrite Z.eqb_refl. unfold ret.
  eexists _, _, _, _. split; [reflexivity|].
  split; [unfold write_parquet; rewrite String.eqb_refl; reflexivity|].
  split; [right; left; reflexivity|].
  split; [reflexivity|]. split; [reflexivity|]. split; [reflexivity|].
  intros (Hcols & _). vm_compute in Hcols. discriminate Hcols.
Qed.

(** C3: for every source table that exists, [ingest_source_to_bronze]
    writes a bronze file (and touches no other file) with as many records
    as the source, every record holding the load time in
    [_bronze_loaded_at] and the name of the raw file in [_bronze_source],
    and every column of the source that has neither of these two names
    holding the cells it had.  When the source has no column of these
    names, the bronze file therefore holds the original columns followed by
    the two audit columns, with every original column unchanged; a source
    column that has one of the two names is overwritten.  The function then
    reads the bronze file back and finds its record count equal to the
    source's, so that it reports the verification as passed and no
    mismatch. *)
Theorem ingest_writes_bronze_copy source_name fs w df :
  fs (raw_path source_name) = Some df ->
  exists bronze fs' report w',
    ingest_source_to_bronze source_name fs w = Some ((fs', report), w') /\
    fs' (bronze_path source_name) = Some bronze /\
    (forall p, p <> bronze_path source_name -> fs' p = fs p) /\
    bronze_of source_name df bronze /\
    (~ In bronze_loaded_at (columns df) -> ~ In bronze_source (columns df) ->
     exact_bronze_copy df bronze) /\
    In (VerificationPassed (len df)) report /\
    (forall a b, ~ In (RowCountMismatch a b) report).
Proof.
  intros Hraw. unfold ingest_source_to_bronze.
  unfold bind at 1. unfold now at 1. rewrite Hraw.
  unfold bind at 1. unfold now at 1.
  unfold bind at 1. unfold now at 1.
  unfold write_parquet at 1. rewrite String.eqb_refl.
  set (b := assign_scalar bronze_source _ _).
  assert (Hlen : len b = len df).
  { unfold len, b, assign_scalar. cbn [rows]. now rewrite !length_map. }
  rewrite Hlen, Z.eqb_refl.
  eexists b, _, _, _. split; [reflexivity|].
  split; [unfold write_parquet; now rewrite String.eqb_refl|].
  split.
  { intros p Hp. unfold write_parquet.
    destruct (String.eqb_spec p (bronze_path source_name)); [contradiction|reflexivity]. }
  split; [apply bronze_of_assign|].
  split; [apply (bronze_of_exact source_name), bronze_of_assign|].
  split.
  - simpl. auto.
  - intros a c [H|[H|[H|[H|[]]]]]; discriminate H.
Qed.

Lemma ingest_writes_bronze_copy_witness :
  exists bronze fs' report w',
    ingest_source_to_bronze "psp_enrollments" Sample.files Sample.world
      = Some ((fs', report), w') /\
    fs' (bronze_path "psp_enrollments") = Some bronze /\
    (forall p, p <> bronze_path "psp_enrollments" -> fs' p = Sample.files p) /\
    bronze_of "psp_enrollments" Sample.enrollments_df bronze /\
    (~ In bronze_loaded_at (columns Sample.enrollments_df) ->
     ~ In bronze_source (columns Sample.enrollments_df) ->
     exact_bronze_copy Sample.enrollments_df bronze) /\
    In (VerificationPassed (len Sample.enrollments_df)) report /\
    (forall a b, ~ In (RowCountMismatch a b) report).
Proof.
  apply (ingest_writes_bronze_copy "psp_enrollments" Sample.files
           Sample.world Sample.enrollments_df).
  reflexivity.
Defined.

(* ===================================================================== *)
(** ** Claims: dates and ids *)
(* ===================================================================== *)

Lemma round_half_even_bounds q n m :
  (inject_Z n <= q)%Q -> (q <= inject_Z m)%Q ->
  n <= round_half_even q <= m.
Proof.
  intros Hn Hm. unfold round_half_even.
  pose proof (Qfloor_le q) as Hf. pose proof (Qlt_floor q) as Hf1.
  assert (Hnf : n <= Qfloor q).
  { assert (inject_Z n < inject_Z (Qfloor q + 1))%Q
      by (eapply Qle_lt_trans; eauto).
    rewrite <- Zlt_Qlt in H. lia. }
  assert (Hfm : Qfloor q <= m).
  { rewrite Zle_Qle. eapply Qle_trans; eauto. }
  assert (Hup : (1 # 2 <= q - inject_Z (Qfloor q))%Q -> Qfloor q + 1 <= m).
  { intros Hhalf.
    assert (inject_Z (Qfloor q) < inject_Z m)%Q.
    { eapply Qlt_le_trans; [|exact Hm].
      apply Qlt_minus_iff. eapply Qlt_le_trans; [|exact Hhalf]. reflexivity. }
    rewrite <- Zlt_Qlt in H. lia. }
  destruct (Qcompare (q - inject_Z (Qfloor q)) (1 # 2)) eqn:E.
  - apply Qeq_alt in E. destruct (Z.even (Qfloor q)); [lia|].
    split; [lia|]. apply Hup. rewrite E. apply Qle_refl.
  - lia.
  - apply Qgt_alt in E. split; [lia|]. apply Hup. apply Qlt_le_weak. exact E.
Qed.

Lemma unit_float_range x : (0 <= unit_float x)%Q /\ (unit_float x <= 1)%Q.
Proof.
  unfold unit_float, Qle. cbn [Qnum Qden].
  assert (0 <= x mod 2 ^ 53 < 2 ^ 53) by (apply Z.mod_pos_bound; reflexivity).
  split; [lia|].
  change (Z.pos (2 ^ 53)) with (2 ^ 53). lia.
Qed.

(** A uniform offset over a range of [r] microseconds, once rounded to the
    microsecond, lies within the range. *)
Lemma offset_within_range r x :
  0 <= r ->
  0 <= round_half_even
         ((0 + (Qmake r 1000000 - 0) * unit_float x) * QofZ 1000000) <= r.
Proof.
  intros Hr. destruct (unit_float_range x) as [H0 H1].
  assert (E : ((0 + (Qmake r 1000000 - 0) * unit_float x) * QofZ 1000000
               == inject_Z r * unit_float x)%Q).
  { unfold QofZ. rewrite (Qmake_Qdiv r 1000000). field. }
  apply round_half_even_bounds; rewrite E.
  - change (inject_Z 0) with 0%Q. apply Qmult_le_0_compat; [|exact H0].
    change 0%Q with (inject_Z 0). rewrite <- Zle_Qle. exact Hr.
  - rewrite <- (Qmult_1_r (inject_Z r)) at 2.
    rewrite (Qmult_comm (inject_Z r) (unit_float x)).
    rewrite (Qmult_comm (inject_Z r) 1).
    apply Qmult_le_compat_r; [exact H1|].
    change 0%Q with (inject_Z 0). rewrite <- Zle_Qle. exact Hr.
Qed.

Lemma value_eqb_eq a b : value_eqb a b = true <-> a = b.
Proof.
  destruct a, b; simpl; split; intros H; try discriminate H; try reflexivity;
    try (apply String.eqb_eq in H; congruence);
    try (apply Z.eqb_eq in H; congruence);
    try (inversion H; subst; first [apply String.eqb_refl|apply Z.eqb_refl]).
Qed.

Lemma list_min_spec l : forall x,
  (list_min x l = x \/ In (list_min x l) l) /\
  list_min x l <= x /\ Forall (fun y => list_min x l <= y) l.
Proof.
  induction l as [|y l IH]; intros x; simpl.
  - repeat split; [auto|lia|constructor].
  - destruct (IH (Z.min x y)) as (Hin & Hle & Hall).
    split; [|split].
    + destruct Hin as [E|Hin]; [|auto]. rewrite E.
      destruct (Z.min_spec x y) as [[_ ->]|[_ ->]]; auto.
    + lia.
    + constructor; [lia|exact Hall].
Qed.

Lemma list_max_spec l : forall x,
  (list_max x l = x \/ In (list_max x l) l) /\
  x <= list_max x l /\ Forall (fun y => y <= list_max x l) l.
Proof.
  induction l as [|y l IH]; intros x; simpl.
  - repeat split; [auto|lia|constructor].
  - destruct (IH (Z.max x y)) as (Hin & Hle & Hall).
    split; [|split].
    + destruct Hin as [E|Hin]; [|auto]. rewrite E.
      destruct (Z.max_spec x y) as [[_ ->]|[_ ->]]; auto.
    + lia.
    + constructor; [lia|exact Hall].
Qed.

Lemma ship_times_spec id shipments : forall l,
  ship_times id shipments = Some l ->
  forall t, In t l <-> ships_at id shipments t.
Proof.
  unfold ships_at.
  induction shipments as [|s ss IH]; intros l H t; simpl in H.
  - inversion H; subst. split; [intros []|intros (s & [] & _)].
  - destruct (value_eqb (cell "enrollment_id" s) id) eqn:Eid.
    + apply value_eqb_eq in Eid.
      destruct (to_datetime (cell "ship_date" s)) as [[t0|]|] eqn:Et;
        [| |discriminate H];
        destruct (ship_times id ss) as [l0|] eqn:El; try discriminate H;
        specialize (IH l0 eq_refl t); inversion H; subst.
      * split.
        -- intros [<-|Hin]; [exists s; simpl; auto|].
           apply IH in Hin. destruct Hin as (s' & ? & ? & ?).
           exists s'. simpl. auto.
        -- intros (s' & [<-|Hin] & E1 & E2).
           ++ rewrite Et in E2. inversion E2. left; reflexivity.
           ++ right. apply IH. exists s'. auto.
      * split.
        -- intros Hin. apply IH in Hin. destruct Hin as (s' & ? & ? & ?).
           exists s'. simpl. auto.
        -- intros (s' & [<-|Hin] & E1 & E2).
           ++ rewrite Et in E2. discriminate E2.
           ++ apply IH. exists s'. auto.
    + assert (Hne : cell "enrollment_id" s <> id).
      { intros E. apply value_eqb_eq in E. congruence. }
      destruct (to_datetime (cell "ship_date" s)) as [o|]; [|discriminate H].
      destruct (ship_times id ss) as [l0|] eqn:El; [|discriminate H].
      specialize (IH l0 eq_refl t). inversion H; subst.
      split.
      * intros Hin. apply IH in Hin. destruct Hin as (s' & ? & ? & ?).
        exists s'. simpl. auto.
      * intros (s' & [<-|Hin] & E1 & E2); [contradiction|].
        apply IH. exists s'. auto.
Qed.

Lemma patient_date_range_spec id shipments first last :
  patient_date_range id shipments = Some (Some (first, last)) ->
  ship_date_range id shipments first last.
Proof.
  unfold patient_date_range.
  destruct (ship_times id shipments) as [[|t l]|] eqn:E; try discriminate.
  destruct id; try discriminate; intros H; inversion H; subst; clear H;
    pose proof (ship_times_spec _ _ _ E) as Hs;
    destruct (list_min_spec l t) as (Hmin_in & Hmin_le & Hmin_all);
    destruct (list_max_spec l t) as (Hmax_in & Hmax_le & Hmax_all);
    (split; [|split]);
    try (apply Hs; simpl; destruct Hmin_in as [->|?]; auto);
    try (apply Hs; simpl; destruct Hmax_in as [->|?]; auto);
    (intros t0 Ht0; apply Hs in Ht0; destruct Ht0 as [<-|Hin]; [lia|];
     rewrite Forall_forall in Hmin_all, Hmax_all;
     specialize (Hmin_all _ Hin); specialize (Hmax_all _ Hin); lia).
Qed.

(** *** Whole-column passes over the records *)

Lemma Forall_zip_with_l {A B C} (Q : A -> Prop) (Q' : C -> Prop)
      (f : A -> B -> C) (l : list A) (l' : list B) :
  (forall a b, Q a -> Q' (f a b)) -> Forall Q l -> Forall Q' (zip_with f l l').
Proof.
  intros Hf H. revert l'. induction H as [|a l Ha _ IH]; intros l'; simpl.
  - constructor.
  - destruct l'; constructor; auto.
Qed.

Lemma Forall_zip_with_r {A B C} (Q : B -> Prop) (Q' : C -> Prop)
      (f : A -> B -> C) (l : list A) (l' : list B) :
  (forall a b, Q b -> Q' (f a b)) -> Forall Q l' -> Forall Q' (zip_with f l l').
Proof.
  intros Hf H. revert l. induction H as [|b l' Hb _ IH]; intros l; simpl.
  - destruct l; constructor.
  - destruct l; constructor; auto.
Qed.

Lemma Forall_assign_where (Q : Row -> Prop) mask c vals rs :
  (forall r v, Q r -> Q (set_cell c v r)) ->
  Forall Q rs -> Forall Q (assign_where mask c vals rs).
Proof.
  intros Hset H. revert vals.
  induction H as [|r rs Hr _ IH]; intros vals; simpl; [constructor|].
  destruct (mask r); [destruct vals|]; constructor; auto.
Qed.

Lemma Forall_mapM {A B} (Q : A -> Prop) (Q' : B -> Prop) (f : A -> M B)
      l w l' w' :
  (forall a w1 b w2, Q a -> f a w1 = Some (b, w2) -> Q' b) ->
  Forall Q l -> mapM f l w = Some (l', w') -> Forall Q' l'.
Proof.
  intros Hf HQ H. apply mapM_inv in H.
  induction H as [|a b l l' (w1 & w2 & Hab) _ IH]; [constructor|].
  inversion HQ; subst. constructor; eauto.
Qed.

Lemma carries_set_cell P c v r :
  c <> "enrollment_id" -> c <> "claim_date_raw" ->
  carries P r -> carries P (set_cell c v r).
Proof.
  intros H1 H2 (x & raw & Hx & Hraw & HP). exists x, raw.
  rewrite !lookup_set_cell_other by congruence. auto.
Qed.

Lemma dated_set_cell P c v r :
  c <> "enrollment_id" -> c <> "claim_date" ->
  dated P r -> dated P (set_cell c v r).
Proof.
  intros H1 H2 (x & raw & Hx & Hraw & HP). exists x, raw.
  rewrite !lookup_set_cell_other by congruence. auto.
Qed.

Lemma lookup_select_cells c cs r :
  In c cs -> lookup c (select_cells cs r) = Some (cell c r).
Proof.
  unfold select_cells. induction cs as [|k cs IH]; intros Hin; [destruct Hin|].
  simpl. destruct (String.eqb_spec k c) as [->|Hne]; [reflexivity|].
  destruct Hin as [E|Hin]; [congruence|auto].
Qed.

Lemma np_uniform_inv low high n w l w' :
  np_uniform low high n w = Some (l, w') ->
  Forall (fun q => exists x, q = (low + (high - low) * unit_float x)%Q) l.
Proof.
  unfold np_uniform. intros H.
  eapply (repeatM_inv (fun q => exists x, q = (low + (high - low) * unit_float x)%Q));
    [|exact H].
  intros w0 a w0' Ha. inv_runs. eauto.
Qed.

(** The partial records of one patient carry the patient's id and a
    datetime inside the buffered range. *)
Lemma patient_claims_inv e range n w rs w' :
  (forall first last, range = Some (first, last) -> first <= last) ->
  patient_claims (e, range) n w = Some (rs, w') ->
  exists v first last,
    range = Some (first, last) /\ lookup "enrollment_id" e = Some v /\
    Forall (carries (fun x raw => x = v /\
                       first - 30 * day_us <= raw <= last + 30 * day_us)) rs.
Proof.
  intros Hord H. unfold patient_claims in H. inv_run H.
  apply of_option_inv in Hrun. destruct Hrun as [-> ->].
  destruct a as [first last]. specialize (Hord first last eq_refl).
  destruct (n <? 0); [discriminate H|].
  inv_run H. apply np_uniform_inv in Hrun. inv_runs.
  match goal with H : lookup "enrollment_id" e = Some ?v |- _ =>
    exists v, first, last end.
  split; [reflexivity|]. split; [assumption|].
  rewrite Forall_map, Forall_map.
  eapply Forall_impl; [|exact Hrun]. cbn beta.
  intros q (x & ->). eexists _, _. split; [reflexivity|].
  split; [reflexivity|]. split; [reflexivity|].
  pose proof (offset_within_range
                (last + 30 * day_us - (first - 30 * day_us)) x) as Hoff.
  unfold day_us in *. lia.
Qed.

Lemma shipped_patients_inv enrollments_df shipments_df w ps w' :
  shipped_patients enrollments_df shipments_df w = Some (ps, w') ->
  Forall (fun p => In (fst p) (rows enrollments_df) /\
                   patient_date_range (cell "enrollment_id" (fst p))
                     (rows shipments_df) = Some (snd p)) ps.
Proof.
  unfold shipped_patients. destruct (negb _); [discriminate|]. intros H.
  eapply (Forall_mapM (fun e => In e (rows enrollments_df))); [| |exact H].
  - intros e w1 p w2 He Hp. cbn beta in Hp. inv_runs. cbn [fst snd]. split; assumption.
  - apply Forall_forall. intros e He. apply filter_In in He. tauto.
Qed.

Lemma in_concat_Forall2 {A B} (R : A -> list B -> Prop) l ls b :
  Forall2 R l ls -> In b (List.concat ls) ->
  exists a bs, In a l /\ R a bs /\ In b bs.
Proof.
  induction 1 as [|a bs l ls Hab _ IH]; simpl; [intros []|].
  rewrite in_app_iff. intros [Hb|Hb].
  - exists a, bs. auto.
  - destruct (IH Hb) as (a' & bs' & ? & ? & ?). exists a', bs'. auto.
Qed.

Lemma cell_of_lookup c r v : lookup c r = Some v -> cell c r = v.
Proof. unfold cell. intros ->. reflexivity. Qed.

Lemma claim_arrays_carry enrollments_df shipments_df ps counts w arrays w' :
  Forall (fun p => In (fst p) (rows enrollments_df) /\
                   patient_date_range (cell "enrollment_id" (fst p))
                     (rows shipments_df) = Some (snd p)) ps ->
  claim_arrays ps counts w = Some (arrays, w') ->
  Forall (carries (claim_source enrollments_df shipments_df)) arrays.
Proof.
  intros Hps H. unfold claim_arrays in H. inv_run H. inv_run H.
  rename Hrun into H.
  apply mapM_inv in H. apply Forall_forall. intros r Hr.
  destruct (in_concat_Forall2 _ _ _ _ H Hr)
    as ([[e range] n] & rs & Hin & (w1 & w2 & Hpc) & Hrs).
  apply in_combine_l in Hin. rewrite Forall_forall in Hps.
  destruct (Hps _ Hin) as [He Hrange]. cbn [fst snd] in *.
  apply patient_claims_inv in Hpc.
  - destruct Hpc as (v & first & last & -> & Hv & Hall).
    rewrite Forall_forall in Hall.
    destruct (Hall _ Hrs) as (x & raw & Hx & Hraw & -> & Hb).
    rewrite (cell_of_lookup _ _ _ Hv) in Hrange.
    apply patient_date_range_spec in Hrange.
    exists v, raw. split; [exact Hx|]. split; [exact Hraw|].
    exists e, first, last. auto.
  - intros first last ->. apply patient_date_range_spec in Hrange.
    destruct Hrange as (Hf & _ & Hall). specialize (Hall _ Hf). lia.
Qed.

Ltac other_column := intros E; discriminate E.

Section Passes.

Variable P : value -> Z -> Prop.

Lemma claims_frame_carries arrays :
  Forall (carries P) arrays -> Forall (carries P) (claims_frame arrays).
Proof.
  intros H. unfold claims_frame.
  apply (Forall_zip_with_r (carries P) (carries P)); [|exact H].
  intros id r (v & raw & Hv & Hraw & HP). exists v, raw. auto.
Qed.

Lemma assign_claim_types_carries rs w rs' w' :
  Forall (carries P) rs -> assign_claim_types rs w = Some (rs', w') ->
  Forall (carries P) rs'.
Proof.
  intros H Hrun. unfold assign_claim_types in Hrun. inv_run Hrun. inv_run Hrun.
  apply (Forall_zip_with_l (carries P) (carries P)); [|exact H].
  intros r t Hr. apply carries_set_cell; [other_column|other_column|exact Hr].
Qed.

Lemma assign_procedure_codes_carries rs w rs' w' :
  Forall (carries P) rs -> assign_procedure_codes rs w = Some (rs', w') ->
  Forall (carries P) rs'.
Proof.
  intros H Hrun. unfold assign_procedure_codes in Hrun.
  inv_run Hrun. inv_run Hrun.
  apply Forall_map.
  apply (Forall_zip_with_l (carries P)); [|exact H].
  intros r code Hr.
  match goal with |- carries P (if ?b then _ else _) => destruct b end;
    repeat (apply carries_set_cell; [other_column|other_column|]); exact Hr.
Qed.

Lemma assign_claim_status_carries rs w rs' w' :
  Forall (carries P) rs -> assign_claim_status rs w = Some (rs', w') ->
  Forall (carries P) rs'.
Proof.
  intros H Hrun. unfold assign_claim_status in Hrun. inv_run Hrun. inv_run Hrun.
  apply (Forall_zip_with_l (carries P) (carries P)); [|exact H].
  intros r t Hr. apply carries_set_cell; [other_column|other_column|exact Hr].
Qed.

Lemma assign_amounts_carries mask c low high rs w rs' w' :
  c <> "enrollment_id" -> c <> "claim_date_raw" ->
  Forall (carries P) rs -> assign_amounts mask c low high rs w = Some (rs', w') ->
  Forall (carries P) rs'.
Proof.
  intros H1 H2 H Hrun. unfold assign_amounts in Hrun. inv_run Hrun. inv_run Hrun.
  apply Forall_assign_where; [|exact H].
  intros r v. apply carries_set_cell; assumption.
Qed.

Lemma Forall_map_keep {A} (Q : A -> Prop) (f : A -> A) l :
  (forall a, Q a -> Q (f a)) -> Forall Q l -> Forall Q (map f l).
Proof. intros Hf H. apply Forall_map. eapply Forall_impl; eauto. Qed.

Lemma keep_unless_zero_carries c r :
  c <> "enrollment_id" -> c <> "claim_date_raw" -> carries P r ->
  carries P (if value_eqb (cell c r) (VDec 0) then set_cell c VNone r else r).
Proof.
  intros H1 H2 Hr. destruct (value_eqb _ _); [|exact Hr].
  apply carries_set_cell; assumption.
Qed.

Lemma assign_paid_amounts_carries rs w rs' w' :
  Forall (carries P) rs -> assign_paid_amounts rs w = Some (rs', w') ->
  Forall (carries P) rs'.
Proof.
  intros H Hrun. unfold assign_paid_amounts in Hrun.
  apply bind_inv in Hrun. destruct Hrun as (rs1 & w1 & H1 & Hrun).
  apply bind_inv in Hrun. destruct Hrun as (rs2 & w2 & H2 & Hrun).
  apply bind_inv in Hrun. destruct Hrun as (rs3 & w3 & H3 & Hrun).
  apply bind_inv in Hrun. destruct Hrun as (rs4 & w4 & H4 & Hrun).
  apply ret_inv in Hrun. destruct Hrun as [-> _].
  assert (H0 : Forall (carries P)
                 (map (fun r => set_cell "patient_paid" (VDec 0)
                                  (set_cell "paid_amount" (VDec 0) r)) rs)).
  { apply Forall_map_keep; [|exact H]. intros r Hr.
    apply carries_set_cell; [other_column|other_column|].
    apply carries_set_cell; [other_column|other_column|exact Hr]. }
  apply (assign_amounts_carries _ _ _ _ _ _ _ _) in H1;
    [|other_column|other_column|exact H0].
  apply (assign_amounts_carries _ _ _ _ _ _ _ _) in H2;
    [|other_column|other_column|exact H1].
  apply (assign_amounts_carries _ _ _ _ _ _ _ _) in H3;
    [|other_column|other_column|exact H2].
  apply (assign_amounts_carries _ _ _ _ _ _ _ _) in H4;
    [|other_column|other_column|exact H3].
  apply Forall_map_keep;
    [intros r Hr; apply keep_unless_zero_carries;
     [other_column|other_column|exact Hr]|].
  apply Forall_map_keep;
    [intros r Hr; apply keep_unless_zero_carries;
     [other_column|other_column|exact Hr]|].
  exact H4.
Qed.

Lemma lookup_cell_ts c r t : cell c r = VTs t -> lookup c r = Some (VTs t).
Proof.
  unfold cell. destruct (lookup c r); [congruence|discriminate].
Qed.

Lemma format_claim_dates_dated rs w rs' w' :
  Forall (carries P) rs -> format_claim_dates rs w = Some (rs', w') ->
  Forall (dated P) rs'.
Proof.
  intros H Hrun. unfold format_claim_dates in Hrun.
  eapply Forall_mapM; [|exact H|exact Hrun].
  cbn beta. intros r w1 r' w2 (v & raw & Hv & Hraw & HP) Hr.
  inv_run Hr. apply as_ts_inv in Hrun0. destruct Hrun0 as [E _].
  inv_run Hr.
  rewrite (cell_of_lookup _ _ _ Hraw) in E. inversion E; subst.
  exists v, a. split; [|split; [|exact HP]].
  - rewrite !lookup_set_cell_other by discriminate. exact Hv.
  - rewrite lookup_set_cell_other by discriminate.
    apply lookup_set_cell_same.
Qed.

Lemma finish_claims_dated rs w df w' :
  Forall (dated P) rs -> finish_claims rs w = Some (df, w') ->
  columns df = claims_columns /\ Forall (dated P) (rows df).
Proof.
  intros H Hrun. unfold finish_claims in Hrun. inv_run Hrun. inv_run Hrun.
  split; [reflexivity|]. cbn [rows].
  apply Forall_map. apply Forall_map.
  eapply Forall_impl; [|exact H]. cbn beta.
  intros r (v & raw & Hv & Hd & HP). exists v, raw.
  rewrite !lookup_select_cells by (simpl; tauto).
  unfold cell. rewrite !lookup_set_cell_other by discriminate.
  rewrite Hv, Hd. auto.
Qed.

End Passes.

Lemma generate_claims_raw_dated np_seed enrollments_df shipments_df config w df w' :
  generate_claims_raw np_seed enrollments_df shipments_df config w = Some (df, w') ->
  columns df = claims_columns /\
  Forall (dated (claim_source enrollments_df shipments_df)) (rows df).
Proof.
  unfold generate_claims_raw. intros H.
  do 10 inv_run H.
  match goal with Hs : shipped_patients _ _ _ = Some _ |- _ =>
    apply shipped_patients_inv in Hs; rename Hs into Hps end.
  match goal with Ha : claim_arrays _ _ _ = Some _ |- _ =>
    apply (claim_arrays_carry _ _ _ _ _ _ _ Hps) in Ha; rename Ha into Hbase end.
  apply claims_frame_carries in Hbase.
  match goal with Ha : assign_claim_types _ _ = Some _ |- _ =>
    apply (assign_claim_types_carries _ _ _ _ _ Hbase) in Ha; rename Ha into H1 end.
  match goal with Ha : assign_procedure_codes _ _ = Some _ |- _ =>
    apply (assign_procedure_codes_carries _ _ _ _ _ H1) in Ha; rename Ha into H2 end.
  match goal with Ha : assign_claim_status _ _ = Some _ |- _ =>
    apply (assign_claim_status_carries _ _ _ _ _ H2) in Ha; rename Ha into H3 end.
  match goal with Ha : assign_paid_amounts _ _ = Some _ |- _ =>
    apply (assign_paid_amounts_carries _ _ _ _ _ H3) in Ha; rename Ha into H4 end.
  match goal with Ha : format_claim_dates _ _ = Some _ |- _ =>
    apply (format_claim_dates_dated _ _ _ _ _ H4) in Ha; rename Ha into H5 end.
  eapply finish_claims_dated; eauto.
Qed.

Lemma date_of_shift t k : date_of (t + k * day_us) = date_of t + k.
Proof. unfold date_of. apply Z.div_add. discriminate. Qed.

Lemma date_of_mono a b : a <= b -> date_of a <= date_of b.
Proof. intros H. unfold date_of. apply Z.div_le_mono; [reflexivity|exact H]. Qed.

Lemma dated_in_buffered_range enrollments_df shipments_df r :
  dated (claim_source enrollments_df shipments_df) r ->
  claim_in_buffered_range enrollments_df shipments_df r.
Proof.
  intros (v & raw & Hv & Hd & e & first & last & He & Hev & Hrange & Hlo & Hhi).
  exists e, first, last, (date_of raw).
  rewrite (cell_of_lookup _ _ _ Hv), (cell_of_lookup _ _ _ Hev),
          (cell_of_lookup _ _ _ Hd).
  split; [exact He|]. split; [reflexivity|]. split; [exact Hrange|].
  split; [reflexivity|]. split.
  - apply date_of_mono in Hlo.
    replace (first - 30 * day_us) with (first + (-30) * day_us) in Hlo by lia.
    rewrite date_of_shift in Hlo. lia.
  - apply date_of_mono in Hhi. rewrite date_of_shift in Hhi. exact Hhi.
Qed.

(** C1 (amended): every claim record that [generate_claims] builds belongs
    to an enrollment record with shipments and is dated between thirty days
    before that enrollment's earliest ship date and thirty days after its
    latest one.  This holds of the frame built before data-quality
    injection, hence of the returned frame when injection is off. *)
Theorem claim_dates_within_buffered_shipment_range
        np_seed enrollments_df shipments_df config w :
  (forall df w',
     generate_claims_raw np_seed enrollments_df shipments_df config w
       = Some (df, w') ->
     Forall (claim_in_buffered_range enrollments_df shipments_df) (rows df)) /\
  (injection_off config ->
   forall df w',
     generate_claims np_seed enrollments_df shipments_df config w
       = Some (df, w') ->
     Forall (claim_in_buffered_range enrollments_df shipments_df) (rows df)).
Proof.
  assert (Hraw : forall df w',
     generate_claims_raw np_seed enrollments_df shipments_df config w
       = Some (df, w') ->
     Forall (claim_in_buffered_range enrollments_df shipments_df) (rows df)).
  { intros df w' H. apply generate_claims_raw_dated in H. destruct H as [_ H].
    eapply Forall_impl; [|exact H]. apply dated_in_buffered_range. }
  split; [exact Hraw|].
  intros Hoff df w' H. unfold generate_claims in H. inv_run H.
  rewrite (inject_off _ _ _ _ Hoff) in H. inv_run H. eapply Hraw; eauto.
Qed.

Lemma claim_dates_within_buffered_shipment_range_witness :
  exists df w',
    generate_claims Sample.seed Sample.enrollments_df Sample.shipments_df
      (Sample.config false) Sample.world = Some (df, w') /\
    Forall (claim_in_buffered_range Sample.enrollments_df Sample.shipments_df)
           (rows df).
Proof.
  destruct (generate_claims Sample.seed Sample.enrollments_df
              Sample.shipments_df (Sample.config false) Sample.world)
    as [[df w']|] eqn:E.
  - exists df, w'. split; [reflexivity|].
    apply (proj2 (claim_dates_within_buffered_shipment_range Sample.seed
                    Sample.enrollments_df Sample.shipments_df
                    (Sample.config false) Sample.world) eq_refl df w' E).
  - apply (f_equal (option_map fst)) in E. vm_compute in E. discriminate E.
Defined.

Lemma sample_ship_date_range :
  ship_date_range (VStr "PSP-2024-000001") (rows Sample.shipments_df)
                  (19800 * day_us) (19800 * day_us).
Proof.
  assert (Hat : ships_at (VStr "PSP-2024-000001") (rows Sample.shipments_df)
                         (19800 * day_us)).
  { eexists. split; [left; reflexivity|]. split; reflexivity. }
  split; [exact Hat|]. split; [exact Hat|].
  intros t (s & [<-|[]] & _ & Ht). vm_compute in Ht. inversion Ht. vm_compute.
  split; discriminate.
Qed.

(** C1 as stated fails: with one shipment on day 19800 and a uniform offset
    drawn at zero, the only claim is dated day 19770, thirty days before
    the patient's earliest ship date. *)
Lemma claim_date_before_first_shipment :
  exists df w' r,
    generate_claims Sample.seed_one_claim Sample.enrollments_df
      Sample.shipments_df (Sample.config false) Sample.world = Some (df, w') /\
    In r (rows df) /\
    ~ claim_in_shipment_range Sample.shipments_df r.
Proof.
  destruct (generate_claims Sample.seed_one_claim Sample.enrollments_df
              Sample.shipments_df (Sample.config false) Sample.world)
    as [[df w']|] eqn:E.
  - pose proof (f_equal (option_map fst) E) as Hdf.
    vm_compute in Hdf. inversion Hdf as [Hdf']. clear Hdf.
    eexists _, w', _. split; [reflexivity|]. split; [left; reflexivity|].
    intros Hin.
    destruct (Hin _ _ sample_ship_date_range) as (d & Hd & Hlo & _).
    vm_compute in Hd. inversion Hd; subst d. vm_compute in Hlo.
    apply Hlo. reflexivity.
  - apply (f_equal (option_map fst)) in E. vm_compute in E. discriminate E.
Qed.

(* ===================================================================== *)
(** ** Referential integrity of the enrollment ids *)
(* ===================================================================== *)

Lemma ids_copied_ids_from parent child :
  ids_copied (rows parent) (rows child) -> ids_from parent child.
Proof.
  intros H r Hr _. unfold ids_copied in H. rewrite Forall_forall in H.
  destruct (H r Hr) as (e & He & E). exists e. split; [exact He|].
  unfold cell. now rewrite E.
Qed.

Lemma ids_copied_trans a b c :
  ids_copied a b -> ids_copied b c -> ids_copied a c.
Proof.
  unfold ids_copied. rewrite !Forall_forall. intros Hab Hbc r Hr.
  destruct (Hbc r Hr) as (e & He & E). destruct (Hab e He) as (e' & He' & E').
  exists e'. split; [exact He'|congruence].
Qed.

Lemma ids_copied_refl a : ids_copied a a.
Proof. apply Forall_forall. intros r Hr. exists r. auto. Qed.

(** Injection keeps the ids: it copies records and touches listed columns
    only. *)
Lemma inject_ids_copied df config date_columns nullable_columns w df' w' :
  ~ In "enrollment_id" (nullable_columns ++ date_columns) ->
  inject_data_quality_issues df config date_columns nullable_columns w
    = Some (df', w') ->
  ids_copied (rows df) (rows df').
Proof.
  intros Hcol H.
  destruct (get_default (inject_issues config) false) eqn:Eflag.
  - destruct (inject_on_spec df config date_columns nullable_columns w Eflag)
      as (dups & df2 & w2 & Hrun & _ & Hin & _ & Hd).
    rewrite Hrun in H. inversion H; subst. clear H.
    cbn [df_concat rows] in Hd.
    assert (Hsrc : Forall (fun r => In r (rows df)) (rows df ++ dups)).
    { apply Forall_app. split; [apply Forall_forall; auto|exact Hin]. }
    unfold ids_copied. revert Hsrc.
    induction Hd as [|r r' l l' Hrr _ IH]; intros Hsrc; [constructor|].
    inversion Hsrc; subst. constructor; [|apply IH; assumption].
    exists r. split; [assumption|]. apply Hrr. exact Hcol.
  - rewrite (inject_off _ _ _ _ Eflag) in H. inversion H; subst.
    apply ids_copied_refl.
Qed.

Lemma take_rows_In idx rs r : In r (take_rows idx rs) -> In r rs.
Proof.
  unfold take_rows. rewrite in_flat_map. intros (i & _ & Hr).
  destruct (nth_error rs (Z.to_nat i)) eqn:E; [|destruct Hr].
  destruct Hr as [<-|[]]. eapply nth_error_In; eauto.
Qed.

Lemma foldM_inv {A B} (I : B -> Prop) (f : B -> A -> M B) (l : list A) :
  (forall a b w b' w', In a l -> I b -> f b a w = Some (b', w') -> I b') ->
  forall b w b' w', I b -> foldM f l b w = Some (b', w') -> I b'.
Proof.
  induction l as [|a l IH]; intros Hf b w b' w' Hb H; simpl in H.
  - inv_run H. exact Hb.
  - inv_run H. eapply IH; [| |exact H].
    + intros; eapply Hf; eauto. right; assumption.
    + eapply Hf; eauto. left; reflexivity.
Qed.

(** *** Cases *)

Lemma generate_cases_ids py_seed np_seed enrollments_df config w df w' :
  generate_cases_raw py_seed np_seed enrollments_df config w = Some (df, w') ->
  ids_copied (rows enrollments_df) (rows df).
Proof.
  unfold generate_cases_raw. intros H. inv_runs.
  match goal with H : mapM _ _ _ = Some _ |- _ =>
    apply mapM_inv in H; rename H into HF end.
  cbn [rows df_of_records]. unfold ids_copied.
  induction HF as [|e c l l' (wa & wb & Hc) _ IH]; [constructor|].
  constructor.
  - apply case_record_inv in Hc. destruct Hc as (E & _).
    exists e. split; [left; reflexivity|exact E].
  - eapply Forall_impl; [|exact IH]. cbn beta.
    intros r (e' & He' & E). exists e'. split; [right; exact He'|exact E].
Qed.

(** *** Shipments *)

Lemma refill_loop_ids config enrollment opts wts ndc nm remaining :
  forall refill_num ship_date counter w rs counter' w',
    refill_loop config enrollment opts wts ndc nm remaining refill_num
                ship_date counter w = Some ((rs, counter'), w') ->
    Forall (fun r => lookup "enrollment_id" r = lookup "enrollment_id" enrollment)
           rs.
Proof.
  induction remaining as [|k IH];
    intros refill_num ship_date counter w rs counter' w' H;
    cbn [refill_loop] in H.
  - inv_run H. inversion H; subst. constructor.
  - do 5 inv_run H.
    apply bind_inv in H. destruct H as (idv & w5 & Hid & H).
    apply getcol_inv in Hid. destruct Hid as [Hid ->].
    do 6 inv_run H.
    destruct (end_date _ <? _).
    + inv_run H. inversion H; subst. constructor; [|constructor].
      cbn [lookup String.eqb Ascii.eqb Bool.eqb]. symmetry; exact Hid.
    + apply bind_inv in H. destruct H as ([rest c'] & w12 & Hrest & H).
      inv_run H. inversion H; subst.
      constructor.
      * cbn [lookup String.eqb Ascii.eqb Bool.eqb]. symmetry; exact Hid.
      * eapply IH; eauto.
Qed.

Lemma patient_shipments_ids config opts wts acc enrollment w acc' w' :
  patient_shipments config opts wts acc enrollment w = Some (acc', w') ->
  exists new,
    fst acc' = (fst acc ++ new)%list /\
    Forall (fun r => lookup "enrollment_id" r = lookup "enrollment_id" enrollment)
           new.
Proof.
  unfold patient_shipments. destruct acc as [shipments counter]. intros H.
  do 6 inv_run H.
  apply bind_inv in H. destruct H as ([new c'] & w7 & Hloop & H).
  inv_run H. exists new. split; [reflexivity|].
  eapply refill_loop_ids; eauto.
Qed.

Lemma sample_frac_subset np_seed frac seed df w rs w' :
  sample_frac np_seed frac seed df w = Some (rs, w') ->
  forall r, In r rs -> In r (rows df).
Proof.
  unfold sample_frac. destruct (_ || _); [discriminate|]. intros H.
  inv_run H. inv_run H. intros r. apply take_rows_In.
Qed.

Lemma generate_shipments_ids py_seed np_seed enrollments_df config w df w' :
  generate_shipments_raw py_seed np_seed enrollments_df config w
    = Some (df, w') ->
  ids_copied (rows enrollments_df) (rows df).
Proof.
  unfold generate_shipments_raw. intros H. do 3 inv_run H.
  pose proof (sample_frac_subset _ _ _ _ _ _ _ Hrun1) as Hsub.
  apply bind_inv in H. destruct H as ([shipments c] & w3 & Hfold & H).
  inv_run H. cbn [rows df_of_records].
  change shipments with (fst (shipments, c)).
  eapply (foldM_inv (fun acc => ids_copied (rows enrollments_df) (fst acc)));
    [| |exact Hfold].
  - intros e acc w4 acc' w5 He Hacc Hstep.
    apply patient_shipments_ids in Hstep. destruct Hstep as (new & -> & Hnew).
    apply Forall_app. split; [exact Hacc|].
    eapply Forall_impl; [|exact Hnew]. cbn beta. intros r Hr.
    exists e. split; [apply Hsub; exact He|exact Hr].
  - constructor.
Qed.

(** *** Claims *)

Lemma generate_claims_ids np_seed enrollments_df shipments_df config w df w' :
  generate_claims_raw np_seed enrollments_df shipments_df config w
    = Some (df, w') ->
  ids_copied (rows enrollments_df) (rows df).
Proof.
  intros H. apply generate_claims_raw_dated in H. destruct H as [_ H].
  eapply Forall_impl; [|exact H]. cbn beta.
  intros r (v & raw & Hv & _ & e & first & last & He & Hev & _).
  exists e. split; [exact He|congruence].
Qed.

Ltac not_listed :=
  cbn; intros Hl; repeat (destruct Hl as [Hl|Hl]; [discriminate Hl|]); exact Hl.

(** C7: every enrollment id that is not missing in the cases, shipments and
    claims tables is the enrollment id of a record of the enrollments table
    the generator was given, which in the pipeline is the table generated
    earlier; data-quality injection is included, as it copies records and
    never writes to [enrollment_id]. *)
Theorem enrollment_ids_come_from_enrollments py_seed np_seed sha256_hex :
  (forall enrollments_df config w df w',
     generate_cases py_seed np_seed enrollments_df config w = Some (df, w') ->
     ids_from enrollments_df df) /\
  (forall enrollments_df config w df w',
     generate_shipments py_seed np_seed enrollments_df config w
       = Some (df, w') ->
     ids_from enrollments_df df) /\
  (forall enrollments_df shipments_df config w df w',
     generate_claims np_seed enrollments_df shipments_df config w
       = Some (df, w') ->
     ids_from enrollments_df df) /\
  (forall config w t w',
     generate_all py_seed np_seed sha256_hex config w = Some (t, w') ->
     ids_from (t_enrollments t) (t_cases t) /\
     ids_from (t_enrollments t) (t_shipments t) /\
     ids_from (t_enrollments t) (t_claims t)).
Proof.
  assert (Hcases : forall enrollments_df config w df w',
     generate_cases py_seed np_seed enrollments_df config w = Some (df, w') ->
     ids_from enrollments_df df).
  { intros enr config w df w' H. unfold generate_cases in H. inv_run H.
    apply ids_copied_ids_from. eapply ids_copied_trans.
    - eapply generate_cases_ids; eauto.
    - eapply inject_ids_copied; [|exact H]. not_listed. }
  assert (Hships : forall enrollments_df config w df w',
     generate_shipments py_seed np_seed enrollments_df config w
       = Some (df, w') ->
     ids_from enrollments_df df).
  { intros enr config w df w' H. unfold generate_shipments in H. inv_run H.
    apply ids_copied_ids_from. eapply ids_copied_trans.
    - eapply generate_shipments_ids; eauto.
    - eapply inject_ids_copied; [|exact H]. not_listed. }
  assert (Hclaims : forall enrollments_df shipments_df config w df w',
     generate_claims np_seed enrollments_df shipments_df config w
       = Some (df, w') ->
     ids_from enrollments_df df).
  { intros enr ship config w df w' H. unfold generate_claims in H. inv_run H.
    apply ids_copied_ids_from. eapply ids_copied_trans.
    - eapply generate_claims_ids; eauto.
    - eapply inject_ids_copied; [|exact H]. not_listed. }
  split; [exact Hcases|]. split; [exact Hships|]. split; [exact Hclaims|].
  intros config w t w' H. unfold generate_all in H.
  do 5 inv_run H. inv_run H. cbn [t_enrollments t_cases t_shipments t_claims].
  split; [eapply Hcases; eassumption|].
  split; [eapply Hships; eassumption|eapply Hclaims; eassumption].
Qed.

Lemma enrollment_ids_come_from_enrollments_witness :
  exists t w',
    generate_all Sample.seed Sample.seed Sample.digest (Sample.config true)
      Sample.world = Some (t, w') /\
    ids_from (t_enrollments t) (t_cases t) /\
    ids_from (t_enrollments t) (t_shipments t) /\
    ids_from (t_enrollments t) (t_claims t).
Proof.
  destruct (generate_all Sample.seed Sample.seed Sample.digest
              (Sample.config true) Sample.world) as [[t w']|] eqn:E.
  - exists t, w'. split; [reflexivity|].
    apply (proj2 (proj2 (proj2 (enrollment_ids_come_from_enrollments
                                  Sample.seed Sample.seed Sample.digest)))
             (Sample.config true) Sample.world t w' E).
  - apply (f_equal (option_map fst)) in E. vm_compute in E. discriminate E.
Defined.

(* ===================================================================== *)
(** ** Determinism: what two runs share *)
(* ===================================================================== *)

#[export] Instance Blind_rng_eq : Blind rng_eq.
Proof.
  split; unfold rng_eq; cbn; intros w1 w2 [Hp Hn].
  - rewrite Hn. auto.
  - auto.
Qed.

#[export] Instance Blind_np_eq : Blind np_eq.
Proof.
  split; unfold np_eq; cbn; intros w1 w2 Hn.
  - rewrite Hn. auto.
  - auto.
Qed.

Section Sim.

Context {W : World -> World -> Prop}.

Lemma sim_ret {A} (R : A -> A -> Prop) a b : R a b -> sim W R (ret a) (ret b).
Proof. intros H w1 w2 Hw. simpl. auto. Qed.

Lemma sim_fail {A} (R : A -> A -> Prop) : sim W R fail fail.
Proof. intros w1 w2 Hw. exact I. Qed.

Lemma sim_bind {A B} (Q : A -> A -> Prop) (R : B -> B -> Prop)
      (m1 m2 : M A) (k1 k2 : A -> M B) :
  sim W Q m1 m2 -> (forall a b, Q a b -> sim W R (k1 a) (k2 b)) ->
  sim W R (bind m1 k1) (bind m2 k2).
Proof.
  intros Hm Hk w1 w2 Hw. unfold bind. specialize (Hm w1 w2 Hw).
  destruct (m1 w1) as [[a1 w1']|], (m2 w2) as [[a2 w2']|]; try contradiction;
    [|exact I].
  destruct Hm as [Ha Hw']. apply (Hk a1 a2 Ha w1' w2' Hw').
Qed.

Lemma sim_weaken {A} (R R' : A -> A -> Prop) m1 m2 :
  (forall a b, R a b -> R' a b) -> sim W R m1 m2 -> sim W R' m1 m2.
Proof.
  intros HR H w1 w2 Hw. specialize (H w1 w2 Hw).
  destruct (m1 w1) as [[a1 w1']|], (m2 w2) as [[a2 w2']|]; try contradiction;
    [|exact I].
  destruct H. auto.
Qed.

Lemma sim_of_option {A} (o : option A) : sim W eq (of_option o) (of_option o).
Proof. destruct o; [apply sim_ret; reflexivity|apply sim_fail]. Qed.

Lemma sim_getcol c r : sim W eq (getcol c r) (getcol c r).
Proof. apply sim_of_option. Qed.

Lemma sim_as_ts v : sim W eq (as_ts v) (as_ts v).
Proof. destruct v; first [apply sim_ret; reflexivity|apply sim_fail]. Qed.

Lemma sim_as_str v : sim W eq (as_str v) (as_str v).
Proof. destruct v; first [apply sim_ret; reflexivity|apply sim_fail]. Qed.

Lemma sim_split_part s i : sim W eq (split_part s i) (split_part s i).
Proof. apply sim_of_option. Qed.

Lemma sim_scale_config config : sim W eq (scale_config config) (scale_config config).
Proof. apply sim_of_option. Qed.

Lemma sim_mapM {A B} (Q : A -> A -> Prop) (R : B -> B -> Prop)
      (f1 f2 : A -> M B) l1 l2 :
  (forall a b, Q a b -> sim W R (f1 a) (f2 b)) -> Forall2 Q l1 l2 ->
  sim W (Forall2 R) (mapM f1 l1) (mapM f2 l2).
Proof.
  intros Hf H. induction H as [|a b l1 l2 Hab _ IH]; simpl.
  - apply sim_ret. constructor.
  - eapply sim_bind; [apply Hf; exact Hab|]. intros x y Hxy.
    eapply sim_bind; [exact IH|]. intros xs ys Hxs.
    apply sim_ret. constructor; assumption.
Qed.

Lemma sim_foldM {A B} (Q : A -> A -> Prop) (R : B -> B -> Prop)
      (f1 f2 : B -> A -> M B) l1 l2 :
  (forall x y a b, R x y -> Q a b -> sim W R (f1 x a) (f2 y b)) ->
  Forall2 Q l1 l2 ->
  forall x y, R x y -> sim W R (foldM f1 l1 x) (foldM f2 l2 y).
Proof.
  intros Hf H. induction H as [|a b l1 l2 Hab _ IH]; intros x y Hxy; simpl.
  - apply sim_ret. exact Hxy.
  - eapply sim_bind; [apply Hf; eassumption|]. intros x' y' Hxy'.
    apply IH. exact Hxy'.
Qed.

Lemma sim_repeatM {A} (m : M A) n :
  sim W eq m m -> sim W eq (repeatM n m) (repeatM n m).
Proof.
  intros Hm. induction n as [|n IH]; simpl.
  - apply sim_ret. reflexivity.
  - eapply sim_bind; [exact Hm|]. intros a ? <-.
    eapply sim_bind; [exact IH|]. intros l ? <-.
    apply sim_ret. reflexivity.
Qed.

Context `{HB : Blind W}.

Lemma sim_np_raw : sim W eq np_raw np_raw.
Proof.
  intros w1 w2 Hw. unfold np_raw. destruct (blind_np w1 w2 Hw) as [E Hw'].
  split; [now rewrite E|exact Hw'].
Qed.

Lemma sim_now : sim W (fun _ _ => True) now now.
Proof.
  intros w1 w2 Hw. unfold now. split; [exact I|]. apply blind_now. exact Hw.
Qed.

End Sim.

Lemma sim_py_raw : sim rng_eq eq py_raw py_raw.
Proof.
  intros w1 w2 [Hp Hn]. unfold py_raw, rng_eq. cbn. rewrite Hp, Hn. auto.
Qed.

Lemma Forall2_eq_refl {A} (l : list A) : Forall2 eq l l.
Proof. induction l; constructor; auto. Qed.

(** Steps through two runs of the same code: a bind on the clock leaves the
    two readings unrelated, any other bind hands the same value to both
    continuations; a leaf is closed by [leaf]. *)
Ltac sim_go leaf :=
  repeat (cbn beta;
    lazymatch goal with
    | |- sim _ _ (bind now _) (bind now _) =>
        eapply sim_bind; [apply sim_now|intros ? ? _]
    | |- sim _ _ (bind ?m _) (bind ?m _) =>
        eapply (sim_bind eq); [solve [leaf]|intros ? ? <-]
    | |- sim _ _ (if ?c then _ else _) (if ?c then _ else _) => destruct c
    | |- sim _ _ (match ?x with (_, _) => _ end)
                 (match ?x with (_, _) => _ end) => destruct x
    | |- sim _ _ (match ?x with [] => _ | _ :: _ => _ end)
                 (match ?x with [] => _ | _ :: _ => _ end) => destruct x
    | |- sim _ _ fail fail => apply sim_fail
    end).

Create HintDb sim discriminated.
#[export] Hint Resolve sim_of_option sim_getcol sim_as_ts sim_as_str
  sim_split_part sim_scale_config sim_np_raw sim_py_raw : sim.

(** Closes [sim W eq m m] for code that never reads the clock. *)
Ltac sim_blind :=
  sim_go ltac:(sim_blind);
  first [ apply sim_ret; reflexivity | solve [auto with sim] ].

Lemma sim_randint a b : sim rng_eq eq (randint a b) (randint a b).
Proof. unfold randint. sim_blind. Qed.

Lemma sim_random_random : sim rng_eq eq random_random random_random.
Proof. unfold random_random. sim_blind. Qed.

Lemma sim_uniform a b : sim rng_eq eq (uniform a b) (uniform a b).
Proof. unfold uniform. eapply (sim_bind eq); [apply sim_random_random|].
  intros ? ? <-. apply sim_ret. reflexivity. Qed.

Lemma sim_choice {A} (l : list A) : sim rng_eq eq (choice l) (choice l).
Proof. unfold choice. destruct l; [apply sim_fail|]. sim_blind. Qed.

Lemma sim_choices {A} (p : list A) ws : sim rng_eq eq (choices p ws) (choices p ws).
Proof.
  unfold choices. destruct (negb _); [apply sim_fail|].
  destruct p; [apply sim_fail|]. destruct (Qle_bool _ _); [apply sim_fail|].
  eapply (sim_bind eq); [apply sim_random_random|]. intros ? ? <-.
  apply sim_of_option.
Qed.

Lemma sim_weighted_choice {A} (p : list A) ws :
  sim rng_eq eq (weighted_choice p ws) (weighted_choice p ws).
Proof. apply sim_choices. Qed.

#[export] Hint Resolve sim_randint sim_random_random sim_uniform sim_choice
  sim_choices sim_weighted_choice : sim.

Section NumpySim.

Context {W : World -> World -> Prop} `{HB : Blind W}.

Lemma sim_np_randint low high n :
  sim W eq (np_randint low high n) (np_randint low high n).
Proof.
  unfold np_randint. destruct (low <? high); [|apply sim_fail].
  apply sim_repeatM. unfold np_randint1.
  eapply (sim_bind eq); [apply sim_np_raw|]. intros ? ? <-.
  apply sim_ret. reflexivity.
Qed.

Lemma sim_np_uniform low high n :
  sim W eq (np_uniform low high n) (np_uniform low high n).
Proof.
  unfold np_uniform. apply sim_repeatM.
  eapply (sim_bind eq); [apply sim_np_raw|]. intros ? ? <-.
  apply sim_ret. reflexivity.
Qed.

Lemma sim_np_choice_p {A} (a : list A) p n :
  sim W eq (np_choice_p a p n) (np_choice_p a p n).
Proof.
  unfold np_choice_p. destruct (negb _); [apply sim_fail|].
  apply sim_repeatM.
  eapply (sim_bind eq); [apply sim_np_raw|]. intros ? ? <-.
  apply sim_of_option.
Qed.

Lemma sim_np_choice {A} (a : list A) n :
  sim W eq (np_choice a n) (np_choice a n).
Proof.
  unfold np_choice.
  assert (H : sim W eq
    (repeatM n (x <- np_raw;;
       of_option (nth_error a (Z.to_nat (x mod Z.of_nat (List.length a))))))
    (repeatM n (x <- np_raw;;
       of_option (nth_error a (Z.to_nat (x mod Z.of_nat (List.length a))))))).
  { apply sim_repeatM.
    eapply (sim_bind eq); [apply sim_np_raw|]. intros ? ? <-.
    apply sim_of_option. }
  destruct a; [destruct n; [exact H|apply sim_fail]|exact H].
Qed.

Lemma sim_np_choice_distinct k : forall pool,
  sim W eq (np_choice_distinct k pool) (np_choice_distinct k pool).
Proof.
  induction k as [|k IH]; intros pool; simpl.
  - apply sim_ret. reflexivity.
  - destruct pool; [apply sim_fail|].
    eapply (sim_bind eq); [apply sim_np_raw|]. intros ? ? <-.
    eapply (sim_bind eq); [apply IH|]. intros ? ? <-.
    apply sim_ret. reflexivity.
Qed.

Lemma sim_np_amounts low high k :
  sim W eq (np_amounts low high k) (np_amounts low high k).
Proof.
  unfold np_amounts. eapply (sim_bind eq); [apply sim_np_uniform|].
  intros ? ? <-. apply sim_ret. reflexivity.
Qed.

End NumpySim.

#[export] Hint Resolve sim_np_randint sim_np_uniform sim_np_choice_p
  sim_np_choice sim_np_choice_distinct sim_np_amounts : sim.

Lemma Forall2_eq_eq {A} (l1 l2 : list A) : Forall2 eq l1 l2 -> l1 = l2.
Proof. induction 1; congruence. Qed.

Lemma map_fst_drop_cell c r :
  map fst (drop_cell c r)
  = filter (fun k => negb (String.eqb k c)) (map fst r).
Proof.
  unfold drop_cell. induction r as [|[k v] r IH]; simpl; [reflexivity|].
  destruct (negb (String.eqb k c)); simpl; now rewrite IH.
Qed.

Lemma map_drop_cell_same c rs1 rs2 :
  Forall2 (same_but c) rs1 rs2 ->
  map (drop_cell c) rs1 = map (drop_cell c) rs2.
Proof. induction 1 as [|r1 r2 l1 l2 H _ IH]; simpl; [reflexivity|]. now rewrite H, IH. Qed.

Lemma df_of_records_same_but c rs1 rs2 :
  Forall2 (same_but c) rs1 rs2 ->
  frames_same_but c (df_of_records rs1) (df_of_records rs2).
Proof.
  intros H. unfold frames_same_but, df_drop, df_of_records. cbn [columns rows].
  rewrite (map_drop_cell_same _ _ _ H). f_equal.
  destruct H as [|r1 r2 l1 l2 Hr _]; [reflexivity|].
  rewrite <- !map_fst_drop_cell. now rewrite Hr.
Qed.

Lemma Forall2_same_but_refl c rs : Forall2 (same_but c) rs rs.
Proof. induction rs; constructor; [reflexivity|assumption]. Qed.

Lemma Forall2_concat {A} (R : A -> A -> Prop) ls1 ls2 :
  Forall2 (Forall2 R) ls1 ls2 -> Forall2 R (List.concat ls1) (List.concat ls2).
Proof.
  induction 1 as [|l1 l2 ls1 ls2 H _ IH]; simpl; [constructor|].
  apply Forall2_app; assumption.
Qed.

Section SimMore.

Context {W : World -> World -> Prop}.

Lemma sim_mapM_eq {A B} (f : A -> M B) l :
  (forall a, sim W eq (f a) (f a)) -> sim W eq (mapM f l) (mapM f l).
Proof.
  intros Hf. eapply sim_weaken; [apply Forall2_eq_eq|].
  apply (sim_mapM eq eq); [intros a ? <-; apply Hf|apply Forall2_eq_refl].
Qed.

Lemma sim_mapM_same {A B} (R : B -> B -> Prop) (f : A -> M B) l :
  (forall a, sim W R (f a) (f a)) -> sim W (Forall2 R) (mapM f l) (mapM f l).
Proof.
  intros Hf.
  apply (sim_mapM eq R); [intros a ? <-; apply Hf|apply Forall2_eq_refl].
Qed.

End SimMore.

(** Seeding both generators relates any two worlds. *)
Lemma sim_seeded {A} py_seed np_seed s (R : A -> A -> Prop) (k1 k2 : M A) :
  sim rng_eq R k1 k2 ->
  sim (fun _ _ => True) R
      (random_seed_set py_seed s ;;; np_random_seed_set np_seed s ;;; k1)
      (random_seed_set py_seed s ;;; np_random_seed_set np_seed s ;;; k2).
Proof.
  intros Hk w1 w2 _. unfold bind, random_seed_set, np_random_seed_set.
  cbn [py_rng np_rng wall].
  specialize (Hk (mkWorld (py_seed s) (np_seed s) (wall w1))
                 (mkWorld (py_seed s) (np_seed s) (wall w2))
                 (conj eq_refl eq_refl)).
  destruct (k1 _) as [[a1 w1']|], (k2 _) as [[a2 w2']|]; try contradiction;
    [|exact I].
  split; [apply Hk|exact I].
Qed.

(** Seeding numpy alone relates the numpy states of any two worlds. *)
Lemma sim_np_seeded {A} np_seed s (R : A -> A -> Prop) (k1 k2 : M A) :
  sim np_eq R k1 k2 ->
  sim (fun _ _ => True) R
      (np_random_seed_set np_seed s ;;; k1)
      (np_random_seed_set np_seed s ;;; k2).
Proof.
  intros Hk w1 w2 _. unfold bind, np_random_seed_set.
  specialize (Hk (mkWorld (py_rng w1) (np_seed s) (wall w1))
                 (mkWorld (py_rng w2) (np_seed s) (wall w2)) eq_refl).
  destruct (k1 _) as [[a1 w1']|], (k2 _) as [[a2 w2']|]; try contradiction;
    [|exact I].
  split; [apply Hk|exact I].
Qed.

(** Two record literals that differ in their [created_at] cell only. *)
Ltac same_but_created_at :=
  unfold same_but, drop_cell;
  cbn [filter fst negb String.eqb Ascii.eqb Bool.eqb]; reflexivity.

(** *** Enrollments *)

Lemma sim_generate_npi : sim rng_eq eq generate_npi generate_npi.
Proof. unfold generate_npi. sim_blind. Qed.

Lemma sim_random_date_between a b :
  sim rng_eq eq (random_date_between a b) (random_date_between a b).
Proof. unfold random_date_between. sim_blind. Qed.

Lemma sim_generate_us_states_weighted :
  sim rng_eq eq generate_us_states_weighted generate_us_states_weighted.
Proof. unfold generate_us_states_weighted. apply sim_weighted_choice. Qed.

#[export] Hint Resolve sim_generate_npi sim_random_date_between
  sim_generate_us_states_weighted : sim.

Lemma sim_enrollment_record sha256_hex config s e i :
  sim rng_eq (same_but "created_at")
      (enrollment_record sha256_hex config s e i)
      (enrollment_record sha256_hex config s e i).
Proof.
  unfold enrollment_record. sim_go sim_blind. apply sim_ret. same_but_created_at.
Qed.

Lemma sim_generate_enrollments_raw py_seed np_seed sha256_hex config :
  sim (fun _ _ => True) (frames_same_but "created_at")
      (generate_enrollments_raw py_seed np_seed sha256_hex config)
      (generate_enrollments_raw py_seed np_seed sha256_hex config).
Proof.
  unfold generate_enrollments_raw.
  eapply (sim_bind eq); [apply sim_scale_config|]. intros scale ? <-.
  apply sim_seeded.
  eapply sim_bind; [apply sim_mapM_same; intros a; apply sim_enrollment_record|].
  intros rs1 rs2 Hrs. apply sim_ret. apply df_of_records_same_but. exact Hrs.
Qed.

(** *** Cases *)

Lemma sim_case_record e :
  sim rng_eq (same_but "created_at") (case_record e) (case_record e).
Proof.
  unfold case_record. sim_go sim_blind. apply sim_ret. same_but_created_at.
Qed.

Lemma sim_generate_cases_raw py_seed np_seed enrollments_df config :
  sim (fun _ _ => True) (frames_same_but "created_at")
      (generate_cases_raw py_seed np_seed enrollments_df config)
      (generate_cases_raw py_seed np_seed enrollments_df config).
Proof.
  unfold generate_cases_raw. apply sim_seeded.
  eapply sim_bind; [apply sim_mapM_same; intros a; apply sim_case_record|].
  intros rs1 rs2 Hrs. apply sim_ret. apply df_of_records_same_but. exact Hrs.
Qed.

(** *** Status history *)

Lemma sim_choose_path case : sim rng_eq eq (choose_path case) (choose_path case).
Proof. unfold choose_path. sim_blind. Qed.

Lemma sim_status_records case n path : forall i cur,
  sim rng_eq (Forall2 (same_but "created_at"))
      (status_records case n i path cur) (status_records case n i path cur).
Proof.
  induction path as [|status path IH]; intros i cur; cbn [status_records].
  - apply sim_ret. constructor.
  - sim_go sim_blind.
    eapply sim_bind; [apply IH|]. intros rs1 rs2 Hrs.
    apply sim_ret. constructor; [same_but_created_at|exact Hrs].
Qed.

Lemma sim_case_history case :
  sim rng_eq (Forall2 (same_but "created_at"))
      (case_history case) (case_history case).
Proof.
  unfold case_history.
  eapply (sim_bind eq); [apply sim_choose_path|]. intros path ? <-.
  eapply (sim_bind eq); [apply sim_getcol|]. intros v ? <-.
  eapply (sim_bind eq);
    [destruct v; first [apply sim_getcol|apply sim_ret; reflexivity]|].
  intros v' ? <-.
  eapply (sim_bind eq); [apply sim_as_ts|]. intros t ? <-.
  apply sim_status_records.
Qed.

Lemma sim_merge_enrollment_timing {W : World -> World -> Prop} c e :
  sim W eq (merge_enrollment_timing c e) (merge_enrollment_timing c e).
Proof.
  unfold merge_enrollment_timing.
  destruct (_ || _); [apply sim_fail|apply sim_ret; reflexivity].
Qed.

Lemma sim_generate_status_history_raw py_seed np_seed cases_df enrollments_df config :
  sim (fun _ _ => True) (frames_same_but "created_at")
      (generate_status_history_raw py_seed np_seed cases_df enrollments_df config)
      (generate_status_history_raw py_seed np_seed cases_df enrollments_df config).
Proof.
  unfold generate_status_history_raw. apply sim_seeded.
  eapply (sim_bind eq); [apply sim_merge_enrollment_timing|]. intros cs ? <-.
  eapply sim_bind; [apply sim_mapM_same; intros a; apply sim_case_history|].
  intros hs1 hs2 Hhs. apply sim_ret. apply df_of_records_same_but.
  apply Forall2_concat. exact Hhs.
Qed.

(** *** Shipments *)

Lemma sim_with_random_state {A} np_seed s (m : M A) :
  sim rng_eq eq m m ->
  sim rng_eq eq (with_random_state np_seed s m) (with_random_state np_seed s m).
Proof.
  intros Hm w1 w2 [Hp Hn]. unfold with_random_state.
  specialize (Hm (mkWorld (py_rng w1) (np_seed s) (wall w1))
                 (mkWorld (py_rng w2) (np_seed s) (wall w2))
                 (conj Hp eq_refl)).
  destruct (m _) as [[a1 w1']|], (m _) as [[a2 w2']|]; try contradiction;
    [|exact I].
  destruct Hm as [Ha [Hp' _]]. split; [exact Ha|]. split; [exact Hp'|exact Hn].
Qed.

Lemma sim_sample_frac np_seed frac s df :
  sim rng_eq eq (sample_frac np_seed frac s df) (sample_frac np_seed frac s df).
Proof.
  unfold sample_frac. destruct (_ || _); [apply sim_fail|].
  eapply (sim_bind eq);
    [apply sim_with_random_state; apply sim_np_choice_distinct|].
  intros ? ? <-. apply sim_ret. reflexivity.
Qed.

Lemma sim_refill_loop config enrollment opts wts ndc nm remaining :
  forall refill_num ship_date counter,
  sim rng_eq shipments_same
      (refill_loop config enrollment opts wts ndc nm remaining refill_num
                   ship_date counter)
      (refill_loop config enrollment opts wts ndc nm remaining refill_num
                   ship_date counter).
Proof.
  induction remaining as [|k IH]; intros refill_num ship_date counter;
    cbn [refill_loop].
  - apply sim_ret. split; [constructor|reflexivity].
  - sim_go sim_blind.
    + apply sim_ret. split; [|reflexivity].
      constructor; [same_but_created_at|constructor].
    + eapply sim_bind; [apply IH|]. intros [rs1 c1] [rs2 c2] [Hrs Hc].
      cbn [fst snd] in *. subst c2. apply sim_ret. split; [|reflexivity].
      constructor; [same_but_created_at|exact Hrs].
Qed.

Lemma sim_patient_shipments config opts wts acc1 acc2 enrollment :
  shipments_same acc1 acc2 ->
  sim rng_eq shipments_same
      (patient_shipments config opts wts acc1 enrollment)
      (patient_shipments config opts wts acc2 enrollment).
Proof.
  intros Hacc. unfold patient_shipments.
  destruct acc1 as [s1 c1], acc2 as [s2 c2]. destruct Hacc as [Hs Hc].
  cbn [fst snd] in *. subst c2.
  sim_go sim_blind.
  eapply sim_bind; [apply sim_refill_loop|].
  intros [rs1 n1] [rs2 n2] [Hrs Hn]. cbn [fst snd] in *. subst n2.
  apply sim_ret. split; [|reflexivity]. apply Forall2_app; assumption.
Qed.

Lemma sim_generate_shipments_raw py_seed np_seed enrollments_df config :
  sim (fun _ _ => True) (frames_same_but "created_at")
      (generate_shipments_raw py_seed np_seed enrollments_df config)
      (generate_shipments_raw py_seed np_seed enrollments_df config).
Proof.
  unfold generate_shipments_raw. apply sim_seeded.
  eapply (sim_bind eq); [apply sim_sample_frac|]. intros es ? <-.
  eapply sim_bind.
  - apply (sim_foldM eq shipments_same);
      [|apply Forall2_eq_refl|split; [constructor|reflexivity]].
    intros x y a ? Hxy <-. apply sim_patient_shipments. exact Hxy.
  - intros [rs1 c1] [rs2 c2] [Hrs _]. cbn [fst] in Hrs.
    apply sim_ret. apply df_of_records_same_but. exact Hrs.
Qed.

(** *** Claims *)

Section ClaimsSim.

Context {W : World -> World -> Prop} `{HB : Blind W}.

Lemma sim_shipped_patients e s :
  sim W eq (shipped_patients e s) (shipped_patients e s).
Proof.
  unfold shipped_patients. destruct (negb _); [apply sim_fail|].
  apply sim_mapM_eq. intros a.
  eapply (sim_bind eq); [apply sim_of_option|]. intros ? ? <-.
  apply sim_ret. reflexivity.
Qed.

Lemma sim_patient_claims p n :
  sim W eq (patient_claims p n) (patient_claims p n).
Proof.
  unfold patient_claims. destruct p as [e range].
  eapply (sim_bind eq); [apply sim_of_option|]. intros [first last] ? <-.
  destruct (n <? 0); [apply sim_fail|].
  eapply (sim_bind eq); [apply sim_np_uniform|]. intros ? ? <-.
  do 5 (eapply (sim_bind eq); [apply sim_getcol|]; intros ? ? <-).
  apply sim_ret. reflexivity.
Qed.

Lemma sim_claim_arrays ps counts :
  sim W eq (claim_arrays ps counts) (claim_arrays ps counts).
Proof.
  unfold claim_arrays.
  eapply (sim_bind eq);
    [apply sim_mapM_eq; intros a; apply sim_patient_claims|].
  intros ? ? <-. apply sim_ret. reflexivity.
Qed.

Lemma sim_assign_claim_types rs :
  sim W eq (assign_claim_types rs) (assign_claim_types rs).
Proof.
  unfold assign_claim_types.
  eapply (sim_bind eq); [apply sim_np_choice_p|]. intros ? ? <-.
  apply sim_ret. reflexivity.
Qed.

Lemma sim_assign_procedure_codes rs :
  sim W eq (assign_procedure_codes rs) (assign_procedure_codes rs).
Proof.
  unfold assign_procedure_codes.
  eapply (sim_bind eq); [apply sim_np_choice|]. intros ? ? <-.
  apply sim_ret. reflexivity.
Qed.

Lemma sim_assign_claim_status rs :
  sim W eq (assign_claim_status rs) (assign_claim_status rs).
Proof.
  unfold assign_claim_status.
  eapply (sim_bind eq); [apply sim_np_choice_p|]. intros ? ? <-.
  apply sim_ret. reflexivity.
Qed.

Lemma sim_assign_amounts mask c low high rs :
  sim W eq (assign_amounts mask c low high rs) (assign_amounts mask c low high rs).
Proof.
  unfold assign_amounts.
  eapply (sim_bind eq); [apply sim_np_amounts|]. intros ? ? <-.
  apply sim_ret. reflexivity.
Qed.

Lemma sim_assign_paid_amounts rs :
  sim W eq (assign_paid_amounts rs) (assign_paid_amounts rs).
Proof.
  unfold assign_paid_amounts.
  do 4 (eapply (sim_bind eq); [apply sim_assign_amounts|]; intros ? ? <-).
  apply sim_ret. reflexivity.
Qed.

Lemma sim_format_claim_dates rs :
  sim W eq (format_claim_dates rs) (format_claim_dates rs).
Proof.
  unfold format_claim_dates. apply sim_mapM_eq. intros r.
  eapply (sim_bind eq); [apply sim_as_ts|]. intros ? ? <-.
  apply sim_ret. reflexivity.
Qed.

Lemma lookup_drop_cell_other c k r :
  k <> c -> lookup k (drop_cell c r) = lookup k r.
Proof.
  intros Hk. unfold drop_cell. induction r as [|[k' v] r IH]; simpl; [reflexivity|].
  destruct (String.eqb_spec k' c) as [->|Hne]; simpl.
  - destruct (String.eqb_spec c k); [congruence|exact IH].
  - destruct (String.eqb_spec k' k); [reflexivity|exact IH].
Qed.

Lemma select_cells_same_but c cs v1 v2 r :
  same_but c (select_cells cs (set_cell c v1 r))
             (select_cells cs (set_cell c v2 r)).
Proof.
  unfold same_but, select_cells, drop_cell.
  induction cs as [|k cs IH]; simpl; [reflexivity|].
  destruct (String.eqb_spec k c) as [->|Hne]; simpl; [exact IH|].
  rewrite IH. unfold cell. rewrite !lookup_set_cell_other by exact Hne.
  reflexivity.
Qed.

Lemma sim_finish_claims rs :
  sim W (frames_same_but "created_at") (finish_claims rs) (finish_claims rs).
Proof.
  unfold finish_claims.
  eapply sim_bind; [apply sim_now|]. intros t1 t2 _.
  apply sim_ret. unfold frames_same_but, df_drop. cbn [columns rows].
  f_equal. apply map_drop_cell_same.
  rewrite !map_map.
  induction rs as [|r rs IH]; cbn [map];
    [constructor|constructor; [apply select_cells_same_but|exact IH]].
Qed.

Lemma sim_claims_after_seed enrollments_df shipments_df config :
  sim W (frames_same_but "created_at")
    (scale <- scale_config config ;;
     patients <- shipped_patients enrollments_df shipments_df ;;
     claims_per_patient <-
       np_randint
         (py_int (float_mul
                    (QofZ (py_int (float_mul (claims_per_patient_year config)
                                             (years_of_data scale))))
                    (7 # 10)))
         (py_int (float_mul
                    (QofZ (py_int (float_mul (claims_per_patient_year config)
                                             (years_of_data scale))))
                    (13 # 10)) + 1)
         (List.length patients) ;;
     arrays <- claim_arrays patients claims_per_patient ;;
     rs <- assign_claim_types (claims_frame arrays) ;;
     rs <- assign_procedure_codes rs ;;
     rs <- assign_claim_status rs ;;
     rs <- assign_paid_amounts rs ;;
     rs <- format_claim_dates rs ;;
     finish_claims rs)
    (scale <- scale_config config ;;
     patients <- shipped_patients enrollments_df shipments_df ;;
     claims_per_patient <-
       np_randint
         (py_int (float_mul
                    (QofZ (py_int (float_mul (claims_per_patient_year config)
                                             (years_of_data scale))))
                    (7 # 10)))
         (py_int (float_mul
                    (QofZ (py_int (float_mul (claims_per_patient_year config)
                                             (years_of_data scale))))
                    (13 # 10)) + 1)
         (List.length patients) ;;
     arrays <- claim_arrays patients claims_per_patient ;;
     rs <- assign_claim_types (claims_frame arrays) ;;
     rs <- assign_procedure_codes rs ;;
     rs <- assign_claim_status rs ;;
     rs <- assign_paid_amounts rs ;;
     rs <- format_claim_dates rs ;;
     finish_claims rs).
Proof.
  eapply (sim_bind eq); [apply sim_scale_config|]. intros ? ? <-.
  eapply (sim_bind eq); [apply sim_shipped_patients|]. intros ? ? <-.
  eapply (sim_bind eq); [apply sim_np_randint|]. intros ? ? <-.
  eapply (sim_bind eq); [apply sim_claim_arrays|]. intros ? ? <-.
  eapply (sim_bind eq); [apply sim_assign_claim_types|]. intros ? ? <-.
  eapply (sim_bind eq); [apply sim_assign_procedure_codes|]. intros ? ? <-.
  eapply (sim_bind eq); [apply sim_assign_claim_status|]. intros ? ? <-.
  eapply (sim_bind eq); [apply sim_assign_paid_amounts|]. intros ? ? <-.
  eapply (sim_bind eq); [apply sim_format_claim_dates|]. intros ? ? <-.
  apply sim_finish_claims.
Qed.

End ClaimsSim.

Lemma sim_generate_claims_raw np_seed enrollments_df shipments_df config :
  sim (fun _ _ => True) (frames_same_but "created_at")
      (generate_claims_raw np_seed enrollments_df shipments_df config)
      (generate_claims_raw np_seed enrollments_df shipments_df config).
Proof.
  unfold generate_claims_raw. apply sim_np_seeded.
  apply sim_claims_after_seed.
Qed.

Lemma sim_any_agree (m : M DataFrame) :
  sim (fun _ _ => True) (frames_same_but "created_at") m m ->
  clock_only_in_created_at m.
Proof.
  intros H w1 w2. specialize (H w1 w2 I). unfold agree_but_created_at.
  destruct (m w1) as [[d1 w1']|], (m w2) as [[d2 w2']|]; try contradiction;
    [apply H|exact I].
Qed.

Lemma bind_inject_off (raw : M DataFrame) dq dc nc w :
  get_default (inject_issues dq) false = false ->
  bind raw (fun df => inject_data_quality_issues df dq dc nc) w = raw w.
Proof.
  intros Hoff. unfold bind. destruct (raw w) as [[df w']|]; [|reflexivity].
  rewrite (inject_off _ _ _ _ Hoff). reflexivity.
Qed.

Lemma clock_only_off (raw : M DataFrame) dq dc nc :
  get_default (inject_issues dq) false = false ->
  sim (fun _ _ => True) (frames_same_but "created_at") raw raw ->
  clock_only_in_created_at
    (bind raw (fun df => inject_data_quality_issues df dq dc nc)).
Proof.
  intros Hoff H w1 w2. rewrite !(bind_inject_off _ _ _ _ _ Hoff).
  apply (sim_any_agree _ H).
Qed.

(** C2 (amended): for a fixed config and fixed input tables, two runs of a
    generator that read the same clock values return the same table
    whatever state the random generators were in before, since
    [generate_enrollments], [generate_cases], [generate_status_history] and
    [generate_shipments] reseed both generators and [generate_claims] reseeds
    numpy's (its statement keeps the state of Python's generator fixed).
    Runs at different clock values, with injection off, still agree in
    every column of every row except [created_at]. *)
Theorem generators_seed_deterministic py_seed np_seed sha256_hex config :
  (seed_determined (generate_enrollments py_seed np_seed sha256_hex config) /\
   (forall enrollments_df,
      seed_determined (generate_cases py_seed np_seed enrollments_df config)) /\
   (forall cases_df enrollments_df,
      seed_determined (generate_status_history py_seed np_seed cases_df
                         enrollments_df config)) /\
   (forall enrollments_df,
      seed_determined (generate_shipments py_seed np_seed enrollments_df
                         config)) /\
   (forall enrollments_df shipments_df,
      np_seed_determined (generate_claims np_seed enrollments_df shipments_df
                            config))) /\
  (injection_off config ->
   clock_only_in_created_at
     (generate_enrollments py_seed np_seed sha256_hex config) /\
   (forall enrollments_df,
      clock_only_in_created_at
        (generate_cases py_seed np_seed enrollments_df config)) /\
   (forall cases_df enrollments_df,
      clock_only_in_created_at
        (generate_status_history py_seed np_seed cases_df enrollments_df
           config)) /\
   (forall enrollments_df,
      clock_only_in_created_at
        (generate_shipments py_seed np_seed enrollments_df config)) /\
   (forall enrollments_df shipments_df,
      clock_only_in_created_at
        (generate_claims np_seed enrollments_df shipments_df config))).
Proof.
  split.
  - split; [|split; [|split; [|split]]].
    + intros py1 np1 py2 np2 clk. unfold same_table.
      unfold generate_enrollments, generate_enrollments_raw, bind at 1 3.
      unfold bind at 1 3. unfold scale_config.
      destruct (assoc (active_scale config) (scales config)); reflexivity.
    + intros enr py1 np1 py2 np2 clk. reflexivity.
    + intros cs enr py1 np1 py2 np2 clk. reflexivity.
    + intros enr py1 np1 py2 np2 clk. reflexivity.
    + intros enr ship py np1 np2 clk. reflexivity.
  - intros Hoff. split; [|split; [|split; [|split]]].
    + apply (clock_only_off _ _ _ _ Hoff), sim_generate_enrollments_raw.
    + intros enr.
      apply (clock_only_off _ _ _ _ Hoff), sim_generate_cases_raw.
    + intros cs enr.
      apply (clock_only_off _ _ _ _ Hoff), sim_generate_status_history_raw.
    + intros enr.
      apply (clock_only_off _ _ _ _ Hoff), sim_generate_shipments_raw.
    + intros enr ship.
      apply (clock_only_off _ _ _ _ Hoff), sim_generate_claims_raw.
Qed.

Lemma generators_seed_deterministic_witness :
  clock_only_in_created_at
    (generate_enrollments Sample.seed Sample.seed Sample.digest
       (Sample.config false)) /\
  (forall enrollments_df,
     clock_only_in_created_at
       (generate_cases Sample.seed Sample.seed enrollments_df
          (Sample.config false))) /\
  (forall cases_df enrollments_df,
     clock_only_in_created_at
       (generate_status_history Sample.seed Sample.seed cases_df
          enrollments_df (Sample.config false))) /\
  (forall enrollments_df,
     clock_only_in_created_at
       (generate_shipments Sample.seed Sample.seed enrollments_df
          (Sample.config false))) /\
  (forall enrollments_df shipments_df,
     clock_only_in_created_at
       (generate_claims Sample.seed enrollments_df shipments_df
          (Sample.config false))).
Proof.
  apply (proj2 (generators_seed_deterministic Sample.seed Sample.seed
                  Sample.digest (Sample.config false))).
  reflexivity.
Defined.

(** C2 as stated fails: the same config run at two clock times gives two
    enrollment tables, and two case tables, that differ (in [created_at]). *)
Lemma runs_differ_in_created_at :
  ~ same_table
      (generate_enrollments Sample.seed Sample.seed Sample.digest
         (Sample.config false) Sample.world)
      (generate_enrollments Sample.seed Sample.seed Sample.digest
         (Sample.config false) Sample.later_world) /\
  ~ same_table
      (generate_cases Sample.seed Sample.seed Sample.enrollments_df
         (Sample.config false) Sample.world)
      (generate_cases Sample.seed Sample.seed Sample.enrollments_df
         (Sample.config false) Sample.later_world).
Proof.
  unfold same_table. split; intros H; vm_compute in H; discriminate H.
Qed.

(* ===================================================================== *)
(** ** Random dates *)
(* ===================================================================== *)

Lemma random_date_between_inv start_date end_date w t w' :
  random_date_between start_date end_date w = Some (t, w') ->
  start_date <= end_date /\
  exists days secs,
    0 <= days <= (end_date - start_date) / day_us /\ 0 <= secs <= 86400 /\
    t = start_date + days * day_us + secs * 1000000.
Proof.
  unfold random_date_between. intros H. inv_runs.
  apply randint_inv in Hrun, Hrun0.
  split.
  - destruct (Z_lt_le_dec end_date start_date) as [Hlt|Hle]; [|exact Hle].
    assert ((end_date - start_date) / day_us < 0)
      by (apply Z.div_lt_upper_bound; unfold day_us; lia).
    lia.
  - eauto.
Qed.

(** X1: [random_date_between] raises when the end date is before the
    start date; otherwise it returns a datetime a whole number of seconds
    after the start date, not before it and at most one day after the end
    date. *)
Theorem random_date_between_range start_date end_date w :
  (end_date < start_date ->
   random_date_between start_date end_date w = None) /\
  (start_date <= end_date ->
   exists t w',
     random_date_between start_date end_date w = Some (t, w') /\
     start_date <= t <= end_date + day_us /\
     (t - start_date) mod 1000000 = 0).
Proof.
  split.
  - intros Hlt.
    destruct (random_date_between start_date end_date w) as [[t w']|] eqn:E;
      [|reflexivity].
    apply random_date_between_inv in E. lia.
  - intros Hle.
    assert (Hd : 0 <= (end_date - start_date) / day_us)
      by (apply Z.div_pos; unfold day_us; lia).
    destruct (randint_total 0 ((end_date - start_date) / day_us) w Hd)
      as (days & w1 & Hdays).
    destruct (randint_total 0 86400 w1) as (secs & w2 & Hsecs); [lia|].
    exists (start_date + days * day_us + secs * 1000000), w2.
    split.
    { unfold random_date_between.
      rewrite (bind_ok _ _ _ _ _ Hdays), (bind_ok _ _ _ _ _ Hsecs).
      reflexivity. }
    apply randint_inv in Hdays, Hsecs.
    assert (Hm : day_us * ((end_date - start_date) / day_us)
                 <= end_date - start_date)
      by (apply Z.mul_div_le; reflexivity).
    split.
    + unfold day_us in *. nia.
    + replace (start_date + days * day_us + secs * 1000000 - start_date)
        with ((days * 86400 + secs) * 1000000) by (unfold day_us; lia).
      apply Z.mod_mul. discriminate.
Qed.

Lemma random_date_between_range_witness :
  random_date_between (2 * day_us) day_us Sample.world = None /\
  exists t w',
    random_date_between day_us (3 * day_us) Sample.world = Some (t, w') /\
    day_us <= t <= 3 * day_us + day_us /\ (t - day_us) mod 1000000 = 0.
Proof.
  destruct (random_date_between_range (2 * day_us) day_us Sample.world)
    as [Hnone _].
  destruct (random_date_between_range day_us (3 * day_us) Sample.world)
    as [_ Hsome].
  split; [apply Hnone; unfold day_us; lia|apply Hsome; unfold day_us; lia].
Defined.

(* ===================================================================== *)
(** ** Enrollments: numbering, timing, payer and product *)
(* ===================================================================== *)

Lemma split_dash_nonempty s : split_dash s <> [].
Proof.
  destruct s as [|c s]; simpl; [discriminate|].
  destruct (Ascii.eqb c "-"); [discriminate|].
  destruct (split_dash s); discriminate.
Qed.

Lemma split_dash_app a b :
  List.length (split_dash (a ++ String "-" b))
  = (List.length (split_dash a) + List.length (split_dash b))%nat.
Proof.
  induction a as [|c a IH]; simpl.
  - reflexivity.
  - destruct (Ascii.eqb c "-"); simpl; [now rewrite IH|].
    pose proof (split_dash_nonempty (a ++ String "-" b)) as H1.
    pose proof (split_dash_nonempty a) as H2.
    destruct (split_dash (a ++ String "-" b)), (split_dash a);
      try congruence. simpl in *. exact IH.
Qed.

Lemma split_dash_length_pos s : (1 <= List.length (split_dash s))%nat.
Proof.
  pose proof (split_dash_nonempty s). destruct (split_dash s); [congruence|].
  simpl. lia.
Qed.

Lemma three_parts a b c :
  (3 <= List.length (split_dash (a ++ "-" ++ b ++ "-" ++ c)))%nat.
Proof.
  change (a ++ "-" ++ b ++ "-" ++ c) with (a ++ String "-" (b ++ String "-" c)).
  rewrite !split_dash_app.
  pose proof (split_dash_length_pos a). pose proof (split_dash_length_pos b).
  pose proof (split_dash_length_pos c). lia.
Qed.

Lemma enrollment_record_inv sha config s e i w r w' :
  enrollment_record sha config s e i w = Some (r, w') ->
  enrollment_timing s e r /\ enrollment_numbered sha i r /\
  enrollment_payer config r /\ enrollment_product config r /\
  enrollment_wf r = true.
Proof.
  unfold enrollment_record. intros H.
  apply bind_inv in H. destruct H as (product & w0 & Hprod & H).
  apply bind_inv in H. destruct H as (ptype & w1 & Hptype & H).
  apply bind_inv in H. destruct H as (ts & w2 & Hts & H).
  apply bind_inv in H. destruct H as (d & w3 & Hd & H).
  apply bind_inv in H. destruct H as (u & w4 & Hu & H).
  apply bind_inv in H. destruct H as (plan & w5 & Hplan & H).
  apply bind_inv in H. destruct H as ([pid pname] & w6 & Hpayer & H).
  inv_runs.
  apply choices_inv in Hprod, Hplan.
  apply random_date_between_inv in Hts.
  destruct Hts as (Hse & days & secs & Hdays & Hsecs & ->).
  apply randint_inv in Hd.
  set (ts := s + days * day_us + secs * 1000000) in *.
  assert (Hrange : s <= ts <= e + day_us).
  { assert (Hm : day_us * ((e - s) / day_us) <= e - s)
      by (apply Z.mul_div_le; reflexivity).
    subst ts. unfold day_us in *. nia. }
  split; [|split; [|split; [|split]]].
  - exists ts. cbn [lookup String.eqb Ascii.eqb Bool.eqb].
    split; [reflexivity|]. split; [exact Hrange|]. split; [reflexivity|].
    destruct (negb (Qle_bool u (1 # 10))); [right|left; reflexivity].
    exists d. split; [exact Hd|reflexivity].
  - exists ts. cbn [lookup String.eqb Ascii.eqb Bool.eqb]. auto.
  - exists plan. cbn [lookup String.eqb Ascii.eqb Bool.eqb].
    split; [exact Hplan|]. split; [reflexivity|].
    destruct (name plan =? "CASH_PAY")%string.
    + inv_runs. inversion H; subst. auto.
    + inv_runs. inversion H; subst.
      match goal with Hp : weighted_choice (payers config) _ _ = Some (?p, _) |- _ =>
        apply choices_inv in Hp; exists p end.
      auto.
  - exists product. cbn [lookup String.eqb Ascii.eqb Bool.eqb]. auto.
  - unfold enrollment_wf. cbn [lookup String.eqb Ascii.eqb Bool.eqb].
    apply Nat.leb_le.
    apply (three_parts "PSP" (digits (year_of ts)) (fmt_d 6 (i + 1))).
Qed.

Lemma generate_enrollments_raw_inv py_seed np_seed sha config w df w' :
  generate_enrollments_raw py_seed np_seed sha config w = Some (df, w') ->
  exists scale,
    assoc (active_scale config) (scales config) = Some scale /\
    Forall2 (fun i r => exists w1 w2,
               enrollment_record sha config (start_date scale)
                 (end_date scale) i w1 = Some (r, w2))
            (range_index (Z.to_nat (enrollments scale))) (rows df).
Proof.
  unfold generate_enrollments_raw, scale_config. intros H.
  apply bind_inv in H. destruct H as (scale & w0 & Hscale & H).
  apply of_option_inv in Hscale. destruct Hscale as [Hscale ->].
  inv_runs. exists scale. split; [exact Hscale|].
  match goal with Hm : mapM _ _ _ = Some _ |- _ => apply mapM_inv in Hm; exact Hm end.
Qed.

Lemma range_index_nth n k i :
  nth_error (range_index n) k = Some i -> i = Z.of_nat k.
Proof.
  unfold range_index. rewrite nth_error_map. intros H.
  destruct (nth_error (seq 0 n) k) as [j|] eqn:Hj; [|discriminate H].
  simpl in H. inversion H; subst i. clear H.
  assert (Hk : (k < List.length (seq 0 n))%nat)
    by (apply nth_error_Some; congruence).
  rewrite length_seq in Hk.
  rewrite (nth_error_nth' _ 0%nat) in Hj by (rewrite length_seq; exact Hk).
  rewrite seq_nth in Hj by exact Hk. inversion Hj. reflexivity.
Qed.

Lemma Forall2_nth_error {A B} (R : A -> B -> Prop) l l' k b :
  Forall2 R l l' -> nth_error l' k = Some b ->
  exists a, nth_error l k = Some a /\ R a b.
Proof.
  intros H. revert k. induction H as [|x y l l' Hxy _ IH]; intros k Hk.
  - destruct k; discriminate Hk.
  - destruct k as [|k]; simpl in *.
    + inversion Hk; subst. eauto.
    + apply IH. exact Hk.
Qed.

Lemma Forall2_Forall_r {A B} (R : A -> B -> Prop) (P : B -> Prop) l l' :
  (forall a b, R a b -> P b) -> Forall2 R l l' -> Forall P l'.
Proof. intros HR H. induction H; constructor; eauto. Qed.

(** X2: [generate_enrollments] builds, before data-quality injection, as
    many records as the active scale asks for; the record at position [k]
    has the enrollment id PSP-<year of enrollment>-<k + 1 on six digits>
    and the hash of patient number [k]. *)
Theorem enrollments_counted_and_numbered py_seed np_seed sha config w df w' :
  generate_enrollments_raw py_seed np_seed sha config w = Some (df, w') ->
  exists scale,
    assoc (active_scale config) (scales config) = Some scale /\
    List.length (rows df) = Z.to_nat (enrollments scale) /\
    forall k r, nth_error (rows df) k = Some r ->
                enrollment_numbered sha (Z.of_nat k) r.
Proof.
  intros H. apply generate_enrollments_raw_inv in H.
  destruct H as (scale & Hscale & HF). exists scale. split; [exact Hscale|].
  split.
  - rewrite <- (Forall2_length HF). apply range_index_length.
  - intros k r Hk.
    destruct (Forall2_nth_error _ _ _ _ _ HF Hk) as (i & Hi & w1 & w2 & Hr).
    apply range_index_nth in Hi. subst i.
    apply enrollment_record_inv in Hr. tauto.
Qed.

Lemma enrollments_counted_and_numbered_witness :
  exists df w',
    generate_enrollments_raw Sample.seed Sample.seed Sample.digest
      (Sample.config true) Sample.world = Some (df, w') /\
    exists scale,
      assoc (active_scale (Sample.config true)) (scales (Sample.config true))
      = Some scale /\
      List.length (rows df) = Z.to_nat (enrollments scale) /\
      forall k r, nth_error (rows df) k = Some r ->
                  enrollment_numbered Sample.digest (Z.of_nat k) r.
Proof.
  destruct (generate_enrollments_raw Sample.seed Sample.seed Sample.digest
              (Sample.config true) Sample.world) as [[df w']|] eqn:E.
  - exists df, w'. split; [reflexivity|].
    apply (enrollments_counted_and_numbered _ _ _ _ _ _ _ E).
  - apply (f_equal (option_map fst)) in E. vm_compute in E. discriminate E.
Defined.

(** X3: every enrollment that [generate_enrollments] builds is dated from
    the start date of the active scale to at most one day after its end
    date, its month partition is that of the enrollment timestamp, and its
    inquiry, when it has one, is zero to fourteen whole days earlier. *)
Theorem enrollments_timestamps_in_range py_seed np_seed sha config w df w' :
  generate_enrollments_raw py_seed np_seed sha config w = Some (df, w') ->
  exists scale,
    assoc (active_scale config) (scales config) = Some scale /\
    Forall (enrollment_timing (start_date scale) (end_date scale)) (rows df).
Proof.
  intros H. apply generate_enrollments_raw_inv in H.
  destruct H as (scale & Hscale & HF). exists scale. split; [exact Hscale|].
  eapply Forall2_Forall_r; [|exact HF]. cbn beta.
  intros i r (w1 & w2 & Hr). apply enrollment_record_inv in Hr. tauto.
Qed.

Lemma enrollments_timestamps_in_range_witness :
  exists df w',
    generate_enrollments_raw Sample.seed Sample.seed Sample.digest
      (Sample.config true) Sample.world = Some (df, w') /\
    exists scale,
      assoc (active_scale (Sample.config true)) (scales (Sample.config true))
      = Some scale /\
      Forall (enrollment_timing (start_date scale) (end_date scale)) (rows df).
Proof.
  destruct (generate_enrollments_raw Sample.seed Sample.seed Sample.digest
              (Sample.config true) Sample.world) as [[df w']|] eqn:E.
  - exists df, w'. split; [reflexivity|].
    apply (enrollments_timestamps_in_range _ _ _ _ _ _ _ E).
  - apply (f_equal (option_map fst)) in E. vm_compute in E. discriminate E.
Defined.

(** X4: every enrollment that [generate_enrollments] builds has a
    configured plan type, no payer when the plan is CASH_PAY and the id and
    name of one configured payer otherwise, and the id, name, indication
    and NDC code of one configured product. *)
Theorem enrollments_payer_and_product py_seed np_seed sha config w df w' :
  generate_enrollments_raw py_seed np_seed sha config w = Some (df, w') ->
  Forall (fun r => enrollment_payer config r /\ enrollment_product config r)
         (rows df).
Proof.
  intros H. apply generate_enrollments_raw_inv in H.
  destruct H as (scale & Hscale & HF).
  eapply Forall2_Forall_r; [|exact HF]. cbn beta.
  intros i r (w1 & w2 & Hr). apply enrollment_record_inv in Hr. tauto.
Qed.

Lemma enrollments_payer_and_product_witness :
  exists df w',
    generate_enrollments_raw Sample.seed Sample.seed Sample.digest
      (Sample.config true) Sample.world = Some (df, w') /\
    Forall (fun r => enrollment_payer (Sample.config true) r /\
                     enrollment_product (Sample.config true) r) (rows df).
Proof.
  destruct (generate_enrollments_raw Sample.seed Sample.seed Sample.digest
              (Sample.config true) Sample.world) as [[df w']|] eqn:E.
  - exists df, w'. split; [reflexivity|].
    apply (enrollments_payer_and_product _ _ _ _ _ _ _ E).
  - apply (f_equal (option_map fst)) in E. vm_compute in E. discriminate E.
Defined.

(* ===================================================================== *)
(** ** Cases: timing and ids *)
(* ===================================================================== *)

Lemma case_record_details e w c w' :
  case_record e w = Some (c, w') -> case_timing e c /\ case_ids e c.
Proof.
  unfold case_record. intros H.
  apply bind_inv in H. destruct H as (v & w0 & Hv & H).
  apply getcol_inv in Hv. destruct Hv as [Hv ->].
  apply bind_inv in H. destruct H as (enrolled & w1 & Hts & H).
  apply as_ts_inv in Hts. destruct Hts as [-> ->].
  apply bind_inv in H. destruct H as (h & w2 & Hh & H).
  apply randint_inv in Hh.
  apply bind_inv in H. destruct H as (status & w3 & Hst & H).
  apply bind_inv in H. destruct H as ([cts cr] & w4 & Hclose & H).
  apply bind_inv in H. destruct H as (cm & w5 & Hcm & H).
  apply randint_inv in Hcm.
  inv_runs.
  split.
  - exists enrolled, (enrolled + h * 3600 * 1000000).
    cbn [lookup String.eqb Ascii.eqb Bool.eqb].
    split; [assumption|]. split; [reflexivity|]. split; [reflexivity|].
    split; [exists h; split; [exact Hh|unfold hour_us; lia]|].
    destruct (status =? "CLOSED")%string.
    + right. inv_runs.
      match goal with Hp : (_, _) = (_, _) |- _ => inversion Hp; subst end.
      match goal with Hr : randint 30 180 _ = Some _ |- _ =>
        apply randint_inv in Hr end.
      match goal with Hc : choices closure_reasons _ _ = Some _ |- _ =>
        apply choices_inv in Hc end.
      eexists _, _. split; [eassumption|]. split; [reflexivity|].
      split; [reflexivity|assumption].
    + left. inv_runs.
      match goal with Hp : (_, _) = (_, _) |- _ => inversion Hp; subst end.
      auto.
  - eexists _, _, _, cm. cbn [lookup String.eqb Ascii.eqb Bool.eqb].
    split; [eassumption|]. split; [eassumption|]. split; [eassumption|].
    split; [reflexivity|]. split; [exact Hcm|reflexivity].
Qed.

(** X5: the case that [generate_cases] builds for an enrollment is opened
    a whole number of hours, at most twelve, before or after the
    enrollment; when it is closed, that is thirty to 180 days after it was
    opened and for one of the five closure reasons; its id repeats the
    year and the number of the enrollment id, and its case manager is one
    of CM-001 to CM-020. *)
Theorem cases_timing_and_ids py_seed np_seed enrollments_df config w df w' :
  generate_cases_raw py_seed np_seed enrollments_df config w = Some (df, w') ->
  Forall2 (fun e c => case_timing e c /\ case_ids e c)
          (rows enrollments_df) (rows df).
Proof.
  unfold generate_cases_raw. intros H. inv_runs.
  match goal with Hm : mapM _ _ _ = Some _ |- _ =>
    apply mapM_inv in Hm; rename Hm into HF end.
  cbn [rows df_of_records]. eapply Forall2_impl; [|exact HF].
  intros e c (wa & wb & Hc). eapply case_record_details; eauto.
Qed.

Lemma cases_timing_and_ids_witness :
  exists df w',
    generate_cases_raw Sample.seed Sample.seed Sample.enrollments_df
      (Sample.config true) Sample.world = Some (df, w') /\
    Forall2 (fun e c => case_timing e c /\ case_ids e c)
            (rows Sample.enrollments_df) (rows df).
Proof.
  destruct (generate_cases_raw Sample.seed Sample.seed Sample.enrollments_df
              (Sample.config true) Sample.world) as [[df w']|] eqn:E.
  - exists df, w'. split; [reflexivity|].
    apply (cases_timing_and_ids _ _ _ _ _ _ _ E).
  - apply (f_equal (option_map fst)) in E. vm_compute in E. discriminate E.
Defined.

(* ===================================================================== *)
(** ** Status history: durations, delays and numbering *)
(* ===================================================================== *)

Lemma status_records_head case n path i cur w rs w' :
  status_records case n i path cur w = Some (rs, w') ->
  match rs with
  | [] => path = []
  | r :: _ =>
      exists status t,
        lookup "status" r = Some (VStr status) /\
        lookup "status_start_ts" r = Some (VTs t) /\
        (if i =? 0 then t = cur
         else exists g, fst (delay_bounds status) <= g <= snd (delay_bounds status)
                        /\ t = cur + g * day_us)
  end.
Proof.
  destruct path as [|status path]; cbn [status_records]; intros H.
  - inv_runs. reflexivity.
  - apply bind_inv in H. destruct H as (start & w1 & Hstart & H).
    inv_runs. exists status, start.
    cbn [lookup String.eqb Ascii.eqb Bool.eqb].
    split; [reflexivity|]. split; [reflexivity|].
    destruct (i =? 0).
    + inv_runs. reflexivity.
    + apply bind_inv in Hstart. destruct Hstart as (g & wg & Hg & Hstart).
      apply ret_inv in Hstart. destruct Hstart as [-> _].
      exists g. split; [|reflexivity]. unfold delay_bounds.
      destruct (mem_string status ["BV_COMPLETE"; "PA_APPROVED"]);
        [|destruct (mem_string status ["SHIPPED"])];
        apply randint_inv in Hg; exact Hg.
Qed.

Lemma status_records_chained case n path :
  forall i cur w rs w',
    0 <= i -> n = i + Z.of_nat (List.length path) ->
    status_records case n i path cur w = Some (rs, w') ->
    chained rs.
Proof.
  induction path as [|status path IH]; intros i cur w rs w' Hi Hn H.
  - cbn [status_records] in H. inv_runs. exact I.
  - cbn [status_records] in H.
    apply bind_inv in H. destruct H as (start & w1 & Hstart & H).
    apply bind_inv in H. destruct H as (endo & w2 & Hend & H).
    do 7 (apply bind_inv in H; destruct H as (? & ? & ? & H)).
    apply bind_inv in H. destruct H as (rest & w10 & Hrest & H).
    apply ret_inv in H. destruct H as [-> _].
    pose proof (status_records_head _ _ _ _ _ _ _ _ Hrest) as Hhead.
    pose proof Hrest as Hch.
    apply IH in Hch; [|lia|cbn [List.length] in Hn; lia].
    destruct rest as [|r' rest']; [exact I|].
    split; [|exact Hch].
    destruct path as [|s2 path];
      [cbn [status_records] in Hrest; apply ret_inv in Hrest;
       destruct Hrest as [Hrest _]; discriminate Hrest|].
    assert (E : (i <? n - 1) = true)
      by (apply Z.ltb_lt; cbn [List.length] in Hn; lia).
    rewrite E in Hend.
    apply bind_inv in Hend. destruct Hend as (d & wd & Hd & Hend).
    apply ret_inv in Hend. destruct Hend as [-> _].
    apply randint_inv in Hd.
    destruct Hhead as (st' & t' & Hst' & Ht' & Hnext).
    replace (i + 1 =? 0) with false in Hnext
      by (symmetry; apply Z.eqb_neq; lia).
    destruct Hnext as (g & Hg & ->).
    exists start, d, g, st'.
    cbn [lookup String.eqb Ascii.eqb Bool.eqb].
    repeat (split; [first [reflexivity|assumption]|]). exact Ht'.
Qed.

Lemma status_records_numbered case n path :
  forall i cur w rs w',
    0 <= i ->
    status_records case n i path cur w = Some (rs, w') ->
    forall k r, nth_error rs k = Some r ->
                status_numbered case (Z.to_nat i + k) r.
Proof.
  induction path as [|status path IH]; intros i cur w rs w' Hi H k r Hk;
    cbn [status_records] in H.
  - inv_runs. destruct k; discriminate Hk.
  - apply bind_inv in H. destruct H as (start & w1 & Hstart & H).
    apply bind_inv in H. destruct H as (endo & w2 & Hend & H).
    apply bind_inv in H. destruct H as (reason & w3 & Hreason & H).
    apply bind_inv in H. destruct H as (v & w4 & Hv & H).
    apply getcol_inv in Hv. destruct Hv as [Hv ->].
    apply bind_inv in H. destruct H as (id & w5 & Hid & H).
    apply as_str_inv in Hid. destruct Hid as [-> ->].
    apply bind_inv in H. destruct H as (p1 & w6 & Hp1 & H).
    apply split_part_inv in Hp1. destruct Hp1 as [Hp1 ->].
    apply bind_inv in H. destruct H as (p2 & w7 & Hp2 & H).
    apply split_part_inv in Hp2. destruct Hp2 as [Hp2 ->].
    apply bind_inv in H. destruct H as (eid & w8 & Heid & H).
    apply getcol_inv in Heid. destruct Heid as [Heid ->].
    apply bind_inv in H. destruct H as (t & w9 & Ht & H).
    apply bind_inv in H. destruct H as (rest & w10 & Hrest & H).
    apply ret_inv in H. destruct H as [-> _].
    destruct k as [|k]; cbn [nth_error] in Hk.
    + inversion Hk; subst r. exists id, p1, p2.
      cbn [lookup String.eqb Ascii.eqb Bool.eqb].
      replace (Z.of_nat (Z.to_nat i + 0)) with i by lia.
      repeat (split; [first [reflexivity|assumption]|]). symmetry; exact Heid.
    + replace (Z.to_nat i + S k)%nat with (Z.to_nat (i + 1) + k)%nat by lia.
      eapply IH; [|exact Hrest|exact Hk]. lia.
Qed.

Lemma choose_path_nonempty case w path w' :
  choose_path case w = Some (path, w') -> path <> [].
Proof.
  intros H. apply choose_path_inv in H. unfold path_allowed in H.
  destruct (value_eqb (cell "current_status" case) (VStr "ACTIVE"));
    [subst; discriminate|].
  destruct (value_eqb (cell "current_status" case) (VStr "CLOSED")).
  - destruct (value_eqb (cell "closure_reason" case) (VStr "COMPLETED_THERAPY"));
      [subst; discriminate|].
    destruct H as [H _]. cbn [In] in H.
    destruct H as [<- | [<- | [<- | []]]]; discriminate.
  - destruct H as (k & Hk & ->).
    assert (E : exists m, k = S (S (S m))) by (exists (k - 3)%nat; lia).
    destruct E as (m & ->). discriminate.
Qed.

Lemma case_history_start case w h w' :
  case_history case w = Some (h, w') -> starts_at_inquiry_or_enrollment case h.
Proof.
  unfold case_history. intros H.
  apply bind_inv in H. destruct H as (path & w1 & Hpath & H).
  apply bind_inv in H. destruct H as (inq & w2 & Hinq & H).
  apply getcol_inv in Hinq. destruct Hinq as [Hinq ->].
  apply bind_inv in H. destruct H as (v & w3 & Hv & H).
  apply bind_inv in H. destruct H as (t & w4 & Ht & H).
  apply as_ts_inv in Ht. destruct Ht as [-> ->].
  apply choose_path_nonempty in Hpath.
  pose proof (status_records_head _ _ _ _ _ _ _ _ H) as Hhead.
  destruct h as [|r rest]; [contradiction|].
  destruct Hhead as (status & t0 & _ & Ht0 & Ht0'). cbn in Ht0'. subst t0.
  exists r, rest, t. split; [reflexivity|]. split; [exact Ht0|].
  destruct inq; try (apply ret_inv in Hv; destruct Hv as [Hv _]; try discriminate Hv).
  - right. apply getcol_inv in Hv. destruct Hv as [Hv _].
    split; assumption.
  - left. inversion Hv; subst. exact Hinq.
Qed.

Lemma case_history_chained case w h w' :
  case_history case w = Some (h, w') -> chained h.
Proof.
  unfold case_history. intros H.
  apply bind_inv in H. destruct H as (path & w1 & Hpath & H).
  apply bind_inv in H. destruct H as (inq & w2 & Hinq & H).
  apply bind_inv in H. destruct H as (v & w3 & Hv & H).
  apply bind_inv in H. destruct H as (t & w4 & Ht & H).
  eapply status_records_chained; [| |exact H]; lia.
Qed.

Lemma case_history_numbered case w h w' :
  case_history case w = Some (h, w') ->
  forall k r, nth_error h k = Some r -> status_numbered case k r.
Proof.
  unfold case_history. intros H k r Hk.
  apply bind_inv in H. destruct H as (path & w1 & Hpath & H).
  apply bind_inv in H. destruct H as (inq & w2 & Hinq & H).
  apply bind_inv in H. destruct H as (v & w3 & Hv & H).
  apply bind_inv in H. destruct H as (t & w4 & Ht & H).
  change k with (Z.to_nat 0 + k)%nat.
  eapply status_records_numbered; [|exact H|exact Hk]. lia.
Qed.

(** X6: in the records that [generate_status_history] builds for a case,
    each status but the last lasts one to three whole days, and the next status
    starts one to ten days after it ended when it is BV_COMPLETE or
    PA_APPROVED, three to fourteen days when it is SHIPPED, and one to five
    days otherwise. *)
Theorem status_history_durations_and_delays
        py_seed np_seed cases_df enrollments_df config w df w' :
  generate_status_history_raw py_seed np_seed cases_df enrollments_df
    config w = Some (df, w') ->
  per_case (fun _ h => chained h) cases_df enrollments_df df.
Proof.
  intros H. eapply per_case_of_histories; [|exact H].
  intros case w1 h w2. apply case_history_chained.
Qed.

Lemma status_history_durations_and_delays_witness :
  exists df w',
    generate_status_history_raw Sample.seed Sample.seed Sample.cases_df
      Sample.enrollments_df (Sample.config true) Sample.world = Some (df, w')
    /\ per_case (fun _ h => chained h)
                Sample.cases_df Sample.enrollments_df df.
Proof.
  destruct (generate_status_history_raw Sample.seed Sample.seed Sample.cases_df
              Sample.enrollments_df (Sample.config true) Sample.world)
    as [[df w']|] eqn:E.
  - exists df, w'. split; [reflexivity|].
    apply (status_history_durations_and_delays _ _ _ _ _ _ _ _ E).
  - apply (f_equal (option_map fst)) in E. vm_compute in E. discriminate E.
Defined.

(** X7: before data-quality injection, the history of a case starts at the
    inquiry of its enrollment, or at the enrollment itself when there was
    no inquiry; its records carry the case's ids, and the one at position
    [k] is numbered [k + 1] within the case. *)
Theorem status_history_start_and_numbering
        py_seed np_seed cases_df enrollments_df config w df w' :
  generate_status_history_raw py_seed np_seed cases_df enrollments_df
    config w = Some (df, w') ->
  per_case (fun case h =>
              starts_at_inquiry_or_enrollment case h /\
              forall k r, nth_error h k = Some r -> status_numbered case k r)
           cases_df enrollments_df df.
Proof.
  intros H. eapply per_case_of_histories; [|exact H].
  intros case w1 h w2 Hh. split.
  - eapply case_history_start; exact Hh.
  - eapply case_history_numbered; exact Hh.
Qed.

Lemma status_history_start_and_numbering_witness :
  exists df w',
    generate_status_history_raw Sample.seed Sample.seed Sample.cases_df
      Sample.enrollments_df (Sample.config true) Sample.world = Some (df, w')
    /\ per_case (fun case h =>
                   starts_at_inquiry_or_enrollment case h /\
                   forall k r, nth_error h k = Some r ->
                               status_numbered case k r)
                Sample.cases_df Sample.enrollments_df df.
Proof.
  destruct (generate_status_history_raw Sample.seed Sample.seed Sample.cases_df
              Sample.enrollments_df (Sample.config true) Sample.world)
    as [[df w']|] eqn:E.
  - exists df, w'. split; [reflexivity|].
    apply (status_history_start_and_numbering _ _ _ _ _ _ _ _ E).
  - apply (f_equal (option_map fst)) in E. vm_compute in E. discriminate E.
Defined.

(* ===================================================================== *)
(** ** Status history: a case without an enrollment *)
(* ===================================================================== *)

Lemma lookup_app_none c (r r' : Row) :
  lookup c r = None -> lookup c (r ++ r')%list = lookup c r'.
Proof.
  induction r as [|[k v] r IH]; simpl; [reflexivity|].
  destruct (String.eqb k c); [discriminate|exact IH].
Qed.

Lemma mapM_fails {A B} (f : A -> M B) (l : list A) a w :
  In a l -> (forall w1, f a w1 = None) -> mapM f l w = None.
Proof.
  intros Ha Hf. destruct (mapM f l w) as [[bs w']|] eqn:E; [|reflexivity].
  apply mapM_inv in E. exfalso. clear w w'.
  induction E as [|x b l bs (w1 & w2 & Hx) _ IH]; [destruct Ha|].
  destruct Ha as [->|Ha]; [rewrite Hf in Hx; discriminate Hx|exact (IH Ha)].
Qed.

Lemma case_history_without_timing c w :
  lookup "enrolled_ts" c = None -> lookup "inquiry_ts" c = None ->
  case_history (c ++ [("enrolled_ts", VNone); ("inquiry_ts", VNone)])%list w
  = None.
Proof.
  intros He Hi.
  destruct (case_history _ w) as [[h w']|] eqn:E; [|reflexivity].
  exfalso. unfold case_history in E.
  apply bind_inv in E. destruct E as (path & w1 & Hpath & H).
  apply bind_inv in H. destruct H as (inq & w2 & Hinq & H).
  apply getcol_inv in Hinq. destruct Hinq as [Hinq ->].
  rewrite (lookup_app_none _ _ _ Hi) in Hinq. cbn in Hinq.
  inversion Hinq; subst inq.
  apply bind_inv in H. destruct H as (v & w3 & Hv & H).
  apply getcol_inv in Hv. destruct Hv as [Hv ->].
  rewrite (lookup_app_none _ _ _ He) in Hv. cbn in Hv.
  inversion Hv; subst v.
  apply bind_inv in H. destruct H as (t & w4 & Ht & H).
  discriminate Ht.
Qed.

Section Unmatched.
Variables py_seed np_seed : Z -> Tape.

(** X8: a case whose enrollment id is that of no enrollment record, in a frame
    of cases that carries no enrollment timing of its own, makes
    [generate_status_history] raise: the left merge gives the case missing
    timestamps, and no history can start from them. *)
Theorem status_history_raises_on_unmatched_case
        cases_df enrollments_df config c w :
  In c (rows cases_df) ->
  lookup "enrolled_ts" c = None -> lookup "inquiry_ts" c = None ->
  (forall e, In e (rows enrollments_df) ->
             value_eqb (cell "enrollment_id" e) (cell "enrollment_id" c)
             = false) ->
  generate_status_history py_seed np_seed cases_df enrollments_df config w
  = None.
Proof.
  intros Hc He Hi Hno.
  unfold generate_status_history, generate_status_history_raw,
    merge_enrollment_timing.
  unfold bind at 1. unfold bind at 1. unfold random_seed_set at 1.
  unfold bind at 1. unfold np_random_seed_set at 1.
  cbv beta iota.
  destruct (negb _ || _ || _); [reflexivity|].
  unfold bind at 1. unfold ret at 1. cbv beta iota.
  unfold bind at 1.
  erewrite mapM_fails; [reflexivity| |].
  - unfold merged_cases. apply in_flat_map. exists c. split; [exact Hc|].
    replace (filter _ (rows enrollments_df)) with (@nil Row).
    + left; reflexivity.
    + symmetry. clear -Hno.
      induction (rows enrollments_df) as [|e es IH]; [reflexivity|].
      cbn [filter]. rewrite (Hno e (or_introl eq_refl)).
      apply IH. intros e' He'. apply Hno. right; exact He'.
  - intros w1. apply case_history_without_timing; assumption.
Qed.
End Unmatched.

Lemma status_history_raises_on_unmatched_case_witness :
  generate_status_history Sample.seed Sample.seed Sample.cases_df
    Sample.unmatched_enrollments_df (Sample.config true) Sample.world = None.
Proof.
  apply (status_history_raises_on_unmatched_case Sample.seed Sample.seed
           Sample.cases_df Sample.unmatched_enrollments_df (Sample.config true)
           (Sample.case "000001" "a3f1c2d4e5b60718" 19783 "ACTIVE" VNone VNone)).
  - left; reflexivity.
  - reflexivity.
  - reflexivity.
  - intros e [<-|[]]. reflexivity.
Defined.

(* ===================================================================== *)
(** ** Shipments: one block per sampled patient *)
(* ===================================================================== *)

Lemma date_of_sub t d : date_of (t - d * day_us) = date_of t - d.
Proof.
  replace (t - d * day_us) with (t + (- d) * day_us) by lia.
  rewrite date_of_shift. lia.
Qed.

Lemma copay_inv (e : Row) status w copay w' :
  (if String.eqb status "PAID" then
     plan_type <- getcol "plan_type" e ;;
     if value_eqb plan_type (VStr "COMMERCIAL")
     then choice [0; 10; 25; 50; 100; 150]
     else if value_eqb plan_type (VStr "MEDICARE")
          then choice [0; 5; 15; 30; 75]
          else ret 0
   else ret 0) w = Some (copay, w') ->
  0 <= copay <= 150 /\ (status <> "PAID" -> copay = 0).
Proof.
  destruct (String.eqb_spec status "PAID") as [->|Hne]; intros H.
  - split; [|congruence].
    apply bind_inv in H. destruct H as (pt & w1 & _ & H).
    destruct (value_eqb pt (VStr "COMMERCIAL")).
    + apply choice_inv in H. cbn [In] in H.
      repeat (destruct H as [<-|H]; [lia|]). destruct H.
    + destruct (value_eqb pt (VStr "MEDICARE")).
      * apply choice_inv in H. cbn [In] in H.
        repeat (destruct H as [<-|H]; [lia|]). destruct H.
      * apply ret_inv in H. destruct H as [-> _]. lia.
  - apply ret_inv in H. destruct H as [-> _]. split; [lia|reflexivity].
Qed.

Section Refills.
Variables (config : Config) (e : Row) (opts : list Z) (wts : list Q).

(** What one pass of the refill loop gives: the shipment is described, and
    the loop either stops past the end date or goes on from the next ship
    date. *)
Lemma refill_loop_step ndc nm remaining refill_num cur counter w rs counter' w' :
  refill_loop config e opts wts ndc nm (S remaining) refill_num cur counter w
  = Some ((rs, counter'), w') ->
  exists r rest ds v scale,
    rs = r :: rest /\
    lookup "shipment_id" r = Some (VStr ("SHIP-" ++ fmt_d 8 (counter + 1))) /\
    lookup "enrollment_id" r = lookup "enrollment_id" e /\
    lookup "patient_id_hash" r = lookup "patient_id_hash" e /\
    lookup "ndc_code" r = Some ndc /\
    lookup "product_name" r = Some nm /\
    lookup "refill_number" r = Some (VInt refill_num) /\
    (exists id p2,
        lookup "enrollment_id" e = Some (VStr id) /\
        nth_error (split_dash id) 2 = Some p2 /\
        lookup "prescription_id" r
        = Some (VStr ("RX-" ++ p2 ++ "-" ++ fmt_d 3 refill_num))) /\
    lookup "ship_date" r = Some (VDate (date_of cur)) /\
    lookup "days_supply" r = Some (VInt ds) /\
    shipment_fields_ok opts r /\
    -3 <= v <= 5 /\
    assoc (active_scale config) (scales config) = Some scale /\
    ((end_date scale < cur + (ds + v) * day_us /\ rest = [] /\
      counter' = counter + 1) \/
     (cur + (ds + v) * day_us <= end_date scale /\
      exists w1,
        refill_loop config e opts wts ndc nm remaining (refill_num + 1)
                    (cur + (ds + v) * day_us) (counter + 1) w1
        = Some ((rest, counter'), w'))).
Proof.
  cbn [refill_loop]. intros H.
  apply bind_inv in H. destruct H as (ds & w1 & Hds & H).
  apply choices_inv in Hds.
  apply bind_inv in H. destruct H as (d & w2 & Hd & H).
  apply randint_inv in Hd.
  apply bind_inv in H. destruct H as (status & w3 & Hstatus & H).
  apply choices_inv in Hstatus.
  apply bind_inv in H. destruct H as (copay & w4 & Hcopay & H).
  apply copay_inv in Hcopay. destruct Hcopay as [Hcopay Hzero].
  apply bind_inv in H. destruct H as (ph & w5 & Hph & H).
  apply randint_inv in Hph.
  apply bind_inv in H. destruct H as (idv & w6 & Hidv & H).
  apply getcol_inv in Hidv. destruct Hidv as [Hidv ->].
  apply bind_inv in H. destruct H as (hash & w7 & Hhash & H).
  apply getcol_inv in Hhash. destruct Hhash as [Hhash ->].
  apply bind_inv in H. destruct H as (id & w8 & Hid & H).
  apply as_str_inv in Hid. destruct Hid as [-> ->].
  apply bind_inv in H. destruct H as (p2 & w9 & Hp2 & H).
  apply split_part_inv in Hp2. destruct Hp2 as [Hp2 ->].
  apply bind_inv in H. destruct H as (created & w10 & _ & H).
  apply bind_inv in H. destruct H as (v & w11 & Hv & H).
  apply randint_inv in Hv.
  apply bind_inv in H. destruct H as (scale & w12 & Hscale & H).
  apply of_option_inv in Hscale. destruct Hscale as [Hscale ->].
  assert (Hrec : forall r,
    r = [("shipment_id", VStr ("SHIP-" ++ fmt_d 8 (counter + 1)));
         ("enrollment_id", VStr id);
         ("patient_id_hash", hash);
         ("prescription_id", VStr ("RX-" ++ p2 ++ "-" ++ fmt_d 3 refill_num));
         ("fill_date", VDate (date_of (cur - d * day_us)));
         ("ship_date", VDate (date_of cur));
         ("shipment_month", VStr (format_month_partition cur));
         ("ndc_code", ndc);
         ("product_name", nm);
         ("days_supply", VInt ds);
         ("quantity", if ds =? 90 then VDec 300 else VDec 100);
         ("refill_number", VInt refill_num);
         ("pharmacy_id", VStr ("PHARM-" ++ fmt_d 3 ph));
         ("claim_status", VStr status);
         ("copay_amount", VInt copay);
         ("created_at", VTs created)] ->
    lookup "shipment_id" r = Some (VStr ("SHIP-" ++ fmt_d 8 (counter + 1))) /\
    lookup "enrollment_id" r = lookup "enrollment_id" e /\
    lookup "patient_id_hash" r = lookup "patient_id_hash" e /\
    lookup "ndc_code" r = Some ndc /\
    lookup "product_name" r = Some nm /\
    lookup "refill_number" r = Some (VInt refill_num) /\
    (exists id p2,
        lookup "enrollment_id" e = Some (VStr id) /\
        nth_error (split_dash id) 2 = Some p2 /\
        lookup "prescription_id" r
        = Some (VStr ("RX-" ++ p2 ++ "-" ++ fmt_d 3 refill_num))) /\
    lookup "ship_date" r = Some (VDate (date_of cur)) /\
    lookup "days_supply" r = Some (VInt ds) /\
    shipment_fields_ok opts r).
  { intros r ->. rewrite Hidv, Hhash.
    split; [reflexivity|]. split; [reflexivity|]. split; [reflexivity|].
    split; [reflexivity|]. split; [reflexivity|]. split; [reflexivity|].
    split; [exists id, p2; split; [reflexivity|]; split; [exact Hp2|reflexivity]|].
    split; [reflexivity|]. split; [reflexivity|].
    exists (date_of (cur - d * day_us)), (date_of cur), ds, status, copay, ph.
    split; [reflexivity|]. split; [reflexivity|].
    split; [rewrite date_of_sub; lia|].
    split; [reflexivity|]. split; [exact Hds|].
    split; [cbn [lookup String.eqb Ascii.eqb Bool.eqb];
            destruct (ds =? 90); reflexivity|].
    split; [reflexivity|]. split; [exact Hstatus|].
    split; [reflexivity|]. split; [exact Hcopay|]. split; [exact Hzero|].
    split; [exact Hph|reflexivity]. }
  destruct (end_date scale <? cur + (ds + v) * day_us) eqn:E.
  - apply ret_inv in H. destruct H as [H ->]. inversion H; subst rs counter'.
    apply Z.ltb_lt in E.
    eexists _, [], ds, v, scale. split; [reflexivity|].
    destruct (Hrec _ eq_refl) as (H1 & H2 & H3 & H4 & H5 & H6 & H7 & H8 & H9 & H10).
    do 10 (split; [assumption|]).
    split; [exact Hv|]. split; [exact Hscale|].
    left. split; [exact E|]. split; reflexivity.
  - apply bind_inv in H. destruct H as ([rest c'] & w13 & Hrest & H).
    apply ret_inv in H. destruct H as [H ->]. inversion H; subst rs counter'.
    apply Z.ltb_ge in E.
    eexists _, rest, ds, v, scale. split; [reflexivity|].
    destruct (Hrec _ eq_refl) as (H1 & H2 & H3 & H4 & H5 & H6 & H7 & H8 & H9 & H10).
    do 10 (split; [assumption|]).
    split; [exact Hv|]. split; [exact Hscale|].
    right. split; [exact E|]. eexists. exact Hrest.
Qed.

(** The shipments of one run of the refill loop. *)
Lemma refill_loop_block ndc nm remaining :
  forall refill_num cur counter w rs counter' w',
    refill_loop config e opts wts ndc nm remaining refill_num cur counter w
    = Some ((rs, counter'), w') ->
    lookup "ndc_code" e = Some ndc -> lookup "program_name" e = Some nm ->
    (match rs with
     | [] => remaining = O
     | r :: _ => lookup "ship_date" r = Some (VDate (date_of cur))
     end) /\
    (forall k r, nth_error rs k = Some r ->
                 shipment_of e (refill_num + Z.of_nat k) r) /\
    refill_chain config rs /\
    Forall (shipment_fields_ok opts) rs /\
    counter' = counter + Z.of_nat (List.length rs) /\
    (forall k r, nth_error rs k = Some r ->
                 lookup "shipment_id" r
                 = Some (VStr ("SHIP-" ++ fmt_d 8 (counter + Z.of_nat k + 1)))).
Proof.
  induction remaining as [|n IH];
    intros refill_num cur counter w rs counter' w' H Hndc Hnm.
  - cbn [refill_loop] in H. apply ret_inv in H. destruct H as [H _].
    inversion H; subst rs counter'.
    split; [reflexivity|].
    split; [intros [|k] r Hk; discriminate Hk|].
    split; [exact I|]. split; [constructor|].
    split; [cbn [List.length]; lia|].
    intros [|k] r Hk; discriminate Hk.
  - apply refill_loop_step in H.
    destruct H as (r & rest & ds & v & scale & -> & Hsid & Heid & Hhash & Hn
                   & Hp & Hr & Hrx & Hship & Hds & Hf & Hv & Hscale & Hnext).
    assert (Hof : shipment_of e refill_num r).
    { unfold shipment_of. rewrite Hndc, Hnm.
      repeat (split; [assumption|]). exact Hrx. }
    destruct Hnext as [(Hpast & -> & ->)|(Hin & w1 & Hrest)].
    + split; [exact Hship|].
      split.
      { intros [|k] x Hk; cbn [nth_error] in Hk.
        - inversion Hk; subst x. now rewrite Z.add_0_r.
        - destruct k; discriminate Hk. }
      split; [exact I|]. split; [constructor; [exact Hf|constructor]|].
      split; [cbn [List.length]; lia|].
      intros [|k] x Hk; cbn [nth_error] in Hk.
      * inversion Hk; subst x. rewrite Z.add_0_r. exact Hsid.
      * destruct k; discriminate Hk.
    + apply IH in Hrest; [|assumption|assumption].
      destruct Hrest as (Hhead & Hblock & Hchain & Hfields & -> & Hids).
      split; [exact Hship|].
      split.
      { intros [|k] x Hk; cbn [nth_error] in Hk.
        - inversion Hk; subst x. now rewrite Z.add_0_r.
        - replace (refill_num + Z.of_nat (S k))
            with (refill_num + 1 + Z.of_nat k) by lia.
          apply Hblock; exact Hk. }
      split.
      { destruct rest as [|r' rest']; [exact I|]. split; [|exact Hchain].
        exists (date_of cur), ds, v, scale.
        split; [exact Hship|]. split; [exact Hds|]. split; [exact Hv|].
        rewrite date_of_shift in Hhead.
        split; [rewrite Hhead; do 2 f_equal; lia|]. split; [exact Hscale|].
        apply date_of_mono in Hin. rewrite date_of_shift in Hin. lia. }
      split; [constructor; assumption|].
      split; [cbn [List.length]; lia|].
      intros [|k] x Hk; cbn [nth_error] in Hk.
      * inversion Hk; subst x. rewrite Z.add_0_r. exact Hsid.
      * replace (counter + Z.of_nat (S k) + 1)
          with (counter + 1 + Z.of_nat k + 1) by lia.
        apply Hids; exact Hk.
Qed.
End Refills.

Lemma remove_nth_In {A} (l : list A) : forall i x,
  In x (remove_nth i l) -> In x l.
Proof.
  induction l as [|a l IH]; intros i x Hx; [destruct i; exact Hx|].
  destruct i as [|i]; cbn [remove_nth] in Hx.
  - right; exact Hx.
  - destruct Hx as [->|Hx]; [left; reflexivity|right; eapply IH; exact Hx].
Qed.

Lemma remove_nth_NoDup {A} (l : list A) d : forall i,
  NoDup l -> (i < List.length l)%nat ->
  NoDup (remove_nth i l) /\ ~ In (nth i l d) (remove_nth i l).
Proof.
  induction l as [|a l IH]; intros i Hnd Hi; [cbn in Hi; lia|].
  inversion Hnd as [|? ? Ha Hl]; subst.
  destruct i as [|i]; cbn [remove_nth nth].
  - split; assumption.
  - cbn [List.length] in Hi.
    destruct (IH i Hl ltac:(lia)) as [IH1 IH2]. split.
    + constructor; [|exact IH1]. intros Hin. apply Ha.
      eapply remove_nth_In; exact Hin.
    + intros [Heq|Hin]; [|exact (IH2 Hin)].
      apply Ha. rewrite Heq. apply nth_In. lia.
Qed.

Lemma np_choice_distinct_inv k : forall pool w l w',
  np_choice_distinct k pool w = Some (l, w') ->
  NoDup pool ->
  List.length l = k /\ NoDup l /\ forall x, In x l -> In x pool.
Proof.
  induction k as [|k IH]; intros pool w l w' H Hnd; cbn [np_choice_distinct] in H.
  - apply ret_inv in H. destruct H as [-> _].
    split; [reflexivity|]. split; [constructor|]. intros x [].
  - destruct pool as [|p pool]; [discriminate H|].
    apply bind_inv in H. destruct H as (x & w1 & _ & H).
    apply bind_inv in H. destruct H as (rest & w2 & Hrest & H).
    apply ret_inv in H. destruct H as [-> _].
    set (i := Z.to_nat (x mod Z.of_nat (List.length (p :: pool)))) in *.
    assert (Hi : (i < List.length (p :: pool))%nat).
    { subst i.
      assert (0 <= x mod Z.of_nat (List.length (p :: pool))
              < Z.of_nat (List.length (p :: pool)))
        by (apply Z.mod_pos_bound; cbn [List.length]; lia).
      lia. }
    destruct (remove_nth_NoDup (p :: pool) 0 i Hnd Hi) as [Hnd' Hnot].
    apply IH in Hrest; [|exact Hnd'].
    destruct Hrest as (Hlen & Hndr & Hin).
    split; [cbn [List.length]; lia|]. split.
    + constructor; [|exact Hndr]. intros Hx. apply Hnot. apply Hin. exact Hx.
    + intros y [<-|Hy]; [apply nth_In; exact Hi|].
      eapply remove_nth_In. apply Hin. exact Hy.
Qed.

Lemma range_index_NoDup n : NoDup (range_index n).
Proof.
  unfold range_index. generalize (seq_NoDup n 0).
  induction 1 as [|a l Ha _ IH]; cbn [map]; constructor; [|exact IH].
  rewrite in_map_iff. intros (b & Hb & Hin).
  apply Nat2Z.inj in Hb. subst b. exact (Ha Hin).
Qed.

Lemma range_index_In n x : In x (range_index n) -> 0 <= x < Z.of_nat n.
Proof.
  unfold range_index. rewrite in_map_iff. intros (k & <- & Hk).
  apply in_seq in Hk. lia.
Qed.

Lemma take_rows_picks idx rs :
  Forall (fun x => 0 <= x < Z.of_nat (List.length rs)) idx ->
  Forall2 (fun i e => nth_error rs (Z.to_nat i) = Some e /\ 0 <= i)
          idx (take_rows idx rs).
Proof.
  induction 1 as [|x idx Hx _ IH]; cbn [take_rows flat_map]; [constructor|].
  destruct (nth_error rs (Z.to_nat x)) as [r|] eqn:E.
  - cbn [app]. constructor; [split; [exact E|lia]|exact IH].
  - apply nth_error_None in E. lia.
Qed.

Section Sampling.
Variables py_seed np_seed : Z -> Tape.

(** [sample]: the records at [round(frac * n)] distinct positions. *)
Lemma sample_frac_inv frac seed df w rs w' :
  sample_frac np_seed frac seed df w = Some (rs, w') ->
  exists picks,
    NoDup picks /\
    List.length picks
    = Z.to_nat (round_half_even (float_mul frac (QofZ (len df)))) /\
    Forall2 (fun i e => nth_error (rows df) (Z.to_nat i) = Some e /\ 0 <= i)
            picks rs.
Proof.
  unfold sample_frac. destruct (_ || _); [discriminate|]. intros H.
  apply bind_inv in H. destruct H as (picks & w1 & Hpicks & H).
  apply ret_inv in H. destruct H as [-> _].
  unfold with_random_state in Hpicks.
  destruct (np_choice_distinct _ _ _) as [[l w2]|] eqn:E; [|discriminate].
  inversion Hpicks; subst picks w1.
  apply np_choice_distinct_inv in E; [|apply range_index_NoDup].
  destruct E as (Hlen & Hnd & Hin).
  exists l. split; [exact Hnd|]. split; [exact Hlen|].
  apply take_rows_picks. apply Forall_forall. intros x Hx.
  apply Hin, range_index_In in Hx. exact Hx.
Qed.

Lemma patient_shipments_inv config opts wts acc e w acc' w' :
  patient_shipments config opts wts acc e w = Some (acc', w') ->
  exists new,
    fst acc' = (fst acc ++ new)%list /\
    snd acc' = snd acc + Z.of_nat (List.length new) /\
    patient_block config e new /\
    Forall (shipment_fields_ok opts) new /\
    (forall k r, nth_error new k = Some r ->
                 lookup "shipment_id" r
                 = Some (VStr ("SHIP-" ++ fmt_d 8 (snd acc + Z.of_nat k + 1)))).
Proof.
  unfold patient_shipments. destruct acc as [shipments counter]. intros H.
  apply bind_inv in H. destruct H as (u & w1 & _ & H).
  apply bind_inv in H. destruct H as (v & w2 & Hv & H).
  apply getcol_inv in Hv. destruct Hv as [Hv ->].
  apply bind_inv in H. destruct H as (enrolled & w3 & Hen & H).
  apply as_ts_inv in Hen. destruct Hen as [-> ->].
  apply bind_inv in H. destruct H as (d & w4 & Hd & H).
  apply randint_inv in Hd.
  apply bind_inv in H. destruct H as (ndc & w5 & Hndc & H).
  apply getcol_inv in Hndc. destruct Hndc as [Hndc ->].
  apply bind_inv in H. destruct H as (nm & w6 & Hnm & H).
  apply getcol_inv in Hnm. destruct Hnm as [Hnm ->].
  apply bind_inv in H. destruct H as ([new c'] & w7 & Hloop & H).
  apply ret_inv in H. destruct H as [-> _].
  apply refill_loop_block in Hloop; [|assumption|assumption].
  destruct Hloop as (Hhead & Hblock & Hchain & Hfields & -> & Hids).
  exists new. cbn [fst snd].
  split; [reflexivity|]. split; [reflexivity|].
  split; [|split; assumption].
  assert (Hne : new <> []).
  { intros ->. lia. }
  split; [exact Hne|]. split; [exact Hblock|]. split; [|exact Hchain].
  destruct new as [|r new]; [congruence|].
  exists enrolled, d, r. rewrite date_of_shift in Hhead.
  split; [exact Hv|]. split; [exact Hd|]. split; [reflexivity|exact Hhead].
Qed.

Lemma patient_shipments_fold config opts wts l :
  forall acc w acc' w',
    foldM (patient_shipments config opts wts) l acc w = Some (acc', w') ->
    snd acc = Z.of_nat (List.length (fst acc)) ->
    shipments_numbered (fst acc) ->
    exists blocks,
      fst acc' = (fst acc ++ List.concat blocks)%list /\
      Forall2 (patient_block config) l blocks /\
      Forall (shipment_fields_ok opts) (List.concat blocks) /\
      shipments_numbered (fst acc').
Proof.
  induction l as [|e l IH]; intros acc w acc' w' H Hc Hnum; cbn [foldM] in H.
  - apply ret_inv in H. destruct H as [-> _]. exists [].
    cbn [List.concat]. rewrite app_nil_r.
    split; [reflexivity|]. split; [constructor|]. split; [constructor|exact Hnum].
  - apply bind_inv in H. destruct H as (acc1 & w1 & Hstep & H).
    apply patient_shipments_inv in Hstep.
    destruct Hstep as (new & Hfst & Hsnd & Hblock & Hfields & Hids).
    apply IH in H.
    + destruct H as (blocks & Hacc' & HF & Hall & Hnum').
      exists (new :: blocks). cbn [List.concat].
      split; [rewrite Hacc', Hfst, app_assoc; reflexivity|].
      split; [constructor; assumption|].
      split; [apply Forall_app; split; assumption|exact Hnum'].
    + rewrite Hsnd, Hfst, Hc, length_app. lia.
    + rewrite Hfst. intros k r Hk.
      destruct (Nat.lt_ge_cases k (List.length (fst acc))) as [Hlt|Hge].
      * rewrite nth_error_app1 in Hk by exact Hlt. apply Hnum; exact Hk.
      * rewrite nth_error_app2 in Hk by exact Hge.
        apply Hids in Hk. rewrite Hk, Hc.
        replace (Z.of_nat (List.length (fst acc))
                 + Z.of_nat (k - List.length (fst acc)) + 1)
          with (Z.of_nat k + 1) by lia.
        reflexivity.
Qed.

Lemma Forall2_compose {A B C} (P : A -> B -> Prop) (Q : B -> C -> Prop)
      (R : A -> C -> Prop) :
  (forall a b c, P a b -> Q b c -> R a c) ->
  forall la lb lc, Forall2 P la lb -> Forall2 Q lb lc -> Forall2 R la lc.
Proof.
  intros HR la lb lc HP. revert lc.
  induction HP as [|a b la lb Hab _ IH]; intros lc HQ; inversion HQ; subst;
    constructor; eauto.
Qed.

Lemma generate_shipments_raw_inv enrollments_df config w df w' :
  generate_shipments_raw py_seed np_seed enrollments_df config w
  = Some (df, w') ->
  shipments_by_patient config enrollments_df df /\
  Forall (shipment_fields_ok (map days_supply (refill_cadence config))) (rows df) /\
  shipments_numbered (rows df).
Proof.
  unfold generate_shipments_raw. intros H.
  apply bind_inv in H. destruct H as ([] & w1 & _ & H).
  apply bind_inv in H. destruct H as ([] & w2 & _ & H).
  apply bind_inv in H. destruct H as (shipped & w3 & Hs & H).
  apply sample_frac_inv in Hs. destruct Hs as (picks & Hnd & Hlen & Hpicks).
  apply bind_inv in H. destruct H as ([shipments c] & w4 & Hfold & H).
  apply ret_inv in H. destruct H as [-> _]. cbn [rows df_of_records].
  apply patient_shipments_fold in Hfold;
    [|reflexivity|intros [|k] r Hk; discriminate Hk].
  destruct Hfold as (blocks & Hrows & HF & Hfields & Hnum).
  cbn [fst app] in Hrows, Hnum. subst shipments.
  split; [|split; assumption].
  exists picks, blocks. split; [exact Hnd|]. split; [exact Hlen|].
  split; [reflexivity|].
  eapply Forall2_compose; [|exact Hpicks|exact HF].
  intros i e b [Hi Hpos] Hb. exists e.
  split; [exact Hi|]. split; [exact Hpos|exact Hb].
Qed.

(** X9: [generate_shipments] builds, before data-quality injection, one block
    of shipments for each of [round(first_shipment * n)] enrollment records
    at distinct positions of the enrollments frame, the product being the
    product of floats that pandas rounds.  A block is never
    empty; its shipments carry the ids and product of the enrollment and
    are numbered from refill 0; the first ships 5 to 15 days after the
    enrollment, and each refill ships the days of supply of the shipment
    before it later, give or take -3 to 5 days, and never after the end
    date of the active scale. *)
Theorem shipments_one_block_per_sampled_patient
        enrollments_df config w df w' :
  generate_shipments_raw py_seed np_seed enrollments_df config w
  = Some (df, w') ->
  shipments_by_patient config enrollments_df df.
Proof. intros H. apply generate_shipments_raw_inv in H. apply H. Qed.

(** X10: in every shipment that [generate_shipments] builds, the fill date is
    zero to two days before the ship date, the days of supply come from
    the refill cadence, the quantity is 3.0 for a 90 day supply and 1.0
    otherwise, the claim status is PAID, DENIED or REVERSED, the copay is
    between 0 and 150 and is 0 unless the claim is PAID, and the pharmacy
    is one of PHARM-001 to PHARM-050. *)
Theorem shipments_fields
        enrollments_df config w df w' :
  generate_shipments_raw py_seed np_seed enrollments_df config w
  = Some (df, w') ->
  Forall (shipment_fields_ok (map days_supply (refill_cadence config)))
         (rows df).
Proof. intros H. apply generate_shipments_raw_inv in H. apply H. Qed.

(** X11: before data-quality injection, the shipment ids count the shipments
    of the whole frame: the record at position [k] is SHIP- followed by
    [k + 1] on eight digits. *)
Theorem shipments_numbered_consecutively
        enrollments_df config w df w' :
  generate_shipments_raw py_seed np_seed enrollments_df config w
  = Some (df, w') ->
  shipments_numbered (rows df).
Proof. intros H. apply generate_shipments_raw_inv in H. apply H. Qed.
End Sampling.

Lemma shipments_one_block_per_sampled_patient_witness :
  exists df w',
    generate_shipments_raw Sample.seed Sample.seed Sample.enrollments_df
      (Sample.config true) Sample.world = Some (df, w') /\
    shipments_by_patient (Sample.config true) Sample.enrollments_df df.
Proof.
  destruct (generate_shipments_raw Sample.seed Sample.seed
              Sample.enrollments_df (Sample.config true) Sample.world)
    as [[df w']|] eqn:E.
  - exists df, w'. split; [reflexivity|].
    apply (shipments_one_block_per_sampled_patient _ _ _ _ _ _ _ E).
  - apply (f_equal (option_map fst)) in E. vm_compute in E. discriminate E.
Defined.

Lemma shipments_fields_witness :
  exists df w',
    generate_shipments_raw Sample.seed Sample.seed Sample.enrollments_df
      (Sample.config true) Sample.world = Some (df, w') /\
    Forall (shipment_fields_ok
              (map days_supply (refill_cadence (Sample.config true))))
           (rows df).
Proof.
  destruct (generate_shipments_raw Sample.seed Sample.seed
              Sample.enrollments_df (Sample.config true) Sample.world)
    as [[df w']|] eqn:E.
  - exists df, w'. split; [reflexivity|].
    apply (shipments_fields _ _ _ _ _ _ _ E).
  - apply (f_equal (option_map fst)) in E. vm_compute in E. discriminate E.
Defined.

Lemma shipments_numbered_consecutively_witness :
  exists df w',
    generate_shipments_raw Sample.seed Sample.seed Sample.enrollments_df
      (Sample.config true) Sample.world = Some (df, w') /\
    shipments_numbered (rows df).
Proof.
  destruct (generate_shipments_raw Sample.seed Sample.seed
              Sample.enrollments_df (Sample.config true) Sample.world)
    as [[df w']|] eqn:E.
  - exists df, w'. split; [reflexivity|].
    apply (shipments_numbered_consecutively _ _ _ _ _ _ _ E).
  - apply (f_equal (option_map fst)) in E. vm_compute in E. discriminate E.
Defined.

(* ===================================================================== *)
(** ** The injector on small tables *)
(* ===================================================================== *)

Lemma foldM_ret {A B} (f : B -> A -> M B) (l : list A) b w :
  (forall a b' w', In a l -> f b' a w' = Some (b', w')) ->
  foldM f l b w = Some (b, w).
Proof.
  revert b w. induction l as [|a l IH]; intros b w Hf; cbn [foldM].
  - reflexivity.
  - unfold bind. rewrite Hf by (left; reflexivity).
    apply IH. intros a' b' w' Ha'. apply Hf. right; exact Ha'.
Qed.

Lemma inject_below_threshold df config date_columns nullable_columns w :
  py_int (float_mul (QofZ (len df))
                    (get_default (duplicate_rate config) (5 # 1000))) <= 0 ->
  py_int (float_mul (QofZ (len df))
                    (get_default (null_rate_optional config) (2 # 100))) <= 0 ->
  py_int (float_mul (QofZ (len df))
                    (get_default (future_date_rate config) (1 # 1000))) <= 0 ->
  inject_data_quality_issues df config date_columns nullable_columns w
  = Some (df, w).
Proof.
  intros Hd Hn Hf. unfold inject_data_quality_issues.
  destruct (negb _); [reflexivity|].
  unfold bind at 1. unfold inject_duplicates.
  replace (0 <? _) with false by (symmetry; apply Z.ltb_ge; exact Hd).
  unfold ret at 1. cbv beta iota.
  unfold bind at 1.
  assert (E1 : match nullable_columns with
               | [] => ret df
               | _ :: _ =>
                   inject_nulls (len df)
                     (get_default (null_rate_optional config) (2 # 100))
                     nullable_columns df
               end w = Some (df, w)).
  { destruct nullable_columns as [|c cs]; [reflexivity|].
    unfold inject_nulls. apply foldM_ret. intros a b' w' _.
    destruct (has_column a b'); [|reflexivity].
    replace (0 <? _) with false by (symmetry; apply Z.ltb_ge; exact Hn).
    reflexivity. }
  rewrite E1. unfold bind at 1.
  assert (E2 : match date_columns with
               | [] => ret df
               | _ :: _ =>
                   inject_future_dates (len df)
                     (get_default (future_date_rate config) (1 # 1000))
                     date_columns df
               end w = Some (df, w)).
  { destruct date_columns as [|c cs]; [reflexivity|].
    unfold inject_future_dates.
    replace (0 <? _) with false by (symmetry; apply Z.ltb_ge; exact Hf).
    reflexivity. }
  rewrite E2. reflexivity.
Qed.

Lemma inject_empty df config date_columns nullable_columns w :
  rows df = [] ->
  inject_data_quality_issues df config date_columns nullable_columns w
  = Some (df, w).
Proof.
  intros Hr. apply inject_below_threshold; unfold len; rewrite Hr;
    cbn [List.length Z.of_nat]; rewrite py_int_zero; lia.
Qed.

(** X12: the injector leaves a table as it is, and draws nothing, when the
    table is too small for its rates: when [int(n * rate)], with the
    product of floats that Python computes, is zero (or negative) for the
    duplicate, null and future-date rates.  An empty table is such a table,
    whatever the rates. *)
Theorem inject_leaves_small_tables df config date_columns nullable_columns w :
  rows df = [] \/
  (py_int (float_mul (QofZ (len df))
                     (get_default (duplicate_rate config) (5 # 1000))) <= 0 /\
   py_int (float_mul (QofZ (len df))
                     (get_default (null_rate_optional config) (2 # 100))) <= 0 /\
   py_int (float_mul (QofZ (len df))
                     (get_default (future_date_rate config) (1 # 1000))) <= 0) ->
  inject_data_quality_issues df config date_columns nullable_columns w
  = Some (df, w).
Proof.
  intros [Hr|(Hd & Hn & Hf)].
  - apply inject_empty; exact Hr.
  - apply inject_below_threshold; assumption.
Qed.

Lemma inject_leaves_small_tables_witness :
  inject_data_quality_issues Sample.enrollments_df Sample.quiet_quality
    ["enrolled_ts"; "inquiry_ts"] ["inquiry_ts"; "hub_vendor"] Sample.world
  = Some (Sample.enrollments_df, Sample.world).
Proof.
  apply (inject_leaves_small_tables Sample.enrollments_df Sample.quiet_quality).
  right. vm_compute. repeat split; discriminate.
Defined.

Section Empty.
Variables (py_seed np_seed : Z -> Tape) (sha256_hex : string -> string).

Lemma generate_enrollments_empty config scale w :
  assoc (active_scale config) (scales config) = Some scale ->
  enrollments scale <= 0 ->
  generate_enrollments py_seed np_seed sha256_hex config w
  = Some (mkDF [] [],
          mkWorld (py_seed (seed_of config)) (np_seed (seed_of config)) (wall w)).
Proof.
  intros Hs Hn. unfold generate_enrollments, generate_enrollments_raw.
  unfold bind at 1. unfold bind at 1. unfold scale_config. rewrite Hs.
  cbn [of_option]. unfold ret at 1. cbv beta iota.
  unfold bind at 1. unfold random_seed_set at 1. cbv beta iota.
  unfold bind at 1. unfold np_random_seed_set at 1. cbv beta iota.
  replace (Z.to_nat (enrollments scale)) with O by lia.
  cbn [range_index seq map mapM]. unfold bind at 1. unfold ret at 1.
  cbv beta iota. unfold ret at 1. cbn [df_of_records py_rng np_rng wall].
  apply inject_empty. reflexivity.
Qed.

Lemma generate_cases_empty config w :
  generate_cases py_seed np_seed (mkDF [] []) config w
  = Some (mkDF [] [],
          mkWorld (py_seed (seed_of config)) (np_seed (seed_of config)) (wall w)).
Proof.
  unfold generate_cases, generate_cases_raw.
  unfold bind at 1. unfold bind at 1. unfold random_seed_set at 1.
  cbv beta iota.
  unfold bind at 1. unfold np_random_seed_set at 1. cbv beta iota.
  cbn [rows mapM]. unfold bind at 1. unfold ret at 1.
  cbv beta iota. unfold ret at 1. cbn [df_of_records py_rng np_rng wall].
  apply inject_empty. reflexivity.
Qed.

Lemma generate_status_history_no_columns cases_df config w :
  generate_status_history py_seed np_seed cases_df (mkDF [] []) config w = None.
Proof.
  unfold generate_status_history, generate_status_history_raw,
    merge_enrollment_timing.
  unfold bind at 1. unfold bind at 1. unfold random_seed_set at 1.
  cbv beta iota.
  unfold bind at 1. unfold np_random_seed_set at 1. cbv beta iota.
  reflexivity.
Qed.

(** X13: when the active scale asks for no enrollment, [generate_enrollments]
    and [generate_cases] return tables without records and without columns,
    and the pipeline of [main] then raises in [generate_status_history],
    whose merge finds no [enrollment_id] column. *)
Theorem pipeline_raises_without_enrollments config scale w :
  assoc (active_scale config) (scales config) = Some scale ->
  enrollments scale <= 0 ->
  (exists w1 w2,
      generate_enrollments py_seed np_seed sha256_hex config w
      = Some (mkDF [] [], w1) /\
      generate_cases py_seed np_seed (mkDF [] []) config w1
      = Some (mkDF [] [], w2) /\
      generate_status_history py_seed np_seed (mkDF [] []) (mkDF [] [])
        config w2 = None) /\
  generate_all py_seed np_seed sha256_hex config w = None.
Proof.
  intros Hs Hn. split.
  - eexists _, _. split; [apply (generate_enrollments_empty _ _ _ Hs Hn)|].
    split; [apply generate_cases_empty|].
    apply generate_status_history_no_columns.
  - unfold generate_all. unfold bind at 1.
    rewrite (generate_enrollments_empty _ _ _ Hs Hn).
    unfold bind at 1. rewrite generate_cases_empty.
    unfold bind at 1. rewrite generate_status_history_no_columns.
    reflexivity.
Qed.
End Empty.

Lemma pipeline_raises_without_enrollments_witness :
  (exists w1 w2,
      generate_enrollments Sample.seed Sample.seed Sample.digest Sample.empty_config
        Sample.world = Some (mkDF [] [], w1) /\
      generate_cases Sample.seed Sample.seed (mkDF [] []) Sample.empty_config w1
      = Some (mkDF [] [], w2) /\
      generate_status_history Sample.seed Sample.seed (mkDF [] []) (mkDF [] [])
        Sample.empty_config w2 = None) /\
  generate_all Sample.seed Sample.seed Sample.digest Sample.empty_config Sample.world
  = None.
Proof.
  apply (pipeline_raises_without_enrollments Sample.seed Sample.seed
           Sample.digest Sample.empty_config Sample.empty_scale Sample.world).
  - reflexivity.
  - vm_compute. discriminate.
Defined.

(* ===================================================================== *)
(** ** The bronze layer *)
(* ===================================================================== *)

Lemma raw_is_not_bronze s s' : raw_path s <> bronze_path s'.
Proof. unfold raw_path, bronze_path. cbn. discriminate. Qed.

Lemma ingest_step source_name fs w :
  exists fs' report w',
    ingest_source_to_bronze source_name fs w = Some ((fs', report), w') /\
    (forall p, p <> bronze_path source_name -> fs' p = fs p) /\
    ingested fs fs' report source_name /\
    no_mismatch report.
Proof.
  unfold ingest_source_to_bronze, ingested.
  unfold bind at 1. unfold now at 1.
  destruct (fs (raw_path source_name)) as [df|] eqn:Hraw.
  - unfold bind at 1. unfold now at 1.
    unfold bind at 1. unfold now at 1.
    unfold write_parquet at 1. rewrite String.eqb_refl.
    set (b := assign_scalar bronze_source _ _).
    assert (Hlen : len b = len df).
    { unfold len, b, assign_scalar. cbn [rows]. now rewrite !length_map. }
    rewrite Hlen, Z.eqb_refl.
    eexists _, _, _. split; [reflexivity|].
    split.
    { intros p Hp. unfold write_parquet.
      destruct (String.eqb_spec p (bronze_path source_name));
        [contradiction|reflexivity]. }
    split.
    + exists b. split; [unfold write_parquet; now rewrite String.eqb_refl|].
      apply bronze_of_assign.
    + intros a c [H|[H|[H|[H|[]]]]]; discriminate H.
  - eexists _, _, _. split; [reflexivity|].
    split; [reflexivity|]. split.
    + split; [reflexivity|left; reflexivity].
    + intros a c [H|[]]. discriminate H.
Qed.

Lemma ingest_fold l :
  NoDup (map bronze_path l) ->
  forall fs rep0 w,
    exists fs' report w',
      foldM (fun acc source_name =>
               '(fs', rep) <- ingest_source_to_bronze source_name (fst acc) ;;
               ret (fs', (snd acc ++ rep)%list))
            l (fs, rep0) w = Some ((fs', report), w') /\
      (forall p, (forall s, In s l -> p <> bronze_path s) -> fs' p = fs p) /\
      (forall s, In s l -> ingested fs fs' report s) /\
      incl rep0 report /\
      (no_mismatch rep0 -> no_mismatch report).
Proof.
  induction l as [|a l IH]; intros Hnd fs rep0 w; cbn [foldM].
  - exists fs, rep0, w. split; [reflexivity|].
    split; [reflexivity|]. split; [intros s []|].
    split; [apply incl_refl|tauto].
  - cbn [map] in Hnd. inversion Hnd as [|? ? Ha Hl]; subst.
    destruct (ingest_step a fs w) as (fs1 & rep1 & w1 & Hstep & Hother & Hing & Hno).
    destruct (IH Hl fs1 (rep0 ++ rep1)%list w1)
      as (fs' & report & w' & Hfold & Hother' & Hing' & Hincl & Hno').
    exists fs', report, w'.
    split.
    { unfold bind at 1. cbn [fst snd]. unfold bind at 1. rewrite Hstep.
      unfold ret at 1. exact Hfold. }
    assert (Hafter : fs' (bronze_path a) = fs1 (bronze_path a)).
    { apply Hother'. intros s Hs E. apply Ha. rewrite E.
      apply in_map. exact Hs. }
    split.
    { intros p Hp. rewrite Hother'.
      - apply Hother. apply Hp. left; reflexivity.
      - intros s Hs. apply Hp. right; exact Hs. }
    split.
    { intros s [<-|Hs].
      - unfold ingested in *.
        destruct (fs (raw_path a)) as [df|].
        + destruct Hing as (bronze & Hb & Hof). exists bronze.
          split; [congruence|exact Hof].
        + destruct Hing as [Hb Hin]. split; [congruence|].
          apply Hincl. apply in_or_app. right; exact Hin.
      - specialize (Hing' s Hs). unfold ingested in *.
        rewrite (Hother (raw_path s)) in Hing' by apply raw_is_not_bronze.
        destruct (fs (raw_path s)) as [df|]; [exact Hing'|].
        destruct Hing' as [Hb Hin]. split; [|exact Hin].
        rewrite Hb. apply Hother. intros E. apply Ha. rewrite <- E.
        apply in_map. exact Hs. }
    split.
    { intros x Hx. apply Hincl. apply in_or_app. left; exact Hx. }
    intros H0. apply Hno'. intros x y Hxy. apply in_app_or in Hxy.
    destruct Hxy as [Hxy|Hxy]; [exact (H0 x y Hxy)|exact (Hno x y Hxy)].
Qed.

Lemma sources_bronze_paths_differ : NoDup (map bronze_path sources).
Proof.
  unfold sources, bronze_path. cbn [map].
  repeat (constructor;
          [cbn [In]; intros H;
           repeat (destruct H as [H|H]; [discriminate H|]); exact H|]).
  constructor.
Qed.

(** X14: the ingestion loop of [main] never raises.  After it, each of the
    five sources whose raw file exists has a bronze file with the records
    of the raw table, in which every record holds the load time in
    [_bronze_loaded_at] and the name of the raw file in [_bronze_source],
    and every raw column that has neither of these two names holds the
    cells it had; a raw column that has one of the two names is
    overwritten.  For a raw table without columns of these names the bronze
    file therefore holds the raw columns followed by the two audit columns,
    every raw column unchanged.  Each source without a raw file is reported
    as not found and its bronze path is left as it was; no file other than
    the five bronze files is written, so no raw file changes; and no row
    count mismatch is reported. *)
Theorem ingest_all_writes_the_bronze_layer fs w :
  exists fs' report w',
    ingest_all fs w = Some ((fs', report), w') /\
    (forall s, In s sources -> ingested fs fs' report s) /\
    (forall s df,
        In s sources -> fs (raw_path s) = Some df ->
        ~ In bronze_loaded_at (columns df) -> ~ In bronze_source (columns df) ->
        exists bronze,
          fs' (bronze_path s) = Some bronze /\ exact_bronze_copy df bronze) /\
    (forall p, (forall s, In s sources -> p <> bronze_path s) -> fs' p = fs p) /\
    (forall s, fs' (raw_path s) = fs (raw_path s)) /\
    no_mismatch report.
Proof.
  destruct (ingest_fold sources sources_bronze_paths_differ fs [] w)
    as (fs' & report & w' & Hfold & Hother & Hing & _ & Hno).
  exists fs', report, w'. split; [exact Hfold|].
  split; [exact Hing|]. split.
  { intros s df Hs Hraw H1 H2. specialize (Hing s Hs).
    unfold ingested in Hing. rewrite Hraw in Hing.
    destruct Hing as (bronze & Hb & Hof). exists bronze.
    split; [exact Hb|]. exact (bronze_of_exact _ _ _ Hof H1 H2). }
  split; [exact Hother|].
  split.
  - intros s. apply Hother. intros s' _. apply raw_is_not_bronze.
  - apply Hno. intros a b [].
Qed.

(* ===================================================================== *)
(** ** The test run of the enrollment generator *)
(* ===================================================================== *)

Lemma assoc_dict_set {A} k (v : A) l : assoc k (dict_set k v l) = Some v.
Proof.
  induction l as [|[k' a] l IH]; cbn [dict_set assoc].
  - now rewrite String.eqb_refl.
  - destruct (String.eqb k' k) eqn:E; cbn [assoc]; rewrite E; [reflexivity|exact IH].
Qed.

Section TestMode.
Variables (py_seed np_seed : Z -> Tape) (sha256_hex : string -> string).

(** X15: the test run of the enrollment generator builds, whatever scales the
    config file holds, exactly 100 enrollments dated from 2024-01-01
    00:00 to 2025-01-01 00:00, and returns them followed by the
    [int(100 * duplicate_rate)] duplicates of the injector when injection
    is switched on, the product being the product of floats that Python
    computes: 28 duplicates for a rate of 0.29. *)
Theorem test_mode_generates_100_enrollments config w df' w' :
  generate_enrollments py_seed np_seed sha256_hex (test_mode config) w
  = Some (df', w') ->
  exists df w1,
    generate_enrollments_raw py_seed np_seed sha256_hex (test_mode config) w
    = Some (df, w1) /\
    List.length (rows df) = 100%nat /\
    Forall (enrollment_timing (19723 * day_us) (20088 * day_us)) (rows df) /\
    List.length (rows df')
    = (100 + injected_duplicates (data_quality config) 100)%nat.
Proof.
  unfold generate_enrollments. intros H.
  apply bind_inv in H. destruct H as (df & w1 & Hraw & Hinj).
  exists df, w1. split; [exact Hraw|].
  apply generate_enrollments_raw_inv in Hraw.
  destruct Hraw as (scale & Hscale & HF).
  cbn [test_mode active_scale scales] in Hscale.
  rewrite assoc_dict_set in Hscale. inversion Hscale; subst scale.
  cbn [test_scale enrollments start_date end_date] in HF.
  assert (Hlen : List.length (rows df) = 100%nat).
  { rewrite <- (Forall2_length HF). apply range_index_length. }
  split; [exact Hlen|]. split.
  { eapply Forall2_Forall_r; [|exact HF]. cbn beta.
    intros i r (wa & wb & Hr). apply enrollment_record_inv in Hr. tauto. }
  cbn [test_mode data_quality] in Hinj. unfold injected_duplicates.
  destruct (get_default (inject_issues (data_quality config)) false) eqn:Hon.
  - destruct (inject_on_spec df (data_quality config) ["enrolled_ts"; "inquiry_ts"]
                (nullable_fields (data_quality config)) w1 Hon)
      as (dups & df2 & w2 & Hrun & Hdups & _ & Hsh).
    rewrite Hrun in Hinj. inversion Hinj; subst df2 w2.
    apply same_shape_length in Hsh. rewrite Hsh.
    unfold df_concat. cbn [rows]. rewrite length_app, Hlen, Hdups.
    unfold len. rewrite Hlen. reflexivity.
  - rewrite (inject_off _ _ _ _ Hon) in Hinj.
    apply ret_inv in Hinj. destruct Hinj as [-> _]. rewrite Hlen. reflexivity.
Qed.
End TestMode.

Lemma test_mode_generates_100_enrollments_witness :
  exists df' w',
    generate_enrollments Sample.seed Sample.seed Sample.digest
      (test_mode Sample.noisy_config) Sample.world = Some (df', w') /\
    (exists df w1,
      generate_enrollments_raw Sample.seed Sample.seed Sample.digest
        (test_mode Sample.noisy_config) Sample.world = Some (df, w1) /\
      List.length (rows df) = 100%nat /\
      Forall (enrollment_timing (19723 * day_us) (20088 * day_us)) (rows df) /\
      List.length (rows df')
      = (100 + injected_duplicates (data_quality Sample.noisy_config) 100)%nat)
    /\ injected_duplicates (data_quality Sample.noisy_config) 100 = 28%nat.
Proof.
  set (run := generate_enrollments Sample.seed Sample.seed Sample.digest
                (test_mode Sample.noisy_config) Sample.world).
  assert (E : option_map (fun _ => tt) run = Some tt)
    by (vm_compute; reflexivity).
  destruct run as [[df' w']|] eqn:Hrun; [|discriminate E].
  exists df', w'. split; [reflexivity|]. split; [|vm_compute; reflexivity].
  exact (test_mode_generates_100_enrollments _ _ _ _ _ _ _ Hrun).
Defined.

(* ===================================================================== *)
(** ** Claims: columns, ids and what is copied *)
(* ===================================================================== *)

Lemma cell_set_cell_other c c' v r :
  c' <> c -> cell c' (set_cell c v r) = cell c' r.
Proof. intros H. unfold cell. now rewrite lookup_set_cell_other. Qed.

Lemma cell_set_cell_same c v r : cell c (set_cell c v r) = v.
Proof. unfold cell. now rewrite lookup_set_cell_same. Qed.

Lemma zip_with_Forall2 {A B C} (f : A -> B -> C) (l : list A) :
  forall l', List.length l' = List.length l ->
  Forall2 (fun a c => exists b, In b l' /\ c = f a b) l (zip_with f l l').
Proof.
  induction l as [|a l IH]; intros [|b l'] Hl; cbn [zip_with];
    try discriminate Hl; constructor.
  - exists b. split; [left; reflexivity|reflexivity].
  - cbn [List.length] in Hl. injection Hl as Hl.
    eapply Forall2_impl; [|apply IH; exact Hl]. cbn beta.
    intros x y (b' & Hb' & ->). exists b'. split; [right; exact Hb'|reflexivity].
Qed.

Lemma map_Forall2 {A B} (f : A -> B) (l : list A) :
  Forall2 (fun a b => b = f a) l (map f l).
Proof. induction l; cbn [map]; constructor; auto. Qed.

Lemma Forall2_ex {A B C} (P : A -> B -> Prop) (Q : B -> C -> Prop) la lb lc :
  Forall2 P la lb -> Forall2 Q lb lc ->
  Forall2 (fun a c => exists b, P a b /\ Q b c) la lc.
Proof.
  intros HP. revert lc.
  induction HP as [|a b la lb Hab _ IH]; intros lc HQ; inversion HQ; subst;
    constructor; eauto.
Qed.

Lemma assign_where_Forall2 mask c (V : value -> Prop) rs :
  forall vals,
    Forall V vals -> (count_where mask rs <= List.length vals)%nat ->
    Forall2 (assigned mask c V) rs (assign_where mask c vals rs).
Proof.
  unfold count_where, assigned.
  induction rs as [|r rs IH]; intros vals HV Hc; cbn [assign_where];
    [constructor|].
  cbn [filter] in Hc. destruct (mask r) eqn:Em.
  - destruct vals as [|v vals]; [cbn in Hc; lia|].
    inversion HV; subst. constructor.
    + rewrite Em. exists v. split; [assumption|reflexivity].
    + apply IH; [assumption|cbn [List.length] in Hc; lia].
  - constructor; [rewrite Em; reflexivity|]. apply IH; assumption.
Qed.

Lemma np_uniform_length low high n w l w' :
  np_uniform low high n w = Some (l, w') -> List.length l = n.
Proof.
  unfold np_uniform. intros H.
  eapply (repeatM_inv (fun _ => True)); [|exact H]. trivial.
Qed.

Lemma np_choice_p_inv {A} (a : list A) p n w l w' :
  np_choice_p a p n w = Some (l, w') ->
  Forall (fun x => In x a) l /\ List.length l = n.
Proof.
  unfold np_choice_p. destruct (negb _); [discriminate|]. intros H.
  eapply (repeatM_inv (fun x => In x a)); [|exact H].
  intros w0 x w0' Hx. apply bind_inv in Hx. destruct Hx as (y & w1 & _ & Hx).
  apply of_option_inv in Hx. destruct Hx as [Hx _].
  eapply nth_error_In; exact Hx.
Qed.

Lemma np_choice_inv {A} (a : list A) n w l w' :
  np_choice a n w = Some (l, w') ->
  Forall (fun x => In x a) l /\ List.length l = n.
Proof.
  unfold np_choice. intros H.
  assert (H' : repeatM n (x <- np_raw ;;
                          of_option (nth_error a (Z.to_nat (x mod Z.of_nat (List.length a)))))
                 w = Some (l, w')).
  { destruct a, n; try exact H. discriminate H. }
  eapply (repeatM_inv (fun x => In x a)); [|exact H'].
  intros w0 x w0' Hx. apply bind_inv in Hx. destruct Hx as (y & w1 & _ & Hx).
  apply of_option_inv in Hx. destruct Hx as [Hx _].
  eapply nth_error_In; exact Hx.
Qed.

Lemma amount_rounded lo hi x :
  lo <= hi ->
  lo * 100
  <= round_half_even ((QofZ lo + (QofZ hi - QofZ lo) * unit_float x) * QofZ 100)
  <= hi * 100.
Proof.
  intros Hle. destruct (unit_float_range x) as [H0 H1].
  set (u := unit_float x) in *. unfold QofZ.
  assert (Hd : (0 <= inject_Z hi - inject_Z lo)%Q).
  { unfold Qminus. rewrite <- (Qplus_opp_r (inject_Z lo)).
    apply Qplus_le_l. rewrite <- Zle_Qle. exact Hle. }
  assert (Hp : (0 <= (inject_Z hi - inject_Z lo) * u)%Q)
    by (apply Qmult_le_0_compat; assumption).
  assert (Hq : ((inject_Z hi - inject_Z lo) * u <= inject_Z hi - inject_Z lo)%Q).
  { rewrite <- (Qmult_1_r (inject_Z hi - inject_Z lo)) at 2.
    rewrite (Qmult_comm _ u), (Qmult_comm _ 1).
    apply Qmult_le_compat_r; assumption. }
  apply round_half_even_bounds.
  - rewrite inject_Z_mult. apply Qmult_le_compat_r; [|discriminate].
    rewrite <- (Qplus_0_r (inject_Z lo)) at 1.
    apply Qplus_le_r. exact Hp.
  - rewrite inject_Z_mult. apply Qmult_le_compat_r; [|discriminate].
    apply (Qplus_le_r _ _ (inject_Z lo)) in Hq.
    eapply Qle_trans; [exact Hq|]. 
    assert (E : (inject_Z lo + (inject_Z hi - inject_Z lo) == inject_Z hi)%Q) by ring.
    rewrite E. apply Qle_refl.
Qed.

Lemma np_amounts_inv lo hi k w vals w' :
  lo <= hi ->
  np_amounts (QofZ lo) (QofZ hi) k w = Some (vals, w') ->
  Forall (amount_between lo hi) vals /\ List.length vals = k.
Proof.
  intros Hle H. unfold np_amounts in H.
  apply bind_inv in H. destruct H as (xs & w1 & Hxs & H).
  apply ret_inv in H. destruct H as [-> _].
  pose proof (np_uniform_length _ _ _ _ _ _ Hxs) as Hlen.
  apply np_uniform_inv in Hxs.
  split; [|now rewrite length_map].
  apply Forall_map. eapply Forall_impl; [|exact Hxs]. cbn beta.
  intros q (x & ->). eexists. split; [reflexivity|].
  apply amount_rounded. exact Hle.
Qed.

Ltac cells :=
  repeat first
    [ rewrite cell_set_cell_same
    | rewrite cell_set_cell_other by discriminate ].

Lemma coded_set_cell r0 r t s c v :
  ~ In c ["claim_id"; "enrollment_id"; "patient_id_hash"; "payer_id";
          "provider_npi"; "claim_type"; "claim_status"; "ndc_code";
          "procedure_code"] ->
  coded r0 r t s -> coded r0 (set_cell c v r) t s.
Proof.
  intros Hc. cbn [In] in Hc.
  assert (E : forall c', In c' ["claim_id"; "enrollment_id"; "patient_id_hash";
                                "payer_id"; "provider_npi"; "claim_type";
                                "claim_status"; "ndc_code"; "procedure_code"] ->
                         cell c' (set_cell c v r) = cell c' r).
  { intros c' Hc'. apply cell_set_cell_other. intros ->. cbn [In] in Hc'. tauto. }
  unfold coded, kept.
  rewrite !E by (cbn [In]; tauto). tauto.
Qed.

Lemma types_then_codes_then_status r0 t code s :
  In t ["PHARMACY"; "MEDICAL"] ->
  In code ["99213"; "99214"; "96372"; "J1234"] ->
  In s ["PAID"; "DENIED"; "PENDING"] ->
  let r1 := set_cell "claim_type" (VStr t) r0 in
  let r2 := set_cell "procedure_code"
              (if is_cell "claim_type" "MEDICAL" r1 then VStr code else VNone)
              r1 in
  let r3 := if is_cell "claim_type" "MEDICAL" r2
            then set_cell "ndc_code" VNone r2 else r2 in
  coded r0 (set_cell "claim_status" (VStr s) r3) t s.
Proof.
  intros Ht Hcode Hs r1 r2 r3. subst r1 r2 r3. unfold is_cell.
  cells. cbn [In] in Ht.
  destruct Ht as [<-|[<-|[]]]; cbn [value_eqb String.eqb Ascii.eqb Bool.eqb].
  - unfold coded, kept. cells.
    split; [repeat split; reflexivity|].
    split; [reflexivity|]. split; [left; reflexivity|].
    split; [reflexivity|]. split; [exact Hs|].
    split; [intros E; discriminate E|]. intros _. split; reflexivity.
  - unfold coded, kept. cells.
    split; [repeat split; reflexivity|].
    split; [reflexivity|]. split; [right; left; reflexivity|].
    split; [reflexivity|]. split; [exact Hs|].
    split; [|intros E; discriminate E].
    intros _. split; [reflexivity|]. exists code. split; [assumption|reflexivity].
Qed.

Ltac cells_in H :=
  repeat first
    [ rewrite cell_set_cell_same in H
    | rewrite cell_set_cell_other in H by discriminate ].

Ltac not_coded_column :=
  cbn [In]; intros Hcol;
  repeat (destruct Hcol as [Hcol|Hcol]; [discriminate Hcol|]); exact Hcol.

Ltac assigned_step H Ht Hs :=
  unfold assigned, paid_pharmacy, paid_medical, is_cell in H;
  cells_in H; rewrite ?Ht, ?Hs in H;
  cbn [value_eqb String.eqb Ascii.eqb Bool.eqb andb] in H;
  first [ destruct H as (? & (? & -> & ?) & ->) | subst ].

(** The amounts of one record, from the zeros to the missing cells. *)
Lemma amounts_row r0 r t s r1 r2 r3 r4 :
  coded r0 r t s ->
  assigned paid_pharmacy "paid_amount" (amount_between 5000 15000)
    (set_cell "patient_paid" (VDec 0) (set_cell "paid_amount" (VDec 0) r)) r1 ->
  assigned paid_pharmacy "patient_paid" (amount_between 0 500) r1 r2 ->
  assigned paid_medical "paid_amount" (amount_between 100 500) r2 r3 ->
  assigned paid_medical "patient_paid" (amount_between 0 50) r3 r4 ->
  finished r0
    ((fun r => if value_eqb (cell "patient_paid" r) (VDec 0)
               then set_cell "patient_paid" VNone r else r)
       ((fun r => if value_eqb (cell "paid_amount" r) (VDec 0)
                  then set_cell "paid_amount" VNone r else r) r4)).
Proof.
  intros Hc H1 H2 H3 H4. exists t, s.
  pose proof Hc as (_ & Ht & Hint & Hs & Hins & _).
  assert (Hfin : forall pa pp x,
    coded r0 x t s -> cell "paid_amount" x = VDec pa ->
    cell "patient_paid" x = VDec pp ->
    fst (paid_range t s) <= pa <= snd (paid_range t s) ->
    fst (patient_paid_range t s) <= pp <= snd (patient_paid_range t s) ->
    coded r0
      ((fun r => if value_eqb (cell "patient_paid" r) (VDec 0)
                 then set_cell "patient_paid" VNone r else r)
         ((fun r => if value_eqb (cell "paid_amount" r) (VDec 0)
                    then set_cell "paid_amount" VNone r else r) x)) t s /\
    amount_cell (paid_range t s)
      (cell "paid_amount"
         ((fun r => if value_eqb (cell "patient_paid" r) (VDec 0)
                    then set_cell "patient_paid" VNone r else r)
            ((fun r => if value_eqb (cell "paid_amount" r) (VDec 0)
                       then set_cell "paid_amount" VNone r else r) x))) /\
    amount_cell (patient_paid_range t s)
      (cell "patient_paid"
         ((fun r => if value_eqb (cell "patient_paid" r) (VDec 0)
                    then set_cell "patient_paid" VNone r else r)
            ((fun r => if value_eqb (cell "paid_amount" r) (VDec 0)
                       then set_cell "paid_amount" VNone r else r) x)))).
  { intros pa pp x Hx Hpa Hpp Rpa Rpp. cbv beta.
    rewrite Hpa. cbn [value_eqb].
    destruct (Z.eqb_spec pa 0) as [->|Hpa0].
    - cells. rewrite Hpp. cbn [value_eqb].
      destruct (Z.eqb_spec pp 0) as [->|Hpp0].
      + cells. split.
        * apply coded_set_cell; [not_coded_column|].
          apply coded_set_cell; [not_coded_column|exact Hx].
        * split; left; (split; [reflexivity|assumption]).
      + cells. split.
        * apply coded_set_cell; [not_coded_column|exact Hx].
        * split; [left; split; [reflexivity|assumption]|].
          rewrite Hpp. right. exists pp. repeat split; first [assumption|lia].
    - rewrite Hpp. cbn [value_eqb].
      destruct (Z.eqb_spec pp 0) as [->|Hpp0].
      + cells. split.
        * apply coded_set_cell; [not_coded_column|exact Hx].
        * split; [|left; split; [reflexivity|assumption]].
          rewrite Hpa. right. exists pa. repeat split; first [assumption|lia].
      + split; [exact Hx|]. rewrite Hpa, Hpp.
        split; right; eexists; repeat split; first [eassumption|lia]. }
  cbn [In] in Hint, Hins.
  destruct Hint as [<-|[<-|[]]]; destruct Hins as [<-|[<-|[<-|[]]]];
    assigned_step H1 Ht Hs; assigned_step H2 Ht Hs;
    assigned_step H3 Ht Hs; assigned_step H4 Ht Hs.
  all: repeat match goal with
         | H : amount_between _ _ _ |- _ =>
             destruct H as (? & -> & ?)
         end.
  all: eapply Hfin;
    [ repeat (apply coded_set_cell; [not_coded_column|]); exact Hc
    | cells; reflexivity
    | cells; reflexivity
    | cbn [paid_range patient_paid_range String.eqb Ascii.eqb Bool.eqb fst snd];
      lia
    | cbn [paid_range patient_paid_range String.eqb Ascii.eqb Bool.eqb fst snd];
      lia ].
Qed.

Lemma assign_claim_types_rows rs w rs' w' :
  assign_claim_types rs w = Some (rs', w') ->
  Forall2 (fun r r' => exists t, In t ["PHARMACY"; "MEDICAL"] /\
                                 r' = set_cell "claim_type" (VStr t) r)
          rs rs'.
Proof.
  unfold assign_claim_types. intros H.
  apply bind_inv in H. destruct H as (ts & w1 & Hts & H).
  apply ret_inv in H. destruct H as [-> _].
  apply np_choice_p_inv in Hts. destruct Hts as [Hin Hlen].
  eapply Forall2_impl; [|apply zip_with_Forall2; exact Hlen]. cbn beta.
  intros r r' (t & Ht & ->). exists t. split; [|reflexivity].
  rewrite Forall_forall in Hin. apply Hin; exact Ht.
Qed.

Lemma assign_claim_status_rows rs w rs' w' :
  assign_claim_status rs w = Some (rs', w') ->
  Forall2 (fun r r' => exists s, In s ["PAID"; "DENIED"; "PENDING"] /\
                                 r' = set_cell "claim_status" (VStr s) r)
          rs rs'.
Proof.
  unfold assign_claim_status. intros H.
  apply bind_inv in H. destruct H as (ts & w1 & Hts & H).
  apply ret_inv in H. destruct H as [-> _].
  apply np_choice_p_inv in Hts. destruct Hts as [Hin Hlen].
  eapply Forall2_impl; [|apply zip_with_Forall2; exact Hlen]. cbn beta.
  intros r r' (t & Ht & ->). exists t. split; [|reflexivity].
  rewrite Forall_forall in Hin. apply Hin; exact Ht.
Qed.

Lemma assign_procedure_codes_rows rs w rs' w' :
  assign_procedure_codes rs w = Some (rs', w') ->
  Forall2 (fun r r' =>
             exists code, In code ["99213"; "99214"; "96372"; "J1234"] /\
               r' = (fun r2 => if is_cell "claim_type" "MEDICAL" r2
                               then set_cell "ndc_code" VNone r2 else r2)
                      (set_cell "procedure_code"
                         (if is_cell "claim_type" "MEDICAL" r
                          then VStr code else VNone) r))
          rs rs'.
Proof.
  unfold assign_procedure_codes. intros H.
  apply bind_inv in H. destruct H as (codes & w1 & Hcodes & H).
  apply ret_inv in H. destruct H as [-> _].
  apply np_choice_inv in Hcodes. destruct Hcodes as [Hin Hlen].
  eapply Forall2_impl;
    [|exact (Forall2_ex _ _ _ _ _ (zip_with_Forall2 _ rs codes Hlen)
                        (map_Forall2 _ _))].
  cbn beta. intros r r' (r1 & (code & Hcode & ->) & ->).
  exists code. split; [|reflexivity].
  rewrite Forall_forall in Hin. apply Hin; exact Hcode.
Qed.

Lemma assign_amounts_rows mask c lo hi rs w rs' w' :
  lo <= hi ->
  assign_amounts mask c (QofZ lo) (QofZ hi) rs w = Some (rs', w') ->
  Forall2 (assigned mask c (amount_between lo hi)) rs rs'.
Proof.
  intros Hle H. unfold assign_amounts in H.
  apply bind_inv in H. destruct H as (vals & w1 & Hvals & H).
  apply ret_inv in H. destruct H as [-> _].
  apply np_amounts_inv in Hvals; [|exact Hle]. destruct Hvals as [HV Hlen].
  apply assign_where_Forall2; [exact HV|]. rewrite Hlen. apply Nat.le_refl.
Qed.

Lemma assign_paid_amounts_rows rs w rs' w' :
  assign_paid_amounts rs w = Some (rs', w') ->
  Forall2 (fun r r' =>
             exists r1 r2 r3 r4,
               assigned paid_pharmacy "paid_amount" (amount_between 5000 15000)
                 (set_cell "patient_paid" (VDec 0)
                    (set_cell "paid_amount" (VDec 0) r)) r1 /\
               assigned paid_pharmacy "patient_paid" (amount_between 0 500)
                 r1 r2 /\
               assigned paid_medical "paid_amount" (amount_between 100 500)
                 r2 r3 /\
               assigned paid_medical "patient_paid" (amount_between 0 50)
                 r3 r4 /\
               r' = (fun r => if value_eqb (cell "patient_paid" r) (VDec 0)
                              then set_cell "patient_paid" VNone r else r)
                      ((fun r => if value_eqb (cell "paid_amount" r) (VDec 0)
                                 then set_cell "paid_amount" VNone r else r) r4))
          rs rs'.
Proof.
  unfold assign_paid_amounts. intros H.
  apply bind_inv in H. destruct H as (rs1 & w1 & H1 & H).
  apply bind_inv in H. destruct H as (rs2 & w2 & H2 & H).
  apply bind_inv in H. destruct H as (rs3 & w3 & H3 & H).
  apply bind_inv in H. destruct H as (rs4 & w4 & H4 & H).
  apply ret_inv in H. destruct H as [-> _].
  apply (assign_amounts_rows _ _ 5000 15000) in H1; [|lia].
  change 0%Q with (QofZ 0) in H2, H4.
  apply (assign_amounts_rows _ _ 0 500) in H2; [|lia].
  apply (assign_amounts_rows _ _ 100 500) in H3; [|lia].
  apply (assign_amounts_rows _ _ 0 50) in H4; [|lia].
  pose proof (map_Forall2
                (fun r => set_cell "patient_paid" (VDec 0)
                            (set_cell "paid_amount" (VDec 0) r)) rs) as H0.
  pose proof (map_Forall2
                (fun r => if value_eqb (cell "paid_amount" r) (VDec 0)
                          then set_cell "paid_amount" VNone r else r) rs4) as H5.
  pose proof (map_Forall2
                (fun r => if value_eqb (cell "patient_paid" r) (VDec 0)
                          then set_cell "patient_paid" VNone r else r)
                (map (fun r => if value_eqb (cell "paid_amount" r) (VDec 0)
                               then set_cell "paid_amount" VNone r else r) rs4))
    as H6.
  pose proof (Forall2_ex _ _ _ _ _
               (Forall2_ex _ _ _ _ _
                 (Forall2_ex _ _ _ _ _
                   (Forall2_ex _ _ _ _ _
                     (Forall2_ex _ _ _ _ _
                       (Forall2_ex _ _ _ _ _ H0 H1) H2) H3) H4) H5) H6) as G.
  eapply Forall2_impl; [|exact G]. cbn beta.
  intros r r' (r5 & (r4 & (r3 & (r2 & (r1 & (r0 & -> & Ha) & Hb) & Hc) & Hd)
                       & ->) & ->).
  exists r1, r2, r3, r4. repeat (split; [assumption|]). reflexivity.
Qed.

Lemma format_claim_dates_rows rs w rs' w' :
  format_claim_dates rs w = Some (rs', w') ->
  Forall2 (fun r r' => exists month date,
               r' = set_cell "claim_month" month (set_cell "claim_date" date r))
          rs rs'.
Proof.
  unfold format_claim_dates. intros H. apply mapM_inv in H.
  eapply Forall2_impl; [|exact H]. cbn beta.
  intros r r' (w1 & w2 & Hr).
  apply bind_inv in Hr. destruct Hr as (raw & w3 & _ & Hr).
  apply ret_inv in Hr. destruct Hr as [-> _]. eauto.
Qed.

Lemma cell_select_cells c cs r :
  In c cs -> cell c (select_cells cs r) = cell c r.
Proof. intros H. unfold cell at 1. now rewrite lookup_select_cells. Qed.

Lemma finished_set_cell r0 r c v :
  ~ In c ["claim_id"; "enrollment_id"; "patient_id_hash"; "payer_id";
          "provider_npi"; "claim_type"; "claim_status"; "ndc_code";
          "procedure_code"] ->
  c <> "paid_amount" -> c <> "patient_paid" ->
  finished r0 r -> finished r0 (set_cell c v r).
Proof.
  intros Hc H1 H2 (t & s & Hcoded & Hpa & Hpp). exists t, s.
  split; [apply coded_set_cell; assumption|].
  rewrite !cell_set_cell_other by congruence. split; assumption.
Qed.

Lemma patient_claims_copy e range n w rs w' :
  patient_claims (e, range) n w = Some (rs, w') -> Forall (array_of e) rs.
Proof.
  unfold patient_claims. intros H.
  apply bind_inv in H. destruct H as ([first last] & w1 & _ & H).
  destruct (n <? 0); [discriminate H|].
  apply bind_inv in H. destruct H as (offsets & w2 & _ & H).
  apply bind_inv in H. destruct H as (eid & w3 & Heid & H).
  apply getcol_inv in Heid. destruct Heid as [Heid ->].
  apply bind_inv in H. destruct H as (hash & w4 & Hhash & H).
  apply getcol_inv in Hhash. destruct Hhash as [Hhash ->].
  apply bind_inv in H. destruct H as (ndc & w5 & Hndc & H).
  apply getcol_inv in Hndc. destruct Hndc as [Hndc ->].
  apply bind_inv in H. destruct H as (payer & w6 & Hpayer & H).
  apply getcol_inv in Hpayer. destruct Hpayer as [Hpayer ->].
  apply bind_inv in H. destruct H as (npi & w7 & Hnpi & H).
  apply getcol_inv in Hnpi. destruct Hnpi as [Hnpi ->].
  apply ret_inv in H. destruct H as [-> _].
  apply Forall_map. apply Forall_forall. intros d _.
  exists eid, hash, ndc, payer, npi, d. repeat (split; [assumption|]).
  reflexivity.
Qed.

Lemma claim_arrays_copy enrollments_df shipments_df ps counts w arrays w' wa wb :
  shipped_patients enrollments_df shipments_df wa = Some (ps, wb) ->
  claim_arrays ps counts w = Some (arrays, w') ->
  Forall (fun r => exists e, In e (rows enrollments_df) /\ array_of e r) arrays.
Proof.
  intros Hps H. apply shipped_patients_inv in Hps.
  unfold claim_arrays in H.
  apply bind_inv in H. destruct H as (per & w1 & Hper & H).
  apply ret_inv in H. destruct H as [-> _].
  apply mapM_inv in Hper. apply Forall_forall. intros r Hr.
  destruct (in_concat_Forall2 _ _ _ _ Hper Hr)
    as ([[e range] n] & rs & Hin & (w2 & w3 & Hpc) & Hrs).
  apply in_combine_l in Hin. rewrite Forall_forall in Hps.
  destruct (Hps _ Hin) as [He _]. cbn [fst snd] in *.
  apply patient_claims_copy in Hpc. rewrite Forall_forall in Hpc.
  exists e. split; [exact He|apply Hpc; exact Hrs].
Qed.

Lemma nth_error_zip_with {A B C} (f : A -> B -> C) l : forall l' k c,
  nth_error (zip_with f l l') k = Some c ->
  exists a b, nth_error l k = Some a /\ nth_error l' k = Some b /\ c = f a b.
Proof.
  induction l as [|a l IH]; intros [|b l'] k c H; cbn [zip_with] in H;
    try (destruct k; discriminate H).
  destruct k as [|k]; cbn [nth_error] in *.
  - inversion H; subst. eauto.
  - apply IH; exact H.
Qed.

Lemma claims_frame_nth arrays k r0 :
  nth_error (claims_frame arrays) k = Some r0 ->
  exists r, nth_error arrays k = Some r /\
            r0 = ("claim_id", VStr ("CLM-" ++ fmt_d 8 (Z.of_nat k + 1))) :: r.
Proof.
  unfold claims_frame. intros H. apply nth_error_zip_with in H.
  destruct H as (id & r & Hid & Hr & ->). exists r. split; [exact Hr|].
  rewrite nth_error_map in Hid.
  destruct (nth_error (range_index (List.length arrays)) k) as [i|] eqn:E;
    [|discriminate Hid].
  apply range_index_nth in E. subst i. inversion Hid. reflexivity.
Qed.

Lemma claim_rows_run np_seed enrollments_df shipments_df config w df w' :
  generate_claims_raw np_seed enrollments_df shipments_df config w
  = Some (df, w') ->
  exists scale patients counts arrays wa wb wc wd we wf,
    assoc (active_scale config) (scales config) = Some scale /\
    shipped_patients enrollments_df shipments_df wa = Some (patients, wb) /\
    np_randint
      (py_int (float_mul
                 (QofZ (py_int (float_mul (claims_per_patient_year config)
                                          (years_of_data scale))))
                 (7 # 10)))
      (py_int (float_mul
                 (QofZ (py_int (float_mul (claims_per_patient_year config)
                                          (years_of_data scale))))
                 (13 # 10)) + 1)
      (List.length patients) wc = Some (counts, wd) /\
    claim_arrays patients counts we = Some (arrays, wf) /\
    columns df = claims_columns /\
    Forall2 returned (claims_frame arrays) (rows df).
Proof.
  unfold generate_claims_raw. intros H.
  apply bind_inv in H. destruct H as ([] & w0 & _ & H).
  apply bind_inv in H. destruct H as (scale & w1 & Hscale & H).
  apply of_option_inv in Hscale. destruct Hscale as [Hscale _].
  apply bind_inv in H. destruct H as (patients & w2 & Hps & H).
  apply bind_inv in H. destruct H as (counts & w3 & Hcounts & H).
  apply bind_inv in H. destruct H as (arrays & w4 & Harr & H).
  apply bind_inv in H. destruct H as (rs1 & w5 & H1 & H).
  apply bind_inv in H. destruct H as (rs2 & w6 & H2 & H).
  apply bind_inv in H. destruct H as (rs3 & w7 & H3 & H).
  apply bind_inv in H. destruct H as (rs4 & w8 & H4 & H).
  apply bind_inv in H. destruct H as (rs5 & w9 & H5 & H).
  unfold finish_claims in H.
  apply bind_inv in H. destruct H as (created & w10 & _ & H).
  apply ret_inv in H. destruct H as [-> _].
  exists scale, patients, counts, arrays. eexists _, _, _, _, _, _.
  split; [exact Hscale|]. split; [exact Hps|]. split; [exact Hcounts|].
  split; [exact Harr|].
  split; [reflexivity|]. cbn [rows].
  apply assign_claim_types_rows in H1.
  apply assign_procedure_codes_rows in H2.
  apply assign_claim_status_rows in H3.
  apply assign_paid_amounts_rows in H4.
  apply format_claim_dates_rows in H5.
  pose proof (map_Forall2 (set_cell "created_at" (VTs created)) rs5) as H6.
  pose proof (map_Forall2 (select_cells claims_columns)
                (map (set_cell "created_at" (VTs created)) rs5)) as H7.
  pose proof (Forall2_ex _ _ _ _ _
               (Forall2_ex _ _ _ _ _
                 (Forall2_ex _ _ _ _ _
                   (Forall2_ex _ _ _ _ _
                     (Forall2_ex _ _ _ _ _
                       (Forall2_ex _ _ _ _ _ H1 H2) H3) H4) H5) H6) H7) as G.
  eapply Forall2_impl; [|exact G]. cbn beta.
  clear. intros r0 rf
    (r6 & (r5 & (r4 & (r3 & (r2 & (r1 & (t & Ht & ->) & (code & Hcode & ->))
                              & (s & Hs & ->))
                        & (a1 & a2 & a3 & a4 & Ha1 & Ha2 & Ha3 & Ha4 & ->))
                  & (month & date & ->)) & ->) & ->).
  eexists. split; [reflexivity|].
  apply finished_set_cell; [not_coded_column|discriminate|discriminate|].
  apply finished_set_cell; [not_coded_column|discriminate|discriminate|].
  apply finished_set_cell; [not_coded_column|discriminate|discriminate|].
  eapply amounts_row; [|eassumption|eassumption|eassumption|eassumption].
  apply types_then_codes_then_status; assumption.
Qed.

Lemma claim_rows np_seed enrollments_df shipments_df config w df w' :
  generate_claims_raw np_seed enrollments_df shipments_df config w
  = Some (df, w') ->
  exists arrays,
    Forall (fun r => exists e, In e (rows enrollments_df) /\ array_of e r)
           arrays /\
    columns df = claims_columns /\
    Forall2 returned (claims_frame arrays) (rows df).
Proof.
  intros H. apply claim_rows_run in H.
  destruct H as (scale & ps & counts & arrays & wa & wb & wc & wd & we & wf
                 & _ & Hps & _ & Harr & Hcols & HF).
  exists arrays. split; [eapply claim_arrays_copy; eassumption|].
  split; assumption.
Qed.

Ltac listed := cbn [In claims_columns]; tauto.

Lemma returned_fields r0 rf : returned r0 rf -> claim_fields_ok rf.
Proof.
  intros (x & -> & t & s & Hc & Hpa & Hpp).
  destruct Hc as (_ & Ht & Hint & Hs & Hins & Hmed & Hph).
  exists t, s.
  rewrite !lookup_select_cells by listed.
  rewrite Ht, Hs.
  split; [reflexivity|]. split; [exact Hint|].
  split; [reflexivity|]. split; [exact Hins|].
  split.
  { intros E. destruct (Hmed E) as (Hndc & code & Hcode & Hproc).
    rewrite Hndc. split; [reflexivity|]. exists code.
    rewrite Hproc. split; [exact Hcode|reflexivity]. }
  split.
  { intros E. destruct (Hph E) as (Hproc & _). rewrite Hproc. reflexivity. }
  split; eexists; (split; [reflexivity|assumption]).
Qed.

Lemma returned_copy e r rf id :
  array_of e r -> returned (("claim_id", id) :: r) rf ->
  claim_of_enrollment e rf.
Proof.
  intros (eid & hash & ndc & payer & npi & d & Heid & Hhash & Hndc & Hpayer
          & Hnpi & ->)
         (x & -> & t & s & Hc & _).
  destruct Hc as ((_ & Ke & Kh & Kp & Kn) & Ht & _ & _ & _ & _ & Hph).
  unfold claim_of_enrollment.
  rewrite !lookup_select_cells by listed.
  rewrite Ke, Kh, Kp, Kn, Heid, Hhash, Hpayer, Hnpi, Hndc.
  split; [reflexivity|]. split; [reflexivity|]. split; [reflexivity|].
  split; [reflexivity|].
  rewrite Ht. intros E. inversion E; subst t.
  destruct (Hph eq_refl) as (_ & Kndc). rewrite Kndc. reflexivity.
Qed.

Section Claims.
Variable np_seed : Z -> Tape.

(** X16: the claims table that [generate_claims] builds, before data-quality
    injection, has the fourteen claim columns, and in every claim the type
    is PHARMACY or MEDICAL and the status PAID, DENIED or PENDING; a
    medical claim has no NDC code and one of the four procedure codes, a
    pharmacy claim has no procedure code; the two amounts are missing
    unless the claim is PAID, in which case the paid amount lies between
    5000 and 15000 (pharmacy) or 100 and 500 (medical) and the patient's
    part, when not missing, is at most 500 (pharmacy) or 50 (medical). *)
Theorem claims_fields enrollments_df shipments_df config w df w' :
  generate_claims_raw np_seed enrollments_df shipments_df config w
  = Some (df, w') ->
  columns df = claims_columns /\ Forall claim_fields_ok (rows df).
Proof.
  intros H. apply claim_rows in H.
  destruct H as (arrays & _ & Hcols & HF). split; [exact Hcols|].
  eapply Forall2_Forall_r; [|exact HF]. apply returned_fields.
Qed.

(** X17: before data-quality injection, the claim ids count the claims of
    the whole table: the record at position [k] is CLM- followed by [k + 1]
    on eight digits. *)
Theorem claims_numbered_consecutively
        enrollments_df shipments_df config w df w' :
  generate_claims_raw np_seed enrollments_df shipments_df config w
  = Some (df, w') ->
  claims_numbered (rows df).
Proof.
  intros H. apply claim_rows in H.
  destruct H as (arrays & _ & _ & HF). intros k rf Hk.
  destruct (Forall2_nth_error _ _ _ _ _ HF Hk) as (r0 & Hr0 & Hret).
  apply claims_frame_nth in Hr0. destruct Hr0 as (r & _ & ->).
  destruct Hret as (x & -> & t & s & ((Kid & _) & _) & _).
  rewrite lookup_select_cells by listed. rewrite Kid. reflexivity.
Qed.

(** X18: before data-quality injection, every claim copies the enrollment
    id, the patient hash and the payer of one enrollment record and shows
    its prescriber as the provider; a pharmacy claim also carries its NDC
    code. *)
Theorem claims_copy_the_enrollment
        enrollments_df shipments_df config w df w' :
  generate_claims_raw np_seed enrollments_df shipments_df config w
  = Some (df, w') ->
  Forall (fun r => exists e, In e (rows enrollments_df) /\
                             claim_of_enrollment e r)
         (rows df).
Proof.
  intros H. apply claim_rows in H.
  destruct H as (arrays & Harr & _ & HF).
  apply Forall_forall. intros rf Hrf.
  apply In_nth_error in Hrf. destruct Hrf as (k & Hk).
  destruct (Forall2_nth_error _ _ _ _ _ HF Hk) as (r0 & Hr0 & Hret).
  apply claims_frame_nth in Hr0. destruct Hr0 as (r & Hr & ->).
  rewrite Forall_forall in Harr.
  destruct (Harr r (nth_error_In _ _ Hr)) as (e & He & Harray).
  exists e. split; [exact He|]. eapply returned_copy; eassumption.
Qed.
End Claims.

Lemma claims_fields_witness :
  exists df w',
    generate_claims_raw Sample.seed_one_claim Sample.enrollments_df
      Sample.shipments_df (Sample.config true) Sample.world = Some (df, w') /\
    columns df = claims_columns /\ Forall claim_fields_ok (rows df).
Proof.
  destruct (generate_claims_raw Sample.seed_one_claim Sample.enrollments_df
              Sample.shipments_df (Sample.config true) Sample.world)
    as [[df w']|] eqn:E.
  - exists df, w'. split; [reflexivity|].
    apply (claims_fields _ _ _ _ _ _ _ E).
  - apply (f_equal (option_map fst)) in E. vm_compute in E. discriminate E.
Defined.

Lemma claims_numbered_consecutively_witness :
  exists df w',
    generate_claims_raw Sample.seed_one_claim Sample.enrollments_df
      Sample.shipments_df (Sample.config true) Sample.world = Some (df, w') /\
    claims_numbered (rows df).
Proof.
  destruct (generate_claims_raw Sample.seed_one_claim Sample.enrollments_df
              Sample.shipments_df (Sample.config true) Sample.world)
    as [[df w']|] eqn:E.
  - exists df, w'. split; [reflexivity|].
    apply (claims_numbered_consecutively _ _ _ _ _ _ _ E).
  - apply (f_equal (option_map fst)) in E. vm_compute in E. discriminate E.
Defined.

Lemma claims_copy_the_enrollment_witness :
  exists df w',
    generate_claims_raw Sample.seed_one_claim Sample.enrollments_df
      Sample.shipments_df (Sample.config true) Sample.world = Some (df, w') /\
    Forall (fun r => exists e, In e (rows Sample.enrollments_df) /\
                               claim_of_enrollment e r)
           (rows df).
Proof.
  destruct (generate_claims_raw Sample.seed_one_claim Sample.enrollments_df
              Sample.shipments_df (Sample.config true) Sample.world)
    as [[df w']|] eqn:E.
  - exists df, w'. split; [reflexivity|].
    apply (claims_copy_the_enrollment _ _ _ _ _ _ _ E).
  - apply (f_equal (option_map fst)) in E. vm_compute in E. discriminate E.
Defined.

Lemma Forall2_combine {A B C} (P : B -> Prop) (Q : A * B -> C -> Prop)
      (l : list A) : forall (l' : list B) (m : list C),
  List.length l' = List.length l -> Forall P l' ->
  Forall2 Q (combine l l') m ->
  Forall2 (fun a c => exists b, P b /\ Q (a, b) c) l m.
Proof.
  induction l as [|a l IH]; intros [|b l'] m Hlen HP HQ;
    try discriminate Hlen; cbn [combine] in HQ; inversion HQ; subst;
    constructor.
  - inversion HP; subst. eauto.
  - inversion HP; subst. cbn [List.length] in Hlen.
    eapply IH; [|eassumption|eassumption]. lia.
Qed.

Lemma Forall2_concat_split {A B} (R : A -> B -> Prop) (bs : list (list A)) :
  forall l, Forall2 R (List.concat bs) l ->
  exists bs', l = List.concat bs' /\ Forall2 (Forall2 R) bs bs'.
Proof.
  induction bs as [|b bs IH]; intros l H; cbn [List.concat] in H.
  - inversion H; subst. exists []. split; [reflexivity|constructor].
  - apply Forall2_app_inv_l in H.
    destruct H as (l1 & l2 & H1 & H2 & ->).
    destruct (IH l2 H2) as (bs' & -> & HF).
    exists (l1 :: bs'). split; [reflexivity|constructor; assumption].
Qed.

Lemma zip_with_Forall2_r {A B C} (f : A -> B -> C) (l : list A) :
  forall l', List.length l = List.length l' ->
  Forall2 (fun b c => exists a, c = f a b) l' (zip_with f l l').
Proof.
  induction l as [|a l IH]; intros [|b l'] Hl; cbn [zip_with];
    try discriminate Hl; constructor; [eauto|].
  apply IH. cbn [List.length] in Hl. lia.
Qed.

Lemma patient_claims_count e range n w rs w' :
  patient_claims (e, range) n w = Some (rs, w') ->
  0 <= n /\ List.length rs = Z.to_nat n.
Proof.
  unfold patient_claims. intros H.
  apply bind_inv in H. destruct H as ([first last] & w1 & _ & H).
  destruct (Z.ltb_spec n 0) as [Hn|Hn]; [discriminate H|].
  apply bind_inv in H. destruct H as (offsets & w2 & Hoff & H).
  apply np_uniform_length in Hoff.
  do 5 (apply bind_inv in H; destruct H as (? & ? & _ & H)).
  apply ret_inv in H. destruct H as [-> _].
  split; [exact Hn|]. now rewrite !length_map.
Qed.

Lemma shipped_patients_are enrollments_df shipments_df w ps w' :
  shipped_patients enrollments_df shipments_df w = Some (ps, w') ->
  map fst ps = with_shipments enrollments_df shipments_df.
Proof.
  unfold shipped_patients, with_shipments.
  destruct (negb _); [discriminate|]. intros H. apply mapM_inv in H.
  induction H as [|e p l l' (w1 & w2 & Hp) _ IH]; [reflexivity|].
  cbn [map]. rewrite IH. f_equal.
  apply bind_inv in Hp. destruct Hp as (range & w3 & _ & Hp).
  apply ret_inv in Hp. destruct Hp as [-> _]. reflexivity.
Qed.

Section ClaimsPerPatient.
Variable np_seed : Z -> Tape.

(** X19: [generate_claims] builds, before data-quality injection, one block
    of claims for each enrollment record that has a shipment, in the order
    of the enrollments table; the block of a patient holds between
    [int(base * 0.7)] and [int(base * 1.3)] claims, all with the patient's
    enrollment id, where [base] is
    [int(claims_per_patient_year * years_of_data)] and the three products
    are the products of floats that Python computes. *)
Theorem claims_one_block_per_shipped_patient
        enrollments_df shipments_df config w df w' :
  generate_claims_raw np_seed enrollments_df shipments_df config w
  = Some (df, w') ->
  claims_by_patient config enrollments_df shipments_df df.
Proof.
  intros H. apply claim_rows_run in H.
  destruct H as (scale & ps & counts & arrays & wa & wb & wc & wd & we & wf
                 & Hscale & Hps & Hcounts & Harr & _ & HF).
  exists scale. 
  apply shipped_patients_are in Hps.
  apply np_randint_inv in Hcounts. destruct Hcounts as [Hrange Hlen].
  unfold claim_arrays in Harr.
  apply bind_inv in Harr. destruct Harr as (per & w1 & Hper & Harr).
  apply ret_inv in Harr. destruct Harr as [-> _].
  apply mapM_inv in Hper.
  apply (Forall2_combine _ _ _ _ _ Hlen Hrange) in Hper.
  pose proof (zip_with_Forall2_r
                (fun id r => ("claim_id", id) :: r)
                (map (fun i => VStr ("CLM-" ++ fmt_d 8 (i + 1)))
                     (range_index (List.length (List.concat per))))
                (List.concat per)) as Hframe.
  fold (claims_frame (List.concat per)) in Hframe.
  specialize (Hframe ltac:(now rewrite length_map, range_index_length)).
  pose proof (Forall2_ex _ _ _ _ _ Hframe HF) as Hrows.
  apply Forall2_concat_split in Hrows.
  destruct Hrows as (blocks & Hdf & Hblocks).
  exists blocks. split; [exact Hscale|]. split; [exact Hdf|].
  rewrite <- Hps. clear -Hper Hblocks.
  revert blocks Hblocks.
  induction Hper as [|[e range] rs ps per (n & Hn & w1 & w2 & Hpc) _ IH];
    intros blocks Hblocks; inversion Hblocks as [|? b ? bs Hb Hbs]; subst;
    cbn [map]; constructor; [|apply IH; exact Hbs].
  cbn [fst snd] in *.
  pose proof (patient_claims_count _ _ _ _ _ _ Hpc) as [Hn0 Hlen].
  pose proof (patient_claims_copy _ _ _ _ _ _ Hpc) as Hcopy.
  cbv zeta. split.
  - assert (Hl : List.length b = Z.to_nat n)
      by (rewrite <- Hlen; symmetry; exact (Forall2_length Hb)).
    rewrite Hl. lia.
  - clear -Hb Hcopy. induction Hb as [|r rf rs b (r0 & (id & ->) & Hret) _ IH];
      constructor; inversion Hcopy; subst.
    + eapply returned_copy; eassumption.
    + apply IH; assumption.
Qed.
End ClaimsPerPatient.

Lemma claims_one_block_per_shipped_patient_witness :
  exists df w',
    generate_claims_raw Sample.seed_one_claim Sample.enrollments_df
      Sample.shipments_df (Sample.config true) Sample.world = Some (df, w') /\
    claims_by_patient (Sample.config true) Sample.enrollments_df
      Sample.shipments_df df.
Proof.
  destruct (generate_claims_raw Sample.seed_one_claim Sample.enrollments_df
              Sample.shipments_df (Sample.config true) Sample.world)
    as [[df w']|] eqn:E.
  - exists df, w'. split; [reflexivity|].
    apply (claims_one_block_per_shipped_patient _ _ _ _ _ _ _ E).
  - apply (f_equal (option_map fst)) in E. vm_compute in E. discriminate E.
Defined.

(* ===================================================================== *)
(** ** What the injector writes *)
(* ===================================================================== *)

Lemma injected_row_refl n d r : injected_row n d r r.
Proof. intros c. left; reflexivity. Qed.

Lemma injected_row_trans n d r1 r2 r3 :
  injected_row n d r1 r2 -> injected_row n d r2 r3 -> injected_row n d r1 r3.
Proof.
  intros H12 H23 c. destruct (H23 c) as [E|H]; [|right; exact H].
  rewrite E. apply H12.
Qed.

Lemma injected_row_null n d c r :
  In c n -> injected_row n d r (set_cell c VNone r).
Proof.
  intros Hc c'. destruct (String.eqb_spec c c') as [<-|Hne].
  - right; left. split; [exact Hc|apply lookup_set_cell_same].
  - left. apply lookup_set_cell_other. congruence.
Qed.

Lemma injected_row_date n d c t r :
  In c d -> injected_row n d r (set_cell c (VTs t) r).
Proof.
  intros Hc c'. destruct (String.eqb_spec c c') as [<-|Hne].
  - right; right. split; [exact Hc|]. exists t. apply lookup_set_cell_same.
  - left. apply lookup_set_cell_other. congruence.
Qed.

Lemma loc_set_from_rel (R : Row -> Row -> Prop) c v idx rs :
  (forall r, R r r) -> (forall r, R r (set_cell c v r)) ->
  forall i, Forall2 R rs (loc_set_from i idx c v rs).
Proof.
  intros Hrefl Hset. induction rs as [|r rs IH]; intros i;
    cbn [loc_set_from]; constructor.
  - destruct (existsb (Z.eqb i) idx); [apply Hset|apply Hrefl].
  - apply IH.
Qed.

Lemma Forall2_rel_trans {A} (R : A -> A -> Prop) :
  (forall a b c, R a b -> R b c -> R a c) ->
  forall l1 l2 l3, Forall2 R l1 l2 -> Forall2 R l2 l3 -> Forall2 R l1 l3.
Proof.
  intros HR l1 l2 l3 H12. revert l3.
  induction H12 as [|a b l1 l2 Hab _ IH]; intros l3 H23; inversion H23; subst;
    constructor; eauto.
Qed.

Lemma Forall2_rel_refl {A} (R : A -> A -> Prop) :
  (forall a, R a a) -> forall l, Forall2 R l l.
Proof. intros HR l. induction l; constructor; auto. Qed.

Lemma same_records_loc_set n d cols rs0 df idx c v :
  (forall r, injected_row n d r (set_cell c v r)) ->
  same_records n d cols rs0 df ->
  same_records n d cols rs0 (loc_set idx c v df).
Proof.
  intros Hset [Hcols Hrows]. split; [exact Hcols|]. cbn [loc_set rows].
  eapply Forall2_rel_trans; [apply injected_row_trans|exact Hrows|].
  apply loc_set_from_rel; [apply injected_row_refl|exact Hset].
Qed.

Lemma inject_nulls_rows n d cols rs0 n_rows null_rate df w df' w' :
  inject_nulls n_rows null_rate n df w = Some (df', w') ->
  same_records n d cols rs0 df -> same_records n d cols rs0 df'.
Proof.
  unfold inject_nulls. intros H H0.
  eapply (foldM_inv (same_records n d cols rs0)); [|exact H0|exact H].
  intros col b w1 b' w2 Hcol Hb Hstep. cbv beta in Hstep.
  destruct (has_column col b); [|apply ret_inv in Hstep; destruct Hstep; subst; exact Hb].
  destruct (_ && _); [|apply ret_inv in Hstep; destruct Hstep; subst; exact Hb].
  apply bind_inv in Hstep. destruct Hstep as (idx & w3 & _ & Hstep).
  apply ret_inv in Hstep. destruct Hstep as [-> _].
  apply same_records_loc_set; [|exact Hb].
  intros r. apply injected_row_null. exact Hcol.
Qed.

Lemma inject_future_dates_rows n d cols rs0 n_rows rate df w df' w' :
  inject_future_dates n_rows rate d df w = Some (df', w') ->
  same_records n d cols rs0 df -> same_records n d cols rs0 df'.
Proof.
  unfold inject_future_dates. intros H H0.
  destruct (0 <? _); [|apply ret_inv in H; destruct H; subst; exact H0].
  eapply (foldM_inv (same_records n d cols rs0)); [|exact H0|exact H].
  intros col b w1 b' w2 Hcol Hb Hstep. cbv beta in Hstep.
  destruct (_ && _); [|apply ret_inv in Hstep; destruct Hstep; subst; exact Hb].
  apply bind_inv in Hstep. destruct Hstep as (idx & w3 & _ & Hstep).
  apply bind_inv in Hstep. destruct Hstep as (t & w4 & _ & Hstep).
  apply bind_inv in Hstep. destruct Hstep as (days & w5 & _ & Hstep).
  apply ret_inv in Hstep. destruct Hstep as [-> _].
  apply same_records_loc_set; [|exact Hb].
  intros r. apply injected_row_date. exact Hcol.
Qed.

Lemma inject_rows df config date_columns nullable_columns w df' w' :
  inject_data_quality_issues df config date_columns nullable_columns w
  = Some (df', w') ->
  injected nullable_columns date_columns df df'.
Proof.
  unfold inject_data_quality_issues. intros H.
  destruct (negb _).
  { apply ret_inv in H. destruct H as [-> _]. split; [reflexivity|].
    exists []. split; [constructor|]. rewrite app_nil_r.
    apply Forall2_rel_refl. apply injected_row_refl. }
  apply bind_inv in H. destruct H as (df1 & w1 & H1 & H).
  apply bind_inv in H. destruct H as (df2 & w2 & H2 & H).
  apply bind_inv in H. destruct H as (df3 & w3 & H3 & H).
  apply ret_inv in H. destruct H as [<- _].
  destruct (inject_duplicates_spec
              (get_default (duplicate_rate config) (5 # 1000)) df w)
    as (dups & df1' & w1' & Hd & Hrows & Hcols & _ & Hin).
  rewrite Hd in H1. inversion H1; subst df1' w1'. clear H1.
  assert (S1 : same_records nullable_columns date_columns (columns df)
                 (rows df ++ dups)%list df1).
  { split; [exact Hcols|]. rewrite Hrows.
    apply Forall2_rel_refl. apply injected_row_refl. }
  assert (S2 : same_records nullable_columns date_columns (columns df)
                 (rows df ++ dups)%list df2).
  { destruct nullable_columns as [|c cs].
    - apply ret_inv in H2. destruct H2 as [-> _]. exact S1.
    - eapply inject_nulls_rows; eassumption. }
  assert (S3 : same_records nullable_columns date_columns (columns df)
                 (rows df ++ dups)%list df').
  { destruct date_columns as [|c cs].
    - apply ret_inv in H3. destruct H3 as [-> _]. exact S2.
    - eapply inject_future_dates_rows; eassumption. }
  destruct S3 as [Hc3 Hr3]. split; [exact Hc3|].
  exists dups. split; [exact Hin|exact Hr3].
Qed.

(** X20: whatever the injector returns is the table it was given, followed
    by copies of some of its records, in which a cell is as it was, or is
    missing in a nullable column, or is a datetime in a date column: the
    injector writes nothing else, and the columns stay. *)
Theorem injector_writes_only_missing_values_and_dates
        df config date_columns nullable_columns w df' w' :
  inject_data_quality_issues df config date_columns nullable_columns w
  = Some (df', w') ->
  injected nullable_columns date_columns df df'.
Proof. apply inject_rows. Qed.

Lemma injector_writes_only_missing_values_and_dates_witness :
  exists df' w',
    inject_data_quality_issues Sample.enrollments_df (Sample.quality true)
      ["enrolled_ts"; "inquiry_ts"] ["inquiry_ts"; "hub_vendor"] Sample.world
    = Some (df', w') /\
    injected ["inquiry_ts"; "hub_vendor"] ["enrolled_ts"; "inquiry_ts"]
             Sample.enrollments_df df'.
Proof.
  destruct (inject_data_quality_issues Sample.enrollments_df
              (Sample.quality true) ["enrolled_ts"; "inquiry_ts"]
              ["inquiry_ts"; "hub_vendor"] Sample.world)
    as [[df' w']|] eqn:E.
  - exists df', w'. split; [reflexivity|].
    apply (injector_writes_only_missing_values_and_dates _ _ _ _ _ _ _ E).
  - apply (f_equal (option_map fst)) in E. vm_compute in E. discriminate E.
Defined.

(* ===================================================================== *)
(** ** From the enrollments to the cases and the status history *)
(* ===================================================================== *)

Lemma enrollment_record_keys sha config s e i w r w' :
  enrollment_record sha config s e i w = Some (r, w') ->
  map fst r = enrollment_keys.
Proof.
  unfold enrollment_record. intros H.
  do 6 (apply bind_inv in H; destruct H as (? & ? & _ & H)).
  apply bind_inv in H. destruct H as ([pid pname] & w6 & _ & H).
  do 7 (apply bind_inv in H; destruct H as (? & ? & _ & H)).
  apply ret_inv in H. destruct H as [-> _]. reflexivity.
Qed.

Lemma enrollment_record_ready sha config s e i w r w' :
  enrollment_record sha config s e i w = Some (r, w') -> enrollment_ready r.
Proof.
  intros H. apply enrollment_record_inv in H.
  destruct H as ((ts & _ & _ & _ & Hinq) & _ & _ & _ & Hwf).
  split; [exact Hwf|].
  destruct Hinq as [Hinq|(d & _ & Hinq)]; [left; exact Hinq|right; eauto].
Qed.

Lemma case_record_ready e w c w' :
  case_record e w = Some (c, w') ->
  case_ready (lookup "enrollment_id" e) c /\ map fst c = case_keys.
Proof.
  unfold case_record. intros H.
  apply bind_inv in H. destruct H as (v & w0 & _ & H).
  apply bind_inv in H. destruct H as (enrolled & w1 & _ & H).
  apply bind_inv in H. destruct H as (h & w2 & _ & H).
  apply bind_inv in H. destruct H as (status & w3 & _ & H).
  apply bind_inv in H. destruct H as ([cts cr] & w4 & _ & H).
  apply bind_inv in H. destruct H as (cm & w5 & _ & H).
  apply bind_inv in H. destruct H as (idv & w6 & Hid & H).
  apply getcol_inv in Hid. destruct Hid as [Hid ->].
  apply bind_inv in H. destruct H as (id & w7 & Hs & H).
  apply as_str_inv in Hs. destruct Hs as [-> ->].
  apply bind_inv in H. destruct H as (p1 & w8 & Hp1 & H).
  apply bind_inv in H. destruct H as (p2 & w9 & Hp2 & H).
  apply bind_inv in H. destruct H as (hash & w10 & _ & H).
  apply bind_inv in H. destruct H as (created & w11 & _ & H).
  apply ret_inv in H. destruct H as [-> _].
  split; [|reflexivity].
  unfold case_ready. cbn [lookup String.eqb Ascii.eqb Bool.eqb].
  split; [eauto|]. split; [eauto|].
  split; [eexists; split; [reflexivity|apply (three_parts "CASE" p1 p2)]|].
  split; [exists (VStr id); split; [exact Hid|reflexivity]|].
  split; reflexivity.
Qed.

Lemma ready_after_injection nullable e e' :
  ~ In "enrollment_id" nullable -> ~ In "enrolled_ts" nullable ->
  injected_row nullable ["enrolled_ts"; "inquiry_ts"] e e' ->
  enrollment_ready e -> enrollment_ready e'.
Proof.
  intros Hid Hts Hinj [Hwf Hinq]. unfold enrollment_ready, enrollment_wf in *.
  assert (Eid : lookup "enrollment_id" e' = lookup "enrollment_id" e).
  { destruct (Hinj "enrollment_id") as [E|[[H _]|[H _]]];
      [exact E|contradiction|].
    cbn [In] in H. destruct H as [H|[H|[]]]; discriminate H. }
  rewrite Eid.
  destruct (lookup "enrolled_ts" e) as [[| | | |t|]|] eqn:Ets;
    try discriminate Hwf.
  assert (Ets' : exists t', lookup "enrolled_ts" e' = Some (VTs t')).
  { destruct (Hinj "enrolled_ts") as [E|[[H _]|[_ H]]];
      [rewrite E; eauto|contradiction|exact H]. }
  destruct Ets' as (t' & ->).
  destruct (lookup "enrollment_id" e) as [[|id| | | |]|]; try discriminate Hwf.
  assert (Eh : exists v, lookup "patient_id_hash" e' = Some v).
  { destruct (Hinj "patient_id_hash") as [E|[[_ E]|[_ (t2 & E)]]];
      rewrite E; eauto.
    destruct (lookup "patient_id_hash" e); [eauto|discriminate Hwf]. }
  destruct Eh as (v & ->).
  split.
  - destruct (lookup "patient_id_hash" e); [exact Hwf|discriminate Hwf].
  - destruct (Hinj "inquiry_ts") as [E|[[_ E]|[_ E]]].
    + rewrite E. exact Hinq.
    + left; exact E.
    + right; exact E.
Qed.

Lemma case_ready_after_injection eid c c' :
  injected_row ["closed_ts"; "closure_reason"] ["case_opened_ts"; "closed_ts"]
               c c' ->
  case_ready eid c -> case_ready eid c'.
Proof.
  intros Hinj (Hst & Hcr & Hid & Heid & Hets & Hinq).
  assert (Hsame : forall k,
             ~ In k ["closed_ts"; "closure_reason"; "case_opened_ts"] ->
             lookup k c' = lookup k c).
  { intros k Hk. cbn [In] in Hk.
    destruct (Hinj k) as [E|[[H _]|[H _]]]; [exact E| |];
      cbn [In] in H; tauto. }
  unfold case_ready.
  rewrite (Hsame "current_status"), (Hsame "case_id"),
    (Hsame "enrollment_id"), (Hsame "enrolled_ts"), (Hsame "inquiry_ts")
    by (cbn [In]; intros H; repeat (destruct H as [H|H]; [discriminate H|]);
        exact H).
  split; [exact Hst|]. split; [|tauto].
  destruct (Hinj "closure_reason") as [E|[[_ E]|[_ (t & E)]]]; rewrite E; eauto.
Qed.

Lemma lookup_app_some c (r r' : Row) v :
  lookup c r = Some v -> lookup c (r ++ r')%list = Some v.
Proof.
  induction r as [|[k x] r IH]; cbn [lookup app]; [discriminate|].
  destruct (String.eqb k c); [trivial|exact IH].
Qed.

Lemma bind_total {A B} (m : M A) (k : A -> M B) w :
  (exists a w1, m w = Some (a, w1) /\ exists b w2, k a w1 = Some (b, w2)) ->
  exists b w2, bind m k w = Some (b, w2).
Proof.
  intros (a & w1 & Hm & b & w2 & Hk). exists b, w2.
  rewrite (bind_ok _ _ _ _ _ Hm). exact Hk.
Qed.

Lemma choose_path_total m w :
  merged_ready m -> exists path w', choose_path m w = Some (path, w').
Proof.
  intros ((st & Hst) & (cr & Hcr) & _). unfold choose_path.
  rewrite (bind_ok _ _ _ _ _ (getcol_ok _ _ _ w Hst)).
  destruct (value_eqb st (VStr "ACTIVE")); [eexists _, _; reflexivity|].
  destruct (value_eqb st (VStr "CLOSED")).
  - rewrite (bind_ok _ _ _ _ _ (getcol_ok _ _ _ w Hcr)).
    destruct (value_eqb cr (VStr "COMPLETED_THERAPY"));
      [eexists _, _; reflexivity|].
    destruct (choice_total ["abandoned_early"; "abandoned_at_bv";
                            "abandoned_at_pa"] w) as (p & w1 & Hp);
      [discriminate|].
    rewrite (bind_ok _ _ _ _ _ Hp). apply choice_inv in Hp. cbn [In] in Hp.
    destruct Hp as [<-|[<-|[<-|[]]]]; eexists _, _; reflexivity.
  - cbn [assoc status_paths String.eqb Ascii.eqb Bool.eqb of_option].
    destruct (randint_total 3 6 w) as (k & w1 & Hk); [lia|].
    unfold bind at 1. unfold ret at 1. cbv beta iota.
    rewrite (bind_ok _ _ _ _ _ Hk). eexists _, _; reflexivity.
Qed.

Lemma nth_error_some_of_length {A} (l : list A) k :
  (k < List.length l)%nat -> exists a, nth_error l k = Some a.
Proof.
  intros H. destruct (nth_error l k) eqn:E; [eauto|].
  apply nth_error_None in E. lia.
Qed.

Lemma status_records_total m n path :
  merged_ready m ->
  forall i cur w, exists rs w', status_records m n i path cur w = Some (rs, w').
Proof.
  intros (_ & (cr & Hcr) & (id & Hid & Hparts) & (eid & Heid) & _).
  destruct (nth_error_some_of_length (split_dash id) 1) as (p1 & Hp1); [lia|].
  destruct (nth_error_some_of_length (split_dash id) 2) as (p2 & Hp2); [lia|].
  induction path as [|status path IH]; intros i cur w; cbn [status_records].
  - eexists _, _; reflexivity.
  - assert (Hstart : exists t w1,
      (if i =? 0 then ret cur
       else days_delay <-
              (if mem_string status ["BV_COMPLETE"; "PA_APPROVED"]
               then randint 1 10
               else if mem_string status ["SHIPPED"] then randint 3 14
                    else randint 1 5) ;;
            ret (cur + days_delay * day_us)) w = Some (t, w1)).
    { destruct (i =? 0); [eexists _, _; reflexivity|].
      assert (Hd : exists d w1,
        (if mem_string status ["BV_COMPLETE"; "PA_APPROVED"]
         then randint 1 10
         else if mem_string status ["SHIPPED"] then randint 3 14
              else randint 1 5) w = Some (d, w1)).
      { destruct (mem_string status ["BV_COMPLETE"; "PA_APPROVED"]);
          [apply randint_total; lia|].
        destruct (mem_string status ["SHIPPED"]); apply randint_total; lia. }
      destruct Hd as (d & w1 & Hd). rewrite (bind_ok _ _ _ _ _ Hd).
      eexists _, _; reflexivity. }
    destruct Hstart as (t & w1 & Hstart). rewrite (bind_ok _ _ _ _ _ Hstart).
    assert (Hend : exists e w2,
      (if i <? n - 1
       then d <- randint 1 3 ;; ret (Some (t + d * day_us))
       else ret None) w1 = Some (e, w2)).
    { destruct (i <? n - 1); [|eexists _, _; reflexivity].
      destruct (randint_total 1 3 w1) as (d & w2 & Hd); [lia|].
      rewrite (bind_ok _ _ _ _ _ Hd). eexists _, _; reflexivity. }
    destruct Hend as (e & w2 & Hend). rewrite (bind_ok _ _ _ _ _ Hend).
    assert (Hreason : exists r w3,
      (if (status =? "PA_DENIED")%string
       then r <- choice pa_denial_reasons ;; ret (VStr r)
       else if (status =? "ABANDONED")%string
            then getcol "closure_reason" m else ret VNone) w2 = Some (r, w3)).
    { destruct (status =? "PA_DENIED")%string.
      - destruct (choice_total pa_denial_reasons w2) as (r & w3 & Hr);
          [discriminate|].
        rewrite (bind_ok _ _ _ _ _ Hr). eexists _, _; reflexivity.
      - destruct (status =? "ABANDONED")%string.
        + eexists _, _. apply getcol_ok. exact Hcr.
        + eexists _, _; reflexivity. }
    destruct Hreason as (r & w3 & Hreason).
    rewrite (bind_ok _ _ _ _ _ Hreason).
    rewrite (bind_ok _ _ _ _ _ (getcol_ok _ _ _ w3 Hid)).
    rewrite (bind_ok _ _ w3 id w3 eq_refl).
    unfold split_part. rewrite Hp1, Hp2.
    rewrite (bind_ok _ _ w3 p1 w3 eq_refl).
    rewrite (bind_ok _ _ w3 p2 w3 eq_refl).
    rewrite (bind_ok _ _ _ _ _ (getcol_ok _ _ _ w3 Heid)).
    rewrite (bind_ok now _ w3 _ _ eq_refl).
    match goal with
    | |- exists rs w', bind (status_records m n ?i1 path ?c1) _ ?wn = _ =>
        destruct (IH i1 c1 wn) as (rest & w4 & Hrest)
    end.
    rewrite (bind_ok _ _ _ _ _ Hrest). eexists _, _; reflexivity.
Qed.

Lemma case_history_total m w :
  merged_ready m -> exists h w', case_history m w = Some (h, w').
Proof.
  intros Hm. unfold case_history.
  destruct (choose_path_total m w Hm) as (path & w1 & Hpath).
  rewrite (bind_ok _ _ _ _ _ Hpath).
  pose proof Hm as (_ & _ & _ & _ & (t & Hts) & Hinq).
  destruct Hinq as [Hinq|(ti & Hinq)];
    rewrite (bind_ok _ _ _ _ _ (getcol_ok _ _ _ w1 Hinq)).
  - rewrite (bind_ok _ _ _ _ _ (getcol_ok _ _ _ w1 Hts)).
    rewrite (bind_ok _ _ w1 t w1 eq_refl).
    apply status_records_total; exact Hm.
  - rewrite (bind_ok _ _ w1 (VTs ti) w1 eq_refl).
    rewrite (bind_ok _ _ w1 ti w1 eq_refl).
    apply status_records_total; exact Hm.
Qed.

Lemma inject_total df config date_columns nullable_columns w :
  exists df' w',
    inject_data_quality_issues df config date_columns nullable_columns w
    = Some (df', w').
Proof.
  destruct (get_default (inject_issues config) false) eqn:E.
  - destruct (inject_on_spec df config date_columns nullable_columns w E)
      as (dups & df' & w' & H & _). eauto.
  - rewrite (inject_off _ _ _ _ E). eexists _, _; reflexivity.
Qed.

Lemma merged_row_ready c e eid :
  case_ready eid c -> enrollment_ready e ->
  merged_ready (c ++ [("enrolled_ts", cell "enrolled_ts" e);
                      ("inquiry_ts", cell "inquiry_ts" e)])%list.
Proof.
  intros ((st & Hst) & (cr & Hcr) & (id & Hid & Hparts) & (v & _ & Hv)
          & Hets & Hinq) [Hwf Hi].
  unfold merged_ready.
  rewrite (lookup_app_some _ _ _ _ Hst), (lookup_app_some _ _ _ _ Hcr),
    (lookup_app_some _ _ _ _ Hid), (lookup_app_some _ _ _ _ Hv),
    (lookup_app_none _ _ _ Hets), (lookup_app_none _ _ _ Hinq).
  cbn [lookup String.eqb Ascii.eqb Bool.eqb].
  split; [eauto|]. split; [eauto|]. split; [eauto|]. split; [eauto|].
  unfold enrollment_wf in Hwf. unfold cell.
  destruct (lookup "enrolled_ts" e) as [[| | | |t|]|]; try discriminate Hwf.
  split; [eauto|].
  destruct Hi as [->|(ti & ->)]; [left; reflexivity|right; eauto].
Qed.

Lemma merged_cases_ready cases_df enrollments_df :
  Forall enrollment_ready (rows enrollments_df) ->
  Forall (fun c => exists e, In e (rows enrollments_df) /\
                             case_ready (lookup "enrollment_id" e) c)
         (rows cases_df) ->
  Forall merged_ready (merged_cases cases_df enrollments_df).
Proof.
  intros He Hc. unfold merged_cases. apply Forall_forall. intros m Hm.
  apply in_flat_map in Hm. destruct Hm as (c & Hin & Hm).
  rewrite Forall_forall in He, Hc.
  destruct (Hc c Hin) as (e0 & He0 & Hready).
  destruct (filter _ (rows enrollments_df)) as [|e es] eqn:Ef.
  - exfalso.
    assert (Hf : In e0 (filter (fun e => value_eqb (cell "enrollment_id" e)
                                                   (cell "enrollment_id" c))
                               (rows enrollments_df))).
    { apply filter_In. split; [exact He0|]. apply value_eqb_eq.
      destruct Hready as (_ & _ & _ & (v & Hv & Hv') & _).
      unfold cell. now rewrite Hv, Hv'. }
    rewrite Ef in Hf. destruct Hf.
  - apply in_map_iff in Hm. destruct Hm as (e1 & <- & He1).
    rewrite <- Ef in He1. apply filter_In in He1. destruct He1 as [He1 _].
    eapply merged_row_ready; [exact Hready|apply He; exact He1].
Qed.

Lemma Forall2_Forall_l_r {A} (R : A -> A -> Prop) (P Q : A -> Prop) l l' :
  (forall a b, R a b -> P a -> Q b) -> Forall2 R l l' -> Forall P l ->
  Forall Q l'.
Proof.
  intros HR H. induction H as [|a b l l' Hab _ IH]; intros HP;
    constructor; inversion HP; subst; eauto.
Qed.

Lemma injected_nonempty n d df df' :
  injected n d df df' -> rows df' <> [] -> rows df <> [].
Proof.
  intros (_ & dups & Hin & HF) Hne Hr. rewrite Hr in *.
  destruct dups as [|x dups]; [inversion HF; congruence|].
  inversion Hin; subst. contradiction.
Qed.

Lemma injected_Forall n d (P Q : Row -> Prop) df df' :
  (forall r r', injected_row n d r r' -> P r -> Q r') ->
  injected n d df df' -> Forall P (rows df) -> Forall Q (rows df').
Proof.
  intros HPQ (_ & dups & Hin & HF) HP.
  eapply Forall2_Forall_l_r; [exact HPQ|exact HF|].
  apply Forall_app. split; [exact HP|].
  rewrite Forall_forall in *. intros r Hr. apply HP. apply Hin. exact Hr.
Qed.

Section Pipeline.
Variables (py_seed np_seed : Z -> Tape) (sha256_hex : string -> string).

Lemma generate_enrollments_raw_frame config w df w' :
  generate_enrollments_raw py_seed np_seed sha256_hex config w = Some (df, w') ->
  exists recs,
    df = df_of_records recs /\
    Forall (fun r => enrollment_ready r /\ map fst r = enrollment_keys) recs.
Proof.
  unfold generate_enrollments_raw. intros H.
  apply bind_inv in H. destruct H as (scale & w0 & _ & H).
  apply bind_inv in H. destruct H as ([] & w1 & _ & H).
  apply bind_inv in H. destruct H as ([] & w2 & _ & H).
  apply bind_inv in H. destruct H as (recs & w3 & Hrecs & H).
  apply ret_inv in H. destruct H as [-> _].
  exists recs. split; [reflexivity|].
  apply mapM_inv in Hrecs.
  eapply Forall2_Forall_r; [|exact Hrecs]. cbn beta.
  intros i r (wa & wb & Hr). split.
  - eapply enrollment_record_ready; exact Hr.
  - eapply enrollment_record_keys; exact Hr.
Qed.

(** X21: whatever non-empty table [generate_enrollments] returns, with
    injection on or off, [generate_cases] and then
    [generate_status_history] return tables for it, provided the nullable
    fields of the config name neither [enrollment_id] nor [enrolled_ts]:
    the injected duplicates, missing values and future dates never make
    the next two generators raise. *)
Theorem cases_and_status_history_accept_the_enrollments
        config w enrollments_df w1 :
  generate_enrollments py_seed np_seed sha256_hex config w
  = Some (enrollments_df, w1) ->
  rows enrollments_df <> [] ->
  ~ In "enrollment_id" (nullable_fields (data_quality config)) ->
  ~ In "enrolled_ts" (nullable_fields (data_quality config)) ->
  exists cases_df w2 status_history_df w3,
    generate_cases py_seed np_seed enrollments_df config w1
    = Some (cases_df, w2) /\
    generate_status_history py_seed np_seed cases_df enrollments_df config w2
    = Some (status_history_df, w3).
Proof.
  intros H Hne Hid Hts. unfold generate_enrollments in H.
  apply bind_inv in H. destruct H as (raw & w0 & Hraw & Hinj).
  apply generate_enrollments_raw_frame in Hraw.
  destruct Hraw as (recs & -> & Hrecs).
  apply inject_rows in Hinj.
  pose proof (injected_nonempty _ _ _ _ Hinj Hne) as Hrecs_ne.
  assert (Hready : Forall enrollment_ready (rows enrollments_df)).
  { eapply injected_Forall; [|exact Hinj|].
    - intros r r' Hr Hp. eapply ready_after_injection; eassumption.
    - cbn [rows df_of_records]. eapply Forall_impl; [|exact Hrecs].
      cbn beta. tauto. }
  assert (Hcols : columns enrollments_df = enrollment_keys).
  { destruct Hinj as [-> _]. cbn [rows df_of_records columns] in *.
    destruct recs as [|r recs]; [congruence|].
    inversion Hrecs; subst. tauto. }
  assert (Hall : Forall (fun e => forall w, exists c w',
                           case_record e w = Some (c, w'))
                        (rows enrollments_df)).
  { eapply Forall_impl; [|exact Hready]. cbn beta.
    intros e [Hwf _]. apply case_record_total; exact Hwf. }
  destruct (mapM_total _ _ Hall
              (mkWorld (py_seed (seed_of config)) (np_seed (seed_of config))
                       (wall w1))) as (cs & wc & Hcs).
  assert (Hcraw : generate_cases_raw py_seed np_seed enrollments_df config w1
                  = Some (df_of_records cs, wc)).
  { unfold generate_cases_raw, bind, random_seed_set, np_random_seed_set.
    cbn [py_rng np_rng wall]. unfold bind in Hcs. rewrite Hcs. reflexivity. }
  destruct (inject_total (df_of_records cs) (data_quality config)
              ["case_opened_ts"; "closed_ts"] ["closed_ts"; "closure_reason"]
              wc) as (cases_df & w2 & Hcinj).
  exists cases_df, w2.
  assert (Hcases : generate_cases py_seed np_seed enrollments_df config w1
                   = Some (cases_df, w2)).
  { unfold generate_cases. rewrite (bind_ok _ _ _ _ _ Hcraw). exact Hcinj. }
  apply mapM_inv in Hcs.
  assert (Hcs_ready :
            Forall (fun c => (exists e, In e (rows enrollments_df) /\
                                        case_ready (lookup "enrollment_id" e) c)
                             /\ map fst c = case_keys) cs).
  { clear -Hcs. induction Hcs as [|e c l l' (wa & wb & Hc) _ IH];
      constructor.
    - apply case_record_ready in Hc. destruct Hc as [Hc Hk].
      split; [|exact Hk]. exists e. split; [left; reflexivity|exact Hc].
    - eapply Forall_impl; [|exact IH]. cbn beta.
      intros c' [(e' & He' & Hc') Hk]. split; [|exact Hk].
      exists e'. split; [right; exact He'|exact Hc']. }
  apply inject_rows in Hcinj.
  assert (Hcases_ready :
            Forall (fun c => exists e, In e (rows enrollments_df) /\
                                       case_ready (lookup "enrollment_id" e) c)
                   (rows cases_df)).
  { eapply injected_Forall
      with (P := fun c => exists e, In e (rows enrollments_df) /\
                                    case_ready (lookup "enrollment_id" e) c);
      [|exact Hcinj|].
    - intros r r' Hr (e & He & Hp). exists e. split; [exact He|].
      eapply case_ready_after_injection; eassumption.
    - cbn [rows df_of_records]. eapply Forall_impl; [|exact Hcs_ready].
      cbn beta. tauto. }
  assert (Hccols : columns cases_df = case_keys).
  { destruct Hcinj as [-> _]. cbn [rows df_of_records columns].
    destruct cs as [|c cs].
    - apply Forall2_length in Hcs. cbn [List.length] in Hcs.
      destruct (rows enrollments_df); [congruence|discriminate Hcs].
    - inversion Hcs_ready; subst. tauto. }
  pose proof (merged_cases_ready cases_df enrollments_df Hready Hcases_ready)
    as Hmerged.
  assert (Hhist : Forall (fun m => forall w, exists h w',
                            case_history m w = Some (h, w'))
                         (merged_cases cases_df enrollments_df)).
  { eapply Forall_impl; [|exact Hmerged]. cbn beta.
    intros m Hm w'. apply case_history_total; exact Hm. }
  destruct (mapM_total _ _ Hhist
              (mkWorld (py_seed (seed_of config)) (np_seed (seed_of config))
                       (wall w2))) as (hs & wh & Hhs).
  assert (Hsraw : generate_status_history_raw py_seed np_seed cases_df
                    enrollments_df config w2
                  = Some (df_of_records (List.concat hs), wh)).
  { unfold generate_status_history_raw, merge_enrollment_timing.
    unfold has_column. rewrite Hcols, Hccols.
    cbn [enrollment_keys case_keys existsb String.eqb Ascii.eqb Bool.eqb
         andb orb negb].
    unfold bind, random_seed_set, np_random_seed_set, ret.
    cbn [py_rng np_rng wall]. unfold bind in Hhs. rewrite Hhs. reflexivity. }
  destruct (inject_total (df_of_records (List.concat hs)) (data_quality config)
              ["status_start_ts"; "status_end_ts"]
              ["status_end_ts"; "status_reason"] wh)
    as (status_df & w3 & Hsinj).
  exists status_df, w3. split; [exact Hcases|].
  unfold generate_status_history. rewrite (bind_ok _ _ _ _ _ Hsraw).
  exact Hsinj.
Qed.
End Pipeline.

Lemma cases_and_status_history_accept_the_enrollments_witness :
  exists enrollments_df w1 cases_df w2 status_history_df w3,
    generate_enrollments Sample.seed Sample.seed Sample.digest
      (Sample.config true) Sample.world = Some (enrollments_df, w1) /\
    generate_cases Sample.seed Sample.seed enrollments_df (Sample.config true)
      w1 = Some (cases_df, w2) /\
    generate_status_history Sample.seed Sample.seed cases_df enrollments_df
      (Sample.config true) w2 = Some (status_history_df, w3).
Proof.
  set (run := generate_enrollments Sample.seed Sample.seed Sample.digest
                (Sample.config true) Sample.world).
  assert (E : option_map (fun p => List.length (rows (fst p))) run = Some 3%nat)
    by (vm_compute; reflexivity).
  destruct run as [[enrollments_df w1]|] eqn:Hrun; [|discriminate E].
  destruct (cases_and_status_history_accept_the_enrollments
              Sample.seed Sample.seed Sample.digest (Sample.config true)
              Sample.world enrollments_df w1 Hrun)
    as (cases_df & w2 & status_df & w3 & Hc & Hs).
  - cbn [option_map fst] in E. intros Hr. rewrite Hr in E. discriminate E.
  - cbn. intros [H|[H|[]]]; discriminate H.
  - cbn. intros [H|[H|[]]]; discriminate H.
  - exists enrollments_df, w1, cases_df, w2, status_df, w3.
    split; [reflexivity|]. split; assumption.
Defined.
